(** * Jira-to-GitHub provisioning pipeline: model and verified properties

    A shallow embedding of the request pipeline of the repository
    (field extraction, validation against the resource-hierarchy snapshot,
    synthesis of the publish units, publication) and the proofs of the
    properties its specification states.

    Conventions of the model.
    - Python [str] is [string]; case conversion and whitespace follow Python
      on ASCII text (characters above 127 are left alone).
    - A Python [float] is a double, represented by the decimal that [repr]
      prints for it ([Fin m e] has the digits of [m * 10^e]); conversions
      round to the nearest double as IEEE 754 says.
    - A Python [dict] used as the configuration map is a [gmap string value];
      dictionaries whose iteration order is observable (field tables, the
      publish payload, JSON objects) are association lists.
    - Code that raises runs in the monad [M]: the state reached before the
      exception is kept, as in Python.
    - The ticket system is the log [jira_log] of the comments and
      transitions it has accepted, and the script [jira_script] of its HTTP
      answers, consumed in call order.  The client of [logger.py] is
      [AppLogger], and the methods that call it are in [Live]: a refused
      comment raises, a transition that is not offered is not made.  The
      methods of [PayloadParser] and [AppManager] are the same code run with
      a ticket system that accepts every call; the properties stated on them
      hold under that assumption.
    - The source-control service is a script of HTTP answers consumed in
      call order; logging has no effect on the state.
    - PyYAML's serializer is third-party code: [encode_yaml_file] takes it as
      the parameter [dump]. *)

From Stdlib Require Import ZArith Ascii String List Bool Lia DecimalString.
From stdpp Require Import base strings gmap list.

Local Open Scope Z_scope.

(** ** Python strings *)

Module PyStr.

Definition code (c : ascii) : nat := nat_of_ascii c.

Definition in_range (lo hi : nat) (c : ascii) : bool :=
  (Nat.leb lo (code c)) && (Nat.leb (code c) hi).

Definition is_lower : ascii -> bool := in_range 97 122.
Definition is_upper : ascii -> bool := in_range 65 90.
Definition is_digit : ascii -> bool := in_range 48 57.

(** [str.isspace] / the class [\s] on code points below 128. *)
Definition is_space (c : ascii) : bool :=
  in_range 9 13 c || in_range 28 32 c.

Definition lower_char (c : ascii) : ascii :=
  if is_upper c then ascii_of_nat (code c + 32) else c.
Definition upper_char (c : ascii) : ascii :=
  if is_lower c then ascii_of_nat (code c - 32) else c.

Fixpoint map (f : ascii -> ascii) (s : string) : string :=
  match s with
  | EmptyString => EmptyString
  | String c s' => String (f c) (map f s')
  end.

Definition lower : string -> string := map lower_char.
Definition upper : string -> string := map upper_char.

Fixpoint all (p : ascii -> bool) (s : string) : bool :=
  match s with
  | EmptyString => true
  | String c s' => p c && all p s'
  end.

(** Longest prefix of characters satisfying [p], and the rest. *)
Fixpoint span (p : ascii -> bool) (s : string) : string * string :=
  match s with
  | EmptyString => (EmptyString, EmptyString)
  | String c s' =>
      if p c then let '(a, b) := span p s' in (String c a, b)
      else (EmptyString, s)
  end.

Fixpoint drop_while (p : ascii -> bool) (s : string) : string :=
  match s with
  | EmptyString => EmptyString
  | String c s' => if p c then drop_while p s' else s
  end.

(** [str.strip()] *)
Definition strip (s : string) : string :=
  String.rev (drop_while is_space (String.rev (drop_while is_space s))).

(** [s.startswith(p)]: the rest of [s] after the prefix [p]. *)
Fixpoint strip_prefix (p s : string) : option string :=
  match p, s with
  | EmptyString, _ => Some s
  | String a p', String b s' =>
      if Ascii.eqb a b then strip_prefix p' s' else None
  | String _ _, EmptyString => None
  end.

Definition starts_with (p s : string) : bool :=
  match strip_prefix p s with Some _ => true | None => false end.

(** [needle in s] *)
Fixpoint contains (needle s : string) : bool :=
  starts_with needle s ||
  match s with
  | EmptyString => false
  | String _ s' => contains needle s'
  end.

(** [sep.join(l)] *)
Fixpoint join (sep : string) (l : list string) : string :=
  match l with
  | [] => ""
  | [x] => x
  | x :: rest => x +:+ sep +:+ join sep rest
  end.

(** [re.sub(r'\s+', '_', s)]: every maximal run of whitespace becomes one
    underscore.  [in_ws] tells that the previous character was whitespace
    (its underscore is already written). *)
Fixpoint sub_ws_go (in_ws : bool) (s : string) : string :=
  match s with
  | EmptyString => EmptyString
  | String c s' =>
      if is_space c
      then (if in_ws then sub_ws_go true s' else String "_" (sub_ws_go true s'))
      else String c (sub_ws_go false s')
  end.
Definition sub_ws : string -> string := sub_ws_go false.

Definition of_nat (n : nat) : string := NilZero.string_of_uint (Nat.to_uint n).
Definition of_Z (z : Z) : string :=
  match z with
  | Z0 => "0"
  | Zpos p => NilZero.string_of_uint (Pos.to_uint p)
  | Zneg p => "-" +:+ NilZero.string_of_uint (Pos.to_uint p)
  end.

End PyStr.

(** ** Python values *)

(** A float (an IEEE 754 double), as the decimal it prints as: [Fin m e] is
    the double whose [repr] has the digits of [m * 10^e], the shortest
    decimal that rounds to it, with [m] not divisible by 10 unless it is 0;
    [NegZero] is [-0.0]. *)
Inductive pyfloat :=
| Fin (m e : Z)
| NegZero
| Inf (neg : bool)
| NaN.

Module PyFloat.

Fixpoint norm_go (fuel : nat) (m e : Z) : Z * Z :=
  match fuel with
  | O => (m, e)
  | S fuel' =>
      if (m mod 10 =? 0) then norm_go fuel' (m / 10) (e + 1) else (m, e)
  end.

Definition norm (m e : Z) : pyfloat :=
  if m =? 0 then Fin 0 0
  else let '(m', e') := norm_go (Z.to_nat (Z.log2 (Z.abs m))) m e in Fin m' e'.

(** The two zeros compare as one. *)
Definition unsign (f : pyfloat) : pyfloat :=
  match f with NegZero => Fin 0 0 | _ => f end.

(** [a < b] on floats; comparisons with NaN are false. *)
Definition ltb (a b : pyfloat) : bool :=
  match unsign a, unsign b with
  | NaN, _ | _, NaN => false
  | NegZero, _ | _, NegZero => false
  | Inf true, Inf true => false
  | Inf true, _ => true
  | _, Inf true => false
  | Inf false, _ => false
  | _, Inf false => true
  | Fin m1 e1, Fin m2 e2 =>
      let e := Z.min e1 e2 in
      (m1 * 10 ^ (e1 - e) <? m2 * 10 ^ (e2 - e))
  end.

Definition is_zero (f : pyfloat) : bool :=
  match f with Fin m _ => m =? 0 | NegZero => true | _ => false end.

(** [a == b] on floats *)
Definition eqb (a b : pyfloat) : bool :=
  match unsign a, unsign b with
  | Fin m1 e1, Fin m2 e2 =>
      let e := Z.min e1 e2 in
      (m1 * 10 ^ (e1 - e) =? m2 * 10 ^ (e2 - e))
  | Inf x, Inf y => Bool.eqb x y
  | _, _ => false
  end.

(** How two floats compare; [None] when one is NaN. *)
Definition compare (a b : pyfloat) : option comparison :=
  if ltb a b then Some Lt
  else if eqb a b then Some Eq
  else if ltb b a then Some Gt
  else None.

(** *** Rounding to a double

    The positive rational [n / d] is rounded to the nearest double, ties to
    the even significand: [to_double n d] is [Some (M, E)] for the double
    [M * 2^E] with [M < 2^53] and [-1074 <= E] ([M < 2^52] only when
    [E = -1074]: a subnormal, or zero), and [None] when the result is beyond
    the largest double. *)

(** [n / d] rounded to the nearest integer, ties to even *)
Definition round_half_even (n d : Z) : Z :=
  let q := n / d in
  match 2 * (n mod d) ?= d with
  | Lt => q
  | Gt => q + 1
  | Eq => if Z.even q then q else q + 1
  end.

(** [b^k <= n / d] *)
Definition ge_pow (b n d k : Z) : bool :=
  if 0 <=? k then d * b ^ k <=? n else d <=? n * b ^ (- k).

(** The integer part of the binary logarithm of [n / d] *)
Definition floor_log2 (n d : Z) : Z :=
  let k := Z.log2 n - Z.log2 d in
  if ge_pow 2 n d k then k else k - 1.

(** The integer part of the decimal logarithm of [n / d]; the estimate from
    the binary one is off by one at most. *)
Definition floor_log10 (n d : Z) : Z :=
  let k := (floor_log2 n d * 30103) / 100000 in
  if ge_pow 10 n d (k + 1) then k + 1
  else if ge_pow 10 n d k then k
  else k - 1.

Definition to_double (n d : Z) : option (Z * Z) :=
  let E := Z.max (floor_log2 n d - 52) (-1074) in
  let M := if 0 <=? E then round_half_even n (d * 2 ^ E)
           else round_half_even (n * 2 ^ (- E)) d in
  let '(M, E) := if M =? 2 ^ 53 then (2 ^ 52, E + 1) else (M, E) in
  if 971 <? E then None else Some (M, E).

(** [m * 10^e] as a fraction *)
Definition decimal_fraction (m e : Z) : Z * Z :=
  if 0 <=? e then (m * 10 ^ e, 1) else (m, 10 ^ (- e)).

Definition rounds_to (M E m e : Z) : bool :=
  let '(n, d) := decimal_fraction m e in
  match to_double n d with
  | Some (M', E') => (M' =? M) && (E' =? E)
  | None => false
  end.

(** The decimal of [p] digits, [p + 1], ... that [repr] prints for the
    double [M * 2^E], which is [n / d] and has the decimal logarithm [k]:
    the shortest one that rounds to the double, and of the two of that
    length around it the nearer. *)
Fixpoint shortest_from (fuel : nat) (p : Z) (M E n d k : Z) : Z * Z :=
  let ex := k - p + 1 in
  let '(num, den) := if 0 <=? ex then (n, d * 10 ^ ex) else (n * 10 ^ (- ex), d) in
  let lo := num / den in
  if num mod den =? 0 then (lo, ex)
  else
    match fuel with
    | O => (round_half_even num den, ex)
    | S fuel' =>
        match rounds_to M E lo ex, rounds_to M E (lo + 1) ex with
        | true, true => (round_half_even num den, ex)
        | true, false => (lo, ex)
        | false, true => (lo + 1, ex)
        | false, false => shortest_from fuel' (p + 1) M E n d k
        end
    end.

Definition shortest (M E : Z) : Z * Z :=
  let '(n, d) := if 0 <=? E then (M * 2 ^ E, 1) else (M, 2 ^ (- E)) in
  shortest_from 16 1 M E n d (floor_log10 n d).

(** The double nearest to [m * 10^e] for [0 < m], with its sign; [None]
    beyond the largest double. *)
Definition nearest (neg : bool) (m e : Z) : option pyfloat :=
  let '(n, d) := decimal_fraction m e in
  match to_double n d with
  | None => None
  | Some (M, E) =>
      if M =? 0 then Some (if neg then NegZero else Fin 0 0)
      else let '(m', e') := shortest M E in
           Some (norm (if neg then - m' else m') e')
  end.

(** [float(z)] for an [int]; [None] is [OverflowError]. *)
Definition of_int (z : Z) : option pyfloat :=
  if z =? 0 then Some (Fin 0 0) else nearest (z <? 0) (Z.abs z) 0.

(** The exact value of a finite float, as a fraction [n / d] with [0 < d]:
    the double that the decimal of its [repr] rounds to. *)
Definition fraction (f : pyfloat) : option (Z * Z) :=
  match f with
  | Fin m e =>
      if m =? 0 then Some (0, 1)
      else
        let '(n, d) := decimal_fraction (Z.abs m) e in
        let '(n', d') :=
          match to_double n d with
          | Some (M, E) => if 0 <=? E then (M * 2 ^ E, 1) else (M, 2 ^ (- E))
          | None => (n, d)
          end in
        Some (if m <? 0 then - n' else n', d')
  | NegZero => Some (0, 1)
  | Inf _ | NaN => None
  end.

(** How the [int] [z] compares with the float [f]; Python decides it on the
    exact values.  [None]: [f] is NaN, and every comparison is false. *)
Definition compare_int (z : Z) (f : pyfloat) : option comparison :=
  match f with
  | NaN => None
  | Inf neg => Some (if neg then Gt else Lt)
  | _ => match fraction f with
         | Some (n, d) => Some (z * d ?= n)
         | None => None
         end
  end.

(** *** [float(str)] *)

Definition digit_val (c : ascii) : Z := Z.of_nat (PyStr.code c - 48).

Fixpoint digits_val (acc : Z) (s : string) : Z :=
  match s with
  | EmptyString => acc
  | String c s' => digits_val (acc * 10 + digit_val c) s'
  end.

(** Rest of a digit part ([digit (["_"] digit)*]) after one digit was read:
    the digits read and what follows them. *)
Fixpoint digitpart_go (s : string) : string * string :=
  match s with
  | EmptyString => (EmptyString, EmptyString)
  | String c s' =>
      if PyStr.is_digit c
      then let '(d, r) := digitpart_go s' in (String c d, r)
      else if Ascii.eqb c "_"
      then match s' with
           | String c2 s'' =>
               if PyStr.is_digit c2
               then let '(d, r) := digitpart_go s'' in (String c2 d, r)
               else (EmptyString, s)
           | EmptyString => (EmptyString, s)
           end
      else (EmptyString, s)
  end.

Definition digitpart (s : string) : option (string * string) :=
  match s with
  | String c s' =>
      if PyStr.is_digit c
      then let '(d, r) := digitpart_go s' in Some (String c d, r)
      else None
  | EmptyString => None
  end.

Definition opt_digitpart (s : string) : string * string :=
  match digitpart s with Some dr => dr | None => (EmptyString, s) end.

Definition take_sign (s : string) : bool * string :=
  match s with
  | String c s' =>
      if Ascii.eqb c "-" then (true, s')
      else if Ascii.eqb c "+" then (false, s')
      else (false, s)
  | EmptyString => (false, s)
  end.

(** Exponent part: [("e"|"E") ["+"|"-"] digitpart], or nothing. *)
Definition exponent (s : string) : option (Z * string) :=
  match s with
  | String c s' =>
      if Ascii.eqb c "e" || Ascii.eqb c "E"
      then let '(neg, s'') := take_sign s' in
           match digitpart s'' with
           | Some (d, r) =>
               let v := digits_val 0 d in Some (if neg then - v else v, r)
           | None => None
           end
      else Some (0, s)
  | EmptyString => Some (0, s)
  end.

Definition decimal (s : string) : option (Z * Z) :=
  let '(ip, r1) := opt_digitpart s in
  let '(fp, r2) :=
    match r1 with
    | String c r1' =>
        if Ascii.eqb c "." then opt_digitpart r1' else (EmptyString, r1)
    | EmptyString => (EmptyString, r1)
    end in
  if (String.length ip + String.length fp =? 0)%nat then None
  else match exponent r2 with
       | Some (ex, EmptyString) =>
           Some (digits_val 0 (ip +:+ fp), ex - Z.of_nat (String.length fp))
       | _ => None
       end.

(** [float(s)] for a string [s]; [None] is [ValueError]. *)
Definition of_string (s : string) : option pyfloat :=
  let '(neg, body) := take_sign (PyStr.strip s) in
  let low := PyStr.lower body in
  if String.eqb low "inf" || String.eqb low "infinity" then Some (Inf neg)
  else if String.eqb low "nan" then Some NaN
  else match decimal body with
       | Some (m, e) =>
           if m =? 0 then Some (if neg then NegZero else Fin 0 0)
           else match nearest neg m e with
                | Some f => Some f
                | None => Some (Inf neg)
                end
       | None => None
       end.

(** *** [repr(float)] *)

Fixpoint zeros (n : nat) : string :=
  match n with O => EmptyString | S n' => String "0" (zeros n') end.

Fixpoint take (n : nat) (s : string) : string :=
  match n, s with
  | S n', String c s' => String c (take n' s')
  | _, _ => EmptyString
  end.
Fixpoint drop (n : nat) (s : string) : string :=
  match n, s with
  | S n', String _ s' => drop n' s'
  | _, _ => s
  end.

Definition repr_fin (m e : Z) : string :=
  if m =? 0 then "0.0"
  else
    let ds := PyStr.of_Z (Z.abs m) in
    let n := Z.of_nat (String.length ds) in
    let decpt := n + e in
    let body :=
      if (-4 <? decpt) && (decpt <=? 16) then
        if decpt <=? 0 then "0." +:+ zeros (Z.to_nat (- decpt)) +:+ ds
        else if n <=? decpt then ds +:+ zeros (Z.to_nat (decpt - n)) +:+ ".0"
        else take (Z.to_nat decpt) ds +:+ "." +:+ drop (Z.to_nat decpt) ds
      else
        let ex := decpt - 1 in
        let exs := PyStr.of_Z (Z.abs ex) in
        take 1 ds
        +:+ (if n =? 1 then "" else "." +:+ drop 1 ds)
        +:+ "e" +:+ (if ex <? 0 then "-" else "+")
        +:+ (if (String.length exs <? 2)%nat then "0" +:+ exs else exs) in
    if m <? 0 then "-" +:+ body else body.

Definition repr (f : pyfloat) : string :=
  match f with
  | Fin m e => repr_fin m e
  | NegZero => "-0.0"
  | Inf true => "-inf"
  | Inf false => "inf"
  | NaN => "nan"
  end.

End PyFloat.

(** JSON / Python values. *)
#[local] Set Warnings "-register-all".
Inductive value :=
| VNone
| VBool (b : bool)
| VInt (z : Z)
| VFloat (f : pyfloat)
| VStr (s : string)
| VList (l : list value)
| VDict (d : list (string * value)).

Inductive number :=
| NInt (z : Z)
| NFloat (f : pyfloat).

Module Py.

(** [bool(v)] *)
Definition truthy (v : value) : bool :=
  match v with
  | VNone => false
  | VBool b => b
  | VInt z => negb (z =? 0)
  | VFloat f => negb (PyFloat.is_zero f)
  | VStr s => negb (String.eqb s "")
  | VList l => match l with [] => false | _ => true end
  | VDict d => match d with [] => false | _ => true end
  end.

Definition hex_digit (n : nat) : ascii :=
  if Nat.ltb n 10 then ascii_of_nat (48 + n) else ascii_of_nat (87 + n).

Definition escape_char (q : ascii) (c : ascii) : string :=
  if Ascii.eqb c "\" then "\\"
  else if Ascii.eqb c q then String "\" (String q EmptyString)
  else if Ascii.eqb c "010" then "\n"
  else if Ascii.eqb c "013" then "\r"
  else if Ascii.eqb c "009" then "\t"
  else if Nat.ltb (PyStr.code c) 32 || Nat.eqb (PyStr.code c) 127
  then "\x" +:+ String (hex_digit (PyStr.code c / 16))
                 (String (hex_digit (PyStr.code c mod 16)) EmptyString)
  else String c EmptyString.

Fixpoint escape (q : ascii) (s : string) : string :=
  match s with
  | EmptyString => EmptyString
  | String c s' => escape_char q c +:+ escape q s'
  end.

(** [repr(s)] for a string: single quotes, unless the text has a single
    quote and no double quote. *)
Definition str_repr (s : string) : string :=
  let q : ascii :=
    if PyStr.contains "'" s && negb (PyStr.contains (String "034" EmptyString) s)
    then "034"%char else "'"%char in
  String q (escape q s) +:+ String q EmptyString.

Fixpoint repr (v : value) : string :=
  match v with
  | VNone => "None"
  | VBool true => "True"
  | VBool false => "False"
  | VInt z => PyStr.of_Z z
  | VFloat f => PyFloat.repr f
  | VStr s => str_repr s
  | VList l => "[" +:+ PyStr.join ", " (List.map repr l) +:+ "]"
  | VDict d =>
      "{" +:+ PyStr.join ", "
                (List.map (fun kv => str_repr (fst kv) +:+ ": " +:+ repr (snd kv)) d)
          +:+ "}"
  end.

(** [str(v)], also what an f-string prints. *)
Definition str (v : value) : string :=
  match v with VStr s => s | _ => repr v end.

(** The numbers: [bool] and [int] on one side, [float] on the other. *)
Definition as_number (v : value) : option number :=
  match v with
  | VBool b => Some (NInt (if b then 1 else 0))
  | VInt z => Some (NInt z)
  | VFloat f => Some (NFloat f)
  | _ => None
  end.

(** How two numbers compare; [None] when one is NaN. *)
Definition num_compare (a b : number) : option comparison :=
  match a, b with
  | NInt x, NInt y => Some (x ?= y)
  | NInt x, NFloat g => PyFloat.compare_int x g
  | NFloat f, NInt y => option_map CompOpp (PyFloat.compare_int y f)
  | NFloat f, NFloat g => PyFloat.compare f g
  end.

(** [a < b] and [a == b] on numbers *)
Definition num_ltb (a b : number) : bool :=
  match num_compare a b with Some Lt => true | _ => false end.
Definition num_eqb (a b : number) : bool :=
  match num_compare a b with Some Eq => true | _ => false end.

(** [a == b] *)
Fixpoint eqb (a b : value) {struct a} : bool :=
  match a, b with
  | VNone, VNone => true
  | VStr s, VStr t => String.eqb s t
  | VList l1, VList l2 =>
      (fix go (l1 l2 : list value) : bool :=
         match l1, l2 with
         | [], [] => true
         | x :: l1', y :: l2' => eqb x y && go l1' l2'
         | _, _ => false
         end) l1 l2
  | VDict d1, VDict d2 =>
      Nat.eqb (List.length d1) (List.length d2) &&
      forallb (fun kv =>
                 match (fix find (d : list (string * value)) : option value :=
                          match d with
                          | [] => None
                          | (k', v') :: d' =>
                              if String.eqb k' (fst kv) then Some v' else find d'
                          end) d2 with
                 | Some v' => eqb (snd kv) v'
                 | None => false
                 end) d1
  | _, _ =>
      match as_number a, as_number b with
      | Some x, Some y => num_eqb x y
      | _, _ => false
      end
  end.

(** [v == s] for a string [s] *)
Definition eq_str (v : value) (s : string) : bool :=
  match v with VStr s' => String.eqb s' s | _ => false end.

(** [d.get(k)] on an association list (first binding wins on lookup;
    JSON objects have one binding per key). *)
Fixpoint assoc {A} (k : string) (d : list (string * A)) : option A :=
  match d with
  | [] => None
  | (k', v) :: d' => if String.eqb k' k then Some v else assoc k d'
  end.

(** [d[k] = v] on an insertion-ordered dictionary: an existing key keeps
    its position. *)
Fixpoint assoc_set {A} (k : string) (v : A) (d : list (string * A))
  : list (string * A) :=
  match d with
  | [] => [(k, v)]
  | (k', v') :: d' =>
      if String.eqb k' k then (k, v) :: d' else (k', v') :: assoc_set k v d'
  end.

End Py.

(** ** Regular expressions, as [re.match] uses them *)

Inductive regex :=
| RNone                         (* matches nothing *)
| REps                          (* the empty string *)
| RChar (p : ascii -> bool)     (* one character of a class *)
| RCat (a b : regex)
| RAlt (a b : regex)
| RStar (a : regex)
| RBol                          (* ^ *)
| REol.                         (* $ : at the end, or before a final newline *)

Module Re.

Definition cat (a b : regex) : regex :=
  match a, b with
  | RNone, _ | _, RNone => RNone
  | REps, _ => b
  | _, REps => a
  | _, _ => RCat a b
  end.

Definition alt (a b : regex) : regex :=
  match a, b with
  | RNone, _ => b
  | _, RNone => a
  | _, _ => RAlt a b
  end.

(** [r{n}] and [r{0,n}] *)
Fixpoint times (r : regex) (n : nat) : regex :=
  match n with O => REps | S n' => RCat r (times r n') end.
Fixpoint upto (r : regex) (n : nat) : regex :=
  match n with O => REps | S n' => RAlt REps (RCat r (upto r n')) end.
(** [r{lo,hi}] *)
Definition rep (r : regex) (lo hi : nat) : regex :=
  RCat (times r lo) (upto r (hi - lo)).

Definition at_eol (rest : string) : bool :=
  String.eqb rest "" || String.eqb rest (String "010" EmptyString).

(** Can [r] match the empty string here?  [bol]: at the start of the
    subject; [rest]: what is left of the subject. *)
Fixpoint nullable (bol : bool) (rest : string) (r : regex) : bool :=
  match r with
  | RNone => false
  | REps => true
  | RChar _ => false
  | RCat a b => nullable bol rest a && nullable bol rest b
  | RAlt a b => nullable bol rest a || nullable bol rest b
  | RStar _ => true
  | RBol => bol
  | REol => at_eol rest
  end.

(** What is left of [r] after reading [c], the first character of [rest]. *)
Fixpoint deriv (bol : bool) (rest : string) (c : ascii) (r : regex) : regex :=
  match r with
  | RNone | REps | RBol | REol => RNone
  | RChar p => if p c then REps else RNone
  | RCat a b =>
      alt (cat (deriv bol rest c a) b)
          (if nullable bol rest a then deriv bol rest c b else RNone)
  | RAlt a b => alt (deriv bol rest c a) (deriv bol rest c b)
  | RStar a => cat (deriv bol rest c a) (RStar a)
  end.

Fixpoint match_from (bol : bool) (r : regex) (s : string) : bool :=
  nullable bol s r ||
  match s with
  | EmptyString => false
  | String c s' => match_from false (deriv bol s c r) s'
  end.

(** [re.match(r, s)] as a truth value: some prefix of [s] matches [r]. *)
Definition re_match (r : regex) (s : string) : bool := match_from true r s.

Definition lit (c : ascii) : regex := RChar (Ascii.eqb c).
Definition digit : regex := RChar PyStr.is_digit.

End Re.

(** ** Exceptions *)

Inductive exn_class :=
| BaseException | Exception
| ValueError | KeyError | TypeError | AttributeError | NameError | OverflowError
| UnboundLocalError | FileExistsError | RequestException
| JiraWebhookError | InvalidJiraConfigurationParser | InvalidMethodError
| InvalidPayloadError | MissingRequiredDataError | ExternalServiceError
| GcpProvisioningError | PermissionDeniedError | GitHubOperationError.

(** [e_msg] is [str(e)]; [e_status] is [e.response.status_code] when the
    exception carries a response. *)
Record exn := Exn { e_class : exn_class; e_msg : string; e_status : option Z }.

Definition mk_exn (c : exn_class) (msg : string) : exn := Exn c msg None.

Global Instance exn_class_eq_dec : EqDecision exn_class.
Proof. solve_decision. Defined.

(** The direct base class, [None] for [BaseException]. *)
Definition base_class (c : exn_class) : option exn_class :=
  match c with
  | BaseException => None
  | Exception => Some BaseException
  | UnboundLocalError => Some NameError
  | InvalidJiraConfigurationParser | InvalidMethodError | InvalidPayloadError
  | MissingRequiredDataError | ExternalServiceError => Some JiraWebhookError
  | GcpProvisioningError | PermissionDeniedError | GitHubOperationError =>
      Some ExternalServiceError
  | _ => Some Exception
  end.

(** [issubclass(c, d)]; the hierarchy is four levels deep. *)
Fixpoint subclass_fuel (n : nat) (c d : exn_class) : bool :=
  bool_decide (c = d) ||
  match n with
  | O => false
  | S n' => match base_class c with
            | Some c' => subclass_fuel n' c' d
            | None => false
            end
  end.
Definition subclass : exn_class -> exn_class -> bool := subclass_fuel 4.

(** [isinstance(e, c)], the test of [except c] *)
Definition isinstance (c : exn_class) (e : exn) : bool := subclass (e_class e) c.

(** What [traceback.format_exc()] ends with (the stack frames that precede
    it are not part of the model). *)
Definition format_exc (e : exn) : string :=
  "Traceback (most recent call last): " +:+ e_msg e.

(** ** The state of one request and the monad of the code *)

Inductive jira_event :=
| JComment (jira_id : string) (comment_type : string) (body : string)
| JTransition (jira_id : string) (transition_name : string).

Inductive http_answer :=
| Answer (status : Z) (body : value)
| NoAnswer.

(** What the ticket system answers to a request: a status and the body,
    [None] when the body is not JSON; or nothing (the connection fails). *)
Inductive jira_answer :=
| JiraAnswer (status : Z) (body : option value)
| JiraNoAnswer.

(** One entry of [github_payload]: a dictionary that the synthesizer fills
    key by key; a key not assigned yet is [None].  [pu_env] and
    [pu_data_type_tag] exist for projects only.  The inner dictionaries of
    [pu_yaml_content_encoded] have the keys "file", "commit_message", "path". *)
Record publish_unit := PublishUnit {
  pu_pr_title : option string;
  pu_env : option (option string);
  pu_data_type_tag : option value;
  pu_new_branch_name : option string;
  pu_yaml_content_encoded : option (list (string * list (string * string)));
  pu_autoapprove : option value
}.

Definition empty_unit : publish_unit := PublishUnit None None None None None None.

(** A node of the hierarchy snapshot ([asset_data] is [asset.resource.data]). *)
Record asset := Asset {
  asset_type : string;
  asset_name : string;
  asset_data : list (string * value);
  asset_ancestors : list string
}.

Inductive provisioner_kind := ProjectProvisioner | FolderProvisioner.

(** The attributes of the [AppManager] of one request, of its provisioner and
    of its GitHub handler, and the outside world. *)
Record world := World {
  config_data : gmap string value;
  request_json : value;
  issue_type_name : value;
  jira_id : value;
  provisioner : option provisioner_kind;
  assets : list asset;
  dw_env_project_name_list : list string;
  github_payload : option (list (string * publish_unit));
  github_manager : bool;
  pr_list : list value;
  jira_log : list jira_event;
  github_script : list http_answer;
  jira_script : list jira_answer
}.

Definition M (A : Type) : Type := world -> (exn + A) * world.

Definition ret {A} (a : A) : M A := fun w => (inr a, w).
Definition raise {A} (e : exn) : M A := fun w => (inl e, w).
Definition bind {A B} (m : M A) (k : A -> M B) : M B :=
  fun w => match m w with
           | (inr a, w') => k a w'
           | (inl e, w') => (inl e, w')
           end.
(** [try: m  except <handles>: h e]; an exception that [handles] rejects, or
    that the handler raises, propagates. *)
Definition try_except {A} (m : M A) (handles : exn -> bool) (h : exn -> M A) : M A :=
  fun w => match m w with
           | (inl e, w') => if handles e then h e w' else (inl e, w')
           | r => r
           end.

Definition get_world : M world := fun w => (inr w, w).
Definition modify (f : world -> world) : M unit := fun w => (inr tt, f w).

Notation "'let*' x ':=' m 'in' k" := (bind m (fun x => k))
  (at level 10, x pattern, m at level 100, k at level 200, only parsing).
Notation "m1 >> m2" := (bind m1 (fun _ => m2))
  (at level 62, right associativity, only parsing).

Definition lift_opt {A} (o : option A) (e : exn) : M A :=
  match o with Some a => ret a | None => raise e end.

(** A computation that does not touch the state *)
Definition lift {A} (r : exn + A) : M A :=
  match r with inr a => ret a | inl e => raise e end.

(** [for x in l: body x] *)
Fixpoint for_each {A} (l : list A) (body : A -> M unit) : M unit :=
  match l with
  | [] => ret tt
  | x :: l' => body x >> for_each l' body
  end.

Definition upd_config (f : gmap string value -> gmap string value) (w : world) : world :=
  World (f (config_data w)) (request_json w) (issue_type_name w) (jira_id w)
        (provisioner w) (assets w) (dw_env_project_name_list w) (github_payload w)
        (github_manager w) (pr_list w) (jira_log w) (github_script w) (jira_script w).
Definition upd_request (v : value) (w : world) : world :=
  World (config_data w) v (issue_type_name w) (jira_id w)
        (provisioner w) (assets w) (dw_env_project_name_list w) (github_payload w)
        (github_manager w) (pr_list w) (jira_log w) (github_script w) (jira_script w).
Definition upd_issue (ty id : value) (w : world) : world :=
  World (config_data w) (request_json w) ty id
        (provisioner w) (assets w) (dw_env_project_name_list w) (github_payload w)
        (github_manager w) (pr_list w) (jira_log w) (github_script w) (jira_script w).
Definition upd_provisioner (k : provisioner_kind) (a : list asset)
    (p : option (list (string * publish_unit))) (w : world) : world :=
  World (config_data w) (request_json w) (issue_type_name w) (jira_id w)
        (Some k) a [] p
        (github_manager w) (pr_list w) (jira_log w) (github_script w) (jira_script w).
Definition upd_name_list (f : list string -> list string) (w : world) : world :=
  World (config_data w) (request_json w) (issue_type_name w) (jira_id w)
        (provisioner w) (assets w) (f (dw_env_project_name_list w)) (github_payload w)
        (github_manager w) (pr_list w) (jira_log w) (github_script w) (jira_script w).
Definition upd_payload (p : option (list (string * publish_unit))) (w : world) : world :=
  World (config_data w) (request_json w) (issue_type_name w) (jira_id w)
        (provisioner w) (assets w) (dw_env_project_name_list w) p
        (github_manager w) (pr_list w) (jira_log w) (github_script w) (jira_script w).
Definition upd_github_manager (w : world) : world :=
  World (config_data w) (request_json w) (issue_type_name w) (jira_id w)
        (provisioner w) (assets w) (dw_env_project_name_list w) (github_payload w)
        true [] (jira_log w) (github_script w) (jira_script w).
Definition upd_pr_list (f : list value -> list value) (w : world) : world :=
  World (config_data w) (request_json w) (issue_type_name w) (jira_id w)
        (provisioner w) (assets w) (dw_env_project_name_list w) (github_payload w)
        (github_manager w) (f (pr_list w)) (jira_log w) (github_script w) (jira_script w).
Definition upd_jira_log (f : list jira_event -> list jira_event) (w : world) : world :=
  World (config_data w) (request_json w) (issue_type_name w) (jira_id w)
        (provisioner w) (assets w) (dw_env_project_name_list w) (github_payload w)
        (github_manager w) (pr_list w) (f (jira_log w)) (github_script w) (jira_script w).
Definition upd_script (l : list http_answer) (w : world) : world :=
  World (config_data w) (request_json w) (issue_type_name w) (jira_id w)
        (provisioner w) (assets w) (dw_env_project_name_list w) (github_payload w)
        (github_manager w) (pr_list w) (jira_log w) l (jira_script w).
Definition upd_jira_script (l : list jira_answer) (w : world) : world :=
  World (config_data w) (request_json w) (issue_type_name w) (jira_id w)
        (provisioner w) (assets w) (dw_env_project_name_list w) (github_payload w)
        (github_manager w) (pr_list w) (jira_log w) (github_script w) l.

(** The state of a fresh [AppManager()] facing a ticket system that has seen
    nothing and a source-control service that will give the answers [script]. *)
Definition fresh (script : list http_answer) : world :=
  World ∅ (VDict []) (VStr "") (VStr "") None [] [] None false [] [] script [].

Definition set_config (k : string) (v : value) : M unit :=
  modify (upd_config (insert k v)).

(** [config_data.get(k, default)] printed in an f-string *)
Definition config_get_str (w : world) (k default : string) : string :=
  match config_data w !! k with Some v => Py.str v | None => default end.

(** [config_data[k]] *)
Definition config_item (k : string) : M value :=
  let* w := get_world in
  lift_opt (config_data w !! k) (mk_exn KeyError (Py.str_repr k)).

(** *** Operations of Python on JSON values *)

Definition type_name (v : value) : string :=
  match v with
  | VNone => "NoneType" | VBool _ => "bool" | VInt _ => "int"
  | VFloat _ => "float" | VStr _ => "str" | VList _ => "list" | VDict _ => "dict"
  end.

(** The operations are pure; [PyOp] has them with their result or exception,
    and [py_in], [py_item], ... run them in the monad. *)
Module PyOp.

Definition not_subscriptable (v : value) : exn :=
  mk_exn TypeError ("'" +:+ type_name v +:+ "' object is not subscriptable").

(** [k in v] for a string [k] *)
Definition contains (k : string) (v : value) : exn + bool :=
  match v with
  | VDict d => inr (bool_decide (is_Some (Py.assoc k d)))
  | VStr s => inr (PyStr.contains k s)
  | VList l => inr (existsb (fun x => Py.eq_str x k) l)
  | _ => inl (mk_exn TypeError
                ("argument of type '" +:+ type_name v +:+ "' is not iterable"))
  end.

(** [v[k]] for a string [k] *)
Definition item (v : value) (k : string) : exn + value :=
  match v with
  | VDict d =>
      match Py.assoc k d with
      | Some x => inr x
      | None => inl (mk_exn KeyError (Py.str_repr k))
      end
  | VStr _ => inl (mk_exn TypeError "string indices must be integers")
  | VList _ => inl (mk_exn TypeError "list indices must be integers or slices, not str")
  | _ => inl (not_subscriptable v)
  end.

(** [len(v)] *)
Definition len (v : value) : exn + nat :=
  match v with
  | VStr s => inr (String.length s)
  | VList l => inr (List.length l)
  | VDict d => inr (List.length d)
  | _ => inl (mk_exn TypeError
                ("object of type '" +:+ type_name v +:+ "' has no len()"))
  end.

(** [v[0]] ([IndexError] is not told apart from [Exception]) *)
Definition first (v : value) : exn + value :=
  match v with
  | VList (x :: _) => inr x
  | VList [] => inl (mk_exn Exception "list index out of range")
  | VStr (String c _) => inr (VStr (String c EmptyString))
  | VStr EmptyString => inl (mk_exn Exception "string index out of range")
  | VDict _ => inl (mk_exn KeyError "0")
  | _ => inl (not_subscriptable v)
  end.

Fixpoint chars (s : string) : list value :=
  match s with
  | EmptyString => []
  | String c s' => VStr (String c EmptyString) :: chars s'
  end.

(** The elements that [for x in v] visits *)
Definition iter (v : value) : exn + list value :=
  match v with
  | VList l => inr l
  | VStr s => inr (chars s)
  | VDict d => inr (List.map (fun kv => VStr (fst kv)) d)
  | _ => inl (mk_exn TypeError
                ("'" +:+ type_name v +:+ "' object is not iterable"))
  end.

(** [v.upper()] *)
Definition upper (v : value) : exn + string :=
  match v with
  | VStr s => inr (PyStr.upper s)
  | _ => inl (mk_exn AttributeError
                ("'" +:+ type_name v +:+ "' object has no attribute 'upper'"))
  end.

End PyOp.

Definition py_in (k : string) (v : value) : M bool := lift (PyOp.contains k v).
Definition py_item (v : value) (k : string) : M value := lift (PyOp.item v k).
Definition py_len (v : value) : M nat := lift (PyOp.len v).
Definition py_first (v : value) : M value := lift (PyOp.first v).
Definition py_iter (v : value) : M (list value) := lift (PyOp.iter v).
Definition py_upper (v : value) : M string := lift (PyOp.upper v).

(** [float(v)] *)
Definition py_float (v : value) : exn + pyfloat :=
  match v with
  | VStr s =>
      match PyFloat.of_string s with
      | Some f => inr f
      | None => inl (mk_exn ValueError
                       ("could not convert string to float: " +:+ Py.str_repr s))
      end
  | VInt z =>
      match PyFloat.of_int z with
      | Some f => inr f
      | None => inl (mk_exn OverflowError "int too large to convert to float")
      end
  | VFloat f => inr f
  | VBool b => inr (Fin (if b then 1 else 0) 0)
  | _ => inl (mk_exn TypeError
                ("float() argument must be a string or a real number, not '"
                 +:+ type_name v +:+ "'"))
  end.

(** ** The ticket system client (app/logger.py) *)

Definition comment_prefix (comment_type : string) : string :=
  if String.eqb comment_type "error" then "❌[ERROR]: "
  else if String.eqb comment_type "info" then "✅[INFO]: "
  else if String.eqb comment_type "manual" then "🧑‍🔧[MANUAL APPROVAL]: "
  else "".

(** The two calls when the ticket system accepts them: the comment, or the
    transition, is delivered. *)
Definition add_comment_to_jira_issue (jira_id comment_text comment_type : string)
  : M unit :=
  modify (upd_jira_log (fun l =>
    l ++ [JComment jira_id comment_type (comment_prefix comment_type +:+ comment_text)])).

Definition change_issue_status (transition_name jira_id : string) : M bool :=
  modify (upd_jira_log (fun l => l ++ [JTransition jira_id transition_name])) >>
  ret true.

(** The client as [logger.py] has it, facing a ticket system that answers
    as [jira_script] says.  A comment or a transition is in [jira_log] when
    the ticket system has accepted it. *)
Module AppLogger.

(** The next answer of the ticket system; the connection fails when the
    script is used up. *)
Definition next_answer : M jira_answer :=
  let* w := get_world in
  match jira_script w with
  | a :: rest => modify (upd_jira_script rest) >> ret a
  | [] => ret JiraNoAnswer
  end.

Definition is_error_status (status : Z) : bool := (400 <=? status) && (status <? 600).

(** What [response.raise_for_status()] raises *)
Definition http_error (status : Z) : exn :=
  Exn RequestException (PyStr.of_Z status +:+ " Error") (Some status).

(** When the request itself raises, [response] is not bound, and the
    clause that handles the [RequestException] reads [response.text]. *)
Definition unbound_response : exn :=
  mk_exn UnboundLocalError
    "cannot access local variable 'response' where it is not associated with a value".

Definition add_comment_to_jira_issue (jira_id comment_text comment_type : string)
  : M unit :=
  let comment_text := comment_prefix comment_type +:+ comment_text in
  let* a := next_answer in
  match a with
  | JiraNoAnswer => raise unbound_response
  | JiraAnswer status _ =>
      if is_error_status status then raise (http_error status)
      else modify (upd_jira_log (fun l =>
             l ++ [JComment jira_id comment_type comment_text]))
  end.

(** The loop of [get_transition_id] over the transitions offered *)
Fixpoint find_transition (transition_name : string) (transitions : list value)
  : M value :=
  match transitions with
  | [] => ret VNone
  | transition :: rest =>
      let* name := py_item transition "name" in
      if Py.eqb name (VStr transition_name) then py_item transition "id"
      else find_transition transition_name rest
  end.

Definition get_transition_id (jira_id transition_name : string) : M value :=
  let* a := next_answer in
  match a with
  | JiraNoAnswer => raise unbound_response
  | JiraAnswer status body =>
      if is_error_status status then ret VNone
      else
        match body with
        | None => ret VNone
        | Some transitions_data =>
            let* offered := py_item transitions_data "transitions" in
            let* transitions := py_iter offered in
            find_transition transition_name transitions
        end
  end.

Definition change_issue_status (transition_name jira_id : string) : M bool :=
  let* transition_id := get_transition_id jira_id transition_name in
  match transition_id with
  | VNone => ret false
  | _ =>
      let* a := next_answer in
      match a with
      | JiraNoAnswer => raise unbound_response
      | JiraAnswer status _ =>
          if is_error_status status then ret false
          else
            modify (upd_jira_log (fun l => l ++ [JTransition jira_id transition_name])) >>
            ret true
      end
  end.

End AppLogger.

(** ** The field tables (configs/jira/configurations.py) *)

Record field_config := FieldConfig {
  fc_type : string;
  input_name : string;
  output_name : string;
  validation : option regex;
  regex_error_message : option string;
  mandatory : bool
}.

(** [^[0-9]{1,10}\.[0-9]{1,5}$] *)
Definition budget_pattern : regex :=
  RCat RBol (RCat (Re.rep Re.digit 1 10)
            (RCat (Re.lit ".") (RCat (Re.rep Re.digit 1 5) REol))).

(** The class [[0-9A-Za-z-_]] *)
Definition name_char (c : ascii) : bool :=
  PyStr.is_digit c || PyStr.is_upper c || PyStr.is_lower c
  || Ascii.eqb c "-" || Ascii.eqb c "_".

(** [^[0-9A-Za-z-_]{lo,hi}$] *)
Definition name_pattern (lo hi : nat) : regex :=
  RCat RBol (RCat (Re.rep (RChar name_char) lo hi) REol).

Definition budget_field (name input : string) : string * field_config :=
  (name, FieldConfig "numericfield" input name (Some budget_pattern)
           (Some ("'" +:+ name +:+ "' must be a numeric value with up to 10 digits before and 5 digits after the decimal point."))
           false).

Definition FOLDER_NAME_field : string * field_config :=
  ("FOLDER_NAME",
   FieldConfig "textfield" "customfield_10578" "FOLDER_NAME" (Some (name_pattern 3 30))
     (Some "'FOLDER_NAME' must be alphanumeric (letters, numbers, '-', '_') and between 3 and 30 characters long.")
     true).

Definition WBS_field : string * field_config :=
  ("WBS",
   FieldConfig "textfield" "customfield_10644" "WBS" (Some (name_pattern 3 100))
     (Some "'WBS' must be alphanumeric (letters, numbers, '-', '_') and between 3 and 100 characters long.")
     false).

Definition ENGAGEMENT_MANAGER_field : string * field_config :=
  ("ENGAGEMENT_MANAGER",
   FieldConfig "reporter" "reporter" "ENGAGEMENT_MANAGER" None None false).

Definition PROJECT_TYPE_field : string * field_config :=
  ("PROJECT_TYPE",
   FieldConfig "dropdown" "customfield_10611" "PROJECT_TYPE" None None true).

Definition PROJECT_TYPE_FOLDER_field : string * field_config :=
  ("PROJECT_TYPE_FOLDER",
   FieldConfig "dropdown_nested" "customfield_10611" "PROJECT_TYPE_FOLDER" None None true).

Definition project_creation_ticket_fields : list (string * field_config) :=
  [ ("DATASECURITY",
     FieldConfig "dropdown" "customfield_10550" "DATASECURITY" None None true);
    PROJECT_TYPE_field;
    PROJECT_TYPE_FOLDER_field;
    ("ENVIRONMENT",
     FieldConfig "checklist" "customfield_10549" "ENVIRONMENT" None None true);
    budget_field "BUDGET_DEV" "customfield_10579";
    budget_field "BUDGET_TEST" "customfield_10613";
    budget_field "BUDGET_PROD" "customfield_10614";
    ("PROJECT_NAME",
     FieldConfig "textfield" "customfield_10551" "PROJECT_NAME" (Some (name_pattern 3 50))
       (Some "Project names should be alphanumeric (letters, numbers, '-', '_') and between 3 and 50 characters.")
       true);
    FOLDER_NAME_field;
    WBS_field;
    ENGAGEMENT_MANAGER_field ].

Definition folder_creation_ticket_fields : list (string * field_config) :=
  [ PROJECT_TYPE_field;
    PROJECT_TYPE_FOLDER_field;
    FOLDER_NAME_field;
    WBS_field;
    ENGAGEMENT_MANAGER_field ].

Definition data_security_mapping : list (string * string) :=
  [ ("l0", "tagValues/281478635840395");
    ("l1", "tagValues/281481147692528");
    ("l3", "tagValues/281476741727885") ].

Definition env_mapping : list (string * string) :=
  [ ("dev", "Development"); ("test", "Test"); ("prod", "Production") ].

(** ** Field extraction (app/parsers.py) *)

Module PayloadParser.

(** The ticket that field-level comments go to:
    [config_data.get('ISSUE_KEY', 'UNKNOWN_JIRA_ID')]. *)
Definition issue_key : M string :=
  let* w := get_world in ret (config_get_str w "ISSUE_KEY" "UNKNOWN_JIRA_ID").

Definition comment_error (text : string) : M unit :=
  let* id := issue_key in add_comment_to_jira_issue id text "error".

Definition _process_dropdown (field_config : field_config) (field_value : value)
  : M unit :=
  if Py.truthy field_value then
    let* has := py_in "value" field_value in
    if has then
      let* v := py_item field_value "value" in
      set_config (output_name field_config) v
    else ret tt
  else ret tt.

Definition _process_people (field_config : field_config) (field_value : value)
  : M unit :=
  if Py.truthy field_value then
    let* n := py_len field_value in
    if Nat.ltb 0 n then
      let* first := py_first field_value in
      let* has := py_in "displayName" first in
      if has then
        let* v := py_item first "displayName" in
        set_config (output_name field_config) v
      else ret tt
    else ret tt
  else ret tt.

Definition _process_reporter (field_config : field_config) (field_value : value)
  : M unit :=
  if Py.truthy field_value then
    let* has := py_in "displayName" field_value in
    if has then
      let* v := py_item field_value "displayName" in
      set_config (output_name field_config) v
    else ret tt
  else ret tt.

Definition _process_dropdown_nested (field_config : field_config) (field_value : value)
  : M unit :=
  if Py.truthy field_value then
    let* has_child := py_in "child" field_value in
    if has_child then
      let* child := py_item field_value "child" in
      let* has := py_in "value" child in
      if has then
        let* v := py_item child "value" in
        set_config (output_name field_config) v
      else ret tt
    else ret tt
  else ret tt.

(** [[item['value'] for item in field_value if 'value' in item]] *)
Fixpoint checklist_values (items : list value) : M (list value) :=
  match items with
  | [] => ret []
  | item :: rest =>
      let* has := py_in "value" item in
      let* here := (if has then let* v := py_item item "value" in ret [v]
                    else ret []) in
      let* others := checklist_values rest in
      ret (here ++ others)
  end.

Definition _process_checklist (field_config : field_config) (field_value : value)
  : M unit :=
  match field_value with
  | VList items =>
      let* values := checklist_values items in
      set_config (output_name field_config) (VList values)
  | _ => ret tt
  end.

(** [re.match(pattern, v)]: the subject must be a string. *)
Definition re_match_value (r : regex) (v : value) : M bool :=
  match v with
  | VStr s => ret (Re.re_match r s)
  | _ => raise (mk_exn TypeError "expected string or bytes-like object")
  end.

Definition error_suffix (field_config : field_config) : string :=
  match regex_error_message field_config with Some m => m | None => "" end.

Definition _process_textfield (field_config : field_config) (attribute_found : value)
  : M unit :=
  match attribute_found with
  | VNone => ret tt
  | _ =>
      match validation field_config with
      | Some regex_validation =>
          let* ok := re_match_value regex_validation attribute_found in
          if negb ok then
            comment_error ("Invalid value '" +:+ Py.str attribute_found
                           +:+ "' found for '" +:+ output_name field_config
                           +:+ "'. " +:+ error_suffix field_config)
          else set_config (output_name field_config) attribute_found
      | None => set_config (output_name field_config) attribute_found
      end
  end.

(** [try: config_data[out] = float(attribute_found)  except ValueError: ...] *)
Definition store_float (field_config : field_config) (attribute_found : value)
  : M unit :=
  try_except
    (let* f := lift (py_float attribute_found) in
     set_config (output_name field_config) (VFloat f))
    (isinstance ValueError)
    (fun _ =>
       comment_error ("Invalid numeric value '" +:+ Py.str attribute_found
                      +:+ "' for '" +:+ output_name field_config +:+ "'")).

Definition _process_numericfield (field_config : field_config) (attribute_found : value)
  : M unit :=
  match attribute_found with
  | VNone => ret tt
  | _ =>
      let str_attribute_found := Py.str attribute_found in
      match validation field_config with
      | Some regex_validation =>
          if negb (Re.re_match regex_validation str_attribute_found) then
            comment_error ("Invalid value '" +:+ Py.str attribute_found
                           +:+ "' for '" +:+ output_name field_config
                           +:+ "'. " +:+ error_suffix field_config)
          else store_float field_config attribute_found
      | None => store_float field_config attribute_found
      end
  end.

(** The loop of [_check_mandatory_fields]: comments each missing mandatory
    field and returns their names, in table order. *)
Fixpoint missing_mandatory_fields (ticket_fields : list (string * field_config))
  : M (list string) :=
  match ticket_fields with
  | [] => ret []
  | (_, config) :: rest =>
      let* w := get_world in
      if mandatory config
         && negb (bool_decide (is_Some (config_data w !! output_name config)))
      then
        comment_error ("Mandatory field '" +:+ output_name config
                       +:+ "' is missing in the request.") >>
        let* others := missing_mandatory_fields rest in
        ret (output_name config :: others)
      else missing_mandatory_fields rest
  end.

Definition _check_mandatory_fields (ticket_fields : list (string * field_config))
  : M unit :=
  let* missing := missing_mandatory_fields ticket_fields in
  match missing with
  | [] => ret tt
  | _ => raise (mk_exn ValueError
                  ("Missing mandatory fields: " +:+ PyStr.join ", " missing))
  end.

(** [request_json['issue']['fields'][input_name]], [None] on [KeyError] *)
Definition _extract_field_value (field_config : field_config) : M value :=
  try_except
    (let* w := get_world in
     let* issue := py_item (request_json w) "issue" in
     let* fields := py_item issue "fields" in
     py_item fields (input_name field_config))
    (isinstance KeyError)
    (fun _ => ret VNone).

End PayloadParser.

(** ** Base64 and UTF-8, as the standard library has them *)

Module Base64.

Local Open Scope nat_scope.

Definition alphabet : string :=
  "ABCDEFGHIJKLMNOPQRSTUVWXYZabcdefghijklmnopqrstuvwxyz0123456789+/".

Definition char_of (n : nat) : ascii :=
  match String.get n alphabet with Some c => c | None => "="%char end.

Fixpoint index_go (c : ascii) (s : string) (i : nat) : option nat :=
  match s with
  | EmptyString => None
  | String c' s' => if Ascii.eqb c c' then Some i else index_go c s' (S i)
  end.
Definition index_of (c : ascii) : option nat := index_go c alphabet 0.

(** [base64.b64encode] *)
Fixpoint b64encode (s : string) : string :=
  match s with
  | EmptyString => EmptyString
  | String a EmptyString =>
      let x := PyStr.code a in
      String (char_of (x / 4)) (String (char_of ((x mod 4) * 16)) "==")
  | String a (String b EmptyString) =>
      let x := PyStr.code a in
      let y := PyStr.code b in
      String (char_of (x / 4))
        (String (char_of ((x mod 4) * 16 + y / 16))
           (String (char_of ((y mod 16) * 4)) "="))
  | String a (String b (String c rest)) =>
      let x := PyStr.code a in
      let y := PyStr.code b in
      let z := PyStr.code c in
      String (char_of (x / 4))
        (String (char_of ((x mod 4) * 16 + y / 16))
           (String (char_of ((y mod 16) * 4 + z / 64))
              (String (char_of (z mod 64)) (b64encode rest))))
  end.

(** [base64.b64decode], which does not validate: characters outside the
    alphabet are skipped, a complete padding ends the data, a truncated
    quantum is an error ([None]).  [quad_pos] counts the characters of the
    current quantum, [leftchar] holds its bits not yet written. *)
Fixpoint decode_go (s : string) (quad_pos leftchar pads : nat) : option string :=
  match s with
  | EmptyString => if Nat.eqb quad_pos 0 then Some EmptyString else None
  | String ch s' =>
      if Ascii.eqb ch "=" then
        if Nat.leb 2 quad_pos then
          if Nat.leb 4 (quad_pos + S pads) then Some EmptyString
          else decode_go s' quad_pos leftchar (S pads)
        else decode_go s' quad_pos leftchar pads
      else
        match index_of ch with
        | None => decode_go s' quad_pos leftchar pads
        | Some v =>
            match quad_pos with
            | 0 => decode_go s' 1 v 0
            | 1 => option_map (String (ascii_of_nat (leftchar * 4 + v / 16)))
                     (decode_go s' 2 (v mod 16) 0)
            | 2 => option_map (String (ascii_of_nat (leftchar * 16 + v / 4)))
                     (decode_go s' 3 (v mod 4) 0)
            | _ => option_map (String (ascii_of_nat (leftchar * 64 + v)))
                     (decode_go s' 0 0 0)
            end
        end
  end.

Definition b64decode (s : string) : option string :=
  if PyStr.all (fun c => Nat.ltb (PyStr.code c) 128) s
  then decode_go s 0 0 0 else None.

End Base64.

Module Utf8.

Local Open Scope nat_scope.

Definition cont (c : ascii) : bool := PyStr.in_range 128 191 c.
Definition low6 (c : ascii) : N := N.of_nat (PyStr.code c - 128).

(** [bytes.decode('utf-8')]: the code points, [None] on malformed input. *)
Fixpoint decode (s : string) : option (list N) :=
  match s with
  | EmptyString => Some []
  | String a r =>
      let x := PyStr.code a in
      if Nat.ltb x 128 then option_map (cons (N.of_nat x)) (decode r)
      else if PyStr.in_range 194 223 a then
        match r with
        | String b r' =>
            if cont b
            then option_map (cons (N.of_nat (x - 192) * 64 + low6 b)%N) (decode r')
            else None
        | _ => None
        end
      else if PyStr.in_range 224 239 a then
        match r with
        | String b (String c r') =>
            if PyStr.in_range (if Nat.eqb x 224 then 160 else 128)
                              (if Nat.eqb x 237 then 159 else 191) b && cont c
            then option_map
                   (cons (N.of_nat (x - 224) * 4096 + low6 b * 64 + low6 c)%N)
                   (decode r')
            else None
        | _ => None
        end
      else if PyStr.in_range 240 244 a then
        match r with
        | String b (String c (String d r')) =>
            if PyStr.in_range (if Nat.eqb x 240 then 144 else 128)
                              (if Nat.eqb x 244 then 143 else 191) b
               && cont c && cont d
            then option_map
                   (cons (N.of_nat (x - 240) * 262144 + low6 b * 4096
                          + low6 c * 64 + low6 d)%N)
                   (decode r')
            else None
        | _ => None
        end
      else None
  end.

(** [str.isspace] on a code point *)
Definition is_space (cp : N) : bool :=
  ((9 <=? cp) && (cp <=? 13) || (28 <=? cp) && (cp <=? 32)
   || (cp =? 133) || (cp =? 160) || (cp =? 5760)
   || (8192 <=? cp) && (cp <=? 8202)
   || (cp =? 8232) || (cp =? 8233) || (cp =? 8239) || (cp =? 8287)
   || (cp =? 12288))%N.

Fixpoint lstrip (l : list N) : list N :=
  match l with
  | cp :: l' => if is_space cp then lstrip l' else l
  | [] => []
  end.

(** [str.strip()] on a text given by its code points *)
Definition strip (l : list N) : list N := List.rev (lstrip (List.rev (lstrip l))).

End Utf8.

(** ** Provisioners: what is common (app/provisioners/base.py) *)

Module BaseProvisioner.

(** [base64.b64encode(yaml.dump(yaml_data, indent=2).encode('utf-8')).decode('utf-8')];
    [dump] is PyYAML's [yaml.dump(., indent=2)]. *)
Definition encode_yaml_file (dump : value -> string) (yaml_data : value) : string :=
  Base64.b64encode (dump yaml_data).

Definition format_for_label_system (name : value) : string :=
  match name with
  | VStr name => PyStr.sub_ws (PyStr.lower name)
  | _ => ""
  end.

End BaseProvisioner.

Definition Folder : string := "cloudresourcemanager.googleapis.com/Folder".
Definition Project : string := "cloudresourcemanager.googleapis.com/Project".

(** What the asset inventory answers to the bulk listing: [None] when the call
    raises; otherwise the pages, of which one that cannot be fetched is [None]. *)
Definition listing : Type := option (list (option (list asset))).

Module HierarchyrProvisioner.

Fixpoint collect_pages (pages : list (option (list asset))) : option (list asset) :=
  match pages with
  | [] => Some []
  | None :: _ => None
  | Some page :: rest => option_map (app page) (collect_pages rest)
  end.

Definition _list_projects_and_folders (answer : listing) : list asset :=
  match answer with
  | None => []
  | Some pages =>
      match collect_pages pages with
      | Some assets => assets
      | None => []
      end
  end.

(** [data.get(k)] *)
Definition data_get (a : asset) (k : string) : value :=
  match Py.assoc k (asset_data a) with Some v => v | None => VNone end.

Fixpoint check_if_resource_exist (assets : list asset)
    (resource_name : value) (resource_type : string) : option string :=
  match assets with
  | [] => None
  | asset :: rest =>
      if String.eqb (asset_type asset) resource_type then
        if String.eqb resource_type Folder
           && Py.eqb (data_get asset "displayName") resource_name
        then Some (asset_name asset)
        else if String.eqb resource_type Project
                && (Py.eq_str (data_get asset "name")
                      ("projects/" +:+ Py.str resource_name)
                    || Py.eqb (data_get asset "projectId") resource_name)
        then Some (asset_name asset)
        else check_if_resource_exist rest resource_name resource_type
      else check_if_resource_exist rest resource_name resource_type
  end.

(** [if x:] for an [Optional[str]] *)
Definition found (x : option string) : bool :=
  match x with Some s => negb (String.eqb s "") | None => false end.

Definition elements_to_format (k : provisioner_kind) : list string :=
  match k with
  | ProjectProvisioner =>
      ["ENGAGEMENT_MANAGER"; "PROJECT_NAME"; "FOLDER_NAME"; "WBS"; "DATASECURITY"]
  | FolderProvisioner => []
  end.

Definition _format_label_elements (k : provisioner_kind) : M unit :=
  for_each (elements_to_format k) (fun element =>
    let* w := get_world in
    match config_data w !! element with
    | Some v => set_config element (VStr (BaseProvisioner.format_for_label_system v))
    | None => ret tt
    end).

(** [re.match] of ["folders/(\d+)$"] at the start of [s]: the digits. *)
Definition folders_here (s : string) : option string :=
  match PyStr.strip_prefix "folders/" s with
  | Some r =>
      let '(digits, rest) := PyStr.span PyStr.is_digit r in
      if negb (String.eqb digits "") && Re.at_eol rest then Some digits else None
  | None => None
  end.

(** [re.search(r"folders/(\d+)$", s)]: the group of the leftmost match. *)
Fixpoint search_folders (s : string) : option string :=
  match folders_here s with
  | Some digits => Some digits
  | None =>
      match s with
      | EmptyString => None
      | String _ s' => search_folders s'
      end
  end.

Definition _extract_folder_id (parent_folder_id_match : option string)
  : option string :=
  if found parent_folder_id_match then
    match parent_folder_id_match with
    | Some m =>
        match search_folders m with
        | Some digits => Some ("folders/" +:+ digits)
        | None => None
        end
    | None => None
    end
  else None.

(** [re.match(r"^dw-([a-z]+)-", text)]: the group. *)
Definition extract_dw_environment (text : string) : option string :=
  match PyStr.strip_prefix "dw-" text with
  | Some r =>
      let '(env, rest) := PyStr.span PyStr.is_lower r in
      if negb (String.eqb env "") && PyStr.starts_with "-" rest
      then Some env else None
  | None => None
  end.

End HierarchyrProvisioner.

(** ** The project provisioner (app/provisioners/hierarchy/projects.py) *)

(** [os.getenv('BUDGET_LIMIT', 150)]: the integer 150 unless the variable is
    set, and then its text. *)
Inductive limit :=
| LimitInt (z : Z)
| LimitStr (s : string).

Definition default_BUDGET_LIMIT : limit := LimitInt 150.

Module GcpProjectProvisioner.

Import BaseProvisioner HierarchyrProvisioner.

(** [env.upper()] for the [Optional[str]] that [extract_dw_environment] returns *)
Definition env_upper (env : option string) : exn + string :=
  match env with
  | Some e => inr (PyStr.upper e)
  | None => inl (mk_exn AttributeError "'NoneType' object has no attribute 'upper'")
  end.

(** [data.get(k, default)] printed in an f-string *)
Definition data_get_str (data : gmap string value) (k default : string) : string :=
  match data !! k with Some v => Py.str v | None => default end.

(** [data[k]] *)
Definition data_item (data : gmap string value) (k : string) : exn + value :=
  match data !! k with
  | Some v => inr v
  | None => inl (mk_exn KeyError (Py.str_repr k))
  end.

Fixpoint environment_details (data : gmap string value) (names : list string)
  : exn + list string :=
  match names with
  | [] => inr []
  | dw_env_project_name :: rest =>
      match env_upper (extract_dw_environment dw_env_project_name) with
      | inr up =>
          let budget := data_get_str data ("BUDGET_" +:+ up) "N/A" in
          match environment_details data rest with
          | inr others =>
              inr (("- *" +:+ up +:+ "*: Name: `" +:+ dw_env_project_name
                    +:+ "`, Budget (euros): `" +:+ budget +:+ "`") :: others)
          | inl e => inl e
          end
      | inl e => inl e
      end
  end.

Definition _get_request_comment_message : M string :=
  let* w := get_world in
  let description_parts :=
    [ "*Jira Issue:* 🔑 " +:+ config_get_str w "ISSUE_KEY" "N/A";
      "*Target Folder:* 📂 " +:+ config_get_str w "FOLDER_NAME" "N/A";
      "*Project Type:* 🏷️ " +:+ config_get_str w "PROJECT_TYPE" "N/A";
      "*Project Type Folder:* 🗂️ " +:+ config_get_str w "PROJECT_TYPE_FOLDER" "N/A";
      "*Data Security Level:* " +:+ config_get_str w "DATASECURITY" "N/A" +:+ " 🛡️";
      "*Target Environments:* 🌐" ] in
  let* details :=
    lift (environment_details (config_data w) (dw_env_project_name_list w)) in
  ret (PyStr.join (String "010" EmptyString) (description_parts ++ details)).

Definition missing_budget_message (env : value) (budget_key : string) : string :=
  "The '" +:+ Py.str env +:+ "' environment has no associated budget key ('"
  +:+ budget_key +:+ "'). Please ensure this information is included in the Jira request.".

(** The body of the loop of [check_budget_keys] *)
Definition check_budget_key (data : gmap string value) (env : value) : exn + unit :=
  match PyOp.upper env with
  | inr up =>
      let budget_key := "BUDGET_" +:+ up in
      if bool_decide (is_Some (data !! budget_key)) then inr tt
      else inl (mk_exn ValueError (missing_budget_message env budget_key))
  | inl e => inl e
  end.

(** [for x in l: body x] for a body without effect on the state *)
Fixpoint first_error {A} (l : list A) (body : A -> exn + unit) : exn + unit :=
  match l with
  | [] => inr tt
  | x :: l' =>
      match body x with
      | inr _ => first_error l' body
      | inl e => inl e
      end
  end.

Definition environment_missing : exn :=
  mk_exn ValueError "The 'ENVIRONMENT' field in config_data is empty or missing.".

(** A static method: a function of [data] alone. *)
Definition check_budget_keys (data : gmap string value) : exn + bool :=
  if Nat.eqb (size data) 0 then
    inl (mk_exn ValueError "The config_data structure is empty.")
  else
    match data !! "ENVIRONMENT" with
    | Some envs =>
        if Py.truthy envs then
          match PyOp.iter envs with
          | inr env_list =>
              match first_error env_list (check_budget_key data) with
              | inr _ => inr true
              | inl e => inl e
              end
          | inl e => inl e
          end
        else inl environment_missing
    | None => inl environment_missing
    end.

Definition _validate_folder_existence : M unit :=
  let* folder_name := config_item "FOLDER_NAME" in
  let* w := get_world in
  if negb (found (check_if_resource_exist (assets w) folder_name Folder)) then
    raise (mk_exn ValueError
             ("Parent folder '" +:+ Py.str folder_name
              +:+ "' not found in the resource hierarchy."))
  else ret tt.

(** [f'dw-{environment}-{project_name}'] *)
Definition dw_name (environment project_name : value) : string :=
  "dw-" +:+ Py.str environment +:+ "-" +:+ Py.str project_name.

Definition exists_message (dw_env_project_name : string) : string :=
  "Project '" +:+ dw_env_project_name +:+ "' exists already in the resource hierarchy.".

Definition _validate_project_name_uniqueness (project_name environment : value)
  : M unit :=
  let dw_env_project_name := dw_name environment project_name in
  let* w := get_world in
  if found (check_if_resource_exist (assets w) (VStr dw_env_project_name) Project) then
    raise (mk_exn ValueError (exists_message dw_env_project_name))
  else modify (upd_name_list (fun l => l ++ [dw_env_project_name])).

(** The loop of [get_project_subfolder_id] over the snapshot *)
Fixpoint find_subfolder (assets : list asset) (subfolder_name parent_folder_id : string)
  : option string :=
  match assets with
  | [] => None
  | asset :: rest =>
      if String.eqb (asset_type asset) Folder
         && Py.eq_str (data_get asset "displayName") subfolder_name
      then
        if existsb (String.eqb parent_folder_id) (asset_ancestors asset)
        then Some (asset_name asset)
        else if Py.eq_str (data_get asset "parent") parent_folder_id
        then Some (asset_name asset)
        else find_subfolder rest subfolder_name parent_folder_id
      else find_subfolder rest subfolder_name parent_folder_id
  end.

(** It reads the snapshot [self.assets] only. *)
Definition get_project_subfolder_id (assets : list asset)
    (parent_folder_name : value) (subfolder_name : string) : exn + option string :=
  let parent_folder_id_match :=
    check_if_resource_exist assets parent_folder_name Folder in
  if negb (found parent_folder_id_match) then
    inl (mk_exn GcpProvisioningError
           ("Parent folder '" +:+ Py.str parent_folder_name
            +:+ "' not found. Cannot search for subfolder '" +:+ subfolder_name +:+ "'."))
  else
    match _extract_folder_id parent_folder_id_match with
    | None =>
        inl (mk_exn GcpProvisioningError
               ("Could not extract ID for parent folder '" +:+ Py.str parent_folder_name
                +:+ "'. Cannot search for subfolder '" +:+ subfolder_name +:+ "'."))
    | Some parent_folder_id =>
        inr (find_subfolder assets subfolder_name parent_folder_id)
    end.

(** [env_mapping.get(environment)] *)
Definition env_mapping_get (environment : value) : exn + option string :=
  match environment with
  | VStr e => inr (Py.assoc e env_mapping)
  | VList _ | VDict _ =>
      inl (mk_exn TypeError ("unhashable type: '" +:+ type_name environment +:+ "'"))
  | _ => inr None
  end.

Definition opt_value (o : option string) : value :=
  match o with Some s => VStr s | None => VNone end.

Definition _validate_environment_subfolder (folder_name environment : value) : M unit :=
  let* subfolder_to_find := lift (env_mapping_get environment) in
  if negb (found subfolder_to_find) then
    raise (mk_exn ValueError
             ("No folder mapping found for environment '" +:+ Py.str environment +:+ "'."))
  else
    let subfolder := match subfolder_to_find with Some s => s | None => "" end in
    let* w := get_world in
    let* env_folder_id :=
      lift (get_project_subfolder_id (assets w) folder_name subfolder) in
    if found env_folder_id then
      let* up := py_upper environment in
      set_config ("FOLDER_" +:+ up) (opt_value (_extract_folder_id env_folder_id))
    else
      raise (mk_exn ValueError
               ("Subfolder '" +:+ subfolder +:+ "' not found under '"
                +:+ Py.str folder_name +:+ "'.")).

(** The body of the loop of [validate_folder_and_projects_name] *)
Definition check_environment (project_name each_env : value) : M unit :=
  _validate_project_name_uniqueness project_name each_env >>
  let* folder_name := config_item "FOLDER_NAME" in
  _validate_environment_subfolder folder_name each_env.

Definition name_check_error (e : exn) : exn :=
  mk_exn GcpProvisioningError
    ("Validation error during folder/project name check: " +:+ e_msg e).

Definition validate_folder_and_projects_name : M unit :=
  try_except
    (_validate_folder_existence >>
     let* project_name := config_item "PROJECT_NAME" in
     let* envs := config_item "ENVIRONMENT" in
     let* env_list := py_iter envs in
     for_each env_list (check_environment project_name))
    (isinstance Exception)
    (fun e => raise (name_check_error e)).

Definition validation_error (e : exn) : exn :=
  mk_exn GcpProvisioningError ("Project provisioning validation error: " +:+ e_msg e).

Definition _validate_jira_request : M unit :=
  try_except
    (_format_label_elements ProjectProvisioner >>
     validate_folder_and_projects_name >>
     let* w := get_world in
     let* _ := lift (check_budget_keys (config_data w)) in
     ret tt)
    (isinstance Exception)
    (fun e => raise (validation_error e)).

Definition build_project_terraform_yaml (data : gmap string value)
    (dw_env_project_name : string) (env : option string) (data_type_tag : value)
  : exn + value :=
  match env_upper env with
  | inl e => inl e
  | inr up =>
      let env_s := match env with Some e => e | None => "" end in
      match data_item data ("FOLDER_" +:+ up),
            data_item data "PROJECT_TYPE",
            data_item data "PROJECT_TYPE_FOLDER",
            data_item data "FOLDER_NAME",
            data_item data "DATASECURITY",
            data_item data "ENGAGEMENT_MANAGER",
            data_item data "WBS" with
      | inr parent, inr project_type, inr project_sub_type, inr project_name_folder,
        inr data_security, inr engagement_manager, inr wbs =>
          inr (VDict
            [ ("parent", parent);
              ("shared_vpc_service_config",
               VDict [ ("host_project", VStr (env_s +:+ "-spoke-0"));
                       ("network_users", VList [VStr "gcp-devops"]) ]);
              ("billing_budgets", VList [VStr dw_env_project_name]);
              ("tag_bindings", VDict [("data-type", data_type_tag)]);
              ("labels",
               VDict [ ("environment", VStr env_s);
                       ("project_type", project_type);
                       ("project_sub_type", project_sub_type);
                       ("project_name_folder", project_name_folder);
                       ("project_name", VStr dw_env_project_name);
                       ("data_security", data_security);
                       ("engagement_manager", engagement_manager);
                       ("wbs", wbs) ]) ])
      | inl e, _, _, _, _, _, _
      | _, inl e, _, _, _, _, _
      | _, _, inl e, _, _, _, _
      | _, _, _, inl e, _, _, _
      | _, _, _, _, inl e, _, _
      | _, _, _, _, _, inl e, _
      | _, _, _, _, _, _, inl e => inl e
      end
  end.

Definition build_budget_terraform_yaml (data : gmap string value)
    (dw_env_project_name : string) (env : option string) : exn + value :=
  match env_upper env with
  | inl e => inl e
  | inr up =>
      match data_item data ("BUDGET_" +:+ up) with
      | inl e => inl e
      | inr units =>
          inr (VDict
            [ ("display_name", VStr ("budget for " +:+ dw_env_project_name));
              ("amount", VDict [("units", units)]);
              ("filter",
               VDict [ ("period", VDict [("calendar", VStr "MONTH")]);
                       ("projects", VList [VStr dw_env_project_name]) ]);
              ("threshold_rules",
               VList [ VDict [("percent", VFloat (Fin 5 (-1)))];
                       VDict [("percent", VFloat (Fin 75 (-2)))] ]);
              ("update_rules",
               VDict [("default",
                       VDict [ ("disable_default_iam_recipients", VBool true);
                               ("monitoring_notification_channels",
                                VList [VStr "billing-default"]) ])]) ])
      end
  end.

Definition unorderable (a b : string) : exn :=
  mk_exn TypeError ("'<' not supported between instances of '" +:+ a
                    +:+ "' and '" +:+ b +:+ "'").

(** [budget_dev < BUDGET_LIMIT] *)
Definition below_limit (BUDGET_LIMIT : limit) (budget_dev : value) : exn + bool :=
  match BUDGET_LIMIT with
  | LimitInt z =>
      match Py.as_number budget_dev with
      | Some n => inr (Py.num_ltb n (NInt z))
      | None => inl (unorderable (type_name budget_dev) "int")
      end
  | LimitStr t =>
      match budget_dev with
      | VStr s => inr (String.ltb s t)
      | _ => inl (unorderable (type_name budget_dev) "str")
      end
  end.

(** A static method. *)
Definition allow_autoapprove_on_dev_budget_limit (BUDGET_LIMIT : limit)
    (data_security budget_dev : value) : exn + bool :=
  if Py.eq_str data_security "l0" then
    match budget_dev with
    | VNone => inr false
    | _ =>
        match below_limit BUDGET_LIMIT budget_dev with
        | inr true => inr true
        | inr false => inr false
        | inl e => inl e
        end
    end
  else inr false.

(** [github_payload[name] = f(github_payload[name])], the entry being there *)
Definition upd_unit (name : string) (f : publish_unit -> publish_unit) : M unit :=
  modify (fun w =>
    upd_payload
      (option_map (fun p => match Py.assoc name p with
                            | Some u => Py.assoc_set name (f u) p
                            | None => p
                            end) (github_payload w)) w).

Definition with_files (f : list (string * list (string * string))
                           -> list (string * list (string * string)))
    (u : publish_unit) : publish_unit :=
  PublishUnit (pu_pr_title u) (pu_env u) (pu_data_type_tag u) (pu_new_branch_name u)
              (option_map f (pu_yaml_content_encoded u)) (pu_autoapprove u).

(** [github_payload[name]["yaml_content_encoded"][type_file][key] = v] *)
Definition set_file_key (type_file key v : string) (u : publish_unit) : publish_unit :=
  with_files (fun files =>
    match Py.assoc type_file files with
    | Some d => Py.assoc_set type_file (Py.assoc_set key v d) files
    | None => files
    end) u.

(** [data_security_mapping[config_data["DATASECURITY"]]] *)
Definition data_type_tag_of (data_security : value) : exn + value :=
  match data_security with
  | VStr s =>
      match Py.assoc s data_security_mapping with
      | Some tag => inr (VStr tag)
      | None => inl (mk_exn KeyError (Py.str_repr s))
      end
  | VList _ | VDict _ =>
      inl (mk_exn TypeError ("unhashable type: '" +:+ type_name data_security +:+ "'"))
  | _ => inl (mk_exn KeyError (Py.repr data_security))
  end.

(** The body of the loop over ["budget"; "project"] *)
Definition build_file (dump : value -> string) (data_type_tag : value)
    (dw_env_project_name : string) (env : option string) (issue type_file : string)
  : M unit :=
  upd_unit dw_env_project_name (with_files (Py.assoc_set type_file [])) >>
  let* w := get_world in
  let* doc :=
    lift (if String.eqb type_file "budget"
          then build_budget_terraform_yaml (config_data w) dw_env_project_name env
          else build_project_terraform_yaml (config_data w) dw_env_project_name env
                 data_type_tag) in
  upd_unit dw_env_project_name
    (set_file_key type_file "file" (encode_yaml_file dump doc)) >>
  upd_unit dw_env_project_name
    (set_file_key type_file "commit_message"
       ("[" +:+ issue +:+ "] Add configuration " +:+ type_file +:+ " for "
        +:+ dw_env_project_name +:+ " project.")) >>
  upd_unit dw_env_project_name
    (set_file_key type_file "path"
       ("data/" +:+ type_file +:+ "s/" +:+ dw_env_project_name +:+ ".yaml")).

(** [config_data.get("BUDGET_DEV", 0.0)] *)
Definition budget_dev_or_zero (data : gmap string value) : value :=
  match data !! "BUDGET_DEV" with
  | Some b => b
  | None => VFloat (Fin 0 0)
  end.

(** The condition of the auto-approval of a unit *)
Definition autoapprove_of (BUDGET_LIMIT : limit) (data : gmap string value)
    (env : option string) : exn + bool :=
  if bool_decide (env = Some "dev") then
    match data_item data "DATASECURITY" with
    | inr data_security =>
        allow_autoapprove_on_dev_budget_limit BUDGET_LIMIT data_security
          (budget_dev_or_zero data)
    | inl e => inl e
    end
  else inr false.

Definition set_title (title : string) (u : publish_unit) : publish_unit :=
  PublishUnit (Some title) (pu_env u) (pu_data_type_tag u) (pu_new_branch_name u)
              (pu_yaml_content_encoded u) (pu_autoapprove u).
Definition set_env (env : option string) (u : publish_unit) : publish_unit :=
  PublishUnit (pu_pr_title u) (Some env) (pu_data_type_tag u) (pu_new_branch_name u)
              (pu_yaml_content_encoded u) (pu_autoapprove u).
Definition set_tag (tag : value) (u : publish_unit) : publish_unit :=
  PublishUnit (pu_pr_title u) (pu_env u) (Some tag) (pu_new_branch_name u)
              (pu_yaml_content_encoded u) (pu_autoapprove u).
Definition set_branch (branch : string) (u : publish_unit) : publish_unit :=
  PublishUnit (pu_pr_title u) (pu_env u) (pu_data_type_tag u) (Some branch)
              (pu_yaml_content_encoded u) (pu_autoapprove u).
Definition set_files (files : list (string * list (string * string)))
    (u : publish_unit) : publish_unit :=
  PublishUnit (pu_pr_title u) (pu_env u) (pu_data_type_tag u) (pu_new_branch_name u)
              (Some files) (pu_autoapprove u).
Definition set_autoapprove (a : value) (u : publish_unit) : publish_unit :=
  PublishUnit (pu_pr_title u) (pu_env u) (pu_data_type_tag u) (pu_new_branch_name u)
              (pu_yaml_content_encoded u) (Some a).

(** The body of the loop of [_built_terraform_yamls] for one project name *)
Definition build_unit (dump : value -> string) (BUDGET_LIMIT : limit)
    (new_branch_name : string) (data_type_tag : value)
    (dw_env_project_name : string) : M unit :=
  let* w := get_world in
  let issue := config_get_str w "ISSUE_KEY" "N/A" in
  modify (fun w => upd_payload
            (option_map (Py.assoc_set dw_env_project_name empty_unit) (github_payload w)) w) >>
  upd_unit dw_env_project_name
    (set_title ("[" +:+ issue +:+ "] PR for project creation: " +:+ dw_env_project_name)) >>
  let env := extract_dw_environment dw_env_project_name in
  upd_unit dw_env_project_name (set_env env) >>
  upd_unit dw_env_project_name (set_tag data_type_tag) >>
  upd_unit dw_env_project_name (set_branch new_branch_name) >>
  upd_unit dw_env_project_name (set_files []) >>
  for_each ["budget"; "project"]
    (build_file dump data_type_tag dw_env_project_name env issue) >>
  let* w' := get_world in
  let* approve := lift (autoapprove_of BUDGET_LIMIT (config_data w') env) in
  upd_unit dw_env_project_name (set_autoapprove (VBool approve)).

Definition build_error (e : exn) : exn :=
  mk_exn GcpProvisioningError ("Failed to build Terraform YAMLs: " +:+ e_msg e).

Definition _built_terraform_yamls (dump : value -> string) (BUDGET_LIMIT : limit)
  : M unit :=
  try_except
    (let* issue_key := config_item "ISSUE_KEY" in
     let new_branch_name := "ticket-" +:+ Py.str issue_key in
     let* data_security := config_item "DATASECURITY" in
     let* data_type_tag := lift (data_type_tag_of data_security) in
     let* w := get_world in
     for_each (dw_env_project_name_list w)
       (build_unit dump BUDGET_LIMIT new_branch_name data_type_tag))
    (isinstance Exception)
    (fun e => raise (build_error e)).

End GcpProjectProvisioner.

(** ** The folder provisioner (app/provisioners/hierarchy/folders.py) *)

Module GcpFolderProvisioner.

Import BaseProvisioner HierarchyrProvisioner.

Definition _get_request_comment_message : M string :=
  let* w := get_world in
  ret (PyStr.join (String "010" EmptyString)
    [ "*Jira Issue:* ðŸ”‘ " +:+ config_get_str w "ISSUE_KEY" "N/A";
      "*Target Folder:* ðŸ“‚ " +:+ config_get_str w "FOLDER_NAME" "N/A";
      "*Project Type:* ðŸ·ï¸ " +:+ config_get_str w "PROJECT_TYPE" "N/A";
      "*Project Type Folder:* ðŸ—‚ï¸ " +:+ config_get_str w "PROJECT_TYPE_FOLDER" "N/A" ]).

Definition exists_message (folder_name : value) : string :=
  "Folder '" +:+ Py.str folder_name +:+ "' exists already in the resource hierarchy.".

Definition _validate_folder_name_uniqueness : M unit :=
  let* folder_name := config_item "FOLDER_NAME" in
  let* w := get_world in
  if found (check_if_resource_exist (assets w) folder_name Folder) then
    raise (mk_exn ValueError (exists_message folder_name))
  else ret tt.

Definition _extract_project_type_folder_name : M string :=
  let* folder_name := config_item "PROJECT_TYPE_FOLDER" in
  let* w := get_world in
  let project_type_folder_name :=
    _extract_folder_id (check_if_resource_exist (assets w) folder_name Folder) in
  if negb (found project_type_folder_name) then
    raise (mk_exn GcpProvisioningError
             ("Parent folder '" +:+ Py.str folder_name
              +:+ "' does not exist in the resource hierarchy. Cannot create sub-folder."))
  else ret (match project_type_folder_name with Some id => id | None => "" end).

Definition _validate_jira_request : M unit :=
  try_except
    (_validate_folder_name_uniqueness >>
     let* parent_folder_id := _extract_project_type_folder_name in
     set_config "PARENT_FOLDER_ID" (VStr parent_folder_id))
    (isinstance Exception)
    (fun e =>
       if isinstance GcpProvisioningError e then raise e
       else if isinstance ValueError e then
         raise (mk_exn GcpProvisioningError ("Validation error: " +:+ e_msg e))
       else
         raise (mk_exn GcpProvisioningError
                  ("An unexpected error occurred during validation: " +:+ e_msg e))).

Definition build_project_folder_terraform_yaml (folder_parent_id : value) : M value :=
  let* name := config_item "FOLDER_NAME" in
  let* project_type := config_item "PROJECT_TYPE" in
  let* project_type_folder := config_item "PROJECT_TYPE_FOLDER" in
  ret (VDict
    [ ("parent", folder_parent_id);
      ("name", name);
      ("labels",
       VDict [ ("project_type", VStr (format_for_label_system project_type));
               ("project_sub_type", VStr (format_for_label_system project_type_folder));
               ("project_name_folder", VStr (format_for_label_system name)) ]) ]).

(** A dictionary key must be hashable. *)
Definition as_key (v : value) : M string :=
  match v with
  | VList _ | VDict _ =>
      raise (mk_exn TypeError ("unhashable type: '" +:+ type_name v +:+ "'"))
  | _ => ret (Py.str v)
  end.

Definition _built_terraform_yamls (dump : value -> string) : M unit :=
  let* w := get_world in
  match config_data w !! "PARENT_FOLDER_ID" with
  | Some parent_folder_id =>
      if Py.truthy parent_folder_id then
        let* terraform_yaml_content :=
          build_project_folder_terraform_yaml parent_folder_id in
        let encoded_yaml := encode_yaml_file dump terraform_yaml_content in
        let* folder_name := config_item "FOLDER_NAME" in
        let issue := config_get_str w "ISSUE_KEY" "None" in
        let label := format_for_label_system folder_name in
        let file_path := "gcp/folders/" +:+ label +:+ "/folder.yaml" in
        let commit_message :=
          "feat: Add GCP folder '" +:+ Py.str folder_name +:+ "' via Jira " +:+ issue in
        let pr_title :=
          "feat: GCP Folder '" +:+ Py.str folder_name +:+ "' - Jira " +:+ issue in
        let new_branch_name := "feature/jira-" +:+ issue +:+ "-folder-" +:+ label in
        let* key := as_key folder_name in
        modify (upd_payload (Some
          [ (key,
             PublishUnit (Some pr_title) None None (Some new_branch_name)
               (Some [ ("folder_yaml",
                        [ ("path", file_path);
                          ("commit_message", commit_message);
                          ("file", encoded_yaml) ]) ])
               (Some (match config_data w !! "AUTO_APPROVE" with
                      | Some a => a
                      | None => VBool false
                      end))) ]))
      else raise (mk_exn GcpProvisioningError
                    "Parent folder ID is missing in config_data. Cannot build Terraform YAMLs.")
  | None => raise (mk_exn GcpProvisioningError
                     "Parent folder ID is missing in config_data. Cannot build Terraform YAMLs.")
  end.

End GcpFolderProvisioner.

(** ** The source-control client (app/github.py) *)

Definition opt_str (o : option string) : string :=
  match o with Some s => s | None => "None" end.

Module GitHub.

(** The next answer of the service; it stops answering when the script is
    used up. *)
Definition next_answer : M http_answer :=
  let* w := get_world in
  match github_script w with
  | a :: rest => modify (upd_script rest) >> ret a
  | [] => ret NoAnswer
  end.

(** [requests.get/post/put(...)]: the response, or a [RequestException]
    that carries none. *)
Definition request : M (Z * value) :=
  let* a := next_answer in
  match a with
  | Answer status body => ret (status, body)
  | NoAnswer => raise (Exn RequestException "connection error" None)
  end.

Definition is_error_status (status : Z) : bool := (400 <=? status) && (status <? 600).

(** [response.raise_for_status()] *)
Definition raise_for_status (status : Z) : M unit :=
  if is_error_status status then
    raise (Exn RequestException (PyStr.of_Z status +:+ " Error") (Some status))
  else ret tt.

Definition create_branch : M value :=
  let* (_, body) := request in ret body.

Definition get_latest_sha_from_branch : M value :=
  try_except
    (let* (status, base_branch_data) := request in
     raise_for_status status >>
     let* object := py_item base_branch_data "object" in
     py_item object "sha")
    (isinstance Exception)
    (fun _ => raise (mk_exn BaseException "Check if file exist")).

(** [base64.b64decode(v).decode('utf-8')], as code points *)
Definition decode_text (v : value) : exn + list N :=
  match v with
  | VStr s =>
      match Base64.b64decode s with
      | Some bytes =>
          match Utf8.decode bytes with
          | Some text => inr text
          | None => inl (mk_exn ValueError "'utf-8' codec can't decode bytes")
          end
      | None => inl (mk_exn ValueError "Incorrect padding")
      end
  | _ => inl (mk_exn TypeError
                ("argument should be a bytes-like object or ASCII string, not '"
                 +:+ type_name v +:+ "'"))
  end.

Definition opt_value (o : option string) : value :=
  match o with Some s => VStr s | None => VNone end.

Definition different_content_message (file_path new_branch_name : option string)
  : string :=
  "File '" +:+ opt_str file_path +:+ "' already exists in branch '"
  +:+ opt_str new_branch_name +:+ "' with different content.".

Definition compare_existing_file (new_branch_name yaml_content_encoded file_path
    : option string) : M value :=
  try_except
    (let* (status, existing_content_data) := request in
     raise_for_status status >>
     let* content := py_item existing_content_data "content" in
     let* existing_content_decoded := lift (decode_text content) in
     let* new_content_decoded := lift (decode_text (opt_value yaml_content_encoded)) in
     if bool_decide (Utf8.strip existing_content_decoded = Utf8.strip new_content_decoded)
     then ret existing_content_data
     else raise (mk_exn FileExistsError
                   (different_content_message file_path new_branch_name)))
    (isinstance RequestException)
    (fun _ => ret (opt_value yaml_content_encoded)).

Definition commit_file_in_branch (file_path commit_message yaml_content_encoded
    new_branch_name : option string) : M unit :=
  try_except
    (let* (status, _) := request in
     raise_for_status status)
    (isinstance Exception)
    (fun e =>
       if isinstance RequestException e then
         if bool_decide (e_status e = Some 422) then
           compare_existing_file new_branch_name yaml_content_encoded file_path >>
           ret tt
         else raise (mk_exn RequestException
                       ("Error during GitHub API request: " +:+ e_msg e))
       else raise (mk_exn BaseException
                     ("An unexpected error occurred while creating the file: " +:+ e_msg e))).

(** [base_sha[:7]] *)
Definition slice7 (base_sha : value) : M unit :=
  match base_sha with
  | VStr _ | VList _ => ret tt
  | _ => raise (mk_exn TypeError
                  ("'" +:+ type_name base_sha +:+ "' object is not subscriptable"))
  end.

Definition _commit_new_file (file_path commit_message yaml_content_encoded
    new_branch_name : option string) : M unit :=
  try_except
    (let* base_sha := get_latest_sha_from_branch in
     slice7 base_sha >>
     create_branch >>
     commit_file_in_branch file_path commit_message yaml_content_encoded new_branch_name)
    (isinstance Exception)
    (fun e =>
       if isinstance RequestException e then
         raise (mk_exn RequestException
                  ("Error during GitHub API request (file commit): " +:+ e_msg e))
       else if isinstance KeyError e then
         raise (mk_exn KeyError
                  (Py.str_repr ("Error accessing JSON data (file commit): " +:+ e_msg e)))
       else
         raise (mk_exn Exception
                  ("An unexpected error occurred during file commit: " +:+ e_msg e))).

Definition unbound_response : exn :=
  mk_exn UnboundLocalError
    "cannot access local variable 'response' where it is not associated with a value".

Definition enable_auto_merge : M unit :=
  let* a := next_answer in
  match a with
  | Answer _ _ => ret tt
  | NoAnswer => raise unbound_response
  end.

Definition _set_delete_branch_on_merge : M unit :=
  let* _ := next_answer in ret tt.

Definition create_pull_request (auto_merge : value) : M value :=
  let* a := next_answer in
  match a with
  | NoAnswer => raise unbound_response
  | Answer status pull_request_data =>
      if is_error_status status then ret VNone
      else
        let* _ := py_item pull_request_data "html_url" in
        (if Py.truthy auto_merge then
           let* _ := py_item pull_request_data "number" in
           enable_auto_merge >>
           let* _ := py_item pull_request_data "number" in
           _set_delete_branch_on_merge
         else ret tt) >>
        ret pull_request_data
  end.

Definition _create_pull_request_logic (auto_merge : value) : M value :=
  try_except
    (let* pr_response := create_pull_request auto_merge in
     let* has := (if Py.truthy pr_response then py_in "html_url" pr_response
                  else ret false) in
     if has then
       let* pr_url := py_item pr_response "html_url" in
       modify (upd_pr_list (fun l => l ++ [pr_url])) >>
       ret pr_url
     else raise (mk_exn Exception
                   "Failed to create pull request or received an empty response."))
    (isinstance Exception)
    (fun _ => ret VNone).

End GitHub.

(** ** The orchestrator (app/app_manager.py) *)

(** What the process is started with.  [github_configs] is the table of
    configs/github/credentials.py, which is not part of the sources: each
    entry maps "GITHUB_TOKEN", "REPO_OWNER" and "REPO_NAME". *)
Record settings := Settings {
  DEBUG : bool;
  BUDGET_LIMIT : limit;
  github_configs : list (string * list (string * string));
  asset_listing : listing
}.

(** The incoming HTTP request: its method and [request.get_json(silent=True)]
    ([VNone] when the body is not JSON). *)
Record http_request := HttpRequest {
  req_method : string;
  req_json : value
}.

Module AppManager.

Definition jira_id_str : M string :=
  let* w := get_world in ret (Py.str (jira_id w)).

Definition comment (text kind : string) : M unit :=
  let* id := jira_id_str in add_comment_to_jira_issue id text kind.

Definition block : M unit :=
  let* id := jira_id_str in
  let* _ := change_issue_status "Set as blocked" id in ret tt.

Definition check_if_post_request (request : http_request) : M unit :=
  if negb (String.eqb (req_method request) "POST") then
    raise (mk_exn InvalidMethodError "Received non-POST request. Method Not Allowed.")
  else ret tt.

Definition invalid_payload : exn :=
  mk_exn InvalidPayloadError
    ("Empty or invalid JSON payload received from request body. "
     +:+ "If not empty, check that the fields 'key' under 'issue' is present "
     +:+ "and/or 'name' under 'issue'.'fields'.'issuetype'.").

(** [k not in v or <rest>] *)
Definition require (k : string) (v : value) (rest : M unit) : M unit :=
  let* has := py_in k v in
  if has then rest else raise invalid_payload.

Definition transform_into_json (request : http_request) : M unit :=
  modify (upd_request (req_json request)) >>
  match req_json request with
  | VDict _ =>
      let rj := req_json request in
      require "issue" rj
        (let* issue := py_item rj "issue" in
         require "key" issue
           (require "fields" issue
              (let* fields := py_item issue "fields" in
               require "issuetype" fields
                 (let* issuetype := py_item fields "issuetype" in
                  require "name" issuetype (ret tt)))))
  | _ => raise invalid_payload
  end.

Definition _extract_jira_id : M value :=
  let* w := get_world in
  let* issue := py_item (request_json w) "issue" in
  let* key := py_item issue "key" in
  set_config "ISSUE_KEY" key >>
  ret key.

Definition _extract_issue_type_name : M value :=
  let* w := get_world in
  let* issue := py_item (request_json w) "issue" in
  let* fields := py_item issue "fields" in
  let* issuetype := py_item fields "issuetype" in
  py_item issuetype "name".

Definition extract_issue : M unit :=
  let* ty := _extract_issue_type_name in
  let* w := get_world in
  modify (upd_issue ty (jira_id w)) >>
  let* id := _extract_jira_id in
  modify (upd_issue ty id) >>
  if negb (Py.truthy ty) then
    raise (mk_exn MissingRequiredDataError "Issue type name not found in the request.")
  else if negb (Py.truthy id) then
    raise (mk_exn MissingRequiredDataError "Issue Jira ID not found in the request.")
  else
    comment ("[START] Received Jira webhook payload for " +:+ Py.str id
             +:+ " (" +:+ Py.str ty +:+ ").") "info".

Definition _extract_config_field_values_for_issue_request
  : M (list (string * field_config)) :=
  let* w := get_world in
  if Py.eq_str (issue_type_name w) "New GCP Project Provisioning" then
    ret project_creation_ticket_fields
  else if Py.eq_str (issue_type_name w) "New GCP Folder Provisioning" then
    ret folder_creation_ticket_fields
  else
    raise (mk_exn InvalidJiraConfigurationParser
             ("Issue type '" +:+ Py.str (issue_type_name w)
              +:+ "' not found in the configuration file to parse the request arguments.")).

(** The body of the loop of [parse_jira_request] *)
Definition process_field (entry : string * field_config) : M unit :=
  let element := snd entry in
  let* field_value := PayloadParser._extract_field_value element in
  let ty := fc_type element in
  if String.eqb ty "dropdown" then PayloadParser._process_dropdown element field_value
  else if String.eqb ty "people" then PayloadParser._process_people element field_value
  else if String.eqb ty "reporter" then PayloadParser._process_reporter element field_value
  else if String.eqb ty "dropdown_nested"
  then PayloadParser._process_dropdown_nested element field_value
  else if String.eqb ty "checklist" then PayloadParser._process_checklist element field_value
  else if String.eqb ty "textfield" then PayloadParser._process_textfield element field_value
  else if String.eqb ty "numericfield"
  then PayloadParser._process_numericfield element field_value
  else ret tt.

(** The [try] block of [parse_jira_request] for a given field table *)
Definition parse_fields (ticket_fields : list (string * field_config)) : M unit :=
  try_except
    (for_each ticket_fields process_field >>
     PayloadParser._check_mandatory_fields ticket_fields)
    (isinstance Exception)
    (fun e =>
       if isinstance ValueError e then raise e
       else if isinstance KeyError e then
         raise (mk_exn ValueError
                  ("Missing key in Jira payload during parsing: " +:+ e_msg e))
       else
         raise (mk_exn ValueError
                  ("An unexpected error occurred during parsing: " +:+ format_exc e))).

Definition parse_jira_request : M unit :=
  let* ticket_fields := _extract_config_field_values_for_issue_request in
  parse_fields ticket_fields.

Definition select_provisioner (cfg : settings) : M unit :=
  let* w := get_world in
  let snapshot := HierarchyrProvisioner._list_projects_and_folders (asset_listing cfg) in
  if Py.eq_str (issue_type_name w) "New GCP Project Provisioning" then
    modify (upd_provisioner ProjectProvisioner snapshot (Some []))
  else if Py.eq_str (issue_type_name w) "New GCP Folder Provisioning" then
    modify (upd_provisioner FolderProvisioner snapshot None)
  else
    raise (mk_exn InvalidJiraConfigurationParser
             ("Issue type '" +:+ Py.str (issue_type_name w)
              +:+ "' not configured for provisioning.")).

Definition credential (credentials : list (string * string)) (k : string) : M string :=
  lift_opt (Py.assoc k credentials) (mk_exn KeyError (Py.str_repr k)).

(** [github_configs.get(key)]: the keys of the table are texts, so another
    key finds nothing, and one that cannot be hashed raises. *)
Definition configs_get (cfg : settings) (key : value)
  : M (option (list (string * string))) :=
  match key with
  | VStr s => ret (Py.assoc s (github_configs cfg))
  | VList _ | VDict _ =>
      raise (mk_exn TypeError ("unhashable type: '" +:+ type_name key +:+ "'"))
  | _ => ret None
  end.

Definition _get_github_credentials (cfg : settings) : M (string * string * string) :=
  let* w := get_world in
  let effective_config_key :=
    if DEBUG cfg then VStr "debug_config" else issue_type_name w in
  let* credentials := configs_get cfg effective_config_key in
  match credentials with
  | Some (c :: cs) =>
      let credentials := c :: cs in
      let* token := credential credentials "GITHUB_TOKEN" in
      let* owner := credential credentials "REPO_OWNER" in
      let* name := credential credentials "REPO_NAME" in
      ret (token, owner, name)
  | _ =>
      raise (mk_exn GitHubOperationError
               ("GitHub configuration missing for issue type: "
                +:+ Py.str effective_config_key))
  end.

Definition initialize_github_manager (cfg : settings) : M unit :=
  let* w := get_world in
  if negb (Py.truthy (issue_type_name w)) then
    raise (mk_exn MissingRequiredDataError
             "Issue type not found in transformed data for GitHub credentials. Cannot initialize GitHub manager.")
  else
    let* (_, REPO_OWNER, REPO_NAME) := _get_github_credentials cfg in
    modify upd_github_manager >>
    comment ("Connecting to GitHub '" +:+ REPO_NAME +:+ "' under '" +:+ REPO_OWNER
             +:+ "' for '" +:+ Py.str (issue_type_name w) +:+ "'.") "info".

Definition not_initialized : exn := mk_exn GcpProvisioningError "Provisioner not initialized.".

(** [except GcpProvisioningError as e]: comment, block the ticket, re-raise. *)
Definition report_and_block (e : exn) : M unit :=
  comment (e_msg e) "error" >> block >> raise e.

Definition validate_jira_request : M unit :=
  try_except
    (let* w := get_world in
     match provisioner w with
     | Some k =>
         (match k with
          | ProjectProvisioner => GcpProjectProvisioner._validate_jira_request
          | FolderProvisioner => GcpFolderProvisioner._validate_jira_request
          end) >>
         let* message :=
           (match k with
            | ProjectProvisioner => GcpProjectProvisioner._get_request_comment_message
            | FolderProvisioner => GcpFolderProvisioner._get_request_comment_message
            end) in
         comment message "info"
     | None => raise not_initialized
     end)
    (isinstance GcpProvisioningError)
    report_and_block.

Definition built_terraform_yaml (cfg : settings) (dump : value -> string) : M unit :=
  try_except
    (let* w := get_world in
     match provisioner w with
     | Some ProjectProvisioner =>
         GcpProjectProvisioner._built_terraform_yamls dump (BUDGET_LIMIT cfg)
     | Some FolderProvisioner => GcpFolderProvisioner._built_terraform_yamls dump
     | None => raise not_initialized
     end)
    (isinstance GcpProvisioningError)
    report_and_block.

Definition pr_body : string :=
  "This pull request adds new files with YAML content, autogenerated by the Jira to GitHub application.".

Definition unit_files (u : publish_unit) : list (string * list (string * string)) :=
  match pu_yaml_content_encoded u with Some files => files | None => [] end.

Definition unit_autoapprove (u : publish_unit) : value :=
  match pu_autoapprove u with Some a => a | None => VNone end.

(** [x is True] *)
Definition is_True (v : value) : bool :=
  match v with VBool true => true | _ => false end.

(** The body of the outer loop of [push_to_github] *)
Definition publish_unit_body (dw_project_data : publish_unit) : M unit :=
  for_each (unit_files dw_project_data) (fun entry =>
    let file_data := snd entry in
    GitHub._commit_new_file
      (Py.assoc "path" file_data)
      (Py.assoc "commit_message" file_data)
      (Py.assoc "file" file_data)
      (pu_new_branch_name dw_project_data)) >>
  let* pr_url := GitHub._create_pull_request_logic (unit_autoapprove dw_project_data) in
  let* id := jira_id_str in
  if is_True (unit_autoapprove dw_project_data) then
    comment ("Created and auto-approved PR at " +:+ Py.str pr_url) "info" >>
    let* _ := change_issue_status "Set as done" id in ret tt
  else
    comment ("Created a PR that needs manual approval at " +:+ Py.str pr_url) "manual" >>
    let* _ := change_issue_status "Set as to be reviewed" id in ret tt.

Definition push_to_github : M unit :=
  try_except
    (let* w := get_world in
     if negb (github_manager w) then
       raise (mk_exn GcpProvisioningError "GitHub manager not initialized.")
     else
       match provisioner w, github_payload w with
       | Some _, Some payload =>
           for_each (List.map snd payload) publish_unit_body
       | _, _ =>
           raise (mk_exn GcpProvisioningError "Provisioner did not generate GitHub payload.")
       end)
    (isinstance Exception)
    (fun e =>
       if isinstance GcpProvisioningError e then report_and_block e
       else
         comment ("An unexpected error occurred during GitHub push: " +:+ e_msg e) "error" >>
         block >> raise e).

End AppManager.

(** ** The entry point (main.py) *)

Definition undefined_webhook_data : exn :=
  mk_exn NameError "name 'webhook_data' is not defined".

Definition handle_jira_webhook (cfg : settings) (dump : value -> string)
    (request : http_request) : M (string * Z) :=
  try_except
    (AppManager.check_if_post_request request >>
     AppManager.transform_into_json request >>
     AppManager.extract_issue >>
     AppManager.parse_jira_request >>
     AppManager.select_provisioner cfg >>
     AppManager.validate_jira_request >>
     AppManager.initialize_github_manager cfg >>
     AppManager.built_terraform_yaml cfg dump >>
     AppManager.push_to_github >>
     let* id := AppManager.jira_id_str in
     let* _ := change_issue_status "Set as done" id in
     ret ("Webhook processed successfully", 200))
    (isinstance Exception)
    (fun e =>
       if isinstance InvalidMethodError e then ret ("Method Not Allowed", 405)
       else if isinstance InvalidJiraConfigurationParser e then ret (e_msg e, 404)
       else if isinstance InvalidPayloadError e then raise undefined_webhook_data
       else if isinstance MissingRequiredDataError e then raise undefined_webhook_data
       else if isinstance GcpProvisioningError e then
         ret ("Internal Server Error: GCP provisioning operation failed. " +:+ e_msg e, 500)
       else if isinstance PermissionDeniedError e then
         ret ("Internal Server Error: Insufficient permissions for operation. " +:+ e_msg e, 500)
       else if isinstance GitHubOperationError e then
         AppManager.comment (e_msg e) "error" >> AppManager.block >>
         ret ("Internal Server Error: GitHub operation failed. " +:+ e_msg e, 500)
       else if isinstance JiraWebhookError e then
         ret ("Internal Server Error: A processing error occurred. " +:+ e_msg e, 500)
       else
         AppManager.comment (e_msg e) "error" >> AppManager.block >>
         ret ("Internal Server Error: An unexpected error occurred. Please check function logs.", 500)).

(** ** The pipeline facing the answers of the ticket system

    The methods of [PayloadParser] and [AppManager] that call the ticket
    system, and the entry point, with the client of [AppLogger]: a comment
    that the ticket system refuses raises, a transition that it does not
    offer is not made.  The other methods are the ones above. *)

Module Live.

(** *** app/parsers.py *)

Definition comment_error (text : string) : M unit :=
  let* id := PayloadParser.issue_key in
  AppLogger.add_comment_to_jira_issue id text "error".

Definition _process_textfield (field_config : field_config) (attribute_found : value)
  : M unit :=
  match attribute_found with
  | VNone => ret tt
  | _ =>
      match validation field_config with
      | Some regex_validation =>
          let* ok := PayloadParser.re_match_value regex_validation attribute_found in
          if negb ok then
            comment_error ("Invalid value '" +:+ Py.str attribute_found
                           +:+ "' found for '" +:+ output_name field_config
                           +:+ "'. " +:+ PayloadParser.error_suffix field_config)
          else set_config (output_name field_config) attribute_found
      | None => set_config (output_name field_config) attribute_found
      end
  end.

(** [try: config_data[out] = float(attribute_found)  except ValueError: ...] *)
Definition store_float (field_config : field_config) (attribute_found : value)
  : M unit :=
  try_except
    (let* f := lift (py_float attribute_found) in
     set_config (output_name field_config) (VFloat f))
    (isinstance ValueError)
    (fun _ =>
       comment_error ("Invalid numeric value '" +:+ Py.str attribute_found
                      +:+ "' for '" +:+ output_name field_config +:+ "'")).

Definition _process_numericfield (field_config : field_config) (attribute_found : value)
  : M unit :=
  match attribute_found with
  | VNone => ret tt
  | _ =>
      let str_attribute_found := Py.str attribute_found in
      match validation field_config with
      | Some regex_validation =>
          if negb (Re.re_match regex_validation str_attribute_found) then
            comment_error ("Invalid value '" +:+ Py.str attribute_found
                           +:+ "' for '" +:+ output_name field_config
                           +:+ "'. " +:+ PayloadParser.error_suffix field_config)
          else store_float field_config attribute_found
      | None => store_float field_config attribute_found
      end
  end.

(** The loop of [_check_mandatory_fields]: comments each missing mandatory
    field and returns their names, in table order. *)
Fixpoint missing_mandatory_fields (ticket_fields : list (string * field_config))
  : M (list string) :=
  match ticket_fields with
  | [] => ret []
  | (_, config) :: rest =>
      let* w := get_world in
      if mandatory config
         && negb (bool_decide (is_Some (config_data w !! output_name config)))
      then
        comment_error ("Mandatory field '" +:+ output_name config
                       +:+ "' is missing in the request.") >>
        let* others := missing_mandatory_fields rest in
        ret (output_name config :: others)
      else missing_mandatory_fields rest
  end.

Definition _check_mandatory_fields (ticket_fields : list (string * field_config))
  : M unit :=
  let* missing := missing_mandatory_fields ticket_fields in
  match missing with
  | [] => ret tt
  | _ => raise (mk_exn ValueError
                  ("Missing mandatory fields: " +:+ PyStr.join ", " missing))
  end.

(** *** app/app_manager.py *)

Definition comment (text kind : string) : M unit :=
  let* id := AppManager.jira_id_str in
  AppLogger.add_comment_to_jira_issue id text kind.

Definition block : M unit :=
  let* id := AppManager.jira_id_str in
  let* _ := AppLogger.change_issue_status "Set as blocked" id in ret tt.

Definition extract_issue : M unit :=
  let* ty := AppManager._extract_issue_type_name in
  let* w := get_world in
  modify (upd_issue ty (jira_id w)) >>
  let* id := AppManager._extract_jira_id in
  modify (upd_issue ty id) >>
  if negb (Py.truthy ty) then
    raise (mk_exn MissingRequiredDataError "Issue type name not found in the request.")
  else if negb (Py.truthy id) then
    raise (mk_exn MissingRequiredDataError "Issue Jira ID not found in the request.")
  else
    comment ("[START] Received Jira webhook payload for " +:+ Py.str id
             +:+ " (" +:+ Py.str ty +:+ ").") "info".

(** The body of the loop of [parse_jira_request] *)
Definition process_field (entry : string * field_config) : M unit :=
  let element := snd entry in
  let* field_value := PayloadParser._extract_field_value element in
  let ty := fc_type element in
  if String.eqb ty "dropdown" then PayloadParser._process_dropdown element field_value
  else if String.eqb ty "people" then PayloadParser._process_people element field_value
  else if String.eqb ty "reporter" then PayloadParser._process_reporter element field_value
  else if String.eqb ty "dropdown_nested"
  then PayloadParser._process_dropdown_nested element field_value
  else if String.eqb ty "checklist" then PayloadParser._process_checklist element field_value
  else if String.eqb ty "textfield" then _process_textfield element field_value
  else if String.eqb ty "numericfield" then _process_numericfield element field_value
  else ret tt.

(** The [try] block of [parse_jira_request] for a given field table *)
Definition parse_fields (ticket_fields : list (string * field_config)) : M unit :=
  try_except
    (for_each ticket_fields process_field >>
     _check_mandatory_fields ticket_fields)
    (isinstance Exception)
    (fun e =>
       if isinstance ValueError e then raise e
       else if isinstance KeyError e then
         raise (mk_exn ValueError
                  ("Missing key in Jira payload during parsing: " +:+ e_msg e))
       else
         raise (mk_exn ValueError
                  ("An unexpected error occurred during parsing: " +:+ format_exc e))).

Definition parse_jira_request : M unit :=
  let* ticket_fields := AppManager._extract_config_field_values_for_issue_request in
  parse_fields ticket_fields.

Definition initialize_github_manager (cfg : settings) : M unit :=
  let* w := get_world in
  if negb (Py.truthy (issue_type_name w)) then
    raise (mk_exn MissingRequiredDataError
             "Issue type not found in transformed data for GitHub credentials. Cannot initialize GitHub manager.")
  else
    let* (_, REPO_OWNER, REPO_NAME) := AppManager._get_github_credentials cfg in
    modify upd_github_manager >>
    comment ("Connecting to GitHub '" +:+ REPO_NAME +:+ "' under '" +:+ REPO_OWNER
             +:+ "' for '" +:+ Py.str (issue_type_name w) +:+ "'.") "info".

(** [except GcpProvisioningError as e]: comment, block the ticket, re-raise. *)
Definition report_and_block (e : exn) : M unit :=
  comment (e_msg e) "error" >> block >> raise e.

Definition validate_jira_request : M unit :=
  try_except
    (let* w := get_world in
     match provisioner w with
     | Some k =>
         (match k with
          | ProjectProvisioner => GcpProjectProvisioner._validate_jira_request
          | FolderProvisioner => GcpFolderProvisioner._validate_jira_request
          end) >>
         let* message :=
           (match k with
            | ProjectProvisioner => GcpProjectProvisioner._get_request_comment_message
            | FolderProvisioner => GcpFolderProvisioner._get_request_comment_message
            end) in
         comment message "info"
     | None => raise AppManager.not_initialized
     end)
    (isinstance GcpProvisioningError)
    report_and_block.

Definition built_terraform_yaml (cfg : settings) (dump : value -> string) : M unit :=
  try_except
    (let* w := get_world in
     match provisioner w with
     | Some ProjectProvisioner =>
         GcpProjectProvisioner._built_terraform_yamls dump (BUDGET_LIMIT cfg)
     | Some FolderProvisioner => GcpFolderProvisioner._built_terraform_yamls dump
     | None => raise AppManager.not_initialized
     end)
    (isinstance GcpProvisioningError)
    report_and_block.

(** The body of the outer loop of [push_to_github] *)
Definition publish_unit_body (dw_project_data : publish_unit) : M unit :=
  for_each (AppManager.unit_files dw_project_data) (fun entry =>
    let file_data := snd entry in
    GitHub._commit_new_file
      (Py.assoc "path" file_data)
      (Py.assoc "commit_message" file_data)
      (Py.assoc "file" file_data)
      (pu_new_branch_name dw_project_data)) >>
  let* pr_url :=
    GitHub._create_pull_request_logic (AppManager.unit_autoapprove dw_project_data) in
  let* id := AppManager.jira_id_str in
  if AppManager.is_True (AppManager.unit_autoapprove dw_project_data) then
    comment ("Created and auto-approved PR at " +:+ Py.str pr_url) "info" >>
    let* _ := AppLogger.change_issue_status "Set as done" id in ret tt
  else
    comment ("Created a PR that needs manual approval at " +:+ Py.str pr_url) "manual" >>
    let* _ := AppLogger.change_issue_status "Set as to be reviewed" id in ret tt.

Definition push_to_github : M unit :=
  try_except
    (let* w := get_world in
     if negb (github_manager w) then
       raise (mk_exn GcpProvisioningError "GitHub manager not initialized.")
     else
       match provisioner w, github_payload w with
       | Some _, Some payload =>
           for_each (List.map snd payload) publish_unit_body
       | _, _ =>
           raise (mk_exn GcpProvisioningError "Provisioner did not generate GitHub payload.")
       end)
    (isinstance Exception)
    (fun e =>
       if isinstance GcpProvisioningError e then report_and_block e
       else
         comment ("An unexpected error occurred during GitHub push: " +:+ e_msg e) "error" >>
         block >> raise e).

(** *** main.py *)

Definition handle_jira_webhook (cfg : settings) (dump : value -> string)
    (request : http_request) : M (string * Z) :=
  try_except
    (AppManager.check_if_post_request request >>
     AppManager.transform_into_json request >>
     extract_issue >>
     parse_jira_request >>
     AppManager.select_provisioner cfg >>
     validate_jira_request >>
     initialize_github_manager cfg >>
     built_terraform_yaml cfg dump >>
     push_to_github >>
     let* id := AppManager.jira_id_str in
     let* _ := AppLogger.change_issue_status "Set as done" id in
     ret ("Webhook processed successfully", 200))
    (isinstance Exception)
    (fun e =>
       if isinstance InvalidMethodError e then ret ("Method Not Allowed", 405)
       else if isinstance InvalidJiraConfigurationParser e then ret (e_msg e, 404)
       else if isinstance InvalidPayloadError e then raise undefined_webhook_data
       else if isinstance MissingRequiredDataError e then raise undefined_webhook_data
       else if isinstance GcpProvisioningError e then
         ret ("Internal Server Error: GCP provisioning operation failed. " +:+ e_msg e, 500)
       else if isinstance PermissionDeniedError e then
         ret ("Internal Server Error: Insufficient permissions for operation. " +:+ e_msg e, 500)
       else if isinstance GitHubOperationError e then
         comment (e_msg e) "error" >> block >>
         ret ("Internal Server Error: GitHub operation failed. " +:+ e_msg e, 500)
       else if isinstance JiraWebhookError e then
         ret ("Internal Server Error: A processing error occurred. " +:+ e_msg e, 500)
       else
         comment (e_msg e) "error" >> block >>
         ret ("Internal Server Error: An unexpected error occurred. Please check function logs.", 500)).

End Live.

(** * Vocabulary of the properties *)

(** What stops a span: the end of the text or a character outside the class. *)
Definition stops (p : ascii -> bool) (s : string) : Prop :=
  match s with
  | EmptyString => True
  | String c _ => p c = false
  end.

(** The bulk listing fails: the call raises, or one of its pages does. *)
Definition listing_fails (answer : listing) : Prop :=
  match answer with
  | None => True
  | Some pages => In None pages
  end.

(** The mandatory entries of a field table whose destination key is not set
    in the configuration map, by destination key and in table order. *)
Definition missing_in (data : gmap string value)
    (ticket_fields : list (string * field_config)) : list string :=
  List.map (fun entry => output_name (snd entry))
    (List.filter
       (fun entry => mandatory (snd entry)
                     && negb (bool_decide (is_Some (data !! output_name (snd entry)))))
       ticket_fields).

(** The comment that [_check_mandatory_fields] sends for a missing field. *)
Definition missing_comment (w : world) (name : string) : jira_event :=
  JComment (config_get_str w "ISSUE_KEY" "UNKNOWN_JIRA_ID") "error"
    (comment_prefix "error" +:+ "Mandatory field '" +:+ name
     +:+ "' is missing in the request.").

(** A field-level error comment. *)
Definition field_error (w : world) (text : string) : jira_event :=
  JComment (config_get_str w "ISSUE_KEY" "UNKNOWN_JIRA_ID") "error"
    (comment_prefix "error" +:+ text).

(** The state after one more event was sent to the ticket system. *)
Definition logged (ev : list jira_event) (w : world) : world :=
  upd_jira_log (fun l => l ++ ev) w.




(** The state in which the validator of a request starts: the fields are
    extracted and the provisioner holds its snapshot. *)
Definition parsed (cfg : settings) (request : http_request) : world :=
  snd ((AppManager.transform_into_json request >> AppManager.extract_issue >>
        AppManager.parse_jira_request >> AppManager.select_provisioner cfg) (fresh [])).

(** The configuration map after [_format_label_elements]. *)
Definition format_labels (elements : list string) (data : gmap string value)
  : gmap string value :=
  fold_left
    (fun d element =>
       match d !! element with
       | Some v => <[element := VStr (BaseProvisioner.format_for_label_system v)]> d
       | None => d
       end)
    elements data.

(** The request as the project validator sees it after its first step. *)
Definition formatted (w : world) : world :=
  upd_config (format_labels (HierarchyrProvisioner.elements_to_format ProjectProvisioner)) w.

(** The keys under which the validator stores the environment subfolders. *)
Definition env_keys : list string := ["FOLDER_DEV"; "FOLDER_TEST"; "FOLDER_PROD"].

(** An update of the configuration map that touches the keys of the
    environment subfolders only. *)
Definition keeps_other_keys (f : gmap string value -> gmap string value) : Prop :=
  forall (data : gmap string value) (k : string),
    ~ In k env_keys -> f data !! k = data !! k.

(** An environment that has a subfolder mapping. *)
Definition mapped_env (e : value) : Prop :=
  exists s, e = VStr s /\ (s = "dev" \/ s = "test" \/ s = "prod").

(** The prefixed project name is a project of the snapshot. *)
Definition name_taken (snapshot : list asset) (name : string) : bool :=
  HierarchyrProvisioner.found
    (HierarchyrProvisioner.check_if_resource_exist snapshot (VStr name) Project).

(** A computation whose every step relates the state before to the state
    after by [R] (a frame condition). *)
Definition keeps (R : world -> world -> Prop) {A} (m : M A) : Prop :=
  forall w r w', m w = (r, w') -> R w w'.

(** A computation that raises exceptions satisfying [P] only. *)
Definition raises_in (P : exn -> Prop) {A} (m : M A) : Prop :=
  forall w e w', m w = (inl e, w') -> P e.

(** Nothing was sent to the ticket system or asked of the source-control
    service between two states, and nothing changed but the configuration map
    and the list of the project names. *)
Definition silent (w w' : world) : Prop :=
  jira_log w' = jira_log w /\ github_script w' = github_script w
  /\ jira_id w' = jira_id w /\ issue_type_name w' = issue_type_name w
  /\ request_json w' = request_json w /\ provisioner w' = provisioner w
  /\ assets w' = assets w /\ github_payload w' = github_payload w
  /\ github_manager w' = github_manager w /\ pr_list w' = pr_list w.

(** Only the configuration map, and there only the key [k], may differ, and
    the ticket log may have grown. *)
Definition touches_only (k : string) (w w' : world) : Prop :=
  (forall k', k' <> k -> config_data w' !! k' = config_data w !! k')
  /\ request_json w' = request_json w
  /\ issue_type_name w' = issue_type_name w
  /\ jira_id w' = jira_id w
  /\ provisioner w' = provisioner w
  /\ assets w' = assets w
  /\ dw_env_project_name_list w' = dw_env_project_name_list w
  /\ github_payload w' = github_payload w
  /\ github_manager w' = github_manager w
  /\ pr_list w' = pr_list w
  /\ github_script w' = github_script w
  /\ exists events, jira_log w' = jira_log w ++ events.

(** An exception that [except Exception] catches. *)
Definition ordinary (e : exn) : Prop := isinstance Exception e = true.

(** Free of ASCII whitespace and of ASCII capitals: what a label may hold. *)
Definition label_char (c : ascii) : bool :=
  negb (PyStr.is_space c) && negb (PyStr.is_upper c).
Definition label_form (s : string) : Prop := PyStr.all label_char s = true.

(** [s.isascii()].  On such texts the case conversion, the whitespace class
    and the digit class of Python are the ones of the model. *)
Definition ascii_char (c : ascii) : bool := Nat.ltb (PyStr.code c) 128.
Definition ascii_text (s : string) : Prop := PyStr.all ascii_char s = true.
(** A value that is not a text with characters outside ASCII *)
Definition ascii_value (v : value) : Prop :=
  match v with VStr s => ascii_text s | _ => True end.

(** The text after the last slash: [cur] is what was read since the last one. *)
Fixpoint last_segment (cur s : string) : string :=
  match s with
  | EmptyString => cur
  | String c s' =>
      if Ascii.eqb c "/" then last_segment "" s'
      else last_segment (cur +:+ String c EmptyString) s'
  end.

(** The class of the exception is one of [cs]. *)
Definition class_in (cs : list exn_class) (e : exn) : Prop := In (e_class e) cs.

(** [cs1] is included in [cs2], as a test. *)
Definition classes_within (cs1 cs2 : list exn_class) : bool :=
  forallb (fun c => existsb (fun d => bool_decide (c = d)) cs2) cs1.

(** The ['value'] of a checklist item that has one. *)
Definition item_value (item : value) : option value :=
  match item with
  | VDict d => Py.assoc "value" d
  | _ => None
  end.

(** A JSON object *)
Definition is_object (v : value) : Prop := exists d, v = VDict d.

(** What [get_latest_sha_from_branch] raises on any failure. *)
Definition head_lookup_failure : exn := mk_exn BaseException "Check if file exist".

(** The commit of one file of a publish unit, as [push_to_github] calls it. *)
Definition commit_unit_file (u : publish_unit)
    (entry : string * list (string * string)) : M unit :=
  GitHub._commit_new_file
    (Py.assoc "path" (snd entry))
    (Py.assoc "commit_message" (snd entry))
    (Py.assoc "file" (snd entry))
    (pu_new_branch_name u).

(** The [try] block of [_create_pull_request_logic] *)
Definition pull_request_attempt (auto_merge : value) : M value :=
  let* pr_response := GitHub.create_pull_request auto_merge in
  let* has := (if Py.truthy pr_response then py_in "html_url" pr_response
               else ret false) in
  if has then
    let* pr_url := py_item pr_response "html_url" in
    modify (upd_pr_list (fun l => l ++ [pr_url])) >>
    ret pr_url
  else raise (mk_exn Exception
                "Failed to create pull request or received an empty response.").

(** The ticket system and the identity of the request are as before; the
    source-control service may have been asked. *)
Definition quiet (w w' : world) : Prop :=
  jira_log w' = jira_log w /\ jira_id w' = jira_id w
  /\ config_data w' = config_data w /\ pr_list w' = pr_list w.

(** The validator of a provisioner *)
Definition validator (k : provisioner_kind) : M unit :=
  match k with
  | ProjectProvisioner => GcpProjectProvisioner._validate_jira_request
  | FolderProvisioner => GcpFolderProvisioner._validate_jira_request
  end.

(** The comment and the transition with which a failure is reported. *)
Definition failure_report (w : world) (e : exn) : list jira_event :=
  [ JComment (Py.str (jira_id w)) "error" (comment_prefix "error" +:+ e_msg e);
    JTransition (Py.str (jira_id w)) "Set as blocked" ].

(** The pipeline of [handle_jira_webhook]: the body of its [try]. *)
Definition pipeline (cfg : settings) (dump : value -> string) (request : http_request)
  : M (string * Z) :=
  AppManager.check_if_post_request request >>
  AppManager.transform_into_json request >>
  AppManager.extract_issue >>
  AppManager.parse_jira_request >>
  AppManager.select_provisioner cfg >>
  AppManager.validate_jira_request >>
  AppManager.initialize_github_manager cfg >>
  AppManager.built_terraform_yaml cfg dump >>
  AppManager.push_to_github >>
  let* id := AppManager.jira_id_str in
  let* _ := change_issue_status "Set as done" id in
  ret ("Webhook processed successfully", 200).

(** The classes of the exceptions that the steps after the method check raise. *)
Definition pipeline_classes : list exn_class :=
  [ InvalidPayloadError; MissingRequiredDataError; InvalidJiraConfigurationParser;
    GcpProvisioningError; GitHubOperationError;
    ValueError; KeyError; TypeError; AttributeError; RequestException; Exception ].

(** Success of a computation started where [Pre] holds establishes [Post]. *)
Definition ensures {A} (Pre : world -> Prop) (m : M A) (Post : A -> world -> Prop)
  : Prop :=
  forall w a w', Pre w -> m w = (inr a, w') -> Post a w'.

(** The key [key] of the configuration map holds the same as before. *)
Definition same_at (key : string) (w w' : world) : Prop :=
  config_data w' !! key = config_data w !! key.

(** What comes before the publication in [handle_jira_webhook], after the
    method check. *)
Definition preparation (cfg : settings) (dump : value -> string)
    (request : http_request) : M unit :=
  AppManager.transform_into_json request >>
  AppManager.extract_issue >>
  AppManager.parse_jira_request >>
  AppManager.select_provisioner cfg >>
  AppManager.validate_jira_request >>
  AppManager.initialize_github_manager cfg >>
  AppManager.built_terraform_yaml cfg dump.

(** The publish unit of a folder request, as [_built_terraform_yamls] of the
    folder provisioner builds it. *)
Definition folder_unit (dump : value -> string) (w : world)
    (parent name project_type project_type_folder : value) : publish_unit :=
  let issue := config_get_str w "ISSUE_KEY" "None" in
  let label := BaseProvisioner.format_for_label_system name in
  PublishUnit
    (Some ("feat: GCP Folder '" +:+ Py.str name +:+ "' - Jira " +:+ issue))
    None None
    (Some ("feature/jira-" +:+ issue +:+ "-folder-" +:+ label))
    (Some [ ("folder_yaml",
             [ ("path", "gcp/folders/" +:+ label +:+ "/folder.yaml");
               ("commit_message",
                "feat: Add GCP folder '" +:+ Py.str name +:+ "' via Jira " +:+ issue);
               ("file",
                BaseProvisioner.encode_yaml_file dump
                  (VDict
                     [ ("parent", parent);
                       ("name", name);
                       ("labels",
                        VDict
                          [ ("project_type",
                             VStr (BaseProvisioner.format_for_label_system project_type));
                            ("project_sub_type",
                             VStr (BaseProvisioner.format_for_label_system
                                     project_type_folder));
                            ("project_name_folder", VStr label) ]) ])) ]) ])
    (Some (match config_data w !! "AUTO_APPROVE" with
           | Some a => a
           | None => VBool false
           end)).

(** The key ["AUTO_APPROVE"] and the provisioner are as before. *)
Definition approval_frame (w w' : world) : Prop :=
  same_at "AUTO_APPROVE" w w' /\ provisioner w' = provisioner w.

(** A publish unit of a project request: its branch, its environment tag,
    and its two files with their paths. *)
Definition project_unit_shape (branch name : string) (u : publish_unit) : Prop :=
  pu_new_branch_name u = Some branch
  /\ pu_env u = Some (HierarchyrProvisioner.extract_dw_environment name)
  /\ exists title budget_file budget_message project_file project_message approve,
       pu_pr_title u = Some title
       /\ pu_yaml_content_encoded u
          = Some [ ("budget",
                    [ ("file", budget_file); ("commit_message", budget_message);
                      ("path", "data/budgets/" +:+ name +:+ ".yaml") ]);
                   ("project",
                    [ ("file", project_file); ("commit_message", project_message);
                      ("path", "data/projects/" +:+ name +:+ ".yaml") ]) ]
       /\ pu_autoapprove u = Some (VBool approve).


(** The folder [a] has the display name [sub] and lies under the folder
    [pid]: [pid] is among its ancestors, or is its recorded parent. *)
Definition under (pid sub : string) (a : asset) : Prop :=
  asset_type a = Folder
  /\ Py.eq_str (HierarchyrProvisioner.data_get a "displayName") sub = true
  /\ (In pid (asset_ancestors a)
      \/ Py.eq_str (HierarchyrProvisioner.data_get a "parent") pid = true).

(** What [_built_terraform_yamls] has computed for the unit of a project
    name: its shape, its auto-approval and its budget document. *)
Definition unit_built (data : gmap string value) (l : limit) (branch name : string)
    (u : publish_unit) : Prop :=
  project_unit_shape branch name u
  /\ exists approve doc,
       pu_autoapprove u = Some (VBool approve)
       /\ GcpProjectProvisioner.autoapprove_of l data
            (HierarchyrProvisioner.extract_dw_environment name) = inr approve
       /\ GcpProjectProvisioner.build_budget_terraform_yaml data name
            (HierarchyrProvisioner.extract_dw_environment name) = inr doc.

(** Nothing changed but the publish payload. *)
Definition payload_only (w w' : world) : Prop :=
  exists p, w' = upd_payload p w.






(** [s < t] on texts: the order of the code points at the first difference,
    a proper prefix coming first. *)
Fixpoint text_before (s t : string) : Prop :=
  match s, t with
  | _, EmptyString => False
  | EmptyString, String _ _ => True
  | String a s', String b t' =>
      (PyStr.code a < PyStr.code b)%nat \/ (a = b /\ text_before s' t')
  end.

(** [budget < limit] holds: a number whose exact value is below the integer
    limit, or a text before the text limit. *)
Definition strictly_below (budget : value) (l : limit) : Prop :=
  match l, budget with
  | LimitInt z, VInt x => x < z
  | LimitInt z, VBool b => (if b then 1 else 0) < z
  | LimitInt z, VFloat f =>
      match f with
      | Inf neg => neg = true
      | NaN => False
      | _ => exists n d, PyFloat.fraction f = Some (n, d) /\ n < z * d
      end
  | LimitStr t, VStr s => text_before s t
  | _, _ => False
  end.

(** Nothing changed but the ticket system: what it has accepted and what it
    will answer. *)
Definition ticket_only (w w' : world) : Prop :=
  w' = upd_jira_script (jira_script w') (upd_jira_log (fun _ => jira_log w') w).

(** The comment of kind [kind] with the text [text], as the ticket of the
    request receives it. *)
Definition comment_sent (w : world) (text kind : string) : jira_event :=
  JComment (Py.str (jira_id w)) kind (comment_prefix kind +:+ text).

(** The transition of the ticket of the request. *)
Definition moved_to (w : world) (transition_name : string) : jira_event :=
  JTransition (Py.str (jira_id w)) transition_name.

(** The exceptions of a refused request to the ticket system, and those of a
    look-up of the transitions that fails. *)
Definition refusal_classes : list exn_class := [RequestException; UnboundLocalError].
Definition lookup_classes : list exn_class := [UnboundLocalError; KeyError; TypeError].
Definition client_classes : list exn_class :=
  [RequestException; UnboundLocalError; KeyError; TypeError].

(** How a failure [e] that a step reports to the ticket leaves the step.
    [e'] is the exception that leaves and [w'] the state then: the failure
    itself, after the error comment and, when the ticket system offers and
    accepts it, the transition to blocked; or the refusal of the comment;
    or the failure of the look-up of the transitions, after the comment. *)
Definition report_outcome (w : world) (e e' : exn) (w' : world) : Prop :=
  (e' = e
   /\ exists moved : bool,
        jira_log w' = jira_log w
                      ++ comment_sent w (e_msg e) "error"
                         :: (if moved then [moved_to w "Set as blocked"] else []))
  \/ (class_in refusal_classes e' /\ jira_log w' = jira_log w)
  \/ (class_in lookup_classes e'
      /\ jira_log w' = jira_log w ++ [comment_sent w (e_msg e) "error"]).

(** The text [key] is the key of the credentials table that the request
    selects: the debug entry under the debug switch, the issue type
    otherwise. *)
Definition credentials_key (cfg : settings) (w : world) (key : string) : Prop :=
  (DEBUG cfg = true /\ key = "debug_config")
  \/ (DEBUG cfg = false /\ issue_type_name w = VStr key).

(** The comment with which [push_to_github] reports a publish unit whose
    pull request is [pr_url], and the transition that follows it. *)
Definition unit_comment (w : world) (u : publish_unit) (pr_url : value) : jira_event :=
  if AppManager.is_True (AppManager.unit_autoapprove u) then
    comment_sent w ("Created and auto-approved PR at " +:+ Py.str pr_url) "info"
  else
    comment_sent w ("Created a PR that needs manual approval at " +:+ Py.str pr_url)
      "manual".

Definition unit_transition (w : world) (u : publish_unit) : jira_event :=
  moved_to w (if AppManager.is_True (AppManager.unit_autoapprove u)
              then "Set as done" else "Set as to be reviewed").

(** What the ticket has received of the report of a unit: the comment, then
    the transition when [moved]. *)
Definition unit_reported (w : world) (u : publish_unit) (pr_url : value) (moved : bool)
  : list jira_event :=
  unit_comment w u pr_url :: (if moved then [unit_transition w u] else []).

(** The report of a unit to the ticket, as [push_to_github] makes it *)
Definition report_unit (u : publish_unit) (pr_url : value) : M unit :=
  let* id := AppManager.jira_id_str in
  if AppManager.is_True (AppManager.unit_autoapprove u) then
    Live.comment ("Created and auto-approved PR at " +:+ Py.str pr_url) "info" >>
    let* _ := AppLogger.change_issue_status "Set as done" id in ret tt
  else
    Live.comment ("Created a PR that needs manual approval at " +:+ Py.str pr_url) "manual" >>
    let* _ := AppLogger.change_issue_status "Set as to be reviewed" id in ret tt.

(** The end of the pipeline of [handle_jira_webhook], facing the answers of
    the ticket system: the publication and the final transition. *)
Definition publication_live : M (string * Z) :=
  Live.push_to_github >>
  let* id := AppManager.jira_id_str in
  let* _ := AppLogger.change_issue_status "Set as done" id in
  ret ("Webhook processed successfully", 200).

(** The classes of the exceptions of the steps that report to the ticket *)
Definition reported_classes (cs : list exn_class) : list exn_class := cs ++ client_classes.

(** The exception of the head look-up, or an ordinary one *)
Definition head_or_ordinary (e : exn) : Prop := e = head_lookup_failure \/ ordinary e.

(** * Sample requests, used to instantiate the properties *)

Definition folder_asset (display name : string) (ancestors : list string) : asset :=
  Asset Folder name [("displayName", VStr display)] ancestors.

Definition project_asset (project_id name : string) : asset :=
  Asset Project name
    [("projectId", VStr project_id); ("name", VStr ("projects/" +:+ project_id))] [].

(** A hierarchy with the type folder "poc", the project folder "myfolder"
    and its environment subfolders, and one project. *)
Definition sample_snapshot : list asset :=
  [ folder_asset "poc" "//cloudresourcemanager.googleapis.com/folders/7"
      ["folders/7"; "organizations/1234567890"];
    folder_asset "myfolder" "//cloudresourcemanager.googleapis.com/folders/100"
      ["folders/100"; "folders/7"; "organizations/1234567890"];
    folder_asset "Development" "//cloudresourcemanager.googleapis.com/folders/101"
      ["folders/101"; "folders/100"; "folders/7"; "organizations/1234567890"];
    folder_asset "Production" "//cloudresourcemanager.googleapis.com/folders/102"
      ["folders/102"; "folders/100"; "folders/7"; "organizations/1234567890"];
    project_asset "dw-prod-taken" "//cloudresourcemanager.googleapis.com/projects/dw-prod-taken" ].

Definition sample_settings : settings :=
  Settings true default_BUDGET_LIMIT
    [("debug_config",
      [("GITHUB_TOKEN", "token"); ("REPO_OWNER", "owner"); ("REPO_NAME", "repo")])]
    (Some [Some sample_snapshot]).

Definition webhook (issue_type : string) (fields : list (string * value)) : http_request :=
  HttpRequest "POST"
    (VDict [("issue",
             VDict [("key", VStr "PROJ-1");
                    ("fields",
                     VDict (("issuetype", VDict [("name", VStr issue_type)]) :: fields))])]).

Definition checklist (items : list string) : value :=
  VList (List.map (fun item => VDict [("value", VStr item)]) items).

(** A project request for the environments [envs], data security [security]
    and the dev and prod budgets [dev] and [prod]. *)
Definition project_fields (security name : string) (envs : list string)
    (dev prod : option string) : list (string * value) :=
  [ ("customfield_10550", VDict [("value", VStr security)]);
    ("customfield_10611",
     VDict [("value", VStr "internal"); ("child", VDict [("value", VStr "poc")])]);
    ("customfield_10549", checklist envs);
    ("customfield_10579", match dev with Some b => VStr b | None => VNone end);
    ("customfield_10614", match prod with Some b => VStr b | None => VNone end);
    ("customfield_10551", VStr name);
    ("customfield_10578", VStr "myfolder");
    ("customfield_10644", VStr "wbs-1");
    ("reporter", VDict [("displayName", VStr "Ada Lovelace")]) ].

Definition project_request (security name : string) (envs : list string)
    (dev prod : option string) : http_request :=
  webhook "New GCP Project Provisioning" (project_fields security name envs dev prod).

Definition folder_request (name : string) : http_request :=
  webhook "New GCP Folder Provisioning"
    [ ("customfield_10611",
       VDict [("value", VStr "internal"); ("child", VDict [("value", VStr "poc")])]);
      ("customfield_10578", VStr name) ].

(** The answers of the source-control service to one file commit (branch
    head, branch creation, file creation) and to one pull request. *)
Definition commit_answers : list http_answer :=
  [ Answer 200 (VDict [("object", VDict [("sha", VStr "0123456789abcdef")])]);
    Answer 201 (VDict []);
    Answer 201 (VDict []) ].

Definition pull_request_answers (auto_merge : bool) : list http_answer :=
  Answer 201 (VDict [("html_url", VStr "https://github.com/owner/repo/pull/1");
                     ("number", VInt 1)])
  :: (if auto_merge then [Answer 200 (VDict []); Answer 200 (VDict [])] else []).

(** The state in which the field loop starts for a request: the payload is
    stored and the issue is identified. *)
Definition received (request : http_request) : world :=
  snd ((AppManager.transform_into_json request >> AppManager.extract_issue) (fresh [])).





(** * Properties *)

Example lower_ex : PyStr.lower "My App" = "my app".
Proof. reflexivity. Qed.
Example sub_ws_ex : PyStr.sub_ws "a  b c" = "a_b_c".
Proof. reflexivity. Qed.
Example strip_ex : PyStr.strip "  a b
" = "a b".
Proof. reflexivity. Qed.
Example join_ex : PyStr.join ", " ["A"; "B"; "C"] = "A, B, C".
Proof. reflexivity. Qed.
Example of_Z_ex : PyStr.of_Z (-150) = "-150".
Proof. reflexivity. Qed.
Example float_of_string_ex1 : PyFloat.of_string "12.5" = Some (Fin 125 (-1)).
Proof. reflexivity. Qed.
Example float_of_string_ex2 : PyFloat.of_string " 1_000.50e-1 " = Some (Fin 10005 (-2)).
Proof. reflexivity. Qed.
Example float_of_string_ex3 : PyFloat.of_string "abc" = None.
Proof. reflexivity. Qed.
Example float_of_string_ex4 : PyFloat.of_string "-Infinity" = Some (Inf true).
Proof. reflexivity. Qed.
Example float_of_string_ex5 : PyFloat.of_string "100" = Some (Fin 1 2).
Proof. reflexivity. Qed.
Example float_repr_ex1 : PyFloat.repr (Fin 125 (-1)) = "12.5".
Proof. reflexivity. Qed.
Example float_repr_ex2 : PyFloat.repr (Fin 1 2) = "100.0".
Proof. reflexivity. Qed.
Example float_repr_ex3 : PyFloat.repr (Fin 1 (-5)) = "1e-05".
Proof. reflexivity. Qed.
Example float_repr_ex4 : PyFloat.repr (Fin 15 15) = "1.5e+16".
Proof. reflexivity. Qed.
Example float_repr_ex5 : PyFloat.repr (Fin (-1) (-4)) = "-0.0001".
Proof. reflexivity. Qed.
Example float_ltb_ex :
  Py.num_ltb (NFloat (Fin 14999999 (-5))) (NInt 150) = true.
Proof. reflexivity. Qed.
Example repr_ex : Py.repr (VList [VStr "ab"; VInt 3; VDict [("k", VNone)]])
  = "['ab', 3, {'k': None}]".
Proof. reflexivity. Qed.
Example b64encode_ex : Base64.b64encode "a: 1
" = "YTogMQo=".
Proof. reflexivity. Qed.
Example b64decode_ex : Base64.b64decode "YTog
MQo=" = Some "a: 1
".
Proof. reflexivity. Qed.
Example extract_folder_id_ex :
  HierarchyrProvisioner._extract_folder_id
    (Some "//cloudresourcemanager.googleapis.com/folders/12345")
  = Some "folders/12345".
Proof. reflexivity. Qed.
Example extract_dw_environment_ex :
  HierarchyrProvisioner.extract_dw_environment "dw-dev-myapp" = Some "dev".
Proof. reflexivity. Qed.
Example budget_pattern_ex1 : Re.re_match budget_pattern "12.5" = true.
Proof. reflexivity. Qed.
Example budget_pattern_ex2 : Re.re_match budget_pattern "abc" = false.
Proof. reflexivity. Qed.
Example budget_pattern_ex3 : Re.re_match budget_pattern "100" = false.
Proof. reflexivity. Qed.
Example budget_pattern_ex4 : Re.re_match budget_pattern "12345678901.5" = false.
Proof. reflexivity. Qed.
Example name_pattern_ex1 : Re.re_match (name_pattern 3 50) "My-App_1" = true.
Proof. reflexivity. Qed.
Example name_pattern_ex2 : Re.re_match (name_pattern 3 50) "my app" = false.
Proof. reflexivity. Qed.

(** ** Strings *)

Lemma app_cons (c : ascii) (s t : string) : String c s +:+ t = String c (s +:+ t).
Proof. reflexivity. Qed.

Lemma app_empty_l (s : string) : "" +:+ s = s.
Proof. reflexivity. Qed.

Lemma app_empty_r (s : string) : s +:+ "" = s.
Proof. induction s as [|c s IH]; [reflexivity|]. rewrite app_cons, IH. reflexivity. Qed.

Lemma app_assoc_str (a b c : string) : (a +:+ b) +:+ c = a +:+ (b +:+ c).
Proof.
  induction a as [|x a IH]; [reflexivity|].
  rewrite !app_cons, IH. reflexivity.
Qed.

Lemma strip_prefix_app (p s : string) : PyStr.strip_prefix p (p +:+ s) = Some s.
Proof.
  induction p as [|c p IH]; [destruct s; reflexivity|].
  rewrite app_cons. simpl. rewrite Ascii.eqb_refl. exact IH.
Qed.

Lemma strip_prefix_spec (p s r : string) :
  PyStr.strip_prefix p s = Some r -> s = p +:+ r.
Proof.
  revert s. induction p as [|c p IH]; intros s H.
  - destruct s; simpl in H; inversion H; reflexivity.
  - destruct s as [|d s]; simpl in H; [discriminate|].
    destruct (Ascii.eqb c d) eqn:E; [|discriminate].
    apply Ascii.eqb_eq in E. subst d.
    rewrite app_cons. f_equal. apply IH. exact H.
Qed.

Lemma span_spec (p : ascii -> bool) (s a b : string) :
  PyStr.span p s = (a, b) -> s = a +:+ b /\ PyStr.all p a = true /\ stops p b.
Proof.
  revert a b. induction s as [|c s IH]; intros a b H; simpl in H.
  - inversion H; subst. repeat split.
  - destruct (p c) eqn:E.
    + destruct (PyStr.span p s) as [a' b'] eqn:Es. inversion H; subst.
      destruct (IH a' b eq_refl) as (-> & Hall & Hstop).
      rewrite app_cons. repeat split; [|exact Hstop].
      simpl. rewrite E. exact Hall.
    + inversion H; subst. repeat split. simpl. exact E.
Qed.

Lemma span_app (p : ascii -> bool) (a b : string) :
  PyStr.all p a = true -> stops p b -> PyStr.span p (a +:+ b) = (a, b).
Proof.
  induction a as [|c a IH]; intros Hall Hstop.
  - rewrite app_empty_l. destruct b as [|d b]; [reflexivity|].
    simpl in *. rewrite Hstop. reflexivity.
  - simpl in Hall. apply andb_true_iff in Hall as [Hc Hall].
    rewrite app_cons. simpl. rewrite Hc, (IH Hall Hstop). reflexivity.
Qed.

Lemma starts_with_spec (p s : string) :
  PyStr.starts_with p s = true -> exists r, s = p +:+ r.
Proof.
  unfold PyStr.starts_with. destruct (PyStr.strip_prefix p s) as [r|] eqn:E; [|discriminate].
  intros _. exists r. apply strip_prefix_spec. exact E.
Qed.

Lemma eqb_empty_false (s : string) : s <> "" -> String.eqb s "" = false.
Proof. destruct s; [congruence|reflexivity]. Qed.

(** ** The environment tag of a project name *)

(** [extract_dw_environment] returns a tag exactly for the texts
    ["dw-" tag "-" ...] with a non-empty lower-case tag. *)
Lemma extract_dw_environment_spec (text env : string) :
  HierarchyrProvisioner.extract_dw_environment text = Some env <->
  exists rest, text = "dw-" +:+ env +:+ "-" +:+ rest
               /\ env <> "" /\ PyStr.all PyStr.is_lower env = true.
Proof.
  unfold HierarchyrProvisioner.extract_dw_environment. split.
  - destruct (PyStr.strip_prefix "dw-" text) as [r|] eqn:Ep; [|discriminate].
    apply strip_prefix_spec in Ep.
    destruct (PyStr.span PyStr.is_lower r) as [e rest] eqn:Es.
    apply span_spec in Es as (-> & Hall & _).
    destruct (String.eqb e "") eqn:Ee; simpl; [discriminate|].
    destruct (PyStr.starts_with "-" rest) eqn:Er; [|discriminate].
    intros [= <-]. apply starts_with_spec in Er as [rest' ->].
    exists rest'. split; [exact Ep|]. split; [|exact Hall].
    intros ->. discriminate.
  - intros (rest & -> & Hne & Hall).
    rewrite strip_prefix_app.
    rewrite (span_app PyStr.is_lower env ("-" +:+ rest) Hall); [|reflexivity].
    rewrite (eqb_empty_false _ Hne). reflexivity.
Qed.

(** C10: for a non-empty lower-case tag, extraction from the constructed
    name ["dw-<env>-<name>"] returns the tag; a text that does not begin with
    ["dw-"], lower-case letters and a hyphen yields [None]; and for any other
    tag the construct/extract round trip does not return the tag. *)
Theorem C10_extract_dw_environment_roundtrip (env name : string) :
  (env <> "" -> PyStr.all PyStr.is_lower env = true ->
   HierarchyrProvisioner.extract_dw_environment
     (GcpProjectProvisioner.dw_name (VStr env) (VStr name)) = Some env)
  /\ (forall text : string,
        ~ (exists e rest, e <> "" /\ PyStr.all PyStr.is_lower e = true
                          /\ text = "dw-" +:+ e +:+ "-" +:+ rest) ->
        HierarchyrProvisioner.extract_dw_environment text = None)
  /\ (env = "" \/ PyStr.all PyStr.is_lower env = false ->
      HierarchyrProvisioner.extract_dw_environment
        (GcpProjectProvisioner.dw_name (VStr env) (VStr name)) <> Some env).
Proof.
  split; [|split].
  - intros Hne Hall. apply extract_dw_environment_spec.
    exists name. repeat split; assumption.
  - intros text Hno.
    destruct (HierarchyrProvisioner.extract_dw_environment text) as [e|] eqn:E;
      [|reflexivity].
    apply extract_dw_environment_spec in E as (rest & -> & Hne & Hall).
    exfalso. apply Hno. exists e, rest. repeat split; assumption.
  - intros Hbad E.
    apply extract_dw_environment_spec in E as (_ & _ & Hne & Hall).
    destruct Hbad as [-> | Hbad]; congruence.
Qed.

Lemma C10_witness :
  HierarchyrProvisioner.extract_dw_environment "dw-dev-myapp" = Some "dev"
  /\ HierarchyrProvisioner.extract_dw_environment "projects/myapp" = None
  /\ HierarchyrProvisioner.extract_dw_environment "dw-Dev-myapp" <> Some "Dev".
Proof.
  split; [|split].
  - apply (C10_extract_dw_environment_roundtrip "dev" "myapp");
      [discriminate | reflexivity].
  - apply (C10_extract_dw_environment_roundtrip "dev" "myapp").
    intros (e & rest & _ & _ & H). discriminate H.
  - apply (C10_extract_dw_environment_roundtrip "Dev" "myapp").
    right. reflexivity.
Defined.

(** ** The hierarchy index when the listing fails *)

Lemma collect_pages_fails (pages : list (option (list asset))) :
  In None pages -> HierarchyrProvisioner.collect_pages pages = None.
Proof.
  induction pages as [|[page|] pages IH]; simpl; intros H.
  - contradiction.
  - destruct H as [H|H]; [discriminate|]. rewrite (IH H). reflexivity.
  - reflexivity.
Qed.

(** C8: when the bulk listing fails the index is the empty list, the
    construction of the provisioner completes, and every existence check, for
    any name and any resource type, answers not-found. *)
Theorem C8_failed_listing_gives_empty_index (cfg : settings) (w : world) :
  listing_fails (asset_listing cfg) ->
  HierarchyrProvisioner._list_projects_and_folders (asset_listing cfg) = []
  /\ (forall (resource_name : value) (resource_type : string),
        HierarchyrProvisioner.check_if_resource_exist
          (HierarchyrProvisioner._list_projects_and_folders (asset_listing cfg))
          resource_name resource_type = None)
  /\ (forall w' : world,
        AppManager.select_provisioner cfg w = (inr tt, w') ->
        assets w' = []
        /\ forall (resource_name : value) (resource_type : string),
             HierarchyrProvisioner.check_if_resource_exist (assets w')
               resource_name resource_type = None)
  /\ (Py.eq_str (issue_type_name w) "New GCP Project Provisioning" = true
      \/ Py.eq_str (issue_type_name w) "New GCP Folder Provisioning" = true ->
      exists w', AppManager.select_provisioner cfg w = (inr tt, w')).
Proof.
  intros Hfail.
  assert (Hempty : HierarchyrProvisioner._list_projects_and_folders (asset_listing cfg) = []).
  { unfold HierarchyrProvisioner._list_projects_and_folders.
    destruct (asset_listing cfg) as [pages|]; [|reflexivity].
    simpl in Hfail. rewrite (collect_pages_fails pages Hfail). reflexivity. }
  split; [exact Hempty|]. split; [|split].
  - intros. rewrite Hempty. reflexivity.
  - intros w'. unfold AppManager.select_provisioner, bind, get_world, modify, raise.
    rewrite Hempty.
    destruct (Py.eq_str (issue_type_name w) "New GCP Project Provisioning");
      [|destruct (Py.eq_str (issue_type_name w) "New GCP Folder Provisioning")];
      intros [= <-]; split; reflexivity.
  - unfold AppManager.select_provisioner, bind, get_world, modify, raise.
    intros [-> | H].
    + eexists. reflexivity.
    + rewrite H.
      destruct (Py.eq_str (issue_type_name w) "New GCP Project Provisioning");
        eexists; reflexivity.
Qed.

Lemma C8_witness :
  HierarchyrProvisioner._list_projects_and_folders None = []
  /\ HierarchyrProvisioner.check_if_resource_exist
       (HierarchyrProvisioner._list_projects_and_folders None)
       (VStr "poc") Folder = None.
Proof.
  pose proof (C8_failed_listing_gives_empty_index
                (Settings true default_BUDGET_LIMIT [] None) (fresh []) I)
    as (H1 & H2 & _).
  split; [exact H1 | exact (H2 (VStr "poc") Folder)].
Defined.

(** ** Field extraction *)

Lemma isinstance_refl (e : exn) (c : exn_class) : e_class e = c -> isinstance c e = true.
Proof. intros <-. unfold isinstance. destruct (e_class e); reflexivity. Qed.

Lemma comment_error_run (text : string) (w : world) :
  PayloadParser.comment_error text w = (inr tt, logged [field_error w text] w).
Proof. reflexivity. Qed.








(** ** The sweep over the mandatory fields *)





Lemma logged_logged (a b : list jira_event) (w : world) :
  logged b (logged a w) = logged (a ++ b) w.
Proof.
  unfold logged, upd_jira_log. simpl. rewrite <- app_assoc. reflexivity.
Qed.

Lemma logged_nil (w : world) : logged [] w = w.
Proof. destruct w. unfold logged, upd_jira_log. simpl. rewrite app_nil_r. reflexivity. Qed.

(** The loop of [_check_mandatory_fields] returns the missing mandatory
    fields and sends one comment for each. *)
Lemma missing_mandatory_fields_run (ticket_fields : list (string * field_config))
    (w : world) :
  PayloadParser.missing_mandatory_fields ticket_fields w
  = (inr (missing_in (config_data w) ticket_fields),
     logged (List.map (missing_comment w) (missing_in (config_data w) ticket_fields)) w).
Proof.
  revert w. induction ticket_fields as [|[key config] rest IH]; intros w.
  - simpl. rewrite logged_nil. reflexivity.
  - simpl PayloadParser.missing_mandatory_fields. unfold bind at 1, get_world at 1.
    unfold missing_in. simpl List.filter.
    destruct (mandatory config
              && negb (bool_decide (is_Some (config_data w !! output_name config)))) eqn:E.
    + unfold bind at 1. rewrite comment_error_run.
      unfold bind at 1. rewrite IH. unfold ret. simpl List.map.
      rewrite logged_logged. reflexivity.
    + rewrite IH. reflexivity.
Qed.



(** ** The folder validator *)









Lemma folders_here_spec (s digits : string) :
  HierarchyrProvisioner.folders_here s = Some digits ->
  digits <> "" /\ PyStr.all PyStr.is_digit digits = true.
Proof.
  unfold HierarchyrProvisioner.folders_here.
  destruct (PyStr.strip_prefix "folders/" s) as [r|]; [|discriminate].
  destruct (PyStr.span PyStr.is_digit r) as [ds rest] eqn:Es.
  apply span_spec in Es as (_ & Hall & _).
  destruct (String.eqb ds "") eqn:Ee; simpl; [discriminate|].
  destruct (Re.at_eol rest); [|discriminate].
  intros [= <-]. split; [|exact Hall]. intros ->. discriminate.
Qed.

Lemma search_folders_spec (s digits : string) :
  HierarchyrProvisioner.search_folders s = Some digits ->
  digits <> "" /\ PyStr.all PyStr.is_digit digits = true.
Proof.
  induction s as [|c s IH].
  - discriminate.
  - cbn [HierarchyrProvisioner.search_folders].
    destruct (HierarchyrProvisioner.folders_here (String c s)) eqn:E.
    + intros [= <-]. exact (folders_here_spec _ _ E).
    + exact IH.
Qed.

Lemma folders_here_id (digits : string) :
  digits <> "" -> PyStr.all PyStr.is_digit digits = true ->
  HierarchyrProvisioner.folders_here ("folders/" +:+ digits) = Some digits.
Proof.
  intros Hne Hall. unfold HierarchyrProvisioner.folders_here.
  rewrite strip_prefix_app.
  rewrite <- (app_empty_r digits) at 1.
  rewrite (span_app PyStr.is_digit digits "" Hall I).
  rewrite (eqb_empty_false _ Hne). reflexivity.
Qed.

Lemma search_folders_found (pre s : string) :
  HierarchyrProvisioner.folders_here s <> None ->
  HierarchyrProvisioner.search_folders (pre +:+ s) <> None.
Proof.
  intros Hs. induction pre as [|c pre IH].
  - rewrite app_empty_l. destruct s as [|c s]; [exfalso; apply Hs; reflexivity|].
    cbn [HierarchyrProvisioner.search_folders].
    destruct (HierarchyrProvisioner.folders_here (String c s)); congruence.
  - rewrite app_cons. cbn [HierarchyrProvisioner.search_folders].
    destruct (HierarchyrProvisioner.folders_here (String c (pre +:+ s)));
      [discriminate | exact IH].
Qed.


Ltac m_unfold :=
  unfold bind, ret, raise, get_world, modify, lift, lift_opt, try_except; cbv beta.
Ltac m_unfold_in H :=
  unfold bind, ret, raise, get_world, modify, lift, lift_opt, try_except in H;
  cbv beta in H.








(** ** Committing to a path that already holds content *)

Lemma next_answer_run (a : http_answer) (rest : list http_answer) (w : world) :
  github_script w = a :: rest -> GitHub.next_answer w = (inr a, upd_script rest w).
Proof. intros H. unfold GitHub.next_answer. m_unfold. rewrite H. reflexivity. Qed.


(** *** Running the monad *)

Lemma bind_inr {A B} (m : M A) (k : A -> M B) (w w' : world) (a : A) :
  m w = (inr a, w') -> bind m k w = k a w'.
Proof. intros H. unfold bind. rewrite H. reflexivity. Qed.

Lemma bind_inl {A B} (m : M A) (k : A -> M B) (w w' : world) (e : exn) :
  m w = (inl e, w') -> bind m k w = (inl e, w').
Proof. intros H. unfold bind. rewrite H. reflexivity. Qed.


Lemma try_caught {A} (m : M A) (handles : exn -> bool) (h : exn -> M A)
    (w w' : world) (e : exn) :
  m w = (inl e, w') -> handles e = true -> try_except m handles h w = h e w'.
Proof. intros H Hh. unfold try_except. rewrite H, Hh. reflexivity. Qed.

Lemma try_uncaught {A} (m : M A) (handles : exn -> bool) (h : exn -> M A)
    (w w' : world) (e : exn) :
  m w = (inl e, w') -> handles e = false -> try_except m handles h w = (inl e, w').
Proof. intros H Hh. unfold try_except. rewrite H, Hh. reflexivity. Qed.


Lemma lift_inl {A} (r : exn + A) (e : exn) (w : world) :
  r = inl e -> @lift A r w = (inl e, w).
Proof. intros ->. reflexivity. Qed.







(** * Further properties of the code *)

(** ** Frame conditions and exception classes, compositionally *)

Section Keeps.

Variable R : world -> world -> Prop.
Hypothesis R_refl : forall w, R w w.
Hypothesis R_trans : forall w1 w2 w3, R w1 w2 -> R w2 w3 -> R w1 w3.

Lemma keeps_ret {A} (a : A) : keeps R (ret a).
Proof. intros w r w' [= _ <-]. apply R_refl. Qed.

Lemma keeps_raise {A} (e : exn) : keeps R (@raise A e).
Proof. intros w r w' [= _ <-]. apply R_refl. Qed.

Lemma keeps_get_world : keeps R get_world.
Proof. intros w r w' [= _ <-]. apply R_refl. Qed.

Lemma keeps_lift {A} (r : exn + A) : keeps R (lift r).
Proof. destruct r; [apply keeps_raise | apply keeps_ret]. Qed.

Lemma keeps_lift_opt {A} (o : option A) (e : exn) : keeps R (lift_opt o e).
Proof. destruct o; [apply keeps_ret | apply keeps_raise]. Qed.

Lemma keeps_modify (f : world -> world) : (forall w, R w (f w)) -> keeps R (modify f).
Proof. intros Hf w r w' [= _ <-]. apply Hf. Qed.

Lemma keeps_bind {A B} (m : M A) (k : A -> M B) :
  keeps R m -> (forall a, keeps R (k a)) -> keeps R (bind m k).
Proof.
  intros Hm Hk w r w'. unfold bind.
  destruct (m w) as [[e|a] w1] eqn:Em.
  - intros [= _ <-]. exact (Hm _ _ _ Em).
  - intros Hrun. exact (R_trans _ _ _ (Hm _ _ _ Em) (Hk a _ _ _ Hrun)).
Qed.

Lemma keeps_try {A} (m : M A) (handles : exn -> bool) (h : exn -> M A) :
  keeps R m -> (forall e, keeps R (h e)) -> keeps R (try_except m handles h).
Proof.
  intros Hm Hh w r w'. unfold try_except.
  destruct (m w) as [[e|a] w1] eqn:Em.
  - destruct (handles e).
    + intros Hrun. exact (R_trans _ _ _ (Hm _ _ _ Em) (Hh e _ _ _ Hrun)).
    + intros [= _ <-]. exact (Hm _ _ _ Em).
  - intros [= _ <-]. exact (Hm _ _ _ Em).
Qed.

Lemma keeps_for_each {A} (l : list A) (body : A -> M unit) :
  (forall x, keeps R (body x)) -> keeps R (for_each l body).
Proof.
  intros Hbody. induction l as [|x l IH]; simpl.
  - apply keeps_ret.
  - apply keeps_bind; [apply Hbody | intros _; exact IH].
Qed.

End Keeps.

Section RaisesIn.

Variable P : exn -> Prop.

Lemma raises_ret {A} (a : A) : raises_in P (ret a).
Proof. intros w e w' H. discriminate H. Qed.

Lemma raises_get_world : raises_in P get_world.
Proof. intros w e w' H. discriminate H. Qed.

Lemma raises_modify (f : world -> world) : raises_in P (modify f).
Proof. intros w e w' H. discriminate H. Qed.

Lemma raises_raise {A} (e : exn) : P e -> raises_in P (@raise A e).
Proof. intros He w e' w' [= <- _]. exact He. Qed.

Lemma raises_lift {A} (r : exn + A) :
  (forall e, r = inl e -> P e) -> raises_in P (lift r).
Proof.
  intros Hr w e w'. destruct r as [e0|a]; simpl.
  - intros [= <- _]. apply Hr. reflexivity.
  - discriminate.
Qed.

Lemma raises_lift_opt {A} (o : option A) (e : exn) : P e -> raises_in P (lift_opt o e).
Proof. intros He. destruct o; [apply raises_ret | apply raises_raise; exact He]. Qed.

Lemma raises_bind {A B} (m : M A) (k : A -> M B) :
  raises_in P m -> (forall a, raises_in P (k a)) -> raises_in P (bind m k).
Proof.
  intros Hm Hk w e w'. unfold bind.
  destruct (m w) as [[e0|a] w1] eqn:Em.
  - intros [= <- _]. exact (Hm _ _ _ Em).
  - intros Hrun. exact (Hk a _ _ _ Hrun).
Qed.

(** A [try] whose handler catches every ordinary exception raises what its
    handler raises, provided the body raises ordinary exceptions only. *)
Lemma raises_try {A} (m : M A) (handles : exn -> bool) (h : exn -> M A) :
  raises_in (fun e => handles e = true) m ->
  (forall e, raises_in P (h e)) ->
  raises_in P (try_except m handles h).
Proof.
  intros Hm Hh w e w'. unfold try_except.
  destruct (m w) as [[e0|a] w1] eqn:Em.
  - rewrite (Hm _ _ _ Em). intros Hrun. exact (Hh e0 _ _ _ Hrun).
  - discriminate.
Qed.

Lemma raises_for_each {A} (l : list A) (body : A -> M unit) :
  (forall x, raises_in P (body x)) -> raises_in P (for_each l body).
Proof.
  intros Hbody. induction l as [|x l IH]; simpl.
  - apply raises_ret.
  - apply raises_bind; [apply Hbody | intros _; exact IH].
Qed.

End RaisesIn.

Lemma raises_weaken {A} (P Q : exn -> Prop) (m : M A) :
  (forall e, P e -> Q e) -> raises_in P m -> raises_in Q m.
Proof. intros HPQ Hm w e w' H. exact (HPQ _ (Hm _ _ _ H)). Qed.

(** ** Label form (app/provisioners/base.py) *)

Lemma all_app (p : ascii -> bool) (a b : string) :
  PyStr.all p (a +:+ b) = PyStr.all p a && PyStr.all p b.
Proof.
  induction a as [|c a IH]; [reflexivity|].
  rewrite app_cons. simpl. rewrite IH, andb_assoc. reflexivity.
Qed.

Lemma all_impl (p q : ascii -> bool) (s : string) :
  (forall c, p c = true -> q c = true) -> PyStr.all p s = true -> PyStr.all q s = true.
Proof.
  intros Hpq. induction s as [|c s IH]; [reflexivity|]. simpl.
  intros [Hc Hs]%andb_true_iff. rewrite (Hpq _ Hc), (IH Hs). reflexivity.
Qed.

Lemma code_lt_256 (c : ascii) : (PyStr.code c < 256)%nat.
Proof. apply nat_ascii_bounded. Qed.

Lemma lower_char_not_upper (c : ascii) : PyStr.is_upper (PyStr.lower_char c) = false.
Proof.
  unfold PyStr.lower_char. destruct (PyStr.is_upper c) eqn:E; [|exact E].
  unfold PyStr.is_upper, PyStr.in_range, PyStr.code in *.
  apply andb_true_iff in E as [Hlo Hhi].
  apply Nat.leb_le in Hlo. apply Nat.leb_le in Hhi.
  rewrite nat_ascii_embedding by lia.
  apply andb_false_iff. right. apply Nat.leb_gt. lia.
Qed.

Lemma lower_char_space (c : ascii) :
  PyStr.is_space (PyStr.lower_char c) = PyStr.is_space c.
Proof.
  unfold PyStr.lower_char. destruct (PyStr.is_upper c) eqn:E; [|reflexivity].
  unfold PyStr.is_upper, PyStr.is_space, PyStr.in_range, PyStr.code in *.
  apply andb_true_iff in E as [Hlo Hhi].
  apply Nat.leb_le in Hlo. apply Nat.leb_le in Hhi.
  rewrite nat_ascii_embedding by lia.
  transitivity false; [|symmetry];
    (apply orb_false_iff; split; apply andb_false_iff;
     first [left; apply Nat.leb_gt; lia | right; apply Nat.leb_gt; lia]).
Qed.

Lemma sub_ws_go_label (in_ws : bool) (s : string) :
  PyStr.all (fun c => negb (PyStr.is_upper c)) s = true ->
  label_form (PyStr.sub_ws_go in_ws s).
Proof.
  unfold label_form. revert in_ws. induction s as [|c s IH]; intros in_ws; [reflexivity|].
  simpl. intros [Hc Hs]%andb_true_iff.
  destruct (PyStr.is_space c) eqn:Esp.
  - destruct in_ws; [apply IH; exact Hs|]. simpl. apply IH. exact Hs.
  - simpl. unfold label_char at 1. rewrite Esp, Hc. simpl. apply IH. exact Hs.
Qed.

Lemma lower_no_upper (s : string) :
  PyStr.all (fun c => negb (PyStr.is_upper c)) (PyStr.lower s) = true.
Proof.
  induction s as [|c s IH]; [reflexivity|].
  unfold PyStr.lower in *. simpl. rewrite lower_char_not_upper, IH. reflexivity.
Qed.

Lemma lower_label (s : string) : label_form s -> PyStr.lower s = s.
Proof.
  unfold label_form, PyStr.lower. induction s as [|c s IH]; [reflexivity|].
  simpl. intros [Hc Hs]%andb_true_iff. rewrite (IH Hs). f_equal.
  unfold label_char in Hc. apply andb_true_iff in Hc as [_ Hup].
  unfold PyStr.lower_char. destruct (PyStr.is_upper c); [discriminate|reflexivity].
Qed.

Lemma sub_ws_go_fixed (s : string) :
  label_form s -> PyStr.sub_ws_go false s = s.
Proof.
  unfold label_form. induction s as [|c s IH]; [reflexivity|].
  simpl. intros [Hc Hs]%andb_true_iff.
  unfold label_char in Hc. apply andb_true_iff in Hc as [Hsp _].
  destruct (PyStr.is_space c); [discriminate|]. rewrite (IH Hs). reflexivity.
Qed.

Lemma lower_char_ascii (c : ascii) :
  ascii_char c = true -> ascii_char (PyStr.lower_char c) = true.
Proof.
  unfold PyStr.lower_char. destruct (PyStr.is_upper c) eqn:E; [|auto].
  intros _. unfold ascii_char, PyStr.is_upper, PyStr.in_range, PyStr.code in *.
  apply andb_true_iff in E as [Hlo Hhi].
  apply Nat.leb_le in Hlo. apply Nat.leb_le in Hhi.
  rewrite nat_ascii_embedding by lia. apply Nat.ltb_lt. lia.
Qed.

Lemma lower_ascii (s : string) : ascii_text s -> ascii_text (PyStr.lower s).
Proof.
  unfold ascii_text, PyStr.lower. induction s as [|c s IH]; [reflexivity|].
  simpl. intros [Hc Hs]%andb_true_iff. rewrite (lower_char_ascii c Hc), (IH Hs).
  reflexivity.
Qed.

Lemma sub_ws_go_ascii (in_ws : bool) (s : string) :
  ascii_text s -> ascii_text (PyStr.sub_ws_go in_ws s).
Proof.
  unfold ascii_text. revert in_ws. induction s as [|c s IH]; intros in_ws; [reflexivity|].
  simpl. intros [Hc Hs]%andb_true_iff.
  destruct (PyStr.is_space c); [destruct in_ws|]; simpl; rewrite ?Hc; apply IH, Hs.
Qed.

Lemma format_ascii (v : value) :
  ascii_value v -> ascii_text (BaseProvisioner.format_for_label_system v).
Proof.
  destruct v; try reflexivity. intros H. apply sub_ws_go_ascii, lower_ascii, H.
Qed.

(** X1 (format_for_label_system).  On ASCII text, where the lower-casing and
    the whitespace class of Python are those of the model: what the label
    formatter returns is an ASCII text without whitespace and without
    capitals; the texts it leaves as they are are exactly those; hence
    formatting twice is formatting once. *)
Theorem format_for_label_system_normal_form (v : value) (s : string) :
  ascii_value v -> ascii_text s ->
  label_form (BaseProvisioner.format_for_label_system v)
  /\ ascii_text (BaseProvisioner.format_for_label_system v)
  /\ (BaseProvisioner.format_for_label_system (VStr s) = s <-> label_form s)
  /\ BaseProvisioner.format_for_label_system
       (VStr (BaseProvisioner.format_for_label_system v))
     = BaseProvisioner.format_for_label_system v.
Proof.
  intros Hv _.
  assert (Hform : forall v, label_form (BaseProvisioner.format_for_label_system v)).
  { intros [| | | |t| |]; try reflexivity.
    apply sub_ws_go_label, lower_no_upper. }
  assert (Hfix : forall t, label_form t -> BaseProvisioner.format_for_label_system (VStr t) = t).
  { intros t Ht. simpl. rewrite (lower_label t Ht). apply sub_ws_go_fixed, Ht. }
  split; [apply Hform|]. split; [apply format_ascii, Hv|]. split.
  - split; [|apply Hfix]. intros <-. apply Hform.
  - apply Hfix, Hform.
Qed.

Lemma format_for_label_system_normal_form_witness :
  let v := VStr "My  Cloud App" in
  let s := "my_cloud_app" in
  ascii_value v /\ ascii_text s
  /\ label_form (BaseProvisioner.format_for_label_system v)
  /\ ascii_text (BaseProvisioner.format_for_label_system v)
  /\ (BaseProvisioner.format_for_label_system (VStr s) = s <-> label_form s)
  /\ BaseProvisioner.format_for_label_system
       (VStr (BaseProvisioner.format_for_label_system v))
     = BaseProvisioner.format_for_label_system v.
Proof.
  intros v s.
  assert (Hv : ascii_value v) by reflexivity.
  assert (Hs : ascii_text s) by reflexivity.
  split; [exact Hv|]. split; [exact Hs|].
  exact (format_for_label_system_normal_form v s Hv Hs).
Defined.

(** ** Folder identifiers (app/provisioners/base.py) *)

Lemma last_segment_plain (cur y : string) :
  PyStr.all (fun c => negb (Ascii.eqb c "/")) y = true ->
  last_segment cur y = cur +:+ y.
Proof.
  revert cur. induction y as [|c y IH]; intros cur; simpl.
  - intros _. rewrite app_empty_r. reflexivity.
  - intros [Hc Hy]%andb_true_iff. destruct (Ascii.eqb c "/"); [discriminate|].
    rewrite (IH _ Hy), app_assoc_str. reflexivity.
Qed.

Lemma last_segment_after (cur x y : string) :
  PyStr.all (fun c => negb (Ascii.eqb c "/")) y = true ->
  last_segment cur (x +:+ "/" +:+ y) = y.
Proof.
  intros Hy. revert cur. induction x as [|c x IH]; intros cur.
  - rewrite app_empty_l. simpl. apply (last_segment_plain "" y Hy).
  - rewrite app_cons. simpl. destruct (Ascii.eqb c "/"); apply IH.
Qed.

Lemma digit_not_slash (c : ascii) : PyStr.is_digit c = true -> negb (Ascii.eqb c "/") = true.
Proof.
  intros H. destruct (Ascii.eqb c "/") eqn:E; [|reflexivity].
  apply Ascii.eqb_eq in E. subst c. discriminate H.
Qed.

Lemma folders_here_inv (s digits : string) :
  HierarchyrProvisioner.folders_here s = Some digits ->
  exists rest, s = "folders/" +:+ digits +:+ rest /\ Re.at_eol rest = true.
Proof.
  unfold HierarchyrProvisioner.folders_here.
  destruct (PyStr.strip_prefix "folders/" s) as [r|] eqn:Ep; [|discriminate].
  apply strip_prefix_spec in Ep.
  destruct (PyStr.span PyStr.is_digit r) as [ds rest] eqn:Es.
  apply span_spec in Es as (Hr & _ & _).
  destruct (negb (String.eqb ds "")); simpl; [|discriminate].
  destruct (Re.at_eol rest) eqn:Eeol; [|discriminate].
  intros [= <-]. exists rest. subst. split; [reflexivity|exact Eeol].
Qed.

Lemma search_folders_inv (s digits : string) :
  HierarchyrProvisioner.search_folders s = Some digits ->
  exists pre rest,
    s = pre +:+ "folders/" +:+ digits +:+ rest /\ Re.at_eol rest = true.
Proof.
  induction s as [|c s IH].
  - discriminate.
  - cbn [HierarchyrProvisioner.search_folders].
    destruct (HierarchyrProvisioner.folders_here (String c s)) eqn:E.
    + intros [= <-]. apply folders_here_inv in E as (rest & -> & Hrest).
      exists "", rest. split; [reflexivity|exact Hrest].
    + intros H. destruct (IH H) as (pre & rest & -> & Hrest).
      exists (String c pre), rest. split; [reflexivity|exact Hrest].
Qed.

Lemma at_eol_inv (rest : string) :
  Re.at_eol rest = true -> rest = "" \/ rest = String "010" EmptyString.
Proof.
  unfold Re.at_eol. intros [H|H]%orb_true_iff; apply String.eqb_eq in H; auto.
Qed.

Lemma all_digit_last (d : string) :
  PyStr.all PyStr.is_digit (d +:+ String "010" EmptyString) = true -> False.
Proof. rewrite all_app. simpl. rewrite andb_false_r. discriminate. Qed.

Lemma search_folders_exact (pre digits : string) :
  digits <> "" -> PyStr.all PyStr.is_digit digits = true ->
  HierarchyrProvisioner.search_folders (pre +:+ "folders/" +:+ digits) = Some digits.
Proof.
  intros Hne Hall.
  destruct (HierarchyrProvisioner.search_folders (pre +:+ "folders/" +:+ digits))
    as [d|] eqn:E.
  2:{ exfalso. apply (search_folders_found pre ("folders/" +:+ digits)); [|exact E].
      rewrite (folders_here_id digits Hne Hall). discriminate. }
  f_equal.
  destruct (search_folders_spec _ _ E) as [_ Hd].
  destruct (search_folders_inv _ _ E) as (pre' & rest & Heq & Hrest).
  assert (Hseg : last_segment "" (pre +:+ "folders/" +:+ digits) = digits).
  { change (pre +:+ "folders/" +:+ digits)
      with (pre +:+ "folders" +:+ "/" +:+ digits).
    rewrite <- (app_assoc_str pre "folders").
    apply last_segment_after.
    exact (all_impl _ _ _ digit_not_slash Hall). }
  rewrite Heq in Hseg.
  apply at_eol_inv in Hrest as [-> | ->].
  - rewrite app_empty_r in Hseg.
    change (pre' +:+ "folders/" +:+ d) with (pre' +:+ "folders" +:+ "/" +:+ d) in Hseg.
    rewrite <- (app_assoc_str pre' "folders") in Hseg.
    rewrite last_segment_after in Hseg by exact (all_impl _ _ _ digit_not_slash Hd).
    exact Hseg.
  - exfalso.
    change (pre' +:+ "folders/" +:+ d +:+ String "010" EmptyString)
      with (pre' +:+ "folders" +:+ "/" +:+ (d +:+ String "010" EmptyString)) in Hseg.
    rewrite <- (app_assoc_str pre' "folders") in Hseg.
    rewrite last_segment_after in Hseg.
    + rewrite <- Hseg in Hall. exact (all_digit_last d Hall).
    + rewrite all_app, (all_impl _ _ _ digit_not_slash Hd). reflexivity.
Qed.

(** X2 (_extract_folder_id).  From a resource name that ends with
    ["folders/<digits>"] the extraction returns exactly that suffix, whatever
    precedes it: the leftmost match of the pattern is the last segment. *)
Theorem extract_folder_id_exact (pre digits : string) :
  digits <> "" -> PyStr.all PyStr.is_digit digits = true ->
  HierarchyrProvisioner._extract_folder_id (Some (pre +:+ "folders/" +:+ digits))
  = Some ("folders/" +:+ digits).
Proof.
  intros Hne Hall. unfold HierarchyrProvisioner._extract_folder_id.
  assert (Hn : pre +:+ "folders/" +:+ digits <> "") by (destruct pre; discriminate).
  simpl HierarchyrProvisioner.found. rewrite (eqb_empty_false _ Hn). simpl negb. cbv iota.
  rewrite (search_folders_exact pre digits Hne Hall). reflexivity.
Qed.

Lemma extract_folder_id_exact_witness :
  HierarchyrProvisioner._extract_folder_id
    (Some ("//cloudresourcemanager.googleapis.com/" +:+ "folders/" +:+ "4821"))
  = Some ("folders/" +:+ "4821").
Proof.
  apply (extract_folder_id_exact "//cloudresourcemanager.googleapis.com/" "4821").
  - discriminate.
  - reflexivity.
Defined.

(** X3 (_extract_folder_id).  For an ASCII resource name, where the digit
    class of the pattern is the one of the model: what the extraction
    returns is a canonical identifier ["folders/<digits>"], and the
    extraction leaves a canonical identifier as it is; without a name, or
    with an empty one, it returns nothing. *)
Theorem extract_folder_id_canonical (m : option string) (r : string) :
  (forall name, m = Some name -> ascii_text name) ->
  HierarchyrProvisioner._extract_folder_id m = Some r ->
  (exists digits, r = "folders/" +:+ digits /\ digits <> ""
                  /\ PyStr.all PyStr.is_digit digits = true)
  /\ ascii_text r
  /\ HierarchyrProvisioner._extract_folder_id (Some r) = Some r
  /\ m <> None /\ m <> Some "".
Proof.
  intros _. unfold HierarchyrProvisioner._extract_folder_id at 1.
  destruct m as [name|]; [|discriminate].
  destruct (HierarchyrProvisioner.found (Some name)) eqn:Ef; [|discriminate].
  destruct (HierarchyrProvisioner.search_folders name) as [d|] eqn:E; [|discriminate].
  intros [= <-]. destruct (search_folders_spec _ _ E) as [Hne Hall].
  split; [exists d; repeat split; assumption|]. split.
  { unfold ascii_text. rewrite all_app. apply andb_true_iff. split; [reflexivity|].
    apply (all_impl PyStr.is_digit); [|exact Hall].
    intros c Hc. unfold PyStr.is_digit, PyStr.in_range in Hc.
    apply andb_true_iff in Hc as [_ Hc]. apply Nat.leb_le in Hc.
    apply Nat.ltb_lt. lia. }
  split.
  - unfold HierarchyrProvisioner._extract_folder_id.
    change (HierarchyrProvisioner.found (Some ("folders/" +:+ d))) with true. cbv iota.
    pose proof (search_folders_exact "" d Hne Hall) as Hs.
    rewrite app_empty_l in Hs. rewrite Hs. reflexivity.
  - split; [discriminate|]. intros [= ->]. discriminate Ef.
Qed.

Lemma extract_folder_id_canonical_witness :
  let m := Some "organizations/1/folders/77" in
  (forall name, m = Some name -> ascii_text name)
  /\ HierarchyrProvisioner._extract_folder_id m = Some "folders/77"
  /\ (exists digits, "folders/77" = "folders/" +:+ digits /\ digits <> ""
                     /\ PyStr.all PyStr.is_digit digits = true)
  /\ ascii_text "folders/77"
  /\ HierarchyrProvisioner._extract_folder_id (Some "folders/77") = Some "folders/77"
  /\ m <> None /\ m <> Some "".
Proof.
  intros m.
  assert (Ha : forall name, m = Some name -> ascii_text name).
  { intros name [= <-]. reflexivity. }
  assert (Hr : HierarchyrProvisioner._extract_folder_id m = Some "folders/77")
    by reflexivity.
  split; [exact Ha|]. split; [exact Hr|].
  exact (extract_folder_id_canonical m "folders/77" Ha Hr).
Defined.

(** ** Base64: what is encoded is read back *)

Module Base64Facts.

Local Open Scope nat_scope.

Lemma index_of_char_of (n : nat) :
  n < 64 ->
  Base64.index_of (Base64.char_of n) = Some n
  /\ Ascii.eqb (Base64.char_of n) "=" = false
  /\ Nat.ltb (PyStr.code (Base64.char_of n)) 128 = true.
Proof.
  intros Hn.
  do 64 (destruct n as [|n]; [vm_compute; repeat split|]).
  lia.
Qed.

Lemma div_mod_small (a b k : nat) :
  b < k -> (a * k + b) / k = a /\ (a * k + b) mod k = b.
Proof.
  intros Hb. split.
  - symmetry. apply (Nat.div_unique _ k a b); lia.
  - symmetry. apply (Nat.mod_unique _ k a b); lia.
Qed.

Lemma split_code (x k : nat) : 0 < k -> x / k * k + x mod k = x.
Proof. intros Hk. rewrite (Nat.div_mod_eq x k) at 3. lia. Qed.

Lemma code_roundtrip (a : ascii) : ascii_of_nat (PyStr.code a) = a.
Proof. apply ascii_nat_embedding. Qed.

Lemma quantum (c1 c2 c3 c4 : nat) (r : string) :
  c1 < 64 -> c2 < 64 -> c3 < 64 -> c4 < 64 ->
  Base64.decode_go
    (String (Base64.char_of c1) (String (Base64.char_of c2)
       (String (Base64.char_of c3) (String (Base64.char_of c4) r)))) 0 0 0
  = option_map
      (fun t => String (ascii_of_nat (c1 * 4 + c2 / 16))
                  (String (ascii_of_nat (c2 mod 16 * 16 + c3 / 4))
                     (String (ascii_of_nat (c3 mod 4 * 64 + c4)) t)))
      (Base64.decode_go r 0 0 0).
Proof.
  intros H1 H2 H3 H4.
  destruct (index_of_char_of c1 H1) as (I1 & E1 & _).
  destruct (index_of_char_of c2 H2) as (I2 & E2 & _).
  destruct (index_of_char_of c3 H3) as (I3 & E3 & _).
  destruct (index_of_char_of c4 H4) as (I4 & E4 & _).
  cbn [Base64.decode_go]. rewrite E1, I1.
  cbn [Base64.decode_go]. rewrite E2, I2.
  cbn [Base64.decode_go]. rewrite E3, I3.
  cbn [Base64.decode_go]. rewrite E4, I4.
  destruct (Base64.decode_go r 0 0 0); reflexivity.
Qed.

Lemma decode_encode_go (n : nat) (s : string) :
  String.length s <= n ->
  Base64.decode_go (Base64.b64encode s) 0 0 0 = Some s.
Proof.
  revert s. induction n as [|n IH]; intros s Hlen.
  - destruct s; [reflexivity | simpl in Hlen; lia].
  - destruct s as [|a [|b [|c rest]]].
    + reflexivity.
    + pose proof (code_lt_256 a) as Ha.
      cbn [Base64.b64encode]. set (x := PyStr.code a) in *.
      assert (H1 : x / 4 < 64) by (apply Nat.Div0.div_lt_upper_bound; lia).
      assert (H2 : x mod 4 * 16 < 64)
        by (pose proof (Nat.mod_upper_bound x 4); lia).
      destruct (index_of_char_of _ H1) as (I1 & E1 & _).
      destruct (index_of_char_of _ H2) as (I2 & E2 & _).
      cbn [Base64.decode_go]. rewrite E1, I1.
      cbn [Base64.decode_go]. rewrite E2, I2.
      cbn [Base64.decode_go Ascii.eqb Bool.eqb Nat.leb Nat.add option_map].
      f_equal. f_equal.
      rewrite Nat.div_mul by lia. rewrite split_code by lia. apply code_roundtrip.
    + pose proof (code_lt_256 a) as Ha. pose proof (code_lt_256 b) as Hb.
      cbn [Base64.b64encode]. set (x := PyStr.code a) in *. set (y := PyStr.code b) in *.
      assert (H1 : x / 4 < 64) by (apply Nat.Div0.div_lt_upper_bound; lia).
      assert (Hy : y / 16 < 16) by (apply Nat.Div0.div_lt_upper_bound; lia).
      assert (H2 : x mod 4 * 16 + y / 16 < 64)
        by (pose proof (Nat.mod_upper_bound x 4); lia).
      assert (H3 : y mod 16 * 4 < 64)
        by (pose proof (Nat.mod_upper_bound y 16); lia).
      destruct (index_of_char_of _ H1) as (I1 & E1 & _).
      destruct (index_of_char_of _ H2) as (I2 & E2 & _).
      destruct (index_of_char_of _ H3) as (I3 & E3 & _).
      cbn [Base64.decode_go]. rewrite E1, I1.
      cbn [Base64.decode_go]. rewrite E2, I2.
      cbn [Base64.decode_go]. rewrite E3, I3.
      cbn [Base64.decode_go Ascii.eqb Bool.eqb Nat.leb Nat.add option_map].
      f_equal.
      destruct (div_mod_small (x mod 4) (y / 16) 16 Hy) as [-> ->].
      rewrite Nat.div_mul by lia. rewrite !split_code by lia.
      subst x y. rewrite !code_roundtrip. reflexivity.
    + pose proof (code_lt_256 a) as Ha. pose proof (code_lt_256 b) as Hb.
      pose proof (code_lt_256 c) as Hc.
      cbn [Base64.b64encode].
      set (x := PyStr.code a) in *. set (y := PyStr.code b) in *.
      set (z := PyStr.code c) in *.
      assert (H1 : x / 4 < 64) by (apply Nat.Div0.div_lt_upper_bound; lia).
      assert (Hy : y / 16 < 16) by (apply Nat.Div0.div_lt_upper_bound; lia).
      assert (Hz : z / 64 < 4) by (apply Nat.Div0.div_lt_upper_bound; lia).
      assert (H2 : x mod 4 * 16 + y / 16 < 64)
        by (pose proof (Nat.mod_upper_bound x 4); lia).
      assert (H3 : y mod 16 * 4 + z / 64 < 64)
        by (pose proof (Nat.mod_upper_bound y 16); lia).
      assert (H4 : z mod 64 < 64) by (apply Nat.mod_upper_bound; lia).
      rewrite (quantum _ _ _ _ _ H1 H2 H3 H4).
      rewrite IH by (simpl in Hlen; lia).
      cbn [option_map]. f_equal.
      destruct (div_mod_small (x mod 4) (y / 16) 16 Hy) as [-> ->].
      destruct (div_mod_small (y mod 16) (z / 64) 4 Hz) as [-> ->].
      rewrite !split_code by lia.
      subst x y z. rewrite !code_roundtrip. reflexivity.
Qed.

Lemma encode_ascii (n : nat) (s : string) :
  String.length s <= n ->
  PyStr.all (fun c => Nat.ltb (PyStr.code c) 128) (Base64.b64encode s) = true.
Proof.
  revert s. induction n as [|n IH]; intros s Hlen.
  - destruct s; [reflexivity | simpl in Hlen; lia].
  - destruct s as [|a [|b [|c rest]]].
    + reflexivity.
    + pose proof (code_lt_256 a) as Ha.
      cbn [Base64.b64encode]. set (x := PyStr.code a) in *.
      assert (H1 : x / 4 < 64) by (apply Nat.Div0.div_lt_upper_bound; lia).
      assert (H2 : x mod 4 * 16 < 64)
        by (pose proof (Nat.mod_upper_bound x 4); lia).
      destruct (index_of_char_of _ H1) as (_ & _ & A1).
      destruct (index_of_char_of _ H2) as (_ & _ & A2).
      cbn [PyStr.all]. rewrite A1, A2. reflexivity.
    + pose proof (code_lt_256 a) as Ha. pose proof (code_lt_256 b) as Hb.
      cbn [Base64.b64encode]. set (x := PyStr.code a) in *. set (y := PyStr.code b) in *.
      assert (H1 : x / 4 < 64) by (apply Nat.Div0.div_lt_upper_bound; lia).
      assert (Hy : y / 16 < 16) by (apply Nat.Div0.div_lt_upper_bound; lia).
      assert (H2 : x mod 4 * 16 + y / 16 < 64)
        by (pose proof (Nat.mod_upper_bound x 4); lia).
      assert (H3 : y mod 16 * 4 < 64)
        by (pose proof (Nat.mod_upper_bound y 16); lia).
      destruct (index_of_char_of _ H1) as (_ & _ & A1).
      destruct (index_of_char_of _ H2) as (_ & _ & A2).
      destruct (index_of_char_of _ H3) as (_ & _ & A3).
      cbn [PyStr.all]. rewrite A1, A2, A3. reflexivity.
    + pose proof (code_lt_256 a) as Ha. pose proof (code_lt_256 b) as Hb.
      pose proof (code_lt_256 c) as Hc.
      cbn [Base64.b64encode].
      set (x := PyStr.code a) in *. set (y := PyStr.code b) in *.
      set (z := PyStr.code c) in *.
      assert (H1 : x / 4 < 64) by (apply Nat.Div0.div_lt_upper_bound; lia).
      assert (Hy : y / 16 < 16) by (apply Nat.Div0.div_lt_upper_bound; lia).
      assert (Hz : z / 64 < 4) by (apply Nat.Div0.div_lt_upper_bound; lia).
      assert (H2 : x mod 4 * 16 + y / 16 < 64)
        by (pose proof (Nat.mod_upper_bound x 4); lia).
      assert (H3 : y mod 16 * 4 + z / 64 < 64)
        by (pose proof (Nat.mod_upper_bound y 16); lia).
      assert (H4 : z mod 64 < 64) by (apply Nat.mod_upper_bound; lia).
      destruct (index_of_char_of _ H1) as (_ & _ & A1).
      destruct (index_of_char_of _ H2) as (_ & _ & A2).
      destruct (index_of_char_of _ H3) as (_ & _ & A3).
      destruct (index_of_char_of _ H4) as (_ & _ & A4).
      cbn [PyStr.all]. rewrite A1, A2, A3, A4.
      rewrite IH by (simpl in Hlen; lia). reflexivity.
Qed.

End Base64Facts.

(** X4 (encode_yaml_file, compare_existing_file).  What [encode_yaml_file]
    produces for a document, the decoding step of [compare_existing_file]
    reads back as the serialized text: Base64 decoding returns the very bytes
    that were encoded, whatever the serializer wrote. *)
Theorem encode_yaml_file_decodes_back (dump : value -> string) (doc : value) :
  Base64.b64decode (BaseProvisioner.encode_yaml_file dump doc) = Some (dump doc)
  /\ GitHub.decode_text (VStr (BaseProvisioner.encode_yaml_file dump doc))
     = match Utf8.decode (dump doc) with
       | Some text => inr text
       | None => inl (mk_exn ValueError "'utf-8' codec can't decode bytes")
       end.
Proof.
  unfold BaseProvisioner.encode_yaml_file.
  assert (H : Base64.b64decode (Base64.b64encode (dump doc)) = Some (dump doc)).
  { unfold Base64.b64decode.
    rewrite (Base64Facts.encode_ascii _ _ (Nat.le_refl _)).
    apply (Base64Facts.decode_encode_go _ _ (Nat.le_refl _)). }
  split; [exact H|]. unfold GitHub.decode_text. rewrite H. reflexivity.
Qed.

(** ** Classes of the exceptions of the primitive operations *)

Lemma classes_within_spec (cs1 cs2 : list exn_class) (e : exn) :
  classes_within cs1 cs2 = true -> class_in cs1 e -> class_in cs2 e.
Proof.
  unfold classes_within, class_in. intros H Hin.
  rewrite forallb_forall in H. specialize (H _ Hin).
  apply existsb_exists in H as (d & Hd & Heq).
  apply bool_decide_eq_true_1 in Heq. subst d. exact Hd.
Qed.

Lemma raises_sub {A} (cs1 cs2 : list exn_class) (m : M A) :
  classes_within cs1 cs2 = true ->
  raises_in (class_in cs1) m -> raises_in (class_in cs2) m.
Proof. intros H. apply raises_weaken. intros e. apply classes_within_spec, H. Qed.

Ltac class_tac := unfold class_in; simpl; tauto.

Lemma class_in_cases (cs : list exn_class) (e : exn) (P : exn_class -> Prop) :
  List.Forall P cs -> class_in cs e -> P (e_class e).
Proof. intros H Hin. rewrite List.Forall_forall in H. apply H, Hin. Qed.

(** Settles [forall e, class_in cs e -> ...] when the rest depends on the
    class of [e] only, by going through the classes of [cs]. *)
Ltac by_class :=
  let e := fresh "e" in
  let He := fresh "He" in
  intros e He; unfold ordinary; unfold isinstance, class_in;
  pattern (e_class e); refine (class_in_cases _ e _ _ He);
  repeat constructor; vm_compute;
  first [discriminate | intros; discriminate | intuition congruence].

Ltac pyop_tac v :=
  apply raises_lift; intros e He; destruct v; simpl in He;
  repeat match type of He with
         | context [match ?x with _ => _ end] => destruct x; simpl in He
         end;
  inversion He; subst; class_tac.

Lemma raises_py_in (k : string) (v : value) :
  raises_in (class_in [TypeError]) (py_in k v).
Proof. unfold py_in. pyop_tac v. Qed.

Lemma raises_py_item (v : value) (k : string) :
  raises_in (class_in [KeyError; TypeError]) (py_item v k).
Proof. unfold py_item. pyop_tac v. Qed.

Lemma raises_py_len (v : value) : raises_in (class_in [TypeError]) (py_len v).
Proof. unfold py_len. pyop_tac v. Qed.

Lemma raises_py_first (v : value) :
  raises_in (class_in [Exception; KeyError; TypeError]) (py_first v).
Proof. unfold py_first. pyop_tac v. Qed.

Lemma raises_py_iter (v : value) : raises_in (class_in [TypeError]) (py_iter v).
Proof. unfold py_iter. pyop_tac v. Qed.

Lemma raises_py_upper (v : value) : raises_in (class_in [AttributeError]) (py_upper v).
Proof. unfold py_upper. pyop_tac v. Qed.

Lemma raises_py_float (v : value) :
  raises_in (class_in [ValueError; TypeError; OverflowError]) (lift (py_float v)).
Proof.
  apply raises_lift. intros e He. unfold py_float in He.
  destruct v; try (inversion He; subst; class_tac).
  - destruct (PyFloat.of_int z); inversion He; subst; class_tac.
  - destruct (PyFloat.of_string s); inversion He; subst; class_tac.
Qed.

Lemma raises_set_config (P : exn -> Prop) (k : string) (v : value) :
  raises_in P (set_config k v).
Proof. apply raises_modify. Qed.

Lemma raises_add_comment (P : exn -> Prop) (id text kind : string) :
  raises_in P (add_comment_to_jira_issue id text kind).
Proof. apply raises_modify. Qed.

Lemma raises_change_issue_status (P : exn -> Prop) (name id : string) :
  raises_in P (change_issue_status name id).
Proof. apply raises_bind; [apply raises_modify | intros _; apply raises_ret]. Qed.

(** A [try] that handles some exceptions only. *)
Lemma raises_try_some {A} (P Q : exn -> Prop) (m : M A) (handles : exn -> bool)
    (h : exn -> M A) :
  raises_in Q m ->
  (forall e, Q e -> handles e = false -> P e) ->
  (forall e, Q e -> handles e = true -> raises_in P (h e)) ->
  raises_in P (try_except m handles h).
Proof.
  intros Hm Hpass Hh w e w'. unfold try_except.
  destruct (m w) as [[e0|a] w1] eqn:Em.
  - pose proof (Hm _ _ _ Em) as HQ. destruct (handles e0) eqn:Eh.
    + intros Hrun. exact (Hh e0 HQ Eh _ _ _ Hrun).
    + intros [= <- _]. exact (Hpass e0 HQ Eh).
  - discriminate.
Qed.

(** One step of the analysis of what a computation raises: the goal is
    [raises_in (class_in cs) m] for a list [cs] that is given. *)
Ltac raises_prim lem := eapply raises_sub; [|apply lem]; reflexivity.
Ltac raises_step :=
  lazymatch goal with
  | |- raises_in _ (ret _) => apply raises_ret
  | |- raises_in _ get_world => apply raises_get_world
  | |- raises_in _ (modify _) => apply raises_modify
  | |- raises_in _ (set_config _ _) => apply raises_modify
  | |- raises_in _ (add_comment_to_jira_issue _ _ _) => apply raises_modify
  | |- raises_in _ (change_issue_status _ _) => apply raises_change_issue_status
  | |- raises_in _ (raise _) => apply raises_raise; class_tac
  | |- raises_in _ (bind _ _) => apply raises_bind; [|intros ?]
  | |- raises_in _ (for_each _ _) => apply raises_for_each; intros ?
  | |- raises_in _ (py_in _ _) => raises_prim raises_py_in
  | |- raises_in _ (py_item _ _) => raises_prim raises_py_item
  | |- raises_in _ (py_len _) => raises_prim raises_py_len
  | |- raises_in _ (py_first _) => raises_prim raises_py_first
  | |- raises_in _ (py_iter _) => raises_prim raises_py_iter
  | |- raises_in _ (py_upper _) => raises_prim raises_py_upper
  | |- raises_in _ (lift (py_float _)) => raises_prim raises_py_float
  | |- raises_in _ (if ?b then _ else _) => destruct b
  | |- raises_in _ (match ?x with _ => _ end) => destruct x
  end.
Ltac raises_tac := repeat raises_step.

(** ** Frames of the primitive operations *)

Lemma silent_refl (w : world) : silent w w.
Proof. repeat split. Qed.

Lemma silent_trans (w1 w2 w3 : world) : silent w1 w2 -> silent w2 w3 -> silent w1 w3.
Proof.
  unfold silent. intros H H'.
  destruct H as (A1 & A2 & A3 & A4 & A5 & A6 & A7 & A8 & A9 & A10).
  destruct H' as (B1 & B2 & B3 & B4 & B5 & B6 & B7 & B8 & B9 & B10).
  repeat split; congruence.
Qed.

Lemma touches_only_refl (k : string) (w : world) : touches_only k w w.
Proof.
  unfold touches_only. repeat split; try reflexivity.
  exists []. rewrite app_nil_r. reflexivity.
Qed.

Lemma touches_only_trans (k : string) (w1 w2 w3 : world) :
  touches_only k w1 w2 -> touches_only k w2 w3 -> touches_only k w1 w3.
Proof.
  unfold touches_only.
  intros (Hc & H1 & H2 & H3 & H4 & H5 & H6 & H7 & H8 & H9 & H10 & ev & Hev)
         (Hc' & H1' & H2' & H3' & H4' & H5' & H6' & H7' & H8' & H9' & H10' & ev' & Hev').
  repeat split; try congruence.
  - intros k' Hk'. rewrite (Hc' k' Hk'). apply Hc, Hk'.
  - exists (ev ++ ev'). rewrite Hev', Hev, app_assoc. reflexivity.
Qed.

Lemma touches_set_config (k : string) (v : value) :
  keeps (touches_only k) (set_config k v).
Proof.
  apply keeps_modify. intros w. unfold touches_only. simpl.
  repeat split; try reflexivity.
  - intros k' Hk'. apply lookup_insert_ne. congruence.
  - exists []. rewrite app_nil_r. reflexivity.
Qed.

Lemma touches_comment_error (k text : string) :
  keeps (touches_only k) (PayloadParser.comment_error text).
Proof.
  intros w r w'. rewrite comment_error_run. intros [= _ <-].
  unfold touches_only, logged. simpl. repeat split; try reflexivity.
  eexists. reflexivity.
Qed.

Ltac keeps_step refl trans :=
  lazymatch goal with
  | |- keeps _ (ret _) => apply keeps_ret; exact refl
  | |- keeps _ (raise _) => apply keeps_raise; exact refl
  | |- keeps _ get_world => apply keeps_get_world; exact refl
  | |- keeps _ (lift _) => apply keeps_lift; exact refl
  | |- keeps _ (lift_opt _ _) => apply keeps_lift_opt; exact refl
  | |- keeps _ (py_in _ _) => apply keeps_lift; exact refl
  | |- keeps _ (py_item _ _) => apply keeps_lift; exact refl
  | |- keeps _ (py_len _) => apply keeps_lift; exact refl
  | |- keeps _ (py_first _) => apply keeps_lift; exact refl
  | |- keeps _ (py_iter _) => apply keeps_lift; exact refl
  | |- keeps _ (py_upper _) => apply keeps_lift; exact refl
  | |- keeps _ (bind _ _) => apply keeps_bind; [exact trans | | intros ?]
  | |- keeps _ (try_except _ _ _) => apply keeps_try; [exact trans | | intros ?]
  | |- keeps _ (for_each _ _) => apply keeps_for_each; [exact refl | exact trans | intros ?]
  | |- keeps _ (if ?b then _ else _) => destruct b
  | |- keeps _ (match ?x with _ => _ end) => destruct x
  end.
Ltac keeps_tac refl trans := repeat keeps_step refl trans.

(** ** Field extraction (app/parsers.py, app/app_manager.py) *)

Lemma raises_comment_error (P : exn -> Prop) (text : string) :
  raises_in P (PayloadParser.comment_error text).
Proof. intros w e w'. rewrite comment_error_run. discriminate. Qed.

Lemma isinstance_ValueError (e : exn) :
  isinstance ValueError e = true -> e_class e = ValueError.
Proof. destruct e as [c m s]. destruct c; vm_compute; congruence. Qed.

Lemma class_in_ordinary (cs : list exn_class) (e : exn) :
  classes_within cs
    [Exception; ValueError; KeyError; TypeError; AttributeError; NameError;
     OverflowError; UnboundLocalError; FileExistsError; RequestException;
     JiraWebhookError;
     InvalidJiraConfigurationParser; InvalidMethodError; InvalidPayloadError;
     MissingRequiredDataError; ExternalServiceError; GcpProvisioningError;
     PermissionDeniedError; GitHubOperationError] = true ->
  class_in cs e -> ordinary e.
Proof.
  intros Hcs Hin. pose proof (classes_within_spec _ _ e Hcs Hin) as H.
  clear Hin Hcs. revert e H. by_class.
Qed.

Lemma raises_extract_field_value (fc : field_config) :
  raises_in (class_in [TypeError]) (PayloadParser._extract_field_value fc).
Proof.
  unfold PayloadParser._extract_field_value.
  apply (raises_try_some _ (class_in [KeyError; TypeError])).
  - raises_tac.
  - by_class.
  - intros e _ _. apply raises_ret.
Qed.

Lemma raises_checklist_values (items : list value) :
  raises_in (class_in [KeyError; TypeError]) (PayloadParser.checklist_values items).
Proof.
  induction items as [|item rest IH]; cbn [PayloadParser.checklist_values].
  - apply raises_ret.
  - apply raises_bind; [raises_tac|]. intros has.
    apply raises_bind; [destruct has; raises_tac|]. intros here.
    apply raises_bind; [exact IH|]. intros others. apply raises_ret.
Qed.

Lemma raises_process_field (entry : string * field_config) :
  raises_in (class_in [KeyError; TypeError; Exception; OverflowError])
    (AppManager.process_field entry).
Proof.
  unfold AppManager.process_field.
  apply raises_bind; [raises_prim raises_extract_field_value|]. intros field_value.
  repeat match goal with
         | |- raises_in _ (if String.eqb ?a ?b then _ else _) => destruct (String.eqb a b)
         end.
  - unfold PayloadParser._process_dropdown. raises_tac.
  - unfold PayloadParser._process_people. raises_tac.
  - unfold PayloadParser._process_reporter. raises_tac.
  - unfold PayloadParser._process_dropdown_nested. raises_tac.
  - unfold PayloadParser._process_checklist.
    destruct field_value; try apply raises_ret.
    apply raises_bind; [raises_prim raises_checklist_values | intros ?; raises_tac].
  - unfold PayloadParser._process_textfield, PayloadParser.re_match_value.
    destruct field_value; try apply raises_ret;
      destruct (validation (snd entry)); raises_tac;
      apply raises_comment_error.
  - unfold PayloadParser._process_numericfield, PayloadParser.store_float.
    assert (Hstore : forall v,
      raises_in (class_in [KeyError; TypeError; Exception; OverflowError])
        (try_except
           (let* f := lift (py_float v) in
            set_config (output_name (snd entry)) (VFloat f))
           (isinstance ValueError)
           (fun _ => PayloadParser.comment_error
              ("Invalid numeric value '" +:+ Py.str v +:+ "' for '"
               +:+ output_name (snd entry) +:+ "'")))).
    { intros v.
      apply (raises_try_some _ (class_in [ValueError; TypeError; OverflowError])).
      - raises_tac.
      - by_class.
      - intros e _ _. apply raises_comment_error. }
    destruct field_value; try apply raises_ret;
      destruct (validation (snd entry)); try apply Hstore;
      match goal with |- raises_in _ (if ?b then _ else _) => destruct b end;
      first [apply raises_comment_error | apply Hstore].
  - apply raises_ret.
Qed.

Lemma raises_check_mandatory_fields (ticket_fields : list (string * field_config)) :
  raises_in (class_in [ValueError]) (PayloadParser._check_mandatory_fields ticket_fields).
Proof.
  intros w e w'. unfold PayloadParser._check_mandatory_fields.
  unfold bind at 1. rewrite missing_mandatory_fields_run.
  destruct (missing_in (config_data w) ticket_fields); [discriminate|].
  intros [= <- _]. class_tac.
Qed.

Lemma raises_parse_fields (ticket_fields : list (string * field_config)) :
  raises_in (class_in [ValueError]) (AppManager.parse_fields ticket_fields).
Proof.
  unfold AppManager.parse_fields.
  apply (raises_try (class_in [ValueError])).
  - apply (raises_weaken
             (class_in [KeyError; TypeError; Exception; OverflowError; ValueError])).
    + intros e. apply class_in_ordinary. reflexivity.
    + apply raises_bind.
      * apply raises_for_each. intros entry. raises_prim raises_process_field.
      * intros _. raises_prim raises_check_mandatory_fields.
  - intros e. destruct (isinstance ValueError e) eqn:Ev.
    + apply raises_raise. unfold class_in. rewrite (isinstance_ValueError e Ev). simpl. tauto.
    + destruct (isinstance KeyError e); raises_tac.
Qed.

(** X5 (parse_jira_request).  Whatever the payload holds, the field
    extraction fails in two ways only: with [InvalidJiraConfigurationParser]
    for an issue type without a field table, before any field is read, and
    with [ValueError]; every other exception of the field processors is
    turned into a [ValueError]. *)
Theorem parse_jira_request_raises (w w' : world) (e : exn) :
  AppManager.parse_jira_request w = (inl e, w') ->
  (e_class e = InvalidJiraConfigurationParser /\ w' = w)
  \/ e_class e = ValueError.
Proof.
  unfold AppManager.parse_jira_request,
    AppManager._extract_config_field_values_for_issue_request.
  unfold bind at 1. unfold bind at 1. unfold get_world at 1.
  destruct (Py.eq_str (issue_type_name w) "New GCP Project Provisioning").
  - intros H. right.
    destruct (raises_parse_fields _ _ _ _ H) as [<- | []]. reflexivity.
  - destruct (Py.eq_str (issue_type_name w) "New GCP Folder Provisioning").
    + intros H. right.
      destruct (raises_parse_fields _ _ _ _ H) as [<- | []]. reflexivity.
    + intros [= <- <-]. left. split; reflexivity.
Qed.

Lemma parse_jira_request_raises_witness :
  let w := received (webhook "New GCP Folder Provisioning"
                       [("customfield_10578", VInt 7)]) in
  let e := mk_exn ValueError
             ("An unexpected error occurred during parsing: "
              +:+ format_exc (mk_exn TypeError "expected string or bytes-like object")) in
  AppManager.parse_jira_request w = (inl e, w)
  /\ ((e_class e = InvalidJiraConfigurationParser /\ w = w) \/ e_class e = ValueError).
Proof.
  intros w e.
  assert (H : AppManager.parse_jira_request w = (inl e, w)) by (vm_compute; reflexivity).
  split; [exact H|]. exact (parse_jira_request_raises w w e H).
Defined.

Ltac touches_tac k :=
  repeat first
    [ apply touches_set_config
    | apply touches_comment_error
    | keeps_step (touches_only_refl k) (touches_only_trans k) ].

Lemma touches_checklist_values (k : string) (items : list value) :
  keeps (touches_only k) (PayloadParser.checklist_values items).
Proof.
  induction items as [|item rest IH]; cbn [PayloadParser.checklist_values].
  - touches_tac k.
  - apply keeps_bind; [exact (touches_only_trans k) | touches_tac k |]. intros has.
    apply keeps_bind; [exact (touches_only_trans k) | destruct has; touches_tac k |].
    intros here.
    apply keeps_bind; [exact (touches_only_trans k) | exact IH |].
    intros others. touches_tac k.
Qed.

Ltac touches_all k :=
  repeat first
    [ apply touches_set_config
    | apply touches_comment_error
    | apply touches_checklist_values
    | keeps_step (touches_only_refl k) (touches_only_trans k) ].

Lemma process_field_frame (entry : string * field_config) :
  keeps (touches_only (output_name (snd entry))) (AppManager.process_field entry).
Proof.
  set (k := output_name (snd entry)).
  unfold AppManager.process_field.
  apply keeps_bind; [exact (touches_only_trans k) | |].
  { unfold PayloadParser._extract_field_value. touches_tac k. }
  intros field_value.
  repeat match goal with
         | |- keeps _ (if String.eqb ?a ?b then _ else _) => destruct (String.eqb a b)
         end.
  - unfold PayloadParser._process_dropdown. touches_tac k.
  - unfold PayloadParser._process_people. touches_tac k.
  - unfold PayloadParser._process_reporter. touches_tac k.
  - unfold PayloadParser._process_dropdown_nested. touches_tac k.
  - unfold PayloadParser._process_checklist. touches_all k.
  - unfold PayloadParser._process_textfield, PayloadParser.re_match_value.
    destruct field_value; destruct (validation (snd entry)); touches_tac k.
  - unfold PayloadParser._process_numericfield, PayloadParser.store_float.
    destruct field_value; destruct (validation (snd entry)); touches_tac k.
  - touches_tac k.
Qed.

(** X6 (parse_jira_request, the field processors).  Processing one entry of a
    field table changes nothing but the destination key of that entry in the
    configuration map, and adds nothing but comments to the ticket: the
    payload, the other keys and the rest of the state are as before, whether
    the processor stores a value, rejects it or raises. *)
Theorem process_field_touches_only_its_key
    (entry : string * field_config) (w w' : world) (r : exn + unit) :
  AppManager.process_field entry w = (r, w') ->
  touches_only (output_name (snd entry)) w w'.
Proof. apply process_field_frame. Qed.

Lemma process_field_touches_only_its_key_witness :
  let entry := FOLDER_NAME_field in
  let w := received (folder_request "my folder") in
  let w' := snd (AppManager.process_field entry w) in
  AppManager.process_field entry w = (inr tt, w')
  /\ touches_only (output_name (snd entry)) w w'.
Proof.
  intros entry w w'.
  assert (H : AppManager.process_field entry w = (inr tt, w'))
    by (vm_compute; reflexivity).
  split; [exact H|].
  exact (process_field_touches_only_its_key entry w w' (inr tt) H).
Defined.

(** ** Checklists *)

Lemma checklist_values_objects (items : list value) (w : world) :
  Forall is_object items ->
  PayloadParser.checklist_values items w = (inr (omap item_value items), w).
Proof.
  induction 1 as [|item rest [d ->] _ IH]; [reflexivity|].
  cbn [PayloadParser.checklist_values omap list_omap item_value].
  unfold bind at 1. unfold py_in, lift, PyOp.contains.
  destruct (Py.assoc "value" d) as [v|] eqn:Ev.
  - rewrite bool_decide_eq_true_2 by eauto. unfold ret at 1.
    unfold bind at 1. unfold bind at 1. unfold py_item, lift, PyOp.item. rewrite Ev.
    unfold ret at 1. unfold ret at 1.
    unfold bind at 1. rewrite IH. reflexivity.
  - rewrite bool_decide_eq_false_2 by (intros [x Hx]; discriminate). unfold ret at 1.
    unfold bind at 1. unfold ret at 1.
    unfold bind at 1. rewrite IH. reflexivity.
Qed.

(** X7 (_process_checklist).  Of a checklist whose items are objects, the
    processor stores the list of the ['value']s of the items that have one,
    in the order of the payload, and silently leaves out the items that have
    none; a field that is not a list is ignored. *)
Theorem process_checklist_collects
    (fc : field_config) (field_value : value) (w : world) :
  (forall items, field_value = VList items -> Forall is_object items) ->
  PayloadParser._process_checklist fc field_value w
  = (inr tt,
     match field_value with
     | VList items =>
         upd_config (insert (output_name fc) (VList (omap item_value items))) w
     | _ => w
     end).
Proof.
  intros Hobj. destruct field_value as [| | | | |items|]; try reflexivity.
  unfold PayloadParser._process_checklist. unfold bind.
  rewrite (checklist_values_objects items w (Hobj items eq_refl)). reflexivity.
Qed.

Lemma process_checklist_collects_witness :
  let fc := FieldConfig "checklist" "customfield_10549" "ENVIRONMENT" None None true in
  let items := [VDict [("value", VStr "dev")]; VDict [("id", VStr "7")];
                VDict [("value", VStr "prod")]] in
  PayloadParser._process_checklist fc (VList items) (fresh [])
  = (inr tt,
     upd_config (insert "ENVIRONMENT" (VList [VStr "dev"; VStr "prod"])) (fresh [])).
Proof.
  intros fc items.
  apply (process_checklist_collects fc (VList items) (fresh [])).
  intros items' [= <-]. repeat constructor; eexists; reflexivity.
Defined.

(** ** The source-control client (app/github.py) *)

Lemma quiet_refl (w : world) : quiet w w.
Proof. repeat split. Qed.

Lemma quiet_trans (w1 w2 w3 : world) : quiet w1 w2 -> quiet w2 w3 -> quiet w1 w3.
Proof. intros (A & B & C & D) (A' & B' & C' & D'). repeat split; congruence. Qed.

Lemma quiet_next_answer : keeps quiet GitHub.next_answer.
Proof.
  intros w r w'. unfold GitHub.next_answer. m_unfold.
  destruct (github_script w); intros [= _ <-]; repeat split.
Qed.

Ltac quiet_tac :=
  repeat first
    [ apply quiet_next_answer
    | keeps_step quiet_refl quiet_trans ].

Lemma quiet_request : keeps quiet GitHub.request.
Proof. unfold GitHub.request. quiet_tac. Qed.

Lemma quiet_raise_for_status (status : Z) : keeps quiet (GitHub.raise_for_status status).
Proof. unfold GitHub.raise_for_status. quiet_tac. Qed.

Lemma quiet_get_latest_sha : keeps quiet GitHub.get_latest_sha_from_branch.
Proof.
  unfold GitHub.get_latest_sha_from_branch.
  apply keeps_try; [exact quiet_trans | | intros e; quiet_tac].
  apply keeps_bind; [exact quiet_trans | apply quiet_request |].
  intros [status body].
  apply keeps_bind; [exact quiet_trans | apply quiet_raise_for_status |].
  intros _. quiet_tac.
Qed.

Lemma quiet_compare_existing_file (nb y fp : option string) :
  keeps quiet (GitHub.compare_existing_file nb y fp).
Proof.
  unfold GitHub.compare_existing_file.
  apply keeps_try; [exact quiet_trans | | intros e; quiet_tac].
  apply keeps_bind; [exact quiet_trans | apply quiet_request |].
  intros [status body].
  apply keeps_bind; [exact quiet_trans | apply quiet_raise_for_status |].
  intros _. quiet_tac.
Qed.

Lemma quiet_commit_file_in_branch (fp cm y nb : option string) :
  keeps quiet (GitHub.commit_file_in_branch fp cm y nb).
Proof.
  unfold GitHub.commit_file_in_branch.
  apply keeps_try; [exact quiet_trans | |].
  - apply keeps_bind; [exact quiet_trans | apply quiet_request |].
    intros [status body]. apply quiet_raise_for_status.
  - intros e. destruct (isinstance RequestException e); [|quiet_tac].
    destruct (bool_decide (e_status e = Some 422)); [|quiet_tac].
    apply keeps_bind; [exact quiet_trans | apply quiet_compare_existing_file |].
    intros _. quiet_tac.
Qed.

Lemma quiet_commit_new_file (fp cm y nb : option string) :
  keeps quiet (GitHub._commit_new_file fp cm y nb).
Proof.
  unfold GitHub._commit_new_file.
  apply keeps_try; [exact quiet_trans | | intros e; quiet_tac].
  apply keeps_bind; [exact quiet_trans | apply quiet_get_latest_sha |].
  intros base_sha.
  apply keeps_bind; [exact quiet_trans | unfold GitHub.slice7; quiet_tac |].
  intros _.
  apply keeps_bind; [exact quiet_trans | |].
  { unfold GitHub.create_branch.
    apply keeps_bind; [exact quiet_trans | apply quiet_request |].
    intros [status body]. quiet_tac. }
  intros _. apply quiet_commit_file_in_branch.
Qed.

Lemma raises_next_answer (P : exn -> Prop) : raises_in P GitHub.next_answer.
Proof.
  intros w e w'. unfold GitHub.next_answer. m_unfold.
  destruct (github_script w); discriminate.
Qed.

Lemma raises_request : raises_in (class_in [RequestException]) GitHub.request.
Proof.
  unfold GitHub.request. apply raises_bind; [apply raises_next_answer|].
  intros a. raises_tac.
Qed.

Lemma raises_raise_for_status (status : Z) :
  raises_in (class_in [RequestException]) (GitHub.raise_for_status status).
Proof. unfold GitHub.raise_for_status. raises_tac. Qed.

Lemma raises_get_latest_sha :
  raises_in (fun e => e = head_lookup_failure) GitHub.get_latest_sha_from_branch.
Proof.
  unfold GitHub.get_latest_sha_from_branch.
  apply raises_try.
  - apply (raises_weaken (class_in [RequestException; KeyError; TypeError])).
    { by_class. }
    apply raises_bind; [raises_prim raises_request|]. intros [status body].
    apply raises_bind; [raises_prim raises_raise_for_status|]. intros _.
    raises_tac.
  - intros e. apply raises_raise. reflexivity.
Qed.

Lemma raises_decode_text (v : value) :
  raises_in (class_in [ValueError; TypeError]) (lift (GitHub.decode_text v)).
Proof.
  apply raises_lift. intros e. unfold GitHub.decode_text.
  destruct v; try (intros [= <-]; class_tac).
  destruct (Base64.b64decode s); [|intros [= <-]; class_tac].
  destruct (Utf8.decode s0); [discriminate | intros [= <-]; class_tac].
Qed.

Lemma raises_compare_existing_file (nb y fp : option string) :
  raises_in (class_in [KeyError; TypeError; ValueError; FileExistsError])
    (GitHub.compare_existing_file nb y fp).
Proof.
  unfold GitHub.compare_existing_file.
  apply (raises_try_some _
           (class_in [RequestException; KeyError; TypeError; ValueError; FileExistsError])).
  - apply raises_bind; [raises_prim raises_request|]. intros [status body].
    apply raises_bind; [raises_prim raises_raise_for_status|]. intros _.
    apply raises_bind; [raises_tac|]. intros content.
    apply raises_bind; [raises_prim raises_decode_text|]. intros existing.
    apply raises_bind; [raises_prim raises_decode_text|]. intros new.
    raises_tac.
  - by_class.
  - intros e _ _. apply raises_ret.
Qed.

Lemma raises_commit_file_in_branch (fp cm y nb : option string) :
  raises_in (class_in [RequestException; KeyError; TypeError; ValueError; FileExistsError])
    (GitHub.commit_file_in_branch fp cm y nb).
Proof.
  unfold GitHub.commit_file_in_branch.
  apply (raises_try_some _ (class_in [RequestException])).
  - apply raises_bind; [raises_prim raises_request|]. intros [status body].
    apply raises_raise_for_status.
  - by_class.
  - intros e He _.
    assert (Hr : isinstance RequestException e = true) by (revert e He; by_class).
    rewrite Hr. destruct (bool_decide (e_status e = Some 422)); [|raises_tac].
    apply raises_bind; [raises_prim raises_compare_existing_file|].
    intros _. apply raises_ret.
Qed.

Lemma raises_commit_new_file (fp cm y nb : option string) :
  raises_in
    (fun e => e = head_lookup_failure
              \/ class_in [RequestException; KeyError; Exception] e)
    (GitHub._commit_new_file fp cm y nb).
Proof.
  unfold GitHub._commit_new_file.
  apply (raises_try_some _
           (fun e => e = head_lookup_failure
                     \/ class_in [RequestException; KeyError; TypeError; ValueError;
                                  FileExistsError] e)).
  - apply raises_bind.
    { apply (raises_weaken (fun e => e = head_lookup_failure)); [tauto|].
      apply raises_get_latest_sha. }
    intros base_sha.
    apply (raises_weaken
             (class_in [RequestException; KeyError; TypeError; ValueError;
                        FileExistsError])); [tauto|].
    apply raises_bind; [unfold GitHub.slice7; raises_tac|]. intros _.
    apply raises_bind.
    { unfold GitHub.create_branch.
      apply raises_bind; [raises_prim raises_request|]. intros [status body].
      apply raises_ret. }
    intros _. apply raises_commit_file_in_branch.
  - intros e [-> | He]; [intros _; left; reflexivity|].
    revert e He. by_class.
  - intros e _ _.
    apply (raises_weaken (class_in [RequestException; KeyError; Exception])); [tauto|].
    raises_tac.
Qed.

(** X8 (get_latest_sha_from_branch, _commit_new_file, push_to_github).  When
    the look-up of the head of the base branch fails, for whatever reason,
    the exception is a [BaseException]: no [except Exception] clause on the
    way catches it, so the publication of the first unit stops there, and the
    ticket receives neither an error comment nor a transition. *)
Theorem push_to_github_head_lookup_failure
    (w w' : world) (e : exn) (k : provisioner_kind)
    (name : string) (u : publish_unit) (rest : list (string * publish_unit))
    (f : string * list (string * string)) (files : list (string * list (string * string))) :
  github_manager w = true ->
  provisioner w = Some k ->
  github_payload w = Some ((name, u) :: rest) ->
  pu_yaml_content_encoded u = Some (f :: files) ->
  GitHub.get_latest_sha_from_branch w = (inl e, w') ->
  e = head_lookup_failure
  /\ AppManager.push_to_github w = (inl e, w')
  /\ jira_log w' = jira_log w.
Proof.
  intros Hm Hk Hp Hf Hrun.
  pose proof (raises_get_latest_sha _ _ _ Hrun) as ->.
  split; [reflexivity|]. split; [|exact (proj1 (quiet_get_latest_sha _ _ _ Hrun))].
  assert (Hcommit :
    GitHub._commit_new_file (Py.assoc "path" (snd f)) (Py.assoc "commit_message" (snd f))
      (Py.assoc "file" (snd f)) (pu_new_branch_name u) w = (inl head_lookup_failure, w')).
  { unfold GitHub._commit_new_file.
    apply try_uncaught; [|reflexivity]. apply bind_inl. exact Hrun. }
  unfold AppManager.push_to_github.
  apply try_uncaught; [|reflexivity].
  unfold bind at 1. unfold get_world at 1. rewrite Hm, Hk, Hp. simpl negb. cbv iota.
  cbn [List.map for_each snd]. apply bind_inl.
  unfold AppManager.publish_unit_body. apply bind_inl.
  unfold AppManager.unit_files. rewrite Hf. cbn [for_each]. apply bind_inl.
  exact Hcommit.
Qed.

Lemma push_to_github_head_lookup_failure_witness :
  let u := PublishUnit (Some "title") None None (Some "branch")
             (Some [("folder_yaml", [("path", "p"); ("commit_message", "m"); ("file", "YQ==")])])
             (Some (VBool false)) in
  let w := upd_payload (Some [("n", u)])
             (upd_provisioner FolderProvisioner [] None
                (upd_github_manager (fresh [Answer 404 (VDict [])]))) in
  let w' := upd_script [] w in
  head_lookup_failure = head_lookup_failure
  /\ AppManager.push_to_github w = (inl head_lookup_failure, w')
  /\ jira_log w' = jira_log w.
Proof.
  intros u w w'.
  apply (push_to_github_head_lookup_failure w w' head_lookup_failure FolderProvisioner
           "n" u [] ("folder_yaml", [("path", "p"); ("commit_message", "m"); ("file", "YQ==")]) []);
    try reflexivity.
Defined.

(** X9 (_commit_new_file).  A file commit raises [RequestException],
    [KeyError], plain [Exception] or the [BaseException] of the head look-up,
    and nothing else: in particular the [FileExistsError] of a content
    conflict never leaves it as such, it is re-raised as a plain
    [Exception]. *)
Theorem commit_new_file_raises
    (fp cm y nb : option string) (w w' : world) (e : exn) :
  GitHub._commit_new_file fp cm y nb w = (inl e, w') ->
  e = head_lookup_failure
  \/ e_class e = RequestException \/ e_class e = KeyError \/ e_class e = Exception.
Proof.
  intros H. destruct (raises_commit_new_file fp cm y nb _ _ _ H) as [-> | Hc];
    [left; reflexivity | right].
  unfold class_in in Hc. simpl in Hc. intuition congruence.
Qed.

Lemma commit_new_file_raises_witness :
  let w := fresh [ Answer 200 (VDict [("object", VDict [("sha", VStr "0123456789abcdef")])]);
                   Answer 201 (VDict []);
                   Answer 422 (VDict []);
                   Answer 200 (VDict [("content", VStr "Yg==")]) ] in
  let e := mk_exn Exception
             ("An unexpected error occurred during file commit: "
              +:+ GitHub.different_content_message (Some "p") (Some "b")) in
  GitHub._commit_new_file (Some "p") (Some "m") (Some "YQ==") (Some "b") w
  = (inl e, upd_script [] w)
  /\ (e = head_lookup_failure
      \/ e_class e = RequestException \/ e_class e = KeyError \/ e_class e = Exception).
Proof.
  intros w e.
  assert (H : GitHub._commit_new_file (Some "p") (Some "m") (Some "YQ==") (Some "b") w
              = (inl e, upd_script [] w)) by (vm_compute; reflexivity).
  split; [exact H|].
  exact (commit_new_file_raises _ _ _ _ _ _ _ H).
Defined.

(** ** Pull requests *)

Lemma raises_create_pull_request (auto_merge : value) :
  raises_in (class_in [UnboundLocalError; KeyError; TypeError])
    (GitHub.create_pull_request auto_merge).
Proof.
  unfold GitHub.create_pull_request.
  apply raises_bind; [apply raises_next_answer|]. intros [status body|]; [|raises_tac].
  destruct (GitHub.is_error_status status); [apply raises_ret|].
  apply raises_bind; [raises_tac|]. intros _.
  apply raises_bind; [|intros _; apply raises_ret].
  destruct (Py.truthy auto_merge); [|apply raises_ret].
  apply raises_bind; [raises_tac|]. intros _.
  apply raises_bind.
  { unfold GitHub.enable_auto_merge.
    apply raises_bind; [apply raises_next_answer|]. intros [s b|]; raises_tac. }
  intros _. apply raises_bind; [raises_tac|]. intros _.
  unfold GitHub._set_delete_branch_on_merge.
  apply raises_bind; [apply raises_next_answer|]. intros _. apply raises_ret.
Qed.

Lemma quiet_create_pull_request (auto_merge : value) :
  keeps quiet (GitHub.create_pull_request auto_merge).
Proof.
  unfold GitHub.create_pull_request, GitHub.enable_auto_merge,
    GitHub._set_delete_branch_on_merge.
  quiet_tac.
Qed.

Lemma ordinary_handled (cs : list exn_class) (e : exn) :
  classes_within cs
    [Exception; ValueError; KeyError; TypeError; AttributeError; NameError;
     OverflowError; UnboundLocalError; FileExistsError; RequestException;
     JiraWebhookError;
     InvalidJiraConfigurationParser; InvalidMethodError; InvalidPayloadError;
     MissingRequiredDataError; ExternalServiceError; GcpProvisioningError;
     PermissionDeniedError; GitHubOperationError] = true ->
  class_in cs e -> isinstance Exception e = true.
Proof. apply class_in_ordinary. Qed.

Lemma pull_request_attempt_run (auto_merge : value) (w w' : world) (res : exn + value) :
  pull_request_attempt auto_merge w = (res, w') ->
  jira_log w' = jira_log w /\ jira_id w' = jira_id w
  /\ match res with
     | inl e => isinstance Exception e = true /\ pr_list w' = pr_list w
     | inr r => pr_list w' = pr_list w ++ [r]
     end.
Proof.
  unfold pull_request_attempt. unfold bind at 1.
  destruct (GitHub.create_pull_request auto_merge w) as [[e|resp] w1] eqn:Ec;
    pose proof (quiet_create_pull_request _ _ _ _ Ec) as (Hl & Hi & _ & Hp).
  - intros [= <- <-]. repeat split; try assumption.
    exact (ordinary_handled [UnboundLocalError; KeyError; TypeError] e eq_refl
             (raises_create_pull_request _ _ _ _ Ec)).
  - unfold bind at 1.
    assert (Hin : forall e, PyOp.contains "html_url" resp = inl e ->
                            isinstance Exception e = true).
    { intros e Eh. apply (ordinary_handled [TypeError]); [reflexivity|].
      apply (raises_py_in "html_url" resp w e w). unfold py_in. rewrite Eh. reflexivity. }
    assert (Hitem : forall e, PyOp.item resp "html_url" = inl e ->
                              isinstance Exception e = true).
    { intros e Ei. apply (ordinary_handled [KeyError; TypeError]); [reflexivity|].
      apply (raises_py_item resp "html_url" w e w). unfold py_item. rewrite Ei.
      reflexivity. }
    destruct (Py.truthy resp).
    + unfold py_in, lift. destruct (PyOp.contains "html_url" resp) as [e|has] eqn:Eh.
      * intros [= <- <-]. repeat split; try assumption. apply Hin. reflexivity.
      * unfold ret at 1. destruct has.
        -- unfold bind at 1. unfold py_item, lift.
           destruct (PyOp.item resp "html_url") as [e|url] eqn:Ei.
           ++ intros [= <- <-]. repeat split; try assumption. apply Hitem. reflexivity.
           ++ intros [= <- <-]. simpl. rewrite Hp. repeat split; assumption.
        -- intros [= <- <-]. repeat split; assumption.
    + intros [= <- <-]. repeat split; assumption.
Qed.

Lemma pull_request_logic_quiet (auto_merge : value) (w w' : world) (r : value) :
  GitHub._create_pull_request_logic auto_merge w = (inr r, w') ->
  jira_log w' = jira_log w /\ jira_id w' = jira_id w.
Proof.
  change (GitHub._create_pull_request_logic auto_merge)
    with (try_except (pull_request_attempt auto_merge) (isinstance Exception)
            (fun _ => ret VNone)).
  unfold try_except.
  destruct (pull_request_attempt auto_merge w) as [[e|r0] w1] eqn:Ea;
    destruct (pull_request_attempt_run _ _ _ _ Ea) as (Hl & Hi & Hres).
  - destruct Hres as [He _]. rewrite He. intros [= _ <-]. split; assumption.
  - intros [= _ <-]. split; assumption.
Qed.

(** X10 (_create_pull_request_logic, create_pull_request).  The creation of a
    pull request never raises: it returns the address of the pull request,
    which it then also appends to [pr_list], or [None] on any failure
    (refusal, no answer, answer without address), and then [pr_list] is as
    before.  The ticket is not written to. *)
Theorem create_pull_request_logic_total (auto_merge : value) (w : world) :
  exists (r : value) (w' : world),
    GitHub._create_pull_request_logic auto_merge w = (inr r, w')
    /\ ((r = VNone /\ pr_list w' = pr_list w) \/ pr_list w' = pr_list w ++ [r])
    /\ jira_log w' = jira_log w /\ jira_id w' = jira_id w.
Proof.
  change (GitHub._create_pull_request_logic auto_merge)
    with (try_except (pull_request_attempt auto_merge) (isinstance Exception)
            (fun _ => ret VNone)).
  unfold try_except.
  destruct (pull_request_attempt auto_merge w) as [[e|r] w1] eqn:Ea;
    destruct (pull_request_attempt_run _ _ _ _ Ea) as (Hl & Hi & Hres).
  - destruct Hres as [He Hp]. rewrite He.
    exists VNone, w1. split; [reflexivity|]. split; [left; split; [reflexivity|exact Hp]|].
    split; assumption.
  - exists r, w1. split; [reflexivity|]. split; [right; exact Hres|]. split; assumption.
Qed.

Lemma create_pull_request_refused (auto_merge : value) (status : Z) (body : value)
    (rest : list http_answer) (w : world) :
  github_script w = Answer status body :: rest ->
  GitHub.is_error_status status = true ->
  GitHub._create_pull_request_logic auto_merge w = (inr VNone, upd_script rest w).
Proof.
  intros Hs He. unfold GitHub._create_pull_request_logic.
  assert (Hc : GitHub.create_pull_request auto_merge w = (inr VNone, upd_script rest w)).
  { unfold GitHub.create_pull_request. rewrite (bind_inr _ _ _ _ _ (next_answer_run _ _ _ Hs)).
    rewrite He. reflexivity. }
  apply try_caught with (e := mk_exn Exception
    "Failed to create pull request or received an empty response.")
    (w' := upd_script rest w); [|reflexivity].
  rewrite (bind_inr _ _ _ _ _ Hc). reflexivity.
Qed.

(** ** What the steps of the pipeline raise *)

Lemma raises_config_item (k : string) : raises_in (class_in [KeyError]) (config_item k).
Proof.
  unfold config_item. apply raises_bind; [apply raises_get_world|].
  intros w. apply raises_lift_opt. class_tac.
Qed.

Lemma raises_pure {A} (cs : list exn_class) (r : exn + A) :
  (forall e, r = inl e -> class_in cs e) -> raises_in (class_in cs) (lift r).
Proof. apply raises_lift. Qed.

Ltac raises_more :=
  repeat first
    [ raises_step
    | match goal with
      | |- raises_in _ (config_item _) => raises_prim raises_config_item
      | |- raises_in _ (lift_opt _ _) => apply raises_lift_opt; class_tac
      | |- raises_in _ (GcpProjectProvisioner.upd_unit _ _) => apply raises_modify
      | |- raises_in _ (AppManager.comment _ _) =>
          unfold AppManager.comment, AppManager.jira_id_str
      | |- raises_in _ AppManager.block =>
          unfold AppManager.block, AppManager.jira_id_str
      | |- raises_in _ AppManager.jira_id_str => unfold AppManager.jira_id_str
      end ].

Lemma env_upper_raises (env : option string) (e : exn) :
  GcpProjectProvisioner.env_upper env = inl e -> class_in [AttributeError] e.
Proof. destruct env; [discriminate|]. intros [= <-]. class_tac. Qed.

Lemma data_item_raises (data : gmap string value) (k : string) (e : exn) :
  GcpProjectProvisioner.data_item data k = inl e -> class_in [KeyError] e.
Proof.
  unfold GcpProjectProvisioner.data_item. destruct (data !! k); [discriminate|].
  intros [= <-]. class_tac.
Qed.

Lemma environment_details_raises (data : gmap string value) (names : list string)
    (e : exn) :
  GcpProjectProvisioner.environment_details data names = inl e ->
  class_in [AttributeError] e.
Proof.
  induction names as [|n names IH]; [discriminate|].
  cbn [GcpProjectProvisioner.environment_details].
  destruct (GcpProjectProvisioner.env_upper _) as [e0|up] eqn:Eu.
  - intros [= <-]. exact (env_upper_raises _ _ Eu).
  - destruct (GcpProjectProvisioner.environment_details data names) as [e0|others];
      [|discriminate].
    intros [= <-]. apply IH. reflexivity.
Qed.

Lemma first_error_raises {A} (P : exn -> Prop) (l : list A) (body : A -> exn + unit)
    (e : exn) :
  (forall x e, body x = inl e -> P e) ->
  GcpProjectProvisioner.first_error l body = inl e -> P e.
Proof.
  intros Hbody. induction l as [|x l IH]; [discriminate|].
  cbn [GcpProjectProvisioner.first_error].
  destruct (body x) as [e0|[]] eqn:Ex; [|exact IH].
  intros [= <-]. exact (Hbody _ _ Ex).
Qed.

Lemma check_budget_key_raises (data : gmap string value) (env : value) (e : exn) :
  GcpProjectProvisioner.check_budget_key data env = inl e ->
  class_in [ValueError; TypeError; AttributeError] e.
Proof.
  unfold GcpProjectProvisioner.check_budget_key.
  destruct (PyOp.upper env) as [e0|up] eqn:Eu.
  - intros [= <-]. destruct env; simpl in Eu; inversion Eu; class_tac.
  - destruct (bool_decide _); [discriminate|]. intros [= <-]. class_tac.
Qed.

Lemma check_budget_keys_raises (data : gmap string value) (e : exn) :
  GcpProjectProvisioner.check_budget_keys data = inl e ->
  class_in [ValueError; TypeError; AttributeError] e.
Proof.
  unfold GcpProjectProvisioner.check_budget_keys.
  destruct (Nat.eqb (size data) 0); [intros [= <-]; class_tac|].
  destruct (data !! "ENVIRONMENT") as [envs|]; [|intros [= <-]; class_tac].
  destruct (Py.truthy envs); [|intros [= <-]; class_tac].
  destruct (PyOp.iter envs) as [e0|env_list] eqn:Ei.
  - intros [= <-]. destruct envs; simpl in Ei; inversion Ei; class_tac.
  - destruct (GcpProjectProvisioner.first_error env_list _) as [e0|[]] eqn:Ef;
      [|discriminate].
    intros [= <-].
    exact (first_error_raises _ _ _ _ (check_budget_key_raises data) Ef).
Qed.

Lemma get_project_subfolder_id_raises (assets : list asset) (parent : value)
    (sub : string) (e : exn) :
  GcpProjectProvisioner.get_project_subfolder_id assets parent sub = inl e ->
  class_in [GcpProvisioningError] e.
Proof.
  unfold GcpProjectProvisioner.get_project_subfolder_id.
  destruct (negb _); [intros [= <-]; class_tac|].
  destruct (HierarchyrProvisioner._extract_folder_id _); [discriminate|].
  intros [= <-]. class_tac.
Qed.

Lemma env_mapping_get_raises (environment : value) (e : exn) :
  GcpProjectProvisioner.env_mapping_get environment = inl e -> class_in [TypeError] e.
Proof. destruct environment; simpl; intros H; inversion H; class_tac. Qed.

Lemma data_type_tag_of_raises (v : value) (e : exn) :
  GcpProjectProvisioner.data_type_tag_of v = inl e -> class_in [KeyError; TypeError] e.
Proof.
  unfold GcpProjectProvisioner.data_type_tag_of.
  destruct v; try (intros H; inversion H; class_tac).
  destruct (Py.assoc s data_security_mapping); intros H; inversion H; class_tac.
Qed.

Lemma build_project_terraform_yaml_raises (data : gmap string value) (name : string)
    (env : option string) (tag : value) (e : exn) :
  GcpProjectProvisioner.build_project_terraform_yaml data name env tag = inl e ->
  class_in [AttributeError; KeyError] e.
Proof.
  unfold GcpProjectProvisioner.build_project_terraform_yaml.
  destruct (GcpProjectProvisioner.env_upper env) as [e0|up] eqn:Eu.
  { intros [= <-]. apply (classes_within_spec [AttributeError]); [reflexivity|].
    exact (env_upper_raises _ _ Eu). }
  repeat match goal with
         | |- context [GcpProjectProvisioner.data_item ?d ?k] =>
             let E := fresh "E" in
             destruct (GcpProjectProvisioner.data_item d k) eqn:E
         end;
    try discriminate;
    intros [= <-];
    apply (classes_within_spec [KeyError]); try reflexivity;
    eapply data_item_raises; eassumption.
Qed.

Lemma build_budget_terraform_yaml_raises (data : gmap string value) (name : string)
    (env : option string) (e : exn) :
  GcpProjectProvisioner.build_budget_terraform_yaml data name env = inl e ->
  class_in [AttributeError; KeyError] e.
Proof.
  unfold GcpProjectProvisioner.build_budget_terraform_yaml.
  destruct (GcpProjectProvisioner.env_upper env) as [e0|up] eqn:Eu.
  { intros [= <-]. apply (classes_within_spec [AttributeError]); [reflexivity|].
    exact (env_upper_raises _ _ Eu). }
  destruct (GcpProjectProvisioner.data_item data _) as [e0|units] eqn:Ed; [|discriminate].
  intros [= <-]. apply (classes_within_spec [KeyError]); [reflexivity|].
  exact (data_item_raises _ _ _ Ed).
Qed.

Lemma allow_autoapprove_raises (l : limit) (ds b : value) (e : exn) :
  GcpProjectProvisioner.allow_autoapprove_on_dev_budget_limit l ds b = inl e ->
  class_in [TypeError] e.
Proof.
  unfold GcpProjectProvisioner.allow_autoapprove_on_dev_budget_limit.
  destruct (Py.eq_str ds "l0"); [|discriminate].
  assert (H : forall b, GcpProjectProvisioner.below_limit l b = inl e -> class_in [TypeError] e).
  { intros b0. unfold GcpProjectProvisioner.below_limit. destruct l.
    - destruct (Py.as_number b0); [discriminate|]. intros [= <-]. class_tac.
    - destruct b0; try discriminate; intros [= <-]; class_tac. }
  destruct b; try discriminate;
    (destruct (GcpProjectProvisioner.below_limit l _) as [e0|[|]] eqn:Eb;
     [intros [= <-]; exact (H _ Eb) | discriminate | discriminate]).
Qed.

Lemma autoapprove_of_raises (l : limit) (data : gmap string value)
    (env : option string) (e : exn) :
  GcpProjectProvisioner.autoapprove_of l data env = inl e ->
  class_in [KeyError; TypeError] e.
Proof.
  unfold GcpProjectProvisioner.autoapprove_of.
  destruct (bool_decide _); [|discriminate].
  destruct (GcpProjectProvisioner.data_item data "DATASECURITY") as [e0|ds] eqn:Ed.
  - intros [= <-]. apply (classes_within_spec [KeyError]); [reflexivity|].
    exact (data_item_raises _ _ _ Ed).
  - intros H. apply (classes_within_spec [TypeError]); [reflexivity|].
    exact (allow_autoapprove_raises _ _ _ _ H).
Qed.

(** *** The validators *)

Lemma raises_format_label_elements (P : exn -> Prop) (k : provisioner_kind) :
  raises_in P (HierarchyrProvisioner._format_label_elements k).
Proof.
  unfold HierarchyrProvisioner._format_label_elements.
  apply raises_for_each. intros element.
  apply raises_bind; [apply raises_get_world|]. intros w.
  destruct (config_data w !! element); [apply raises_modify | apply raises_ret].
Qed.

Lemma raises_check_environment (project_name each_env : value) :
  raises_in (class_in [ValueError; KeyError; TypeError; GcpProvisioningError; AttributeError])
    (GcpProjectProvisioner.check_environment project_name each_env).
Proof.
  unfold GcpProjectProvisioner.check_environment,
    GcpProjectProvisioner._validate_project_name_uniqueness,
    GcpProjectProvisioner._validate_environment_subfolder.
  apply raises_bind; [raises_more|]. intros _.
  apply raises_bind; [raises_more|]. intros folder_name.
  apply raises_bind.
  { eapply raises_sub; [|apply raises_pure; apply env_mapping_get_raises]. reflexivity. }
  intros subfolder_to_find.
  destruct (negb _); [raises_more|].
  apply raises_bind; [apply raises_get_world|]. intros w.
  apply raises_bind.
  { eapply raises_sub; [|apply raises_pure; apply get_project_subfolder_id_raises].
    reflexivity. }
  intros env_folder_id. raises_more.
Qed.

Lemma raises_validate_folder_and_projects_name :
  raises_in (class_in [GcpProvisioningError])
    GcpProjectProvisioner.validate_folder_and_projects_name.
Proof.
  unfold GcpProjectProvisioner.validate_folder_and_projects_name.
  apply raises_try; [|intros e; apply raises_raise; class_tac].
  apply (raises_weaken
           (class_in [ValueError; KeyError; TypeError; GcpProvisioningError; AttributeError])).
  { by_class. }
  apply raises_bind.
  { unfold GcpProjectProvisioner._validate_folder_existence. raises_more. }
  intros _. apply raises_bind; [raises_more|]. intros project_name.
  apply raises_bind; [raises_more|]. intros envs.
  apply raises_bind; [raises_more|]. intros env_list.
  apply raises_for_each. intros each_env. apply raises_check_environment.
Qed.

Lemma raises_project_validate_jira_request :
  raises_in (class_in [GcpProvisioningError]) GcpProjectProvisioner._validate_jira_request.
Proof.
  unfold GcpProjectProvisioner._validate_jira_request.
  apply raises_try; [|intros e; apply raises_raise; class_tac].
  apply (raises_weaken
           (class_in [GcpProvisioningError; ValueError; TypeError; AttributeError])).
  { by_class. }
  apply raises_bind; [apply raises_format_label_elements|]. intros _.
  apply raises_bind; [raises_prim raises_validate_folder_and_projects_name|]. intros _.
  apply raises_bind; [apply raises_get_world|]. intros w.
  apply raises_bind; [|intros _; apply raises_ret].
  eapply raises_sub; [|apply raises_pure; apply check_budget_keys_raises]. reflexivity.
Qed.

Lemma raises_folder_validate_jira_request :
  raises_in (class_in [GcpProvisioningError]) GcpFolderProvisioner._validate_jira_request.
Proof.
  unfold GcpFolderProvisioner._validate_jira_request.
  apply (raises_try_some _ (class_in [KeyError; ValueError; GcpProvisioningError])).
  - unfold GcpFolderProvisioner._validate_folder_name_uniqueness,
      GcpFolderProvisioner._extract_project_type_folder_name.
    raises_more.
  - by_class.
  - intros e He _. destruct (isinstance GcpProvisioningError e) eqn:Eg.
    + apply raises_raise. revert e He Eg. by_class.
    + destruct (isinstance ValueError e); raises_more.
Qed.

Lemma raises_project_comment_message :
  raises_in (class_in [AttributeError]) GcpProjectProvisioner._get_request_comment_message.
Proof.
  unfold GcpProjectProvisioner._get_request_comment_message.
  apply raises_bind; [apply raises_get_world|]. intros w.
  apply raises_bind; [|intros details; apply raises_ret].
  apply raises_pure. apply environment_details_raises.
Qed.

Lemma raises_report_and_block (e : exn) :
  raises_in (fun e' => e' = e) (AppManager.report_and_block e).
Proof.
  unfold AppManager.report_and_block.
  apply raises_bind; [raises_more|]. intros _.
  apply raises_bind; [raises_more|]. intros _.
  apply raises_raise. reflexivity.
Qed.

(** ** The validators keep to the configuration map *)

Ltac silent_tac :=
  repeat first
    [ apply keeps_modify; intros ?; repeat split
    | keeps_step silent_refl silent_trans ].

Lemma silent_config_item (k : string) : keeps silent (config_item k).
Proof. unfold config_item. silent_tac. Qed.

Lemma silent_format_label_elements (k : provisioner_kind) :
  keeps silent (HierarchyrProvisioner._format_label_elements k).
Proof. unfold HierarchyrProvisioner._format_label_elements. silent_tac. Qed.

Lemma silent_check_environment (project_name each_env : value) :
  keeps silent (GcpProjectProvisioner.check_environment project_name each_env).
Proof.
  unfold GcpProjectProvisioner.check_environment,
    GcpProjectProvisioner._validate_project_name_uniqueness,
    GcpProjectProvisioner._validate_environment_subfolder.
  apply keeps_bind; [exact silent_trans | silent_tac |]. intros _.
  apply keeps_bind; [exact silent_trans | apply silent_config_item |]. intros folder_name.
  apply keeps_bind; [exact silent_trans | silent_tac |]. intros sub.
  destruct (negb _); [silent_tac|].
  apply keeps_bind; [exact silent_trans | silent_tac |]. intros w.
  apply keeps_bind; [exact silent_trans | silent_tac |]. intros env_folder_id.
  destruct (HierarchyrProvisioner.found env_folder_id); silent_tac.
Qed.

Lemma silent_project_validate_jira_request :
  keeps silent GcpProjectProvisioner._validate_jira_request.
Proof.
  unfold GcpProjectProvisioner._validate_jira_request.
  apply keeps_try; [exact silent_trans | | intros e; silent_tac].
  apply keeps_bind; [exact silent_trans | apply silent_format_label_elements |]. intros _.
  apply keeps_bind; [exact silent_trans | | intros _; silent_tac].
  unfold GcpProjectProvisioner.validate_folder_and_projects_name.
  apply keeps_try; [exact silent_trans | | intros e; silent_tac].
  apply keeps_bind; [exact silent_trans | |].
  { unfold GcpProjectProvisioner._validate_folder_existence.
    apply keeps_bind; [exact silent_trans | apply silent_config_item |].
    intros folder_name. silent_tac. }
  intros _.
  apply keeps_bind; [exact silent_trans | apply silent_config_item |]. intros project_name.
  apply keeps_bind; [exact silent_trans | apply silent_config_item |]. intros envs.
  apply keeps_bind; [exact silent_trans | silent_tac |]. intros env_list.
  apply keeps_for_each; [exact silent_refl | exact silent_trans |].
  intros each_env. apply silent_check_environment.
Qed.

Lemma silent_folder_validate_jira_request :
  keeps silent GcpFolderProvisioner._validate_jira_request.
Proof.
  unfold GcpFolderProvisioner._validate_jira_request.
  apply keeps_try; [exact silent_trans | | intros e; silent_tac].
  apply keeps_bind; [exact silent_trans | |].
  { unfold GcpFolderProvisioner._validate_folder_name_uniqueness.
    apply keeps_bind; [exact silent_trans | apply silent_config_item |].
    intros folder_name. silent_tac. }
  intros _.
  apply keeps_bind; [exact silent_trans | | intros id; silent_tac].
  unfold GcpFolderProvisioner._extract_project_type_folder_name.
  apply keeps_bind; [exact silent_trans | apply silent_config_item |].
  intros folder_name. silent_tac.
Qed.

Lemma validator_silent (k : provisioner_kind) : keeps silent (validator k).
Proof.
  destruct k; [exact silent_project_validate_jira_request
             | exact silent_folder_validate_jira_request].
Qed.

Lemma validator_raises (k : provisioner_kind) :
  raises_in (class_in [GcpProvisioningError]) (validator k).
Proof.
  destruct k; [exact raises_project_validate_jira_request
             | exact raises_folder_validate_jira_request].
Qed.

(** X12 (the validators of both provisioners).  A validator reads the
    snapshot and writes to the configuration map and to the list of project
    names only: it sends nothing to the ticket system, asks nothing of the
    source-control service, and leaves the request, the snapshot and the
    publish payload as they are; and whatever goes wrong inside it, a missing
    key and a wrongly typed value included, leaves it as a
    [GcpProvisioningError]. *)
Theorem validator_frame (k : provisioner_kind) (w w' : world) (r : exn + unit) :
  validator k w = (r, w') ->
  silent w w' /\ (forall e, r = inl e -> e_class e = GcpProvisioningError).
Proof.
  intros Hrun. split.
  - destruct k; [exact (silent_project_validate_jira_request _ _ _ Hrun)
               | exact (silent_folder_validate_jira_request _ _ _ Hrun)].
  - intros e ->.
    assert (Hc : class_in [GcpProvisioningError] e).
    { destruct k; [exact (raises_project_validate_jira_request _ _ _ Hrun)
                 | exact (raises_folder_validate_jira_request _ _ _ Hrun)]. }
    destruct Hc as [<- | []]. reflexivity.
Qed.

Lemma validator_frame_witness :
  let w := parsed sample_settings (folder_request "myfolder") in
  let e := mk_exn GcpProvisioningError
             ("Validation error: " +:+ GcpFolderProvisioner.exists_message (VStr "myfolder")) in
  validator FolderProvisioner w = (inl e, w)
  /\ silent w w
  /\ (forall e', (inl e : exn + unit) = inl e' -> e_class e' = GcpProvisioningError).
Proof.
  intros w e.
  assert (H : validator FolderProvisioner w = (inl e, w)) by (vm_compute; reflexivity).
  split; [exact H|].
  exact (validator_frame FolderProvisioner w w (inl e) H).
Defined.

(** ** Validation as the orchestrator runs it *)

Lemma report_and_block_run (e : exn) (w : world) :
  AppManager.report_and_block e w = (inl e, logged (failure_report w e) w).
Proof.
  unfold AppManager.report_and_block, AppManager.comment, AppManager.block,
    AppManager.jira_id_str, add_comment_to_jira_issue, change_issue_status.
  m_unfold. unfold logged, upd_jira_log, failure_report. simpl.
  rewrite <- app_assoc. reflexivity.
Qed.

Lemma comment_run (text kind : string) (w : world) :
  AppManager.comment text kind w
  = (inr tt, logged [JComment (Py.str (jira_id w)) kind (comment_prefix kind +:+ text)] w).
Proof. reflexivity. Qed.

(** ** From the payload to the provisioner (app/app_manager.py) *)

Lemma require_inv (k : string) (v : value) (rest : M unit) (w w' : world) :
  AppManager.require k v rest w = (inr tt, w') ->
  PyOp.contains k v = inr true /\ rest w = (inr tt, w').
Proof.
  unfold AppManager.require, py_in. unfold bind, lift.
  destruct (PyOp.contains k v) as [e|[|]]; simpl; try discriminate.
  intros H. split; [reflexivity | exact H].
Qed.

Lemma py_item_inv (v : value) (k : string) (x : value) (w w' : world) :
  py_item v k w = (inr x, w') ->
  w' = w /\ exists d, v = VDict d /\ Py.assoc k d = Some x.
Proof.
  unfold py_item, lift, PyOp.item.
  destruct v as [| | | | | |d]; try discriminate.
  destruct (Py.assoc k d) as [y|] eqn:E; [|discriminate].
  intros [= <- <-]. split; [reflexivity|]. exists d. split; [reflexivity | exact E].
Qed.

(** What [transform_into_json] has checked when it returns. *)
Lemma transform_into_json_inv (request : http_request) (w w' : world) :
  AppManager.transform_into_json request w = (inr tt, w') ->
  w' = upd_request (req_json request) w
  /\ exists d issue fields fs issuetype,
       req_json request = VDict d
       /\ Py.assoc "issue" d = Some (VDict issue)
       /\ is_Some (Py.assoc "key" issue)
       /\ Py.assoc "fields" issue = Some (VDict fs)
       /\ fields = VDict fs
       /\ Py.assoc "issuetype" fs = Some issuetype
       /\ PyOp.contains "name" issuetype = inr true.
Proof.
  unfold AppManager.transform_into_json. unfold bind at 1. unfold modify at 1.
  destruct (req_json request) as [| | | | | |d] eqn:Ej; try discriminate.
  intros H.
  apply require_inv in H as [_ H].
  unfold bind at 1 in H.
  destruct (py_item (VDict d) "issue" (upd_request (VDict d) w)) as [[e|issue] w1] eqn:E1;
    [discriminate|].
  apply py_item_inv in E1 as (-> & d1 & [= <-] & Hissue).
  apply require_inv in H as [Hkey H].
  apply require_inv in H as [_ H].
  unfold bind at 1 in H.
  destruct (py_item issue "fields" (upd_request (VDict d) w)) as [[e|fields] w1] eqn:E2;
    [discriminate|].
  apply py_item_inv in E2 as (-> & di & -> & Hfields).
  apply require_inv in H as [_ H].
  unfold bind at 1 in H.
  destruct (py_item fields "issuetype" (upd_request (VDict d) w)) as [[e|issuetype] w1] eqn:E3;
    [discriminate|].
  apply py_item_inv in E3 as (-> & fs & -> & Hty).
  apply require_inv in H as [Hname H].
  injection H as <-.
  split; [reflexivity|].
  exists d, di, (VDict fs), fs, issuetype.
  repeat split; try assumption; try reflexivity.
  simpl in Hkey. injection Hkey as Hkey. apply bool_decide_eq_true_1 in Hkey. exact Hkey.
Qed.

Lemma py_item_run (d : list (string * value)) (k : string) (x : value) (w : world) :
  Py.assoc k d = Some x -> py_item (VDict d) k w = (inr x, w).
Proof. intros H. unfold py_item, lift, PyOp.item. rewrite H. reflexivity. Qed.

Lemma extract_issue_type_name_run (w : world) (d issue fs : list (string * value))
    (issuetype : value) :
  request_json w = VDict d ->
  Py.assoc "issue" d = Some (VDict issue) ->
  Py.assoc "fields" issue = Some (VDict fs) ->
  Py.assoc "issuetype" fs = Some issuetype ->
  AppManager._extract_issue_type_name w = lift (PyOp.item issuetype "name") w.
Proof.
  intros Hr Hi Hf Hty. unfold AppManager._extract_issue_type_name.
  unfold bind at 1. unfold get_world at 1. rewrite Hr.
  rewrite (bind_inr _ _ _ _ _ (py_item_run _ _ _ w Hi)).
  rewrite (bind_inr _ _ _ _ _ (py_item_run _ _ _ w Hf)).
  rewrite (bind_inr _ _ _ _ _ (py_item_run _ _ _ w Hty)).
  reflexivity.
Qed.

Lemma extract_jira_id_run (w : world) (d issue : list (string * value)) (key : value) :
  request_json w = VDict d ->
  Py.assoc "issue" d = Some (VDict issue) ->
  Py.assoc "key" issue = Some key ->
  AppManager._extract_jira_id w = (inr key, upd_config (insert "ISSUE_KEY" key) w).
Proof.
  intros Hr Hi Hk. unfold AppManager._extract_jira_id.
  unfold bind at 1. unfold get_world at 1. rewrite Hr.
  rewrite (bind_inr _ _ _ _ _ (py_item_run _ _ _ w Hi)).
  rewrite (bind_inr _ _ _ _ _ (py_item_run _ _ _ w Hk)).
  reflexivity.
Qed.

(** ** What the pipeline raises *)

Lemma raises_transform_into_json (request : http_request) :
  raises_in (class_in [InvalidPayloadError; TypeError; KeyError])
    (AppManager.transform_into_json request).
Proof.
  unfold AppManager.transform_into_json.
  apply raises_bind; [apply raises_modify|]. intros _.
  destruct (req_json request); try (apply raises_raise; class_tac).
  unfold AppManager.require. raises_more.
Qed.

Lemma raises_extract_issue :
  raises_in (class_in [MissingRequiredDataError; TypeError; KeyError])
    AppManager.extract_issue.
Proof.
  unfold AppManager.extract_issue, AppManager._extract_issue_type_name,
    AppManager._extract_jira_id.
  raises_more.
Qed.

Lemma raises_parse_jira_request :
  raises_in (class_in [InvalidJiraConfigurationParser; ValueError])
    AppManager.parse_jira_request.
Proof.
  unfold AppManager.parse_jira_request,
    AppManager._extract_config_field_values_for_issue_request.
  apply raises_bind; [raises_more|]. intros ticket_fields.
  raises_prim raises_parse_fields.
Qed.

Lemma raises_select_provisioner (cfg : settings) :
  raises_in (class_in [InvalidJiraConfigurationParser]) (AppManager.select_provisioner cfg).
Proof. unfold AppManager.select_provisioner. raises_more. Qed.

Lemma raises_validate_jira_request :
  raises_in (class_in [GcpProvisioningError; AttributeError])
    AppManager.validate_jira_request.
Proof.
  unfold AppManager.validate_jira_request.
  apply (raises_try_some _ (class_in [GcpProvisioningError; AttributeError])).
  - apply raises_bind; [apply raises_get_world|]. intros w.
    destruct (provisioner w) as [[|]|]; [| |raises_more].
    + apply raises_bind; [raises_prim raises_project_validate_jira_request|]. intros _.
      apply raises_bind; [raises_prim raises_project_comment_message|]. intros m.
      raises_more.
    + apply raises_bind; [raises_prim raises_folder_validate_jira_request|]. intros _.
      unfold GcpFolderProvisioner._get_request_comment_message. raises_more.
  - intros e He _. exact He.
  - intros e He _. apply (raises_weaken (fun e' => e' = e)); [intros ? ->; exact He|].
    apply raises_report_and_block.
Qed.

Lemma raises_initialize_github_manager (cfg : settings) :
  raises_in (class_in [MissingRequiredDataError; GitHubOperationError; KeyError;
                       TypeError])
    (AppManager.initialize_github_manager cfg).
Proof.
  unfold AppManager.initialize_github_manager, AppManager._get_github_credentials,
    AppManager.credential, AppManager.configs_get.
  apply raises_bind; [apply raises_get_world|]. intros w.
  destruct (negb _); [raises_more|].
  apply raises_bind; [|intros [[t o] n]; raises_more].
  apply raises_bind; [apply raises_get_world|]. intros w0.
  apply raises_bind; [destruct (if DEBUG cfg then _ else _); raises_more|].
  intros [[|c cs]|]; raises_more.
Qed.

Lemma raises_build_file (dump : value -> string) (tag : value) (name : string)
    (env : option string) (issue type_file : string) :
  raises_in (class_in [AttributeError; KeyError])
    (GcpProjectProvisioner.build_file dump tag name env issue type_file).
Proof.
  unfold GcpProjectProvisioner.build_file.
  apply raises_bind; [raises_more|]. intros _.
  apply raises_bind; [apply raises_get_world|]. intros w.
  apply raises_bind; [|intros doc; raises_more].
  apply raises_pure. intros e.
  destruct (String.eqb type_file "budget");
    [apply build_budget_terraform_yaml_raises | apply build_project_terraform_yaml_raises].
Qed.

Lemma raises_build_unit (dump : value -> string) (l : limit) (branch : string)
    (tag : value) (name : string) :
  raises_in (class_in [AttributeError; KeyError; TypeError])
    (GcpProjectProvisioner.build_unit dump l branch tag name).
Proof.
  unfold GcpProjectProvisioner.build_unit.
  apply raises_bind; [apply raises_get_world|]. intros w.
  do 6 (apply raises_bind; [raises_more|]; intros _).
  apply raises_bind.
  { apply raises_for_each. intros type_file. raises_prim raises_build_file. }
  intros _. apply raises_bind; [apply raises_get_world|]. intros w'.
  apply raises_bind; [|intros approve; raises_more].
  eapply raises_sub; [|apply raises_pure; apply autoapprove_of_raises]. reflexivity.
Qed.

Lemma raises_project_built_terraform_yamls (dump : value -> string) (l : limit) :
  raises_in (class_in [GcpProvisioningError])
    (GcpProjectProvisioner._built_terraform_yamls dump l).
Proof.
  unfold GcpProjectProvisioner._built_terraform_yamls.
  apply raises_try; [|intros e; apply raises_raise; class_tac].
  apply (raises_weaken (class_in [AttributeError; KeyError; TypeError])).
  { by_class. }
  apply raises_bind; [raises_more|]. intros issue_key.
  apply raises_bind; [raises_more|]. intros data_security.
  apply raises_bind.
  { eapply raises_sub; [|apply raises_pure; apply data_type_tag_of_raises]. reflexivity. }
  intros tag. apply raises_bind; [apply raises_get_world|]. intros w.
  apply raises_for_each. intros name. apply raises_build_unit.
Qed.

Lemma raises_folder_built_terraform_yamls (dump : value -> string) :
  raises_in (class_in [GcpProvisioningError; KeyError; TypeError])
    (GcpFolderProvisioner._built_terraform_yamls dump).
Proof.
  unfold GcpFolderProvisioner._built_terraform_yamls,
    GcpFolderProvisioner.build_project_folder_terraform_yaml,
    GcpFolderProvisioner.as_key.
  raises_more.
Qed.

Lemma raises_built_terraform_yaml (cfg : settings) (dump : value -> string) :
  raises_in (class_in [GcpProvisioningError; KeyError; TypeError])
    (AppManager.built_terraform_yaml cfg dump).
Proof.
  unfold AppManager.built_terraform_yaml.
  apply (raises_try_some _ (class_in [GcpProvisioningError; KeyError; TypeError])).
  - apply raises_bind; [apply raises_get_world|]. intros w.
    destruct (provisioner w) as [[|]|]; [| |raises_more].
    + raises_prim raises_project_built_terraform_yamls.
    + apply raises_folder_built_terraform_yamls.
  - intros e He _. exact He.
  - intros e He _. apply (raises_weaken (fun e' => e' = e)); [intros ? ->; exact He|].
    apply raises_report_and_block.
Qed.

Lemma raises_create_pull_request_logic (P : exn -> Prop) (auto_merge : value) :
  raises_in P (GitHub._create_pull_request_logic auto_merge).
Proof.
  change (GitHub._create_pull_request_logic auto_merge)
    with (try_except (pull_request_attempt auto_merge) (isinstance Exception)
            (fun _ => ret VNone)).
  apply raises_try; [|intros e; apply raises_ret].
  intros w e w' H.
  exact (proj1 (proj2 (proj2 (pull_request_attempt_run _ _ _ _ H)))).
Qed.

Lemma raises_publish_unit_body (u : publish_unit) :
  raises_in
    (fun e => e = head_lookup_failure
              \/ class_in [RequestException; KeyError; Exception] e)
    (AppManager.publish_unit_body u).
Proof.
  unfold AppManager.publish_unit_body.
  apply raises_bind.
  { apply raises_for_each. intros entry. apply raises_commit_new_file. }
  intros _. apply raises_bind; [apply raises_create_pull_request_logic|]. intros pr_url.
  apply (raises_weaken (class_in [])); [intros e []|].
  raises_more.
Qed.

Lemma raises_push_to_github :
  raises_in
    (fun e => e = head_lookup_failure
              \/ class_in [GcpProvisioningError; RequestException; KeyError; Exception] e)
    AppManager.push_to_github.
Proof.
  unfold AppManager.push_to_github.
  apply (raises_try_some _
           (fun e => e = head_lookup_failure
                     \/ class_in [GcpProvisioningError; RequestException; KeyError;
                                  Exception] e)).
  - apply raises_bind; [apply raises_get_world|]. intros w.
    destruct (negb _); [apply raises_raise; right; class_tac|].
    destruct (provisioner w), (github_payload w);
      try (apply raises_raise; right; class_tac).
    apply raises_for_each. intros u.
    apply (raises_weaken
             (fun e => e = head_lookup_failure
                       \/ class_in [RequestException; KeyError; Exception] e)).
    { intros e [-> | He]; [left; reflexivity | right].
      revert He. apply classes_within_spec. reflexivity. }
    apply raises_publish_unit_body.
  - intros e He _. exact He.
  - intros e He _.
    destruct (isinstance GcpProvisioningError e).
    + apply (raises_weaken (fun e' => e' = e)); [intros ? ->; exact He|].
      apply raises_report_and_block.
    + apply raises_bind; [raises_more|]. intros _.
      apply raises_bind; [raises_more|]. intros _.
      apply raises_raise. exact He.
Qed.

(** After the method check, the pipeline raises the exception of the head
    look-up or an exception of one of [pipeline_classes]. *)
Lemma raises_pipeline_steps (cfg : settings) (dump : value -> string)
    (request : http_request) :
  raises_in (fun e => e = head_lookup_failure \/ class_in pipeline_classes e)
    (AppManager.transform_into_json request >>
     AppManager.extract_issue >>
     AppManager.parse_jira_request >>
     AppManager.select_provisioner cfg >>
     AppManager.validate_jira_request >>
     AppManager.initialize_github_manager cfg >>
     AppManager.built_terraform_yaml cfg dump >>
     AppManager.push_to_github >>
     let* id := AppManager.jira_id_str in
     let* _ := change_issue_status "Set as done" id in
     ret ("Webhook processed successfully", 200)).
Proof.
  assert (Hsub : forall A cs (m : M A),
            classes_within cs pipeline_classes = true ->
            raises_in (class_in cs) m ->
            raises_in (fun e => e = head_lookup_failure \/ class_in pipeline_classes e) m).
  { intros A cs m Hcs Hm. eapply raises_weaken; [|exact Hm].
    intros e He. right. exact (classes_within_spec _ _ e Hcs He). }
  apply raises_bind; [eapply Hsub; [|apply raises_transform_into_json]; reflexivity|].
  intros _.
  apply raises_bind; [eapply Hsub; [|apply raises_extract_issue]; reflexivity|].
  intros _.
  apply raises_bind; [eapply Hsub; [|apply raises_parse_jira_request]; reflexivity|].
  intros _.
  apply raises_bind; [eapply Hsub; [|apply raises_select_provisioner]; reflexivity|].
  intros _.
  apply raises_bind; [eapply Hsub; [|apply raises_validate_jira_request]; reflexivity|].
  intros _.
  apply raises_bind; [eapply Hsub; [|apply raises_initialize_github_manager]; reflexivity|].
  intros _.
  apply raises_bind; [eapply Hsub; [|apply raises_built_terraform_yaml]; reflexivity|].
  intros _.
  apply raises_bind.
  { eapply raises_weaken; [|apply raises_push_to_github].
    intros e [-> | He]; [left; reflexivity | right].
    revert He. apply classes_within_spec. reflexivity. }
  intros _. apply (Hsub _ []); [reflexivity|]. raises_more.
Qed.

(** ** The entry point (main.py) *)

Lemma bind_returns {A B} (m : M A) (k : A -> M B) (w w' : world) (b : B) :
  bind m k w = (inr b, w') ->
  exists a w1, m w = (inr a, w1) /\ k a w1 = (inr b, w').
Proof.
  unfold bind. destruct (m w) as [[e|a] w1]; [discriminate|].
  intros H. exists a, w1. split; [reflexivity | exact H].
Qed.

Lemma pipeline_returns (cfg : settings) (dump : value -> string) (request : http_request)
    (w w' : world) (answer : string * Z) :
  pipeline cfg dump request w = (inr answer, w') ->
  answer = ("Webhook processed successfully", 200).
Proof.
  unfold pipeline. intros H.
  do 11 (apply bind_returns in H as (? & ? & _ & H)).
  injection H as <- _. reflexivity.
Qed.

Lemma pipeline_not_post (cfg : settings) (dump : value -> string) (request : http_request)
    (w : world) :
  String.eqb (req_method request) "POST" = false ->
  pipeline cfg dump request w
  = (inl (mk_exn InvalidMethodError "Received non-POST request. Method Not Allowed."), w).
Proof.
  intros H. unfold pipeline. apply bind_inl.
  unfold AppManager.check_if_post_request. rewrite H. reflexivity.
Qed.

Lemma pipeline_post_raises (cfg : settings) (dump : value -> string)
    (request : http_request) (w w' : world) (e : exn) :
  String.eqb (req_method request) "POST" = true ->
  pipeline cfg dump request w = (inl e, w') ->
  e = head_lookup_failure \/ class_in pipeline_classes e.
Proof.
  intros Hpost. unfold pipeline. unfold bind at 1.
  unfold AppManager.check_if_post_request. rewrite Hpost. cbn [negb]. unfold ret at 1.
  apply raises_pipeline_steps.
Qed.

(** The [except] clauses of [handle_jira_webhook] *)
Lemma handle_jira_webhook_unfold (cfg : settings) (dump : value -> string)
    (request : http_request) (w : world) :
  handle_jira_webhook cfg dump request w
  = match pipeline cfg dump request w with
    | (inl e, w1) =>
        if isinstance Exception e then
          (if isinstance InvalidMethodError e then ret ("Method Not Allowed", 405)
           else if isinstance InvalidJiraConfigurationParser e then ret (e_msg e, 404)
           else if isinstance InvalidPayloadError e then raise undefined_webhook_data
           else if isinstance MissingRequiredDataError e then raise undefined_webhook_data
           else if isinstance GcpProvisioningError e then
             ret ("Internal Server Error: GCP provisioning operation failed. " +:+ e_msg e, 500)
           else if isinstance PermissionDeniedError e then
             ret ("Internal Server Error: Insufficient permissions for operation. " +:+ e_msg e, 500)
           else if isinstance GitHubOperationError e then
             AppManager.comment (e_msg e) "error" >> AppManager.block >>
             ret ("Internal Server Error: GitHub operation failed. " +:+ e_msg e, 500)
           else if isinstance JiraWebhookError e then
             ret ("Internal Server Error: A processing error occurred. " +:+ e_msg e, 500)
           else
             AppManager.comment (e_msg e) "error" >> AppManager.block >>
             ret ("Internal Server Error: An unexpected error occurred. Please check function logs.", 500))
            w1
        else (inl e, w1)
    | r => r
    end.
Proof. reflexivity. Qed.

Ltac decide_isinstance :=
  repeat match goal with
         | |- context [isinstance ?c (Exn ?k ?m ?s)] =>
             let b := eval vm_compute in (isinstance c (Exn k m s)) in
             change (isinstance c (Exn k m s)) with b
         end;
  cbv iota.

(** The handler's outcome for an exception of the pipeline, class by class. *)
Ltac by_pipeline_class e He :=
  destruct e as [c m s]; unfold class_in, pipeline_classes in He; simpl in He;
  repeat (destruct He as [He | He]; [subst c; decide_isinstance|]); [.. | destruct He].

(** X15 (handle_jira_webhook, its except clauses).  When the entry point
    answers, the status is 200, 404, 405 or 500, never 400; it is 405 exactly
    for a request that is not a POST, and then nothing at all was done; it is
    200 only with the message of success. *)
Theorem handle_jira_webhook_answers
    (cfg : settings) (dump : value -> string) (request : http_request)
    (w w' : world) (message : string) (status : Z) :
  handle_jira_webhook cfg dump request w = (inr (message, status), w') ->
  (status = 200 \/ status = 404 \/ status = 405 \/ status = 500)
  /\ (status = 405 <-> req_method request <> "POST")
  /\ (status = 405 -> message = "Method Not Allowed" /\ w' = w)
  /\ (status = 200 -> message = "Webhook processed successfully").
Proof.
  rewrite handle_jira_webhook_unfold.
  destruct (String.eqb (req_method request) "POST") eqn:Hpost.
  - assert (Hm : req_method request = "POST") by (apply String.eqb_eq; exact Hpost).
    destruct (pipeline cfg dump request w) as [[e|answer] w1] eqn:Ep.
    + destruct (pipeline_post_raises _ _ _ _ _ _ Hpost Ep) as [-> | He].
      { change (isinstance Exception head_lookup_failure) with false. discriminate. }
      by_pipeline_class e He;
        try discriminate;
        try (intros [= <- <- <-]; repeat split; try tauto; try discriminate;
             intros; congruence);
        (unfold AppManager.comment, AppManager.block, AppManager.jira_id_str,
           add_comment_to_jira_issue, change_issue_status; m_unfold;
         intros [= <- <- <-]; repeat split; try tauto; try discriminate;
         intros; congruence).
    + rewrite (pipeline_returns _ _ _ _ _ _ Ep). intros [= <- <- <-].
      repeat split; try tauto; try discriminate; intros; congruence.
  - assert (Hm : req_method request <> "POST") by (apply String.eqb_neq; exact Hpost).
    rewrite (pipeline_not_post _ _ _ _ Hpost). decide_isinstance.
    intros [= <- <- <-]. repeat split; try tauto; intros; congruence.
Qed.

Lemma handle_jira_webhook_answers_witness :
  let request := HttpRequest "GET" VNone in
  let w := fresh [] in
  handle_jira_webhook sample_settings (fun _ => "") request w
  = (inr ("Method Not Allowed", 405), w)
  /\ (405 = 200 \/ 405 = 404 \/ 405 = 405 \/ 405 = 500)
  /\ (405 = 405 <-> req_method request <> "POST")
  /\ (405 = 405 -> "Method Not Allowed" = "Method Not Allowed" /\ w = w)
  /\ (405 = 200 -> "Method Not Allowed" = "Webhook processed successfully").
Proof.
  intros request w.
  assert (H : handle_jira_webhook sample_settings (fun _ => "") request w
              = (inr ("Method Not Allowed", 405), w)) by reflexivity.
  split; [exact H|].
  exact (handle_jira_webhook_answers sample_settings (fun _ => "") request w w
           "Method Not Allowed" 405 H).
Defined.

(** X16 (handle_jira_webhook, transform_into_json).  A POST request whose
    payload is rejected by [transform_into_json] is not answered with a
    status: the clause for [InvalidPayloadError] refers to a name that is not
    defined, so the entry point raises [NameError]; the ticket is not
    written to. *)
Theorem handle_jira_webhook_invalid_payload
    (cfg : settings) (dump : value -> string) (request : http_request)
    (w w1 : world) (e : exn) :
  req_method request = "POST" ->
  AppManager.transform_into_json request w = (inl e, w1) ->
  e_class e = InvalidPayloadError ->
  handle_jira_webhook cfg dump request w = (inl undefined_webhook_data, w1)
  /\ jira_log w1 = jira_log w.
Proof.
  intros Hm Ht Hc. rewrite handle_jira_webhook_unfold.
  assert (Hp : pipeline cfg dump request w = (inl e, w1)).
  { unfold pipeline. unfold bind at 1. unfold AppManager.check_if_post_request.
    rewrite Hm. cbn [String.eqb Ascii.eqb Bool.eqb negb]. unfold ret at 1.
    apply bind_inl. exact Ht. }
  rewrite Hp. destruct e as [c m s]. simpl in Hc. subst c. decide_isinstance.
  split; [reflexivity|].
  revert Ht. unfold AppManager.transform_into_json. unfold bind at 1. unfold modify at 1.
  intros Ht.
  assert (Hk : keeps (fun a b => jira_log b = jira_log a)
                 (match req_json request with
                  | VDict _ =>
                      let rj := req_json request in
                      AppManager.require "issue" rj
                        (let* issue := py_item rj "issue" in
                         AppManager.require "key" issue
                           (AppManager.require "fields" issue
                              (let* fields := py_item issue "fields" in
                               AppManager.require "issuetype" fields
                                 (let* issuetype := py_item fields "issuetype" in
                                  AppManager.require "name" issuetype (ret tt)))))
                  | _ => raise AppManager.invalid_payload
                  end)).
  { unfold AppManager.require.
    repeat keeps_step (fun a : world => @eq_refl _ (jira_log a))
                      (fun (a b c : world) (H1 : jira_log b = jira_log a)
                           (H2 : jira_log c = jira_log b) => eq_trans H2 H1). }
  exact (Hk _ _ _ Ht).
Qed.

Lemma handle_jira_webhook_invalid_payload_witness :
  let request := HttpRequest "POST" VNone in
  let w := fresh [] in
  let w1 := upd_request VNone w in
  handle_jira_webhook sample_settings (fun _ => "") request w
  = (inl undefined_webhook_data, w1)
  /\ jira_log w1 = jira_log w.
Proof.
  intros request w w1.
  apply (handle_jira_webhook_invalid_payload sample_settings (fun _ => "") request w w1
           AppManager.invalid_payload); reflexivity.
Defined.

(** ** Label elements (app/provisioners/base.py) *)

Lemma format_label_elements_run (k : provisioner_kind) (w : world) :
  HierarchyrProvisioner._format_label_elements k w
  = (inr tt, upd_config (format_labels (HierarchyrProvisioner.elements_to_format k)) w).
Proof.
  unfold HierarchyrProvisioner._format_label_elements.
  generalize (HierarchyrProvisioner.elements_to_format k). intros l.
  revert w. induction l as [|element l IH]; intros w.
  - destruct w; reflexivity.
  - cbn [for_each]. unfold bind at 1. unfold bind at 1.
    unfold get_world at 1.
    destruct (config_data w !! element) as [v|] eqn:E.
    + unfold set_config, modify at 1. rewrite IH. unfold upd_config.
      cbn [config_data request_json issue_type_name jira_id provisioner assets
           dw_env_project_name_list github_payload github_manager pr_list jira_log
           github_script jira_script format_labels fold_left].
      rewrite E. reflexivity.
    + unfold ret at 1. rewrite IH. unfold upd_config.
      cbn [format_labels fold_left]. rewrite E. reflexivity.
Qed.

Lemma format_labels_other (l : list string) (d : gmap string value) (key : string) :
  ~ In key l -> format_labels l d !! key = d !! key.
Proof.
  revert d. induction l as [|element l IH]; intros d Hin; [reflexivity|].
  cbn [format_labels fold_left].
  change (fold_left _ l ?x) with (format_labels l x).
  assert (Hne : element <> key) by (intros ->; apply Hin; left; reflexivity).
  assert (Hl : ~ In key l) by (intros H; apply Hin; right; exact H).
  destruct (d !! element).
  - rewrite (IH _ Hl). apply lookup_insert_ne. exact Hne.
  - apply IH, Hl.
Qed.

Lemma format_twice (v : value) :
  BaseProvisioner.format_for_label_system
    (VStr (BaseProvisioner.format_for_label_system v))
  = BaseProvisioner.format_for_label_system v.
Proof.
  assert (Hform : label_form (BaseProvisioner.format_for_label_system v)).
  { destruct v; try reflexivity. apply sub_ws_go_label, lower_no_upper. }
  simpl. rewrite (lower_label _ Hform). apply sub_ws_go_fixed, Hform.
Qed.

Lemma format_labels_absent (l : list string) (d : gmap string value) (key : string) :
  d !! key = None -> format_labels l d !! key = None.
Proof.
  revert d. induction l as [|element l IH]; intros d Hd; [exact Hd|].
  cbn [format_labels fold_left].
  change (fold_left _ l ?x) with (format_labels l x).
  destruct (d !! element) eqn:E; [|apply IH, Hd].
  apply IH. rewrite lookup_insert_ne; [exact Hd|]. intros ->. congruence.
Qed.

Lemma format_labels_formatted (l : list string) (d : gmap string value) (key : string)
    (v : value) :
  d !! key = Some v ->
  format_labels l d !! key
  = Some (if bool_decide (key ∈ l)
          then VStr (BaseProvisioner.format_for_label_system v) else v).
Proof.
  revert d v. induction l as [|element l IH]; intros d v Hd.
  - rewrite bool_decide_eq_false_2 by apply not_elem_of_nil. exact Hd.
  - cbn [format_labels fold_left].
    change (fold_left _ l ?x) with (format_labels l x).
    destruct (decide (element = key)) as [-> | Hne].
    + rewrite Hd.
      rewrite (IH _ (VStr (BaseProvisioner.format_for_label_system v)))
        by apply lookup_insert_eq.
      rewrite (bool_decide_eq_true_2 (key ∈ key :: l)) by (apply elem_of_cons; left; reflexivity).
      destruct (bool_decide (key ∈ l)); [rewrite format_twice|]; reflexivity.
    + assert (Hiff : key ∈ element :: l <-> key ∈ l).
      { rewrite elem_of_cons. split; [intros [H | H]; [congruence | exact H] | tauto]. }
      rewrite (bool_decide_ext _ _ Hiff).
      destruct (d !! element); apply IH; [|exact Hd].
      rewrite lookup_insert_ne by exact Hne. exact Hd.
Qed.

(** X18 (_format_label_elements).  When the values of the label elements
    are ASCII text (or no text), the formatting of the label elements never
    fails and touches the configuration map only: every listed key that is
    set ends up holding the label form of its value, a text without
    whitespace and capitals; keys that are not listed, and keys that are not
    set, are as before; and formatting again changes nothing. *)
Theorem format_label_elements_normalizes (k : provisioner_kind) (w : world) :
  (forall key v,
     key ∈ HierarchyrProvisioner.elements_to_format k ->
     config_data w !! key = Some v -> ascii_value v) ->
  exists w',
    HierarchyrProvisioner._format_label_elements k w = (inr tt, w')
    /\ w' = upd_config (fun _ => config_data w') w
    /\ (forall key,
          config_data w' !! key
          = match config_data w !! key with
            | Some v =>
                Some (if bool_decide (key ∈ HierarchyrProvisioner.elements_to_format k)
                      then VStr (BaseProvisioner.format_for_label_system v) else v)
            | None => None
            end)
    /\ (forall key v,
          key ∈ HierarchyrProvisioner.elements_to_format k ->
          config_data w' !! key = Some v ->
          exists t, v = VStr t /\ label_form t /\ ascii_text t)
    /\ HierarchyrProvisioner._format_label_elements k w' = (inr tt, w').
Proof.
  intros Hascii.
  set (l := HierarchyrProvisioner.elements_to_format k) in *.
  assert (Hkeys : forall d key,
            format_labels l d !! key
            = match d !! key with
              | Some v => Some (if bool_decide (key ∈ l)
                                then VStr (BaseProvisioner.format_for_label_system v)
                                else v)
              | None => None
              end).
  { intros d key. destruct (d !! key) as [v|] eqn:E;
      [apply format_labels_formatted | apply format_labels_absent]; exact E. }
  exists (upd_config (format_labels l) w).
  split; [apply format_label_elements_run|]. split; [reflexivity|].
  split; [intros key; apply Hkeys|]. split.
  - intros key v Hin. change (config_data (upd_config (format_labels l) w))
      with (format_labels l (config_data w)). rewrite Hkeys.
    destruct (config_data w !! key) as [v0|] eqn:E; [|discriminate].
    rewrite (bool_decide_eq_true_2 _ Hin). intros [= <-].
    exists (BaseProvisioner.format_for_label_system v0).
    split; [reflexivity|]. split.
    + destruct v0; try reflexivity. apply sub_ws_go_label, lower_no_upper.
    + apply format_ascii, (Hascii key v0 Hin E).
  - rewrite format_label_elements_run. f_equal.
    unfold upd_config. simpl. f_equal.
    apply map_eq. intros key. fold l. rewrite !Hkeys.
    destruct (config_data w !! key) as [v|]; [|reflexivity].
    destruct (bool_decide (key ∈ l)); [rewrite format_twice|]; reflexivity.
Qed.

Lemma format_label_elements_normalizes_witness :
  let k := ProjectProvisioner in
  let w := upd_config (insert "PROJECT_NAME" (VStr "My App")) (fresh []) in
  (forall key v,
     key ∈ HierarchyrProvisioner.elements_to_format k ->
     config_data w !! key = Some v -> ascii_value v)
  /\ exists w',
       HierarchyrProvisioner._format_label_elements k w = (inr tt, w')
       /\ w' = upd_config (fun _ => config_data w') w
       /\ (forall key,
             config_data w' !! key
             = match config_data w !! key with
               | Some v =>
                   Some (if bool_decide
                              (key ∈ HierarchyrProvisioner.elements_to_format k)
                         then VStr (BaseProvisioner.format_for_label_system v) else v)
               | None => None
               end)
       /\ (forall key v,
             key ∈ HierarchyrProvisioner.elements_to_format k ->
             config_data w' !! key = Some v ->
             exists t, v = VStr t /\ label_form t /\ ascii_text t)
       /\ HierarchyrProvisioner._format_label_elements k w' = (inr tt, w').
Proof.
  intros k w.
  assert (Ha : forall key v,
            key ∈ HierarchyrProvisioner.elements_to_format k ->
            config_data w !! key = Some v -> ascii_value v).
  { intros key v _ Hl. unfold w in Hl.
    change (config_data (upd_config (insert "PROJECT_NAME" (VStr "My App")) (fresh [])))
      with (<["PROJECT_NAME" := VStr "My App"]> (∅ : gmap string value)) in Hl.
    destruct (decide (key = "PROJECT_NAME")) as [-> | Hne].
    - rewrite lookup_insert_eq in Hl. injection Hl as <-. reflexivity.
    - rewrite lookup_insert_ne in Hl by congruence. rewrite lookup_empty in Hl.
      discriminate. }
  split; [exact Ha|].
  exact (format_label_elements_normalizes k w Ha).
Defined.

(** ** From the field table to the provisioner (app/app_manager.py) *)

Lemma touches_only_issue (k : string) (w w' : world) :
  touches_only k w w' -> issue_type_name w' = issue_type_name w.
Proof. intros (_ & _ & H & _). exact H. Qed.

Lemma parse_fields_keeps_issue (ticket_fields : list (string * field_config)) :
  keeps (fun a b => issue_type_name b = issue_type_name a)
    (AppManager.parse_fields ticket_fields).
Proof.
  set (R := fun a b : world => issue_type_name b = issue_type_name a).
  assert (Hrefl : forall a, R a a) by reflexivity.
  assert (Htrans : forall a b c, R a b -> R b c -> R a c)
    by (unfold R; intros; congruence).
  unfold AppManager.parse_fields.
  apply keeps_try; [exact Htrans | | intros e; repeat keeps_step Hrefl Htrans].
  apply keeps_bind; [exact Htrans | |].
  - apply keeps_for_each; [exact Hrefl | exact Htrans |]. intros entry w r w' H.
    apply (touches_only_issue (output_name (snd entry))).
    revert w r w' H.
    change (keeps (touches_only (output_name (snd entry))) (AppManager.process_field entry)).
    exact (process_field_frame entry).
  - intros _ w r w'. unfold PayloadParser._check_mandatory_fields.
    unfold bind at 1. rewrite missing_mandatory_fields_run.
    destruct (missing_in (config_data w) ticket_fields); intros [= _ <-]; reflexivity.
Qed.

(** X19 (parse_jira_request, select_provisioner).  The two steps dispatch on
    the same issue type: once the field extraction has returned, the
    selection of the provisioner cannot fail, so its own
    [InvalidJiraConfigurationParser] is never raised in the pipeline; the
    provisioner is the one of the issue type, its list of project names is
    empty, and it holds the snapshot of the listing (empty if the listing
    failed). *)
Theorem select_provisioner_after_parse (cfg : settings) (w w1 : world) :
  AppManager.parse_jira_request w = (inr tt, w1) ->
  exists k,
    AppManager.select_provisioner cfg w1
    = (inr tt,
       upd_provisioner k
         (HierarchyrProvisioner._list_projects_and_folders (asset_listing cfg))
         (match k with ProjectProvisioner => Some [] | FolderProvisioner => None end) w1)
    /\ (k = ProjectProvisioner
        <-> Py.eq_str (issue_type_name w) "New GCP Project Provisioning" = true).
Proof.
  unfold AppManager.parse_jira_request,
    AppManager._extract_config_field_values_for_issue_request.
  unfold bind at 1. unfold bind at 1. unfold get_world at 1.
  unfold AppManager.select_provisioner. unfold bind at 1. unfold get_world at 1.
  destruct (Py.eq_str (issue_type_name w) "New GCP Project Provisioning") eqn:Ep.
  - intros H. rewrite (parse_fields_keeps_issue _ _ _ _ H), Ep.
    exists ProjectProvisioner. split; [reflexivity|]. split; [reflexivity|]. intros _. reflexivity.
  - destruct (Py.eq_str (issue_type_name w) "New GCP Folder Provisioning") eqn:Ef;
      [|discriminate].
    intros H. rewrite (parse_fields_keeps_issue _ _ _ _ H), Ep, Ef.
    exists FolderProvisioner. split; [reflexivity|]. split; discriminate.
Qed.

Lemma select_provisioner_after_parse_witness :
  let w := received (folder_request "newfolder") in
  let w1 := snd (AppManager.parse_jira_request w) in
  AppManager.parse_jira_request w = (inr tt, w1)
  /\ exists k,
       AppManager.select_provisioner sample_settings w1
       = (inr tt,
          upd_provisioner k
            (HierarchyrProvisioner._list_projects_and_folders (asset_listing sample_settings))
            (match k with ProjectProvisioner => Some [] | FolderProvisioner => None end) w1)
       /\ (k = ProjectProvisioner
           <-> Py.eq_str (issue_type_name w) "New GCP Project Provisioning" = true).
Proof.
  intros w w1.
  assert (H : AppManager.parse_jira_request w = (inr tt, w1)) by (vm_compute; reflexivity).
  split; [exact H|].
  exact (select_provisioner_after_parse sample_settings w w1 H).
Defined.

(** ** The connection to the repository (app/app_manager.py) *)

(** ** The publish unit of a folder request (app/provisioners/hierarchy/folders.py) *)

Lemma config_item_inv (k : string) (v : value) (w w' : world) :
  config_item k w = (inr v, w') -> w' = w /\ config_data w !! k = Some v.
Proof.
  unfold config_item. m_unfold. destruct (config_data w !! k); [|discriminate].
  intros [= <- <-]. split; reflexivity.
Qed.

(** What the folder provisioner has built when it returns. *)
Lemma folder_built_inv (dump : value -> string) (w w' : world) :
  GcpFolderProvisioner._built_terraform_yamls dump w = (inr tt, w') ->
  exists parent name project_type project_type_folder,
    config_data w !! "PARENT_FOLDER_ID" = Some parent
    /\ Py.truthy parent = true
    /\ config_data w !! "FOLDER_NAME" = Some name
    /\ config_data w !! "PROJECT_TYPE" = Some project_type
    /\ config_data w !! "PROJECT_TYPE_FOLDER" = Some project_type_folder
    /\ w' = upd_payload
              (Some [(Py.str name,
                      folder_unit dump w parent name project_type project_type_folder)]) w.
Proof.
  unfold GcpFolderProvisioner._built_terraform_yamls.
  unfold bind at 1. unfold get_world at 1.
  destruct (config_data w !! "PARENT_FOLDER_ID") as [parent|] eqn:Ep; [|discriminate].
  destruct (Py.truthy parent) eqn:Et; [|discriminate].
  intros H.
  apply bind_returns in H as (doc & w1 & Hdoc & H).
  unfold GcpFolderProvisioner.build_project_folder_terraform_yaml in Hdoc.
  apply bind_returns in Hdoc as (name & w2 & Hname & Hdoc).
  apply config_item_inv in Hname as [-> Hname].
  apply bind_returns in Hdoc as (pt & w2 & Hpt & Hdoc).
  apply config_item_inv in Hpt as [-> Hpt].
  apply bind_returns in Hdoc as (ptf & w2 & Hptf & Hdoc).
  apply config_item_inv in Hptf as [-> Hptf].
  injection Hdoc as <- <-.
  apply bind_returns in H as (name' & w2 & Hname' & H).
  apply config_item_inv in Hname' as [-> Hname'].
  rewrite Hname in Hname'. injection Hname' as <-.
  apply bind_returns in H as (key & w2 & Hkey & H).
  assert (Hk : key = Py.str name /\ w2 = w).
  { revert Hkey. unfold GcpFolderProvisioner.as_key.
    destruct name; try discriminate; intros [= <- <-]; split; reflexivity. }
  destruct Hk as [-> ->].
  injection H as <-.
  exists parent, name, pt, ptf. repeat split; try assumption.
Qed.

Lemma same_at_refl (key : string) (w : world) : same_at key w w.
Proof. reflexivity. Qed.

Lemma same_at_trans (key : string) (w1 w2 w3 : world) :
  same_at key w1 w2 -> same_at key w2 w3 -> same_at key w1 w3.
Proof. unfold same_at. congruence. Qed.

Lemma keeps_for_each_in (R : world -> world -> Prop) {A} (l : list A) (body : A -> M unit) :
  (forall w, R w w) -> (forall w1 w2 w3, R w1 w2 -> R w2 w3 -> R w1 w3) ->
  (forall x, In x l -> keeps R (body x)) -> keeps R (for_each l body).
Proof.
  intros Hrefl Htrans. induction l as [|x l IH]; intros Hbody; cbn [for_each].
  - apply keeps_ret, Hrefl.
  - apply keeps_bind; [exact Htrans | apply Hbody; left; reflexivity |].
    intros _. apply IH. intros y Hy. apply Hbody. right. exact Hy.
Qed.

Ltac same_tac key :=
  repeat first
    [ apply keeps_modify; intros ?;
      first [ reflexivity
            | unfold same_at; simpl; apply lookup_insert_ne; discriminate ]
    | keeps_step (same_at_refl key) (same_at_trans key) ].

Lemma same_at_touches (key k : string) (w w' : world) :
  k <> key -> touches_only k w w' -> same_at key w w'.
Proof. intros Hne (H & _). apply H. congruence. Qed.

Lemma same_at_parse_fields (key : string) (ticket_fields : list (string * field_config)) :
  (forall entry, In entry ticket_fields -> output_name (snd entry) <> key) ->
  keeps (same_at key) (AppManager.parse_fields ticket_fields).
Proof.
  intros Hkeys. unfold AppManager.parse_fields.
  apply keeps_try; [exact (same_at_trans key) | | intros e; same_tac key].
  apply keeps_bind; [exact (same_at_trans key) | |].
  - apply keeps_for_each_in; [exact (same_at_refl key) | exact (same_at_trans key) |].
    intros entry Hin w r w' H.
    apply (same_at_touches key (output_name (snd entry))); [exact (Hkeys entry Hin)|].
    exact (process_field_frame entry _ _ _ H).
  - intros _ w r w'. unfold PayloadParser._check_mandatory_fields.
    unfold bind at 1. rewrite missing_mandatory_fields_run.
    destruct (missing_in (config_data w) ticket_fields); intros [= _ <-]; reflexivity.
Qed.

Lemma same_at_parse_jira_request :
  keeps (same_at "AUTO_APPROVE") AppManager.parse_jira_request.
Proof.
  intros w r w'.
  unfold AppManager.parse_jira_request,
    AppManager._extract_config_field_values_for_issue_request.
  unfold bind at 1. unfold bind at 1. unfold get_world at 1.
  destruct (Py.eq_str (issue_type_name w) "New GCP Project Provisioning").
  - apply same_at_parse_fields. intros entry Hin. simpl in Hin.
    repeat (destruct Hin as [<- | Hin]; [discriminate|]). destruct Hin.
  - destruct (Py.eq_str (issue_type_name w) "New GCP Folder Provisioning").
    + apply same_at_parse_fields. intros entry Hin. simpl in Hin.
      repeat (destruct Hin as [<- | Hin]; [discriminate|]). destruct Hin.
    + intros [= _ <-]. reflexivity.
Qed.

Lemma same_at_transform_into_json (key : string) (request : http_request) :
  keeps (same_at key) (AppManager.transform_into_json request).
Proof.
  unfold AppManager.transform_into_json, AppManager.require.
  apply keeps_bind; [exact (same_at_trans key) | same_tac key |].
  intros _. same_tac key.
Qed.

Lemma same_at_extract_issue : keeps (same_at "AUTO_APPROVE") AppManager.extract_issue.
Proof.
  unfold AppManager.extract_issue, AppManager._extract_issue_type_name,
    AppManager._extract_jira_id, AppManager.comment, AppManager.jira_id_str,
    add_comment_to_jira_issue, set_config.
  same_tac "AUTO_APPROVE".
Qed.

Lemma same_at_select_provisioner (key : string) (cfg : settings) :
  keeps (same_at key) (AppManager.select_provisioner cfg).
Proof. unfold AppManager.select_provisioner. same_tac key. Qed.

Lemma same_at_format_label_elements (k : provisioner_kind) :
  keeps (same_at "AUTO_APPROVE") (HierarchyrProvisioner._format_label_elements k).
Proof.
  intros w r w'. rewrite format_label_elements_run. intros [= _ <-].
  unfold same_at. simpl. apply format_labels_other.
  destruct k; simpl; intuition discriminate.
Qed.

Lemma same_at_validator (k : provisioner_kind) :
  keeps (same_at "AUTO_APPROVE") (validator k).
Proof.
  destruct k; unfold validator.
  - unfold GcpProjectProvisioner._validate_jira_request.
    apply keeps_try; [exact (same_at_trans _) | | intros e; same_tac "AUTO_APPROVE"].
    apply keeps_bind; [exact (same_at_trans _) | apply same_at_format_label_elements |].
    intros _.
    apply keeps_bind; [exact (same_at_trans _) | | intros _; same_tac "AUTO_APPROVE"].
    unfold GcpProjectProvisioner.validate_folder_and_projects_name,
      GcpProjectProvisioner._validate_folder_existence,
      GcpProjectProvisioner.check_environment,
      GcpProjectProvisioner._validate_project_name_uniqueness,
      GcpProjectProvisioner._validate_environment_subfolder, config_item, set_config.
    same_tac "AUTO_APPROVE".
  - unfold GcpFolderProvisioner._validate_jira_request,
      GcpFolderProvisioner._validate_folder_name_uniqueness,
      GcpFolderProvisioner._extract_project_type_folder_name, config_item, set_config.
    same_tac "AUTO_APPROVE".
Qed.

Lemma approval_frame_refl (w : world) : approval_frame w w.
Proof. split; reflexivity. Qed.

Lemma approval_frame_trans (w1 w2 w3 : world) :
  approval_frame w1 w2 -> approval_frame w2 w3 -> approval_frame w1 w3.
Proof. unfold approval_frame, same_at. intros [A B] [C D]. split; congruence. Qed.

Ltac approval_tac :=
  repeat first
    [ apply keeps_modify; intros ?; split; reflexivity
    | keeps_step approval_frame_refl approval_frame_trans ].

Lemma approval_frame_validator (k : provisioner_kind) :
  keeps approval_frame (validator k).
Proof.
  intros w r w' H. split; [exact (same_at_validator k _ _ _ H)|].
  destruct (validator_silent k w r w' H) as (_ & _ & _ & _ & _ & Hp & _). exact Hp.
Qed.

Lemma approval_frame_report_and_block (e : exn) :
  keeps approval_frame (AppManager.report_and_block e).
Proof.
  intros w r w'. rewrite report_and_block_run. intros [= _ <-]. split; reflexivity.
Qed.

Lemma approval_frame_validate_jira_request :
  keeps approval_frame AppManager.validate_jira_request.
Proof.
  unfold AppManager.validate_jira_request.
  apply keeps_try; [exact approval_frame_trans | | apply approval_frame_report_and_block].
  apply keeps_bind; [exact approval_frame_trans | approval_tac |]. intros w.
  destruct (provisioner w) as [k|]; [|approval_tac].
  apply keeps_bind; [exact approval_frame_trans | apply (approval_frame_validator k) |].
  intros _.
  apply keeps_bind; [exact approval_frame_trans | |].
  - destruct k.
    + unfold GcpProjectProvisioner._get_request_comment_message. approval_tac.
    + unfold GcpFolderProvisioner._get_request_comment_message. approval_tac.
  - intros message w1 r w2. rewrite comment_run. intros [= _ <-]. split; reflexivity.
Qed.

Lemma approval_frame_initialize_github_manager (cfg : settings) :
  keeps approval_frame (AppManager.initialize_github_manager cfg).
Proof.
  unfold AppManager.initialize_github_manager, AppManager._get_github_credentials,
    AppManager.credential, AppManager.configs_get.
  apply keeps_bind; [exact approval_frame_trans | approval_tac |]. intros w.
  destruct (negb _); [approval_tac|].
  apply keeps_bind; [exact approval_frame_trans | |].
  { apply keeps_bind; [exact approval_frame_trans | approval_tac |]. intros w0.
    apply keeps_bind; [exact approval_frame_trans | |].
    - destruct (if DEBUG cfg then _ else _); approval_tac.
    - intros [[|c cs]|]; approval_tac. }
  intros [[token owner] name].
  apply keeps_bind; [exact approval_frame_trans | approval_tac |]. intros _.
  intros w1 r w2. rewrite comment_run. intros [= _ <-]. split; reflexivity.
Qed.

Lemma project_built_keeps_provisioner (dump : value -> string) (l : limit) :
  keeps (fun a b => provisioner b = provisioner a)
    (GcpProjectProvisioner._built_terraform_yamls dump l).
Proof.
  set (R := fun a b : world => provisioner b = provisioner a).
  assert (Hrefl : forall a, R a a) by reflexivity.
  assert (Htrans : forall a b c, R a b -> R b c -> R a c)
    by (unfold R; intros; congruence).
  unfold GcpProjectProvisioner._built_terraform_yamls,
    GcpProjectProvisioner.build_unit, GcpProjectProvisioner.build_file,
    GcpProjectProvisioner.upd_unit, config_item.
  repeat first
    [ apply keeps_modify; intros ?; reflexivity
    | keeps_step Hrefl Htrans ].
Qed.

(** X21 (_built_terraform_yamls and build_project_folder_terraform_yaml of
    the folder provisioner, with the steps before them).  No step of the
    pipeline sets the key ["AUTO_APPROVE"] of the configuration map.  So,
    for a request processed from a state where it is not set, the publish
    payload of a folder request is one unit that is not auto-approved: its
    pull request always needs manual approval.  The unit has one file, at
    ["gcp/folders/<label>/folder.yaml"], on the branch
    ["feature/jira-<issue>-folder-<label>"], where the label is the label
    form of the folder name. *)
Theorem folder_request_never_auto_approved
    (cfg : settings) (dump : value -> string) (request : http_request) (w w' : world) :
  config_data w !! "AUTO_APPROVE" = None ->
  preparation cfg dump request w = (inr tt, w') ->
  provisioner w' = Some FolderProvisioner ->
  exists (w6 : world) (parent name project_type project_type_folder : value),
    w' = upd_payload
           (Some [(Py.str name,
                   folder_unit dump w6 parent name project_type project_type_folder)]) w6
    /\ config_data w6 !! "FOLDER_NAME" = Some name
    /\ pu_autoapprove (folder_unit dump w6 parent name project_type project_type_folder)
       = Some (VBool false)
    /\ AppManager.is_True
         (AppManager.unit_autoapprove
            (folder_unit dump w6 parent name project_type project_type_folder)) = false
    /\ label_form (BaseProvisioner.format_for_label_system name).
Proof.
  intros Hnone Hrun Hk. unfold preparation in Hrun.
  apply bind_returns in Hrun as ([] & w1 & H1 & Hrun).
  apply bind_returns in Hrun as ([] & w2 & H2 & Hrun).
  apply bind_returns in Hrun as ([] & w3 & H3 & Hrun).
  apply bind_returns in Hrun as ([] & w4 & H4 & Hrun).
  apply bind_returns in Hrun as ([] & w5 & H5 & Hrun).
  apply bind_returns in Hrun as ([] & w6 & H6 & Hrun).
  assert (Hauto : config_data w6 !! "AUTO_APPROVE" = None).
  { pose proof (same_at_transform_into_json "AUTO_APPROVE" _ _ _ _ H1) as S1.
    pose proof (same_at_extract_issue _ _ _ H2) as S2.
    pose proof (same_at_parse_jira_request _ _ _ H3) as S3.
    pose proof (same_at_select_provisioner "AUTO_APPROVE" _ _ _ _ H4) as S4.
    pose proof (proj1 (approval_frame_validate_jira_request _ _ _ H5)) as S5.
    pose proof (proj1 (approval_frame_initialize_github_manager _ _ _ _ H6)) as S6.
    unfold same_at in *. congruence. }
  revert Hrun. unfold AppManager.built_terraform_yaml, try_except.
  unfold bind at 1. unfold get_world at 1.
  destruct (provisioner w6) as [[|]|] eqn:Ep.
  - destruct (GcpProjectProvisioner._built_terraform_yamls dump (BUDGET_LIMIT cfg) w6)
      as [[e|[]] w7] eqn:Eb.
    + destruct (isinstance GcpProvisioningError e);
        [rewrite report_and_block_run|]; discriminate.
    + intros [= <-]. exfalso.
      assert (Hp : provisioner w7 = provisioner w6).
      { exact (project_built_keeps_provisioner dump (BUDGET_LIMIT cfg) _ _ _ Eb). }
      congruence.
  - destruct (GcpFolderProvisioner._built_terraform_yamls dump w6) as [[e|[]] w7] eqn:Eb.
    + destruct (isinstance GcpProvisioningError e);
        [rewrite report_and_block_run|]; discriminate.
    + intros [= <-].
      apply folder_built_inv in Eb
        as (parent & name & pt & ptf & Hparent & _ & Hname & _ & _ & ->).
      exists w6, parent, name, pt, ptf.
      split; [reflexivity|]. split; [exact Hname|].
      assert (Ha : pu_autoapprove (folder_unit dump w6 parent name pt ptf)
                   = Some (VBool false)).
      { unfold folder_unit. cbn [pu_autoapprove]. rewrite Hauto. reflexivity. }
      split; [exact Ha|]. split.
      * unfold AppManager.unit_autoapprove. rewrite Ha. reflexivity.
      * destruct name; try reflexivity. apply sub_ws_go_label, lower_no_upper.
  - unfold raise at 1. change (isinstance GcpProvisioningError AppManager.not_initialized)
      with true. cbv iota. rewrite report_and_block_run. discriminate.
Qed.

Lemma folder_request_never_auto_approved_witness :
  let request := folder_request "NewFolder" in
  let w := fresh [] in
  let w' := snd (preparation sample_settings (fun _ => "a: 1") request w) in
  config_data w !! "AUTO_APPROVE" = None
  /\ preparation sample_settings (fun _ => "a: 1") request w = (inr tt, w')
  /\ provisioner w' = Some FolderProvisioner
  /\ exists (w6 : world) (parent name project_type project_type_folder : value),
       w' = upd_payload
              (Some [(Py.str name,
                      folder_unit (fun _ => "a: 1") w6 parent name project_type
                        project_type_folder)]) w6
       /\ config_data w6 !! "FOLDER_NAME" = Some name
       /\ pu_autoapprove
            (folder_unit (fun _ => "a: 1") w6 parent name project_type project_type_folder)
          = Some (VBool false)
       /\ AppManager.is_True
            (AppManager.unit_autoapprove
               (folder_unit (fun _ => "a: 1") w6 parent name project_type
                  project_type_folder)) = false
       /\ label_form (BaseProvisioner.format_for_label_system name).
Proof.
  intros request w w'.
  assert (H0 : config_data w !! "AUTO_APPROVE" = None) by reflexivity.
  assert (H1 : preparation sample_settings (fun _ => "a: 1") request w = (inr tt, w'))
    by (vm_compute; reflexivity).
  assert (H2 : provisioner w' = Some FolderProvisioner) by (vm_compute; reflexivity).
  split; [exact H0|]. split; [exact H1|]. split; [exact H2|].
  exact (folder_request_never_auto_approved sample_settings (fun _ => "a: 1") request
           w w' H0 H1 H2).
Defined.

(** ** The publish units of a project request (app/provisioners/hierarchy/projects.py) *)

Lemma assoc_assoc_set_eq {A} (k : string) (v : A) (d : list (string * A)) :
  Py.assoc k (Py.assoc_set k v d) = Some v.
Proof.
  induction d as [|[k' v'] d IH]; simpl.
  - rewrite String.eqb_refl. reflexivity.
  - destruct (String.eqb k' k) eqn:E; simpl; [rewrite String.eqb_refl | rewrite E; exact IH];
      reflexivity.
Qed.

Lemma assoc_assoc_set_ne {A} (k k' : string) (v : A) (d : list (string * A)) :
  k <> k' -> Py.assoc k (Py.assoc_set k' v d) = Py.assoc k d.
Proof.
  intros Hne. induction d as [|[k0 v0] d IH]; simpl.
  - destruct (String.eqb k' k) eqn:E; [apply String.eqb_eq in E; congruence | reflexivity].
  - destruct (String.eqb k0 k') eqn:E; simpl.
    + apply String.eqb_eq in E. subst k0.
      destruct (String.eqb k' k) eqn:E'; [apply String.eqb_eq in E'; congruence | reflexivity].
    + destruct (String.eqb k0 k); [reflexivity | exact IH].
Qed.

Lemma assoc_set_twice {A} (k : string) (v v' : A) (d : list (string * A)) :
  Py.assoc_set k v (Py.assoc_set k v' d) = Py.assoc_set k v d.
Proof.
  induction d as [|[k0 v0] d IH]; simpl.
  - rewrite String.eqb_refl. reflexivity.
  - destruct (String.eqb k0 k) eqn:E; simpl.
    + rewrite String.eqb_refl. reflexivity.
    + rewrite E, IH. reflexivity.
Qed.

Lemma upd_unit_run (name : string) (f : publish_unit -> publish_unit) (U : publish_unit)
    (p0 : list (string * publish_unit)) (w : world) :
  GcpProjectProvisioner.upd_unit name f (upd_payload (Some (Py.assoc_set name U p0)) w)
  = (inr tt, upd_payload (Some (Py.assoc_set name (f U) p0)) w).
Proof.
  unfold GcpProjectProvisioner.upd_unit, modify.
  cbn [github_payload upd_payload option_map].
  rewrite assoc_assoc_set_eq, assoc_set_twice. reflexivity.
Qed.

Lemma lift_returns {A} (r : exn + A) (a : A) (w w' : world) :
  lift r w = (inr a, w') -> r = inr a /\ w' = w.
Proof. destruct r; [discriminate|]. intros [= <- <-]. split; reflexivity. Qed.

Ltac unit_step H :=
  let Hs := fresh "Hs" in
  apply bind_returns in H as ([] & ? & Hs & H);
  rewrite upd_unit_run in Hs; injection Hs as <-.

Lemma build_unit_inv (dump : value -> string) (l : limit) (branch : string) (tag : value)
    (name : string) (p0 : list (string * publish_unit)) (w w' : world) :
  github_payload w = Some p0 ->
  GcpProjectProvisioner.build_unit dump l branch tag name w = (inr tt, w') ->
  exists U, unit_built (config_data w) l branch name U
            /\ w' = upd_payload (Some (Py.assoc_set name U p0)) w.
Proof.
  intros Hp H. unfold GcpProjectProvisioner.build_unit in H.
  apply bind_returns in H as (w0 & ? & Hg & H). injection Hg as <- <-.
  apply bind_returns in H as ([] & ? & Hs & H).
  unfold modify in Hs. rewrite Hp in Hs. cbn [option_map] in Hs. injection Hs as <-.
  do 5 unit_step H.
  cbn [GcpProjectProvisioner.set_title GcpProjectProvisioner.set_env
       GcpProjectProvisioner.set_tag GcpProjectProvisioner.set_branch
       GcpProjectProvisioner.set_files empty_unit
       pu_pr_title pu_env pu_data_type_tag pu_new_branch_name pu_yaml_content_encoded
       pu_autoapprove] in H.
  apply bind_returns in H as ([] & wf & Hfiles & H).
  cbn [for_each] in Hfiles.
  apply bind_returns in Hfiles as ([] & w1 & Hb & Hfiles).
  apply bind_returns in Hfiles as ([] & w2 & Hq & Hfiles).
  injection Hfiles as <-.
  unfold GcpProjectProvisioner.build_file in Hb, Hq.
  unit_step Hb.
  apply bind_returns in Hb as (wb & ? & Hg & Hb). injection Hg as <- <-.
  apply bind_returns in Hb as (doc_b & ? & Hdoc & Hb).
  apply lift_returns in Hdoc as [Hbudget ->].
  do 2 unit_step Hb. rewrite upd_unit_run in Hb. injection Hb as <-.
  unit_step Hq.
  apply bind_returns in Hq as (wq & ? & Hg & Hq). injection Hg as <- <-.
  apply bind_returns in Hq as (doc_p & ? & Hdoc & Hq).
  apply lift_returns in Hdoc as [_ ->].
  do 2 unit_step Hq. rewrite upd_unit_run in Hq. injection Hq as <-.
  apply bind_returns in H as (wa & ? & Hg & H). injection Hg as <- <-.
  apply bind_returns in H as (approve & ? & Ha & H).
  apply lift_returns in Ha as [Ha ->].
  rewrite upd_unit_run in H. injection H as <-.
  eexists. split; [|reflexivity].
  unfold unit_built. split.
  - unfold project_unit_shape. cbn.
    split; [reflexivity|]. split; [reflexivity|].
    do 6 eexists. repeat split.
  - exists approve, doc_b. split; [reflexivity|]. split; [exact Ha | exact Hbudget].
Qed.

Lemma build_units_inv (dump : value -> string) (l : limit) (branch : string) (tag : value)
    (names : list string) (p0 : list (string * publish_unit)) (w w' : world) :
  github_payload w = Some p0 ->
  for_each names (GcpProjectProvisioner.build_unit dump l branch tag) w = (inr tt, w') ->
  exists p,
    w' = upd_payload (Some p) w
    /\ (forall n, In n names ->
                  exists U, Py.assoc n p = Some U
                            /\ unit_built (config_data w) l branch n U)
    /\ (forall n, ~ In n names -> Py.assoc n p = Py.assoc n p0).
Proof.
  revert p0 w. induction names as [|name names IH]; intros p0 w Hp H.
  - injection H as <-. exists p0. split; [destruct w; simpl in Hp; subst; reflexivity|].
    split; [intros n []|]. reflexivity.
  - cbn [for_each] in H. apply bind_returns in H as ([] & w1 & Hunit & H).
    apply (build_unit_inv _ _ _ _ _ p0) in Hunit as (U & HU & ->); [|exact Hp].
    apply (IH (Py.assoc_set name U p0)) in H as (p & -> & Hin & Hout); [|reflexivity].
    exists p. split; [reflexivity|]. split.
    + intros n Hn. destruct (in_dec string_dec n names) as [Hrest | Hrest].
      * apply Hin, Hrest.
      * destruct Hn as [<- | Hn]; [|contradiction].
        exists U. split; [|exact HU]. rewrite (Hout _ Hrest). apply assoc_assoc_set_eq.
    + intros n Hn. rewrite Hout by (intros Hrest; apply Hn; right; exact Hrest).
      apply assoc_assoc_set_ne. intros ->. apply Hn. left. reflexivity.
Qed.

(** X22 (_built_terraform_yamls of the project provisioner).  When the
    synthesis of a project request succeeds, the payload holds, for every
    validated project name, a unit with the environment tag of the name and
    exactly two files, ["data/budgets/<name>.yaml"] and
    ["data/projects/<name>.yaml"]; and all the units of the request carry
    the same branch name, ["ticket-<issue key>"].  Nothing but the payload
    changes. *)
Theorem project_units_share_branch
    (dump : value -> string) (l : limit) (p0 : list (string * publish_unit))
    (w w' : world) :
  github_payload w = Some p0 ->
  GcpProjectProvisioner._built_terraform_yamls dump l w = (inr tt, w') ->
  exists issue_key payload,
    config_data w !! "ISSUE_KEY" = Some issue_key
    /\ w' = upd_payload (Some payload) w
    /\ forall name, In name (dw_env_project_name_list w) ->
         exists u, Py.assoc name payload = Some u
                   /\ project_unit_shape ("ticket-" +:+ Py.str issue_key) name u.
Proof.
  intros Hp. unfold GcpProjectProvisioner._built_terraform_yamls, try_except.
  match goal with
  | |- context [match ?b w with _ => _ end] =>
      destruct (b w) as [[e|[]] w1] eqn:Eb
  end.
  { destruct (isinstance Exception e); discriminate. }
  intros [= <-].
  apply bind_returns in Eb as (issue_key & ? & Hk & Eb).
  apply config_item_inv in Hk as [-> Hk].
  apply bind_returns in Eb as (data_security & ? & Hd & Eb).
  apply config_item_inv in Hd as [-> Hd].
  apply bind_returns in Eb as (tag & ? & Ht & Eb).
  apply lift_returns in Ht as [_ ->].
  apply bind_returns in Eb as (w0 & ? & Hg & Eb). injection Hg as <- <-.
  apply (build_units_inv _ _ _ _ _ p0) in Eb as (p & -> & Hin & _); [|exact Hp].
  exists issue_key, p. split; [exact Hk|]. split; [reflexivity|].
  intros name Hname. destruct (Hin name Hname) as (u & Hu & Hshape & _).
  exists u. split; [exact Hu | exact Hshape].
Qed.

Lemma project_units_share_branch_witness :
  let request := project_request "l0" "myapp" ["dev"; "prod"] (Some "100.5") (Some "200.5") in
  let w := snd (AppManager.validate_jira_request (parsed sample_settings request)) in
  let w' := snd (GcpProjectProvisioner._built_terraform_yamls (fun _ => "a: 1")
                   default_BUDGET_LIMIT w) in
  dw_env_project_name_list w = ["dw-dev-myapp"; "dw-prod-myapp"]
  /\ github_payload w = Some []
  /\ GcpProjectProvisioner._built_terraform_yamls (fun _ => "a: 1") default_BUDGET_LIMIT w
     = (inr tt, w')
  /\ exists issue_key payload,
       config_data w !! "ISSUE_KEY" = Some issue_key
       /\ w' = upd_payload (Some payload) w
       /\ forall name, In name (dw_env_project_name_list w) ->
            exists u, Py.assoc name payload = Some u
                      /\ project_unit_shape ("ticket-" +:+ Py.str issue_key) name u.
Proof.
  intros request w w'.
  assert (H0 : dw_env_project_name_list w = ["dw-dev-myapp"; "dw-prod-myapp"])
    by (vm_compute; reflexivity).
  assert (H1 : github_payload w = Some []) by (vm_compute; reflexivity).
  assert (H2 : GcpProjectProvisioner._built_terraform_yamls (fun _ => "a: 1")
                 default_BUDGET_LIMIT w = (inr tt, w')) by (vm_compute; reflexivity).
  split; [exact H0|]. split; [exact H1|]. split; [exact H2|].
  exact (project_units_share_branch (fun _ => "a: 1") default_BUDGET_LIMIT [] w w' H1 H2).
Defined.

(** ** The auto-approval of a unit *)

Lemma autoapprove_of_true (l : limit) (data : gmap string value) (env : option string) :
  GcpProjectProvisioner.autoapprove_of l data env = inr true
  <-> env = Some "dev"
      /\ exists data_security,
           data !! "DATASECURITY" = Some data_security
           /\ Py.eq_str data_security "l0" = true
           /\ GcpProjectProvisioner.budget_dev_or_zero data <> VNone
           /\ GcpProjectProvisioner.below_limit l
                (GcpProjectProvisioner.budget_dev_or_zero data) = inr true.
Proof.
  unfold GcpProjectProvisioner.autoapprove_of, GcpProjectProvisioner.data_item,
    GcpProjectProvisioner.allow_autoapprove_on_dev_budget_limit.
  set (budget := GcpProjectProvisioner.budget_dev_or_zero data).
  destruct (decide (env = Some "dev")) as [-> | Hne].
  2:{ rewrite bool_decide_eq_false_2 by exact Hne.
      split; [discriminate | intros [H _]; contradiction]. }
  rewrite bool_decide_eq_true_2 by reflexivity.
  destruct (data !! "DATASECURITY") as [ds|].
  2:{ split; [discriminate | intros (_ & ds & H & _); discriminate]. }
  destruct (Py.eq_str ds "l0") eqn:Eds.
  2:{ split; [discriminate | intros (_ & ds' & [= <-] & H & _); congruence]. }
  assert (Hgen : budget <> VNone ->
            (match GcpProjectProvisioner.below_limit l budget with
             | inl e => inl e
             | inr true => inr true
             | inr false => inr false
             end = inr true
             <-> Some "dev" = Some "dev"
                 /\ exists data_security,
                      Some ds = Some data_security
                      /\ Py.eq_str data_security "l0" = true
                      /\ budget <> VNone
                      /\ GcpProjectProvisioner.below_limit l budget = inr true)).
  { intros Hb. destruct (GcpProjectProvisioner.below_limit l budget) as [e|[|]].
    - split; [discriminate | intros (_ & ? & _ & _ & _ & H); discriminate].
    - split; [intros _ | reflexivity]. split; [reflexivity|].
      exists ds. repeat split; assumption.
    - split; [discriminate | intros (_ & ? & _ & _ & _ & H); discriminate]. }
  destruct budget; try (apply Hgen; discriminate).
  split; [discriminate | intros (_ & ? & _ & _ & H & _); contradiction].
Qed.

Lemma ascii_compare_spec (a b : ascii) :
  match Ascii.compare a b with
  | Eq => a = b
  | Lt => (PyStr.code a < PyStr.code b)%nat
  | Gt => (PyStr.code b < PyStr.code a)%nat
  end.
Proof.
  unfold Ascii.compare, PyStr.code, nat_of_ascii.
  destruct (N.compare_spec (N_of_ascii a) (N_of_ascii b)) as [H|H|H].
  - rewrite <- (ascii_N_embedding a), <- (ascii_N_embedding b), H. reflexivity.
  - lia.
  - lia.
Qed.

Lemma string_ltb_spec (s t : string) : String.ltb s t = true <-> text_before s t.
Proof.
  unfold String.ltb. revert t. induction s as [|a s IH]; intros [|b t]; simpl.
  - split; [discriminate | contradiction].
  - split; [constructor | reflexivity].
  - split; [discriminate | contradiction].
  - pose proof (ascii_compare_spec a b) as Hc.
    destruct (Ascii.compare a b).
    + subst b. rewrite IH. split; [intros H; right; split; [reflexivity | exact H]|].
      intros [H | [_ H]]; [lia | exact H].
    + split; [intros _; left; exact Hc | reflexivity].
    + split; [discriminate|]. intros [H | [-> _]]; lia.
Qed.

Lemma num_ltb_float_int (g : pyfloat) (z : Z) :
  Py.num_ltb (NFloat g) (NInt z) = true
  <-> match g with
      | Inf neg => neg = true
      | NaN => False
      | _ => exists n d, PyFloat.fraction g = Some (n, d) /\ n < z * d
      end.
Proof.
  assert (Hfin : forall o : option (Z * Z),
            match option_map CompOpp
                    match o with
                    | Some (n, d) => Some (z * d ?= n)
                    | None => None
                    end with
            | Some Lt => true
            | _ => false
            end = true
            <-> exists n d, o = Some (n, d) /\ n < z * d).
  { intros [[n d]|]; simpl.
    - destruct (Z.compare_spec (z * d) n); simpl.
      + split; [discriminate | intros (? & ? & [= <- <-] & ?); lia].
      + split; [discriminate | intros (? & ? & [= <- <-] & ?); lia].
      + split; [intros _; exists n, d; split; [reflexivity | lia] | reflexivity].
    - split; [discriminate | intros (? & ? & [=] & _)]. }
  unfold Py.num_ltb, Py.num_compare, PyFloat.compare_int.
  destruct g as [m e| |neg|]; cbv beta iota.
  - apply Hfin.
  - apply Hfin.
  - destruct neg; simpl; split; congruence.
  - simpl. split; [discriminate | contradiction].
Qed.

Lemma below_limit_spec (l : limit) (budget : value) :
  GcpProjectProvisioner.below_limit l budget = inr true <-> strictly_below budget l.
Proof.
  unfold GcpProjectProvisioner.below_limit, strictly_below.
  destruct l as [z|t].
  - destruct budget as [|b|x|f|s|l|d]; cbn [Py.as_number];
      try (split; [discriminate | contradiction]).
    + unfold Py.num_ltb, Py.num_compare.
      destruct (Z.compare_spec (if b then 1 else 0) z);
        (split; [try discriminate; intros _; lia | try reflexivity; intros; lia]).
    + unfold Py.num_ltb, Py.num_compare.
      destruct (Z.compare_spec x z);
        (split; [try discriminate; intros _; lia | try reflexivity; intros; lia]).
    + rewrite <- num_ltb_float_int.
      destruct (Py.num_ltb (NFloat f) (NInt z)); split; congruence.
  - destruct budget; try (split; [discriminate | contradiction]).
    rewrite <- string_ltb_spec. destruct (String.ltb s t); split; congruence.
Qed.

(** X26 (_built_terraform_yamls, allow_autoapprove_on_dev_budget_limit).  In
    the payload of a project request that was synthesized, the unit of a
    project name is auto-approved exactly when the name carries the
    environment tag ["dev"], the data security level is ["l0"], and the dev
    budget, which is then necessarily set, is strictly below the limit: a
    number whose value is less than the integer limit (or, when the limit
    was read from the environment and is a text, a text before it).  The
    units of the other environments are never auto-approved, whatever their
    own budget. *)
Theorem project_unit_autoapprove
    (dump : value -> string) (l : limit) (p0 : list (string * publish_unit))
    (w w' : world) (name : string) :
  github_payload w = Some p0 ->
  GcpProjectProvisioner._built_terraform_yamls dump l w = (inr tt, w') ->
  In name (dw_env_project_name_list w) ->
  exists payload u approve,
    github_payload w' = Some payload
    /\ Py.assoc name payload = Some u
    /\ pu_autoapprove u = Some (VBool approve)
    /\ (approve = true
        <-> HierarchyrProvisioner.extract_dw_environment name = Some "dev"
            /\ exists data_security budget,
                 config_data w !! "DATASECURITY" = Some data_security
                 /\ Py.eq_str data_security "l0" = true
                 /\ config_data w !! "BUDGET_DEV" = Some budget
                 /\ strictly_below budget l).
Proof.
  intros Hp. unfold GcpProjectProvisioner._built_terraform_yamls, try_except.
  match goal with
  | |- context [match ?b w with _ => _ end] =>
      destruct (b w) as [[e|[]] w1] eqn:Eb
  end.
  { destruct (isinstance Exception e); discriminate. }
  intros [= <-] Hname.
  apply bind_returns in Eb as (issue_key & ? & Hk & Eb).
  apply config_item_inv in Hk as [-> Hk].
  apply bind_returns in Eb as (data_security & ? & Hd & Eb).
  apply config_item_inv in Hd as [-> Hd].
  apply bind_returns in Eb as (tag & ? & Ht & Eb).
  apply lift_returns in Ht as [_ ->].
  apply bind_returns in Eb as (w0 & ? & Hg & Eb). injection Hg as <- <-.
  apply (build_units_inv _ _ _ _ _ p0) in Eb as (p & -> & Hin & _); [|exact Hp].
  destruct (Hin name Hname) as (u & Hu & _ & approve & doc & Happrove & Hauto & Hdoc).
  exists p, u, approve. split; [reflexivity|]. split; [exact Hu|].
  split; [exact Happrove|].
  split.
  - intros ->. apply autoapprove_of_true in Hauto as (Henv & ds & Hds & Hl0 & Hb & Hlim).
    split; [exact Henv|].
    revert Hdoc. rewrite Henv.
    unfold GcpProjectProvisioner.build_budget_terraform_yaml,
      GcpProjectProvisioner.env_upper, GcpProjectProvisioner.data_item.
    change ("BUDGET_" +:+ PyStr.upper "dev") with "BUDGET_DEV".
    destruct (config_data w !! "BUDGET_DEV") as [budget|] eqn:Ebud; [|discriminate].
    intros _.
    assert (Hz : GcpProjectProvisioner.budget_dev_or_zero (config_data w) = budget).
    { unfold GcpProjectProvisioner.budget_dev_or_zero. rewrite Ebud. reflexivity. }
    rewrite Hz in Hlim. apply below_limit_spec in Hlim.
    exists ds, budget. repeat split; assumption.
  - intros (Henv & ds & budget & Hds & Hl0 & Hbud & Hlim).
    assert (Htrue : GcpProjectProvisioner.autoapprove_of l (config_data w)
                      (HierarchyrProvisioner.extract_dw_environment name) = inr true).
    { apply autoapprove_of_true. split; [exact Henv|].
      assert (Hz : GcpProjectProvisioner.budget_dev_or_zero (config_data w) = budget).
      { unfold GcpProjectProvisioner.budget_dev_or_zero. rewrite Hbud. reflexivity. }
      exists ds. rewrite Hz. split; [exact Hds|]. split; [exact Hl0|]. split.
      - intros ->. destruct l; exact Hlim.
      - apply below_limit_spec, Hlim. }
    congruence.
Qed.

Lemma project_unit_autoapprove_witness :
  let request := project_request "l0" "myapp" ["dev"; "prod"] (Some "100.5") (Some "20.5") in
  let w := snd (AppManager.validate_jira_request (parsed sample_settings request)) in
  let w' := snd (GcpProjectProvisioner._built_terraform_yamls (fun _ => "a: 1")
                   default_BUDGET_LIMIT w) in
  github_payload w = Some []
  /\ GcpProjectProvisioner._built_terraform_yamls (fun _ => "a: 1") default_BUDGET_LIMIT w
     = (inr tt, w')
  /\ In "dw-dev-myapp" (dw_env_project_name_list w)
  /\ In "dw-prod-myapp" (dw_env_project_name_list w)
  /\ (exists payload u,
        github_payload w' = Some payload
        /\ Py.assoc "dw-dev-myapp" payload = Some u
        /\ pu_autoapprove u = Some (VBool true))
  /\ (exists payload u,
        github_payload w' = Some payload
        /\ Py.assoc "dw-prod-myapp" payload = Some u
        /\ pu_autoapprove u = Some (VBool false)).
Proof.
  intros request w w'.
  assert (H1 : github_payload w = Some []) by (vm_compute; reflexivity).
  assert (H2 : GcpProjectProvisioner._built_terraform_yamls (fun _ => "a: 1")
                 default_BUDGET_LIMIT w = (inr tt, w')) by (vm_compute; reflexivity).
  assert (H3 : In "dw-dev-myapp" (dw_env_project_name_list w))
    by (vm_compute; left; reflexivity).
  assert (H4 : In "dw-prod-myapp" (dw_env_project_name_list w))
    by (vm_compute; right; left; reflexivity).
  split; [exact H1|]. split; [exact H2|]. split; [exact H3|]. split; [exact H4|].
  split.
  - destruct (project_unit_autoapprove (fun _ => "a: 1") default_BUDGET_LIMIT [] w w'
                "dw-dev-myapp" H1 H2 H3) as (payload & u & approve & Hp & Hu & Ha & Hiff).
    exists payload, u. split; [exact Hp|]. split; [exact Hu|].
    rewrite Ha. f_equal. f_equal. apply Hiff. split; [reflexivity|].
    exists (VStr "l0"), (VFloat (Fin 1005 (-1))).
    split; [vm_compute; reflexivity|]. split; [reflexivity|].
    split; [vm_compute; reflexivity|].
    eexists _, _. split; [vm_compute; reflexivity | vm_compute; reflexivity].
  - destruct (project_unit_autoapprove (fun _ => "a: 1") default_BUDGET_LIMIT [] w w'
                "dw-prod-myapp" H1 H2 H4) as (payload & u & approve & Hp & Hu & Ha & Hiff).
    exists payload, u. split; [exact Hp|]. split; [exact Hu|].
    rewrite Ha. destruct approve; [|reflexivity].
    destruct (proj1 Hiff eq_refl) as [Henv _]. vm_compute in Henv. discriminate Henv.
Defined.

(** ** Environment subfolders (app/provisioners/hierarchy/projects.py) *)

Lemma existsb_eqb_In (x : string) (l : list string) :
  existsb (String.eqb x) l = true <-> In x l.
Proof.
  rewrite existsb_exists. split.
  - intros (y & Hy & E). apply String.eqb_eq in E. subst y. exact Hy.
  - intros H. exists x. split; [exact H | apply String.eqb_refl].
Qed.

Lemma find_subfolder_spec (assets : list asset) (sub pid : string) :
  match GcpProjectProvisioner.find_subfolder assets sub pid with
  | Some name =>
      exists before a after,
        assets = before ++ a :: after /\ under pid sub a /\ asset_name a = name
        /\ forall b, In b before -> ~ under pid sub b
  | None => forall a, In a assets -> ~ under pid sub a
  end.
Proof.
  induction assets as [|a assets IH]; cbn [GcpProjectProvisioner.find_subfolder].
  - intros a [].
  - assert (Hskip : ~ under pid sub a ->
      match GcpProjectProvisioner.find_subfolder assets sub pid with
      | Some name =>
          exists before a0 after,
            a :: assets = before ++ a0 :: after /\ under pid sub a0
            /\ asset_name a0 = name /\ forall b, In b before -> ~ under pid sub b
      | None => forall a0, In a0 (a :: assets) -> ~ under pid sub a0
      end).
    { intros Hno. destruct (GcpProjectProvisioner.find_subfolder assets sub pid).
      - destruct IH as (before & a0 & after & -> & Hu & Hn & Hb).
        exists (a :: before), a0, after.
        split; [reflexivity|]. split; [exact Hu|]. split; [exact Hn|].
        intros b [<- | Hin]; [exact Hno | apply Hb, Hin].
      - intros a0 [<- | Hin]; [exact Hno | apply IH, Hin]. }
    assert (Hhit : under pid sub a ->
      exists before a0 after,
        a :: assets = before ++ a0 :: after /\ under pid sub a0
        /\ asset_name a0 = asset_name a /\ forall b, In b before -> ~ under pid sub b).
    { intros Hu. exists [], a, assets.
      split; [reflexivity|]. split; [exact Hu|]. split; [reflexivity|]. intros b []. }
    destruct (String.eqb (asset_type a) Folder) eqn:Et; cbn [andb].
    2:{ apply Hskip. intros (Hty & _). apply String.eqb_neq in Et. contradiction. }
    apply String.eqb_eq in Et.
    destruct (Py.eq_str (HierarchyrProvisioner.data_get a "displayName") sub) eqn:Ed.
    2:{ apply Hskip. intros (_ & Hd & _). congruence. }
    destruct (existsb (String.eqb pid) (asset_ancestors a)) eqn:Ea.
    { apply Hhit. split; [exact Et|]. split; [exact Ed|]. left.
      apply existsb_eqb_In. exact Ea. }
    destruct (Py.eq_str (HierarchyrProvisioner.data_get a "parent") pid) eqn:Epar.
    { apply Hhit. split; [exact Et|]. split; [exact Ed|]. right. exact Epar. }
    apply Hskip. intros (_ & _ & [Hin | Hp]); [|congruence].
    apply existsb_eqb_In in Hin. congruence.
Qed.

(** X23 (get_project_subfolder_id).  The search for a subfolder answers only
    when the parent folder is in the snapshot and carries a canonical
    identifier.  It then returns the name of the first folder of the
    snapshot that has the display name asked for and the parent's
    identifier anywhere among its ancestors (not only as its direct parent)
    or as its recorded parent; and it returns nothing exactly when the
    snapshot has no such folder. *)
Theorem get_project_subfolder_id_spec
    (assets : list asset) (parent : value) (sub : string) (r : option string) :
  GcpProjectProvisioner.get_project_subfolder_id assets parent sub = inr r ->
  exists pid,
    HierarchyrProvisioner._extract_folder_id
      (HierarchyrProvisioner.check_if_resource_exist assets parent Folder) = Some pid
    /\ match r with
       | Some name =>
           exists before a after,
             assets = before ++ a :: after /\ under pid sub a /\ asset_name a = name
             /\ forall b, In b before -> ~ under pid sub b
       | None => forall a, In a assets -> ~ under pid sub a
       end.
Proof.
  unfold GcpProjectProvisioner.get_project_subfolder_id.
  destruct (negb _); [discriminate|].
  destruct (HierarchyrProvisioner._extract_folder_id _) as [pid|]; [|discriminate].
  intros [= <-]. exists pid. split; [reflexivity|]. apply find_subfolder_spec.
Qed.

Lemma get_project_subfolder_id_spec_witness :
  GcpProjectProvisioner.get_project_subfolder_id sample_snapshot (VStr "poc") "Production"
  = inr (Some "//cloudresourcemanager.googleapis.com/folders/102")
  /\ exists pid,
       HierarchyrProvisioner._extract_folder_id
         (HierarchyrProvisioner.check_if_resource_exist sample_snapshot (VStr "poc") Folder)
       = Some pid
       /\ exists before a after,
            sample_snapshot = before ++ a :: after /\ under pid "Production" a
            /\ asset_name a = "//cloudresourcemanager.googleapis.com/folders/102"
            /\ forall b, In b before -> ~ under pid "Production" b.
Proof.
  assert (H : GcpProjectProvisioner.get_project_subfolder_id sample_snapshot (VStr "poc")
                "Production"
              = inr (Some "//cloudresourcemanager.googleapis.com/folders/102"))
    by reflexivity.
  split; [exact H|].
  exact (get_project_subfolder_id_spec sample_snapshot (VStr "poc") "Production" _ H).
Defined.

Lemma assoc_cons {A} (k k' : string) (v : A) (d : list (string * A)) :
  Py.assoc k ((k', v) :: d) = if String.eqb k' k then Some v else Py.assoc k d.
Proof. reflexivity. Qed.

Lemma env_mapping_get_inv (environment : value) (subfolder : string) :
  GcpProjectProvisioner.env_mapping_get environment = inr (Some subfolder) ->
  exists env,
    environment = VStr env /\ Py.assoc env env_mapping = Some subfolder
    /\ (env = "dev" \/ env = "test" \/ env = "prod").
Proof.
  destruct environment as [| | | |env| |]; try discriminate.
  unfold GcpProjectProvisioner.env_mapping_get. intros H.
  assert (Hm : Py.assoc env env_mapping = Some subfolder) by congruence.
  clear H. exists env. split; [reflexivity|]. split; [exact Hm|].
  destruct (String.eqb_spec "dev" env) as [<- | N1]; [auto|].
  destruct (String.eqb_spec "test" env) as [<- | N2]; [auto|].
  destruct (String.eqb_spec "prod" env) as [<- | N3]; [auto|].
  exfalso. revert Hm. unfold env_mapping. rewrite !assoc_cons.
  rewrite (proj2 (String.eqb_neq _ _) N1), (proj2 (String.eqb_neq _ _) N2),
    (proj2 (String.eqb_neq _ _) N3).
  discriminate.
Qed.

(** X24 (_validate_environment_subfolder).  The check of an environment
    succeeds only for the environments ["dev"], ["test"] and ["prod"], and
    only when the parent folder has, among its descendants, a folder named
    after the environment (Development, Test, Production).  It then sets a
    single key of the configuration map, ["FOLDER_<ENV>"], to the canonical
    identifier extracted from the name of that folder, or to [None] when the
    name carries none, and changes nothing else. *)
Theorem validate_environment_subfolder_success
    (folder_name environment : value) (w w' : world) :
  GcpProjectProvisioner._validate_environment_subfolder folder_name environment w
  = (inr tt, w') ->
  exists env subfolder name,
    environment = VStr env
    /\ Py.assoc env env_mapping = Some subfolder
    /\ (env = "dev" \/ env = "test" \/ env = "prod")
    /\ GcpProjectProvisioner.get_project_subfolder_id (assets w) folder_name subfolder
       = inr (Some name)
    /\ w' = upd_config
              (insert ("FOLDER_" +:+ PyStr.upper env)
                 (GcpProjectProvisioner.opt_value
                    (HierarchyrProvisioner._extract_folder_id (Some name)))) w.
Proof.
  unfold GcpProjectProvisioner._validate_environment_subfolder. intros H.
  apply bind_returns in H as (subfolder_to_find & ? & Hm & H).
  apply lift_returns in Hm as [Hm ->].
  destruct (HierarchyrProvisioner.found subfolder_to_find) eqn:Ef; cbn [negb] in H;
    [|discriminate].
  destruct subfolder_to_find as [subfolder|]; [|discriminate].
  apply env_mapping_get_inv in Hm as (env & -> & Hm & Henv).
  apply bind_returns in H as (w0 & ? & Hg & H). injection Hg as <- <-.
  apply bind_returns in H as (env_folder_id & ? & Hid & H).
  apply lift_returns in Hid as [Hid ->].
  destruct (HierarchyrProvisioner.found env_folder_id) eqn:Efound; [|discriminate].
  destruct env_folder_id as [name|]; [|discriminate].
  apply bind_returns in H as (up & ? & Hup & H).
  unfold py_upper in Hup. apply lift_returns in Hup as [Hup ->].
  injection Hup as <-. injection H as <-.
  exists env, subfolder, name. repeat split; assumption.
Qed.

Lemma validate_environment_subfolder_success_witness :
  let w := parsed sample_settings
             (project_request "l0" "myapp" ["dev"] (Some "100.5") None) in
  let w' := upd_config (insert "FOLDER_DEV" (VStr "folders/101")) w in
  GcpProjectProvisioner._validate_environment_subfolder (VStr "myfolder") (VStr "dev") w
  = (inr tt, w')
  /\ exists env subfolder name,
       VStr "dev" = VStr env
       /\ Py.assoc env env_mapping = Some subfolder
       /\ (env = "dev" \/ env = "test" \/ env = "prod")
       /\ GcpProjectProvisioner.get_project_subfolder_id (assets w) (VStr "myfolder")
            subfolder = inr (Some name)
       /\ w' = upd_config
                 (insert ("FOLDER_" +:+ PyStr.upper env)
                    (GcpProjectProvisioner.opt_value
                       (HierarchyrProvisioner._extract_folder_id (Some name)))) w.
Proof.
  intros w w'.
  assert (H : GcpProjectProvisioner._validate_environment_subfolder (VStr "myfolder")
                (VStr "dev") w = (inr tt, w')) by (vm_compute; reflexivity).
  split; [exact H|].
  exact (validate_environment_subfolder_success (VStr "myfolder") (VStr "dev") w w' H).
Defined.

(** ** The project names of a request (app/provisioners/hierarchy/projects.py) *)

Lemma try_returns {A} (m : M A) (handles : exn -> bool) (h : exn -> M A)
    (w w' : world) (a : A) :
  (forall e w1 b w2, h e w1 <> (inr b, w2)) ->
  try_except m handles h w = (inr a, w') -> m w = (inr a, w').
Proof.
  intros Hh. unfold try_except. destruct (m w) as [[e|a0] w1]; [|exact id].
  destruct (handles e); [|discriminate]. intros H. exfalso. exact (Hh _ _ _ _ H).
Qed.

Lemma environment_subfolder_shape (folder_name environment : value) (w w' : world) :
  GcpProjectProvisioner._validate_environment_subfolder folder_name environment w
  = (inr tt, w') ->
  mapped_env environment
  /\ exists key v, In key env_keys /\ w' = upd_config (insert key v) w.
Proof.
  unfold GcpProjectProvisioner._validate_environment_subfolder. intros H.
  apply bind_returns in H as (subfolder_to_find & ? & Hm & H).
  apply lift_returns in Hm as [Hm ->].
  destruct (HierarchyrProvisioner.found subfolder_to_find) eqn:Ef; cbn [negb] in H;
    [|discriminate].
  destruct subfolder_to_find as [subfolder|]; [|discriminate].
  apply env_mapping_get_inv in Hm as (env & -> & Hm & Henv).
  apply bind_returns in H as (w0 & ? & Hg & H). injection Hg as <- <-.
  apply bind_returns in H as (env_folder_id & ? & Hid & H).
  apply lift_returns in Hid as [Hid ->].
  destruct (HierarchyrProvisioner.found env_folder_id); [|discriminate].
  apply bind_returns in H as (up & ? & Hup & H).
  unfold py_upper in Hup. apply lift_returns in Hup as [Hup ->].
  injection Hup as <-. injection H as <-.
  split; [exists env; split; [reflexivity | exact Henv]|].
  eexists _, _. split; [|reflexivity].
  unfold env_keys. destruct Henv as [-> | [-> | ->]]; simpl; tauto.
Qed.

Lemma check_environment_inv (project_name each_env : value) (w w' : world) :
  GcpProjectProvisioner.check_environment project_name each_env w = (inr tt, w') ->
  mapped_env each_env
  /\ dw_env_project_name_list w'
     = dw_env_project_name_list w ++ [GcpProjectProvisioner.dw_name each_env project_name]
  /\ (forall k, ~ In k env_keys -> config_data w' !! k = config_data w !! k).
Proof.
  unfold GcpProjectProvisioner.check_environment. intros H.
  apply bind_returns in H as ([] & w1 & Hu & H).
  assert (Hw1 : w1 = upd_name_list
                       (fun l => l ++ [GcpProjectProvisioner.dw_name each_env project_name]) w).
  { revert Hu. unfold GcpProjectProvisioner._validate_project_name_uniqueness.
    unfold bind at 1. unfold get_world at 1.
    destruct (HierarchyrProvisioner.found _); [discriminate|].
    intros [= <-]. reflexivity. }
  subst w1.
  apply bind_returns in H as (folder_name & ? & Hf & H).
  apply config_item_inv in Hf as [-> _].
  apply environment_subfolder_shape in H as (Hmapped & key & v & Hkey & ->).
  split; [exact Hmapped|]. split; [reflexivity|].
  intros k Hk. simpl. apply lookup_insert_ne. intros ->. contradiction.
Qed.

Lemma check_environments_inv (project_name : value) (envs : list value) (w w' : world) :
  for_each envs (GcpProjectProvisioner.check_environment project_name) w = (inr tt, w') ->
  Forall mapped_env envs
  /\ dw_env_project_name_list w'
     = dw_env_project_name_list w
       ++ List.map (fun env => GcpProjectProvisioner.dw_name env project_name) envs
  /\ (forall k, ~ In k env_keys -> config_data w' !! k = config_data w !! k).
Proof.
  revert w. induction envs as [|env envs IH]; intros w H.
  - injection H as <-. split; [constructor|]. rewrite app_nil_r. split; reflexivity.
  - cbn [for_each] in H. apply bind_returns in H as ([] & w1 & H1 & H).
    apply check_environment_inv in H1 as (Hm & Hn & Hc).
    apply IH in H as (Hms & Hns & Hcs).
    split; [constructor; assumption|]. split.
    + rewrite Hns, Hn. cbn [List.map]. rewrite <- app_assoc. reflexivity.
    + intros k Hk. rewrite (Hcs k Hk). apply Hc, Hk.
Qed.

Lemma check_budget_keys_inv (data : gmap string value) (b : bool) :
  GcpProjectProvisioner.check_budget_keys data = inr b ->
  exists envs_v envs,
    data !! "ENVIRONMENT" = Some envs_v /\ Py.truthy envs_v = true
    /\ PyOp.iter envs_v = inr envs
    /\ Forall (fun env => exists up, PyOp.upper env = inr up
                                     /\ is_Some (data !! ("BUDGET_" +:+ up))) envs.
Proof.
  unfold GcpProjectProvisioner.check_budget_keys.
  destruct (Nat.eqb (size data) 0); [discriminate|].
  destruct (data !! "ENVIRONMENT") as [envs_v|]; [|discriminate].
  destruct (Py.truthy envs_v) eqn:Et; [|discriminate].
  destruct (PyOp.iter envs_v) as [e|envs] eqn:Ei; [discriminate|].
  destruct (GcpProjectProvisioner.first_error envs _) as [e|[]] eqn:Ef; [discriminate|].
  intros _. exists envs_v, envs.
  split; [reflexivity|]. split; [exact Et|]. split; [exact Ei|].
  clear Et Ei. induction envs as [|env envs IH]; [constructor|].
  cbn [GcpProjectProvisioner.first_error] in Ef.
  destruct (GcpProjectProvisioner.check_budget_key data env) as [e|[]] eqn:Ek;
    [discriminate|].
  constructor; [|apply IH, Ef].
  revert Ek. unfold GcpProjectProvisioner.check_budget_key.
  destruct (PyOp.upper env) as [e|up]; [discriminate|].
  destruct (bool_decide (is_Some (data !! ("BUDGET_" +:+ up)))) eqn:Eb; [|discriminate].
  intros _. exists up. split; [reflexivity|]. apply bool_decide_eq_true_1 in Eb. exact Eb.
Qed.

(** X27 (the project validator: validate_folder_and_projects_name,
    _validate_project_name_uniqueness, check_budget_keys).  When the
    validation of a project request succeeds, the list of project names has
    grown by one name per requested environment, in the order of the
    request: ["dw-<environment>-<name>"], where the name is the label form
    of the requested project name; every requested environment is one of
    ["dev"], ["test"], ["prod"]; there is at least one; and each has its
    budget key set. *)
Theorem project_validator_success (w w' : world) :
  GcpProjectProvisioner._validate_jira_request w = (inr tt, w') ->
  exists name envs_v envs,
    config_data w !! "PROJECT_NAME" = Some name
    /\ config_data w !! "ENVIRONMENT" = Some envs_v
    /\ Py.truthy envs_v = true
    /\ PyOp.iter envs_v = inr envs
    /\ Forall mapped_env envs
    /\ dw_env_project_name_list w'
       = dw_env_project_name_list w
         ++ List.map
              (fun env =>
                 GcpProjectProvisioner.dw_name env
                   (VStr (BaseProvisioner.format_for_label_system name))) envs
    /\ Forall (fun env => exists up, PyOp.upper env = inr up
                                     /\ is_Some (config_data w' !! ("BUDGET_" +:+ up)))
         envs.
Proof.
  intros H. unfold GcpProjectProvisioner._validate_jira_request in H.
  apply try_returns in H; [|intros; discriminate].
  apply bind_returns in H as ([] & w1 & Hfmt & H).
  rewrite format_label_elements_run in Hfmt. injection Hfmt as <-.
  apply bind_returns in H as ([] & w2 & Hnames & H).
  apply bind_returns in H as (w0 & ? & Hg & H). injection Hg as <- <-.
  apply bind_returns in H as (b & ? & Hbudget & H).
  apply lift_returns in Hbudget as [Hbudget ->]. injection H as <-.
  unfold GcpProjectProvisioner.validate_folder_and_projects_name in Hnames.
  apply try_returns in Hnames; [|intros; discriminate].
  apply bind_returns in Hnames as ([] & w3 & Hexist & Hnames).
  assert (Hw3 : w3 = formatted w).
  { revert Hexist. unfold GcpProjectProvisioner._validate_folder_existence. intros Hexist.
    apply bind_returns in Hexist as (folder_name & ? & Hf & Hexist).
    apply config_item_inv in Hf as [-> _].
    apply bind_returns in Hexist as (w0 & ? & Hg & Hexist). injection Hg as <- <-.
    destruct (negb _); [discriminate|]. injection Hexist as <-. reflexivity. }
  subst w3. fold (formatted w) in Hnames.
  apply bind_returns in Hnames as (project_name & ? & Hpn & Hnames).
  apply config_item_inv in Hpn as [-> Hpn].
  apply bind_returns in Hnames as (envs_v & ? & Henv & Hnames).
  apply config_item_inv in Henv as [-> Henv].
  apply bind_returns in Hnames as (envs & ? & Hiter & Hnames).
  unfold py_iter in Hiter. apply lift_returns in Hiter as [Hiter ->].
  apply check_environments_inv in Hnames as (Hmapped & Hlist & Hkeys).
  apply check_budget_keys_inv in Hbudget
    as (envs_v' & envs' & Henv' & Htruthy & Hiter' & Hbudgets).
  assert (Henv2 : config_data w2 !! "ENVIRONMENT" = Some envs_v).
  { rewrite Hkeys; [exact Henv|]. unfold env_keys. simpl. intuition discriminate. }
  rewrite Henv2 in Henv'. injection Henv' as <-.
  rewrite Hiter in Hiter'. injection Hiter' as <-.
  change (config_data (formatted w))
    with (format_labels (HierarchyrProvisioner.elements_to_format ProjectProvisioner)
            (config_data w)) in Hpn, Henv.
  set (elements := HierarchyrProvisioner.elements_to_format ProjectProvisioner) in *.
  destruct (config_data w !! "PROJECT_NAME") as [name|] eqn:Ename.
  2:{ rewrite (format_labels_absent elements _ _ Ename) in Hpn. discriminate. }
  rewrite (format_labels_formatted elements _ _ _ Ename) in Hpn.
  rewrite bool_decide_eq_true_2 in Hpn
    by (apply list_elem_of_In; unfold elements; simpl; tauto).
  injection Hpn as <-.
  destruct (config_data w !! "ENVIRONMENT") as [envs0|] eqn:Eenv.
  2:{ rewrite (format_labels_absent elements _ _ Eenv) in Henv. discriminate. }
  rewrite (format_labels_formatted elements _ _ _ Eenv) in Henv.
  rewrite bool_decide_eq_false_2 in Henv
    by (rewrite list_elem_of_In; unfold elements; simpl; intuition discriminate).
  injection Henv as ->.
  exists name, envs_v, envs. repeat split; assumption.
Qed.

Lemma project_validator_success_witness :
  let request := project_request "l0" "MyApp" ["dev"; "prod"] (Some "100.5") (Some "20.5") in
  let w := parsed sample_settings request in
  let w' := snd (GcpProjectProvisioner._validate_jira_request w) in
  GcpProjectProvisioner._validate_jira_request w = (inr tt, w')
  /\ dw_env_project_name_list w' = ["dw-dev-myapp"; "dw-prod-myapp"]
  /\ exists name envs_v envs,
       config_data w !! "PROJECT_NAME" = Some name
       /\ config_data w !! "ENVIRONMENT" = Some envs_v
       /\ Py.truthy envs_v = true
       /\ PyOp.iter envs_v = inr envs
       /\ Forall mapped_env envs
       /\ dw_env_project_name_list w'
          = dw_env_project_name_list w
            ++ List.map
                 (fun env =>
                    GcpProjectProvisioner.dw_name env
                      (VStr (BaseProvisioner.format_for_label_system name))) envs
       /\ Forall (fun env => exists up, PyOp.upper env = inr up
                                        /\ is_Some (config_data w' !! ("BUDGET_" +:+ up)))
            envs.
Proof.
  intros request w w'.
  assert (H : GcpProjectProvisioner._validate_jira_request w = (inr tt, w'))
    by (vm_compute; reflexivity).
  split; [exact H|]. split; [vm_compute; reflexivity|].
  exact (project_validator_success w w' H).
Defined.

(** ** Synthesis as the orchestrator runs it (app/app_manager.py) *)

Lemma payload_only_refl (w : world) : payload_only w w.
Proof. exists (github_payload w). destruct w; reflexivity. Qed.

Lemma payload_only_trans (w1 w2 w3 : world) :
  payload_only w1 w2 -> payload_only w2 w3 -> payload_only w1 w3.
Proof. intros [p ->] [q ->]. exists q. reflexivity. Qed.

Ltac payload_tac :=
  repeat first
    [ apply keeps_modify; intros ?; eexists; reflexivity
    | keeps_step payload_only_refl payload_only_trans ].

Lemma payload_only_project_built (dump : value -> string) (l : limit) :
  keeps payload_only (GcpProjectProvisioner._built_terraform_yamls dump l).
Proof.
  unfold GcpProjectProvisioner._built_terraform_yamls,
    GcpProjectProvisioner.build_unit, GcpProjectProvisioner.build_file,
    GcpProjectProvisioner.upd_unit, config_item.
  payload_tac.
Qed.

Lemma payload_only_folder_built (dump : value -> string) :
  keeps payload_only (GcpFolderProvisioner._built_terraform_yamls dump).
Proof.
  unfold GcpFolderProvisioner._built_terraform_yamls,
    GcpFolderProvisioner.build_project_folder_terraform_yaml,
    GcpFolderProvisioner.as_key, config_item.
  payload_tac.
Qed.

(** ** What the validation patterns accept (configs/jira/configurations.py) *)

Module PatternFacts.

Local Open Scope nat_scope.








































End PatternFacts.





(** ** The ticket client facing the answers of the ticket system (app/logger.py) *)

Lemma ticket_only_refl (w : world) : ticket_only w w.
Proof. destruct w; reflexivity. Qed.

Lemma ticket_only_trans (w1 w2 w3 : world) :
  ticket_only w1 w2 -> ticket_only w2 w3 -> ticket_only w1 w3.
Proof. unfold ticket_only. intros H1 H2. rewrite H2, H1. destruct w1; reflexivity. Qed.

Lemma next_answer_outcomes (w : world) (a : jira_answer) (w' : world) :
  AppLogger.next_answer w = (inr a, w') -> ticket_only w w' /\ jira_log w' = jira_log w.
Proof.
  unfold AppLogger.next_answer. m_unfold. destruct (jira_script w) as [|a0 rest] eqn:E.
  - intros [= <- <-]. split; [apply ticket_only_refl | reflexivity].
  - intros [= <- <-]. split; [|reflexivity]. destruct w; reflexivity.
Qed.

Lemma next_answer_returns (w : world) :
  exists a w', AppLogger.next_answer w = (inr a, w').
Proof.
  unfold AppLogger.next_answer. m_unfold. destruct (jira_script w); eexists _, _; reflexivity.
Qed.

Lemma add_comment_outcomes (id text kind : string) (w w' : world) (r : exn + unit) :
  AppLogger.add_comment_to_jira_issue id text kind w = (r, w') ->
  ticket_only w w'
  /\ match r with
     | inr _ =>
         jira_log w' = jira_log w ++ [JComment id kind (comment_prefix kind +:+ text)]
     | inl e => class_in refusal_classes e /\ jira_log w' = jira_log w
     end.
Proof.
  unfold AppLogger.add_comment_to_jira_issue. unfold bind at 1.
  destruct (next_answer_returns w) as (a & w1 & Ha). rewrite Ha.
  apply next_answer_outcomes in Ha as [Ht Hl].
  destruct a as [status body|].
  - destruct (AppLogger.is_error_status status).
    + intros [= <- <-]. split; [exact Ht|]. split; [class_tac | exact Hl].
    + unfold modify. intros [= <- <-]. split.
      * unfold ticket_only in *. rewrite Ht at 1. destruct w; reflexivity.
      * simpl. rewrite Hl. reflexivity.
  - intros [= <- <-]. split; [exact Ht|]. split; [class_tac | exact Hl].
Qed.

Lemma find_transition_outcomes (name : string) (l : list value) (w w' : world)
    (r : exn + value) :
  AppLogger.find_transition name l w = (r, w') ->
  w' = w /\ match r with inl e => class_in [KeyError; TypeError] e | inr _ => True end.
Proof.
  revert w. induction l as [|t rest IH]; intros w; cbn [AppLogger.find_transition].
  - intros [= <- <-]. split; [reflexivity | exact I].
  - unfold bind at 1, py_item at 1, lift.
    destruct (PyOp.item t "name") as [e|n] eqn:En.
    + intros [= <- <-]. split; [reflexivity|].
      exact (raises_py_item t "name" w e w (f_equal (fun x => lift x w) En)).
    + unfold ret at 1. destruct (Py.eqb n (VStr name)); [|apply IH].
      unfold py_item, lift. destruct (PyOp.item t "id") as [e|i] eqn:Ei.
      * intros [= <- <-]. split; [reflexivity|].
        exact (raises_py_item t "id" w e w (f_equal (fun x => lift x w) Ei)).
      * intros [= <- <-]. split; [reflexivity | exact I].
Qed.

Lemma get_transition_id_outcomes (id name : string) (w w' : world) (r : exn + value) :
  AppLogger.get_transition_id id name w = (r, w') ->
  ticket_only w w' /\ jira_log w' = jira_log w
  /\ match r with inl e => class_in lookup_classes e | inr _ => True end.
Proof.
  unfold AppLogger.get_transition_id. unfold bind at 1.
  destruct (next_answer_returns w) as (a & w1 & Ha). rewrite Ha.
  apply next_answer_outcomes in Ha as [Ht Hl].
  destruct a as [status body|].
  - destruct (AppLogger.is_error_status status).
    { intros [= <- <-]. repeat split; assumption. }
    destruct body as [data|]; [|intros [= <- <-]; repeat split; assumption].
    unfold bind at 1, py_item at 1, lift.
    destruct (PyOp.item data "transitions") as [e|offered] eqn:Eo.
    { intros [= <- <-]. split; [exact Ht|]. split; [exact Hl|].
      pose proof (raises_py_item data "transitions" w e w
                    (f_equal (fun x => lift x w) Eo)) as Hc.
      revert Hc. apply classes_within_spec. reflexivity. }
    unfold ret at 1. unfold bind at 1, py_iter at 1, lift.
    destruct (PyOp.iter offered) as [e|l] eqn:Ei.
    { intros [= <- <-]. split; [exact Ht|]. split; [exact Hl|].
      pose proof (raises_py_iter offered w e w (f_equal (fun x => lift x w) Ei)) as Hc.
      revert Hc. apply classes_within_spec. reflexivity. }
    unfold ret at 1. intros H. apply find_transition_outcomes in H as [-> Hr].
    split; [exact Ht|]. split; [exact Hl|].
    destruct r as [e|]; [|exact I]. revert Hr. apply classes_within_spec. reflexivity.
  - intros [= <- <-]. split; [exact Ht|]. split; [exact Hl | class_tac].
Qed.

Lemma change_issue_status_outcomes (name id : string) (w w' : world) (r : exn + bool) :
  AppLogger.change_issue_status name id w = (r, w') ->
  ticket_only w w'
  /\ match r with
     | inr moved => jira_log w' = jira_log w ++ (if moved then [JTransition id name] else [])
     | inl e => class_in lookup_classes e /\ jira_log w' = jira_log w
     end.
Proof.
  unfold AppLogger.change_issue_status. unfold bind at 1.
  destruct (AppLogger.get_transition_id id name w) as [[e|tid] w1] eqn:Eg;
    apply get_transition_id_outcomes in Eg as (Ht & Hl & Hc).
  { intros [= <- <-]. repeat split; assumption. }
  assert (Hpost : forall r w',
    (let* a := AppLogger.next_answer in
     match a with
     | JiraAnswer status _ =>
         if AppLogger.is_error_status status then ret false
         else modify (upd_jira_log (fun l => l ++ [JTransition id name])) >> ret true
     | JiraNoAnswer => raise AppLogger.unbound_response
     end) w1 = (r, w') ->
    ticket_only w w'
    /\ match r with
       | inr moved =>
           jira_log w' = jira_log w ++ (if moved then [JTransition id name] else [])
       | inl e => class_in lookup_classes e /\ jira_log w' = jira_log w
       end).
  { clear r w'. intros r w'. unfold bind at 1.
    destruct (next_answer_returns w1) as (a & w2 & Ha). rewrite Ha.
    apply next_answer_outcomes in Ha as [Ht2 Hl2].
    pose proof (ticket_only_trans _ _ _ Ht Ht2) as Ht'.
    destruct a as [status body|].
    - destruct (AppLogger.is_error_status status).
      + intros [= <- <-]. split; [exact Ht'|]. rewrite app_nil_r. congruence.
      + unfold bind, modify, ret. intros [= <- <-]. split.
        * unfold ticket_only in *. rewrite Ht' at 1. destruct w; reflexivity.
        * simpl. congruence.
    - intros [= <- <-]. split; [exact Ht'|]. split; [class_tac | congruence]. }
  destruct tid; try apply Hpost.
  unfold ret. intros [= <- <-]. split; [exact Ht|]. rewrite app_nil_r. exact Hl.
Qed.

(** Running the comment and the blocking of the request's ticket *)
Lemma live_comment_outcomes (text kind : string) (w w' : world) (r : exn + unit) :
  Live.comment text kind w = (r, w') ->
  ticket_only w w'
  /\ match r with
     | inr _ => jira_log w' = jira_log w ++ [comment_sent w text kind]
     | inl e => class_in refusal_classes e /\ jira_log w' = jira_log w
     end.
Proof.
  unfold Live.comment, AppManager.jira_id_str. m_unfold. apply add_comment_outcomes.
Qed.

Lemma live_block_outcomes (w w' : world) (r : exn + unit) :
  Live.block w = (r, w') ->
  ticket_only w w'
  /\ match r with
     | inr _ =>
         exists moved : bool,
           jira_log w' = jira_log w ++ (if moved then [moved_to w "Set as blocked"] else [])
     | inl e => class_in lookup_classes e /\ jira_log w' = jira_log w
     end.
Proof.
  unfold Live.block, AppManager.jira_id_str. unfold bind at 1, get_world at 1.
  unfold ret at 1. unfold bind at 1. unfold bind at 1.
  destruct (AppLogger.change_issue_status _ _ w) as [[e|moved] w1] eqn:E;
    apply change_issue_status_outcomes in E as [Ht Hl].
  - intros [= <- <-]. split; assumption.
  - unfold ret. intros [= <- <-]. split; [exact Ht|]. exists moved. exact Hl.
Qed.

Lemma ticket_only_jira_id (w w' : world) : ticket_only w w' -> jira_id w' = jira_id w.
Proof. intros ->. reflexivity. Qed.

Lemma ticket_only_github (w w' : world) :
  ticket_only w w' -> github_script w' = github_script w.
Proof. intros ->. reflexivity. Qed.

Lemma report_and_block_outcomes (e : exn) (w w' : world) (r : exn + unit) :
  Live.report_and_block e w = (r, w') ->
  ticket_only w w' /\ exists e', r = inl e' /\ report_outcome w e e' w'.
Proof.
  unfold Live.report_and_block. unfold bind at 1.
  destruct (Live.comment (e_msg e) "error" w) as [[e1|[]] w1] eqn:Ec;
    apply live_comment_outcomes in Ec as [Ht Hl].
  { intros [= <- <-]. split; [exact Ht|]. exists e1. split; [reflexivity|].
    right. left. exact Hl. }
  unfold bind at 1.
  destruct (Live.block w1) as [[e2|[]] w2] eqn:Eb;
    apply live_block_outcomes in Eb as [Ht2 Hl2].
  - intros [= <- <-]. split; [exact (ticket_only_trans _ _ _ Ht Ht2)|].
    exists e2. split; [reflexivity|]. right. right.
    destruct Hl2 as [Hc Hl2]. split; [exact Hc|]. rewrite Hl2, Hl. reflexivity.
  - unfold raise. intros [= <- <-]. split; [exact (ticket_only_trans _ _ _ Ht Ht2)|].
    exists e. split; [reflexivity|]. left. split; [reflexivity|].
    destruct Hl2 as [moved Hl2]. exists moved. rewrite Hl2, Hl.
    unfold moved_to. rewrite (ticket_only_jira_id _ _ Ht).
    rewrite <- app_assoc. reflexivity.
Qed.

(** A state that differs from [w] in what the validators and the
    synthesizers write only has the ticket of [w]. *)
Lemma report_outcome_from (w w1 : world) (e e' : exn) (w' : world) :
  jira_log w1 = jira_log w -> jira_id w1 = jira_id w ->
  report_outcome w1 e e' w' -> report_outcome w e e' w'.
Proof.
  unfold report_outcome, comment_sent, moved_to. intros -> ->. exact (fun H => H).
Qed.

(** ** Validation and synthesis, reported to the ticket (app/app_manager.py) *)

Lemma live_validate_outcomes (w w' : world) (r : exn + unit) :
  Live.validate_jira_request w = (r, w') ->
  github_script w' = github_script w
  /\ match r with
     | inr _ =>
         exists k text, provisioner w = Some k
           /\ jira_log w' = jira_log w ++ [comment_sent w text "info"]
     | inl e =>
         (exists e0, e_class e0 = GcpProvisioningError /\ report_outcome w e0 e w')
         \/ (e_class e = AttributeError
             /\ provisioner w = Some ProjectProvisioner
             /\ jira_log w' = jira_log w)
         \/ (class_in refusal_classes e /\ jira_log w' = jira_log w)
     end.
Proof.
  unfold Live.validate_jira_request, try_except.
  unfold bind at 1. unfold get_world at 1.
  destruct (provisioner w) as [k|] eqn:Ek.
  2:{ unfold raise at 1. change (isinstance GcpProvisioningError AppManager.not_initialized)
        with true. cbv iota. intros H.
      apply report_and_block_outcomes in H as (Ht & e' & -> & Ho).
      split; [exact (ticket_only_github _ _ Ht)|]. left.
      exists AppManager.not_initialized. split; [reflexivity | exact Ho]. }
  change (match k with
          | ProjectProvisioner => GcpProjectProvisioner._validate_jira_request
          | FolderProvisioner => GcpFolderProvisioner._validate_jira_request
          end) with (validator k).
  unfold bind at 1.
  destruct (validator k w) as [[e|[]] w1] eqn:Ev;
    destruct (validator_silent k w _ w1 Ev) as (Hl & Hg & Hi & _).
  - assert (Hc : e_class e = GcpProvisioningError).
    { destruct (validator_raises k _ _ _ Ev) as [<- | []]. reflexivity. }
    rewrite (isinstance_refl e _ Hc). intros H.
    apply report_and_block_outcomes in H as (Ht & e' & -> & Ho).
    split; [rewrite (ticket_only_github _ _ Ht); exact Hg|]. left.
    exists e. split; [exact Hc|]. exact (report_outcome_from _ _ _ _ _ Hl Hi Ho).
  - assert (Hsummary : forall message r w',
              match Live.comment message "info" w1 with
              | (inl e, w'0) =>
                  if isinstance GcpProvisioningError e
                  then Live.report_and_block e w'0 else (inl e, w'0)
              | r0 => r0
              end = (r, w') ->
              github_script w' = github_script w
              /\ match r with
                 | inr _ =>
                     exists k' text, Some k = Some k'
                       /\ jira_log w' = jira_log w ++ [comment_sent w text "info"]
                 | inl e =>
                     (exists e0, e_class e0 = GcpProvisioningError
                                 /\ report_outcome w e0 e w')
                     \/ (e_class e = AttributeError
                         /\ Some k = Some ProjectProvisioner
                         /\ jira_log w' = jira_log w)
                     \/ (class_in refusal_classes e /\ jira_log w' = jira_log w)
                 end).
    { clear r w'. intros message r w'.
      destruct (Live.comment message "info" w1) as [[e|[]] w2] eqn:Ec;
        apply live_comment_outcomes in Ec as [Ht Hc].
      - destruct Hc as [Hc Hl2].
        assert (Hh : isinstance GcpProvisioningError e = false).
        { revert e Hc. by_class. }
        rewrite Hh. intros [= <- <-].
        split; [rewrite (ticket_only_github _ _ Ht); exact Hg|].
        right. right. split; [exact Hc | congruence].
      - intros [= <- <-]. split; [rewrite (ticket_only_github _ _ Ht); exact Hg|].
        exists k, message. split; [reflexivity|].
        rewrite Hc, Hl. unfold comment_sent. rewrite Hi. reflexivity. }
    unfold bind at 1.
    destruct k.
    + destruct (GcpProjectProvisioner._get_request_comment_message w1)
        as [[e|message] w2] eqn:Em.
      * assert (Hw2 : w2 = w1).
        { revert Em. unfold GcpProjectProvisioner._get_request_comment_message.
          m_unfold. destruct (GcpProjectProvisioner.environment_details _ _);
            intros [= _ <-]; reflexivity. }
        subst w2.
        destruct (raises_project_comment_message _ _ _ Em) as [Hcl | []].
        assert (Hh : isinstance GcpProvisioningError e = false).
        { unfold isinstance. rewrite <- Hcl. reflexivity. }
        rewrite Hh. intros [= <- <-]. split; [exact Hg|]. right. left.
        split; [symmetry; exact Hcl|]. split; [reflexivity | exact Hl].
      * assert (Hw2 : w2 = w1).
        { revert Em. unfold GcpProjectProvisioner._get_request_comment_message.
          m_unfold. destruct (GcpProjectProvisioner.environment_details _ _);
            intros [= _ <-]; reflexivity. }
        subst w2. apply Hsummary.
    + unfold GcpFolderProvisioner._get_request_comment_message.
      unfold bind at 1. unfold get_world at 1. unfold ret at 1.
      apply Hsummary.
Qed.

(** X13 (AppManager.validate_jira_request, AppLogger).  Validation as the
    orchestrator runs it, facing a ticket system that may refuse.  It
    succeeds only when the ticket has accepted exactly one comment, the
    summary of the request.  A failure of the validator, or a provisioner
    that is missing, is a [GcpProvisioningError] that is reported to the
    ticket: what leaves is that error, after the error comment and, if the
    ticket system offers and accepts it, the transition to blocked; or the
    refusal of the error comment, with nothing received; or the failure of
    the look-up of the transitions, after the comment.  Two other exceptions
    leave it with nothing received: the [AttributeError] of the summary of a
    project request, and the refusal of the summary comment.  The
    source-control service is never asked. *)
Theorem validate_jira_request_outcomes (w w' : world) (r : exn + unit) :
  Live.validate_jira_request w = (r, w') ->
  github_script w' = github_script w
  /\ match r with
     | inr _ =>
         exists k text, provisioner w = Some k
           /\ jira_log w' = jira_log w ++ [comment_sent w text "info"]
     | inl e =>
         (exists e0, e_class e0 = GcpProvisioningError /\ report_outcome w e0 e w')
         \/ (e_class e = AttributeError
             /\ provisioner w = Some ProjectProvisioner
             /\ jira_log w' = jira_log w)
         \/ (class_in refusal_classes e /\ jira_log w' = jira_log w)
     end.
Proof. exact (live_validate_outcomes w w' r). Qed.

Lemma validate_jira_request_outcomes_witness :
  let w := upd_jira_script
             [JiraAnswer 201 None;
              JiraAnswer 200 (Some (VDict [("transitions", VList [])]))]
             (parsed sample_settings (folder_request "myfolder")) in
  let e := mk_exn GcpProvisioningError
             ("Validation error: " +:+ GcpFolderProvisioner.exists_message (VStr "myfolder")) in
  let w' := upd_jira_script []
              (logged [comment_sent w (e_msg e) "error"] w) in
  Live.validate_jira_request w = (inl e, w')
  /\ github_script w' = github_script w
  /\ ((exists e0, e_class e0 = GcpProvisioningError /\ report_outcome w e0 e w')
      \/ (e_class e = AttributeError
          /\ provisioner w = Some ProjectProvisioner
          /\ jira_log w' = jira_log w)
      \/ (class_in refusal_classes e /\ jira_log w' = jira_log w)).
Proof.
  intros w e w'.
  assert (H : Live.validate_jira_request w = (inl e, w')) by (vm_compute; reflexivity).
  split; [exact H|].
  exact (validate_jira_request_outcomes w w' (inl e) H).
Defined.

Lemma payload_only_ticket (w w1 : world) :
  payload_only w w1 -> jira_log w1 = jira_log w /\ jira_id w1 = jira_id w.
Proof. intros [p ->]. split; reflexivity. Qed.

Lemma live_built_outcomes
    (cfg : settings) (dump : value -> string) (w w' : world) (r : exn + unit) :
  Live.built_terraform_yaml cfg dump w = (r, w') ->
  match r with
  | inr _ => payload_only w w'
  | inl e =>
      (exists e0 w1,
         e_class e0 = GcpProvisioningError
         /\ payload_only w w1 /\ ticket_only w1 w' /\ report_outcome w e0 e w')
      \/ ((e_class e = KeyError \/ e_class e = TypeError)
          /\ provisioner w = Some FolderProvisioner
          /\ payload_only w w')
  end.
Proof.
  unfold Live.built_terraform_yaml, try_except.
  unfold bind at 1. unfold get_world at 1.
  assert (Hreport : forall e0 w1 r w',
            e_class e0 = GcpProvisioningError -> payload_only w w1 ->
            Live.report_and_block e0 w1 = (r, w') ->
            match r with
            | inr _ => payload_only w w'
            | inl e =>
                (exists e0 w1,
                   e_class e0 = GcpProvisioningError
                   /\ payload_only w w1 /\ ticket_only w1 w' /\ report_outcome w e0 e w')
                \/ ((e_class e = KeyError \/ e_class e = TypeError)
                    /\ provisioner w = Some FolderProvisioner
                    /\ payload_only w w')
            end).
  { clear r w'. intros e0 w1 r w' Hc Hp H.
    apply report_and_block_outcomes in H as (Ht & e' & -> & Ho).
    left. exists e0, w1. split; [exact Hc|]. split; [exact Hp|]. split; [exact Ht|].
    destruct (payload_only_ticket _ _ Hp) as [Hl Hi].
    exact (report_outcome_from _ _ _ _ _ Hl Hi Ho). }
  destruct (provisioner w) as [[|]|] eqn:Ek.
  - destruct (GcpProjectProvisioner._built_terraform_yamls dump (BUDGET_LIMIT cfg) w)
      as [[e|[]] w1] eqn:Eb;
      pose proof (payload_only_project_built _ _ _ _ _ Eb) as Hp.
    + destruct (raises_project_built_terraform_yamls _ _ _ _ _ Eb) as [Hc | []].
      rewrite (isinstance_refl e _ (eq_sym Hc)).
      apply Hreport; [symmetry; exact Hc | exact Hp].
    + intros [= <- <-]. exact Hp.
  - destruct (GcpFolderProvisioner._built_terraform_yamls dump w) as [[e|[]] w1] eqn:Eb;
      pose proof (payload_only_folder_built _ _ _ _ Eb) as Hp.
    + destruct (raises_folder_built_terraform_yamls _ _ _ _ Eb) as [Hc | [Hc | [Hc | []]]].
      * rewrite (isinstance_refl e _ (eq_sym Hc)).
        apply Hreport; [symmetry; exact Hc | exact Hp].
      * assert (Hh : isinstance GcpProvisioningError e = false)
          by (unfold isinstance; rewrite <- Hc; reflexivity).
        rewrite Hh. intros [= <- <-]. right.
        split; [left; symmetry; exact Hc|]. split; [reflexivity | exact Hp].
      * assert (Hh : isinstance GcpProvisioningError e = false)
          by (unfold isinstance; rewrite <- Hc; reflexivity).
        rewrite Hh. intros [= <- <-]. right.
        split; [right; symmetry; exact Hc|]. split; [reflexivity | exact Hp].
    + intros [= <- <-]. exact Hp.
  - unfold raise at 1. change (isinstance GcpProvisioningError AppManager.not_initialized)
      with true. cbv iota.
    apply Hreport; [reflexivity | apply payload_only_refl].
Qed.

(** X28 (AppManager.built_terraform_yaml and the synthesizers, AppLogger).
    The synthesis as the orchestrator runs it ends in one of three ways.  It
    succeeds, having changed the publish payload only, and the ticket
    receives nothing.  Or the synthesizer fails with a
    [GcpProvisioningError], the payload possibly half built, and the failure
    is reported to the ticket: the error leaves after its comment and, if
    made, the transition to blocked, or the refusal of the comment or the
    failure of the look-up of the transitions leaves instead; nothing but
    the ticket changes then.  Or, for a folder request only, a missing key
    or an unhashable folder name leaves it as a [KeyError] or a [TypeError]
    that its clause does not handle: then the ticket receives nothing. *)
Theorem built_terraform_yaml_outcomes
    (cfg : settings) (dump : value -> string) (w w' : world) (r : exn + unit) :
  Live.built_terraform_yaml cfg dump w = (r, w') ->
  match r with
  | inr _ => payload_only w w'
  | inl e =>
      (exists e0 w1,
         e_class e0 = GcpProvisioningError
         /\ payload_only w w1 /\ ticket_only w1 w' /\ report_outcome w e0 e w')
      \/ ((e_class e = KeyError \/ e_class e = TypeError)
          /\ provisioner w = Some FolderProvisioner
          /\ payload_only w w')
  end.
Proof. exact (live_built_outcomes cfg dump w w' r). Qed.

Lemma built_terraform_yaml_outcomes_witness :
  let w := upd_jira_script [JiraAnswer 503 None] (fresh []) in
  let e := AppLogger.http_error 503 in
  let w' := fresh [] in
  Live.built_terraform_yaml sample_settings (fun _ => "a: 1") w = (inl e, w')
  /\ ((exists e0 w1,
         e_class e0 = GcpProvisioningError
         /\ payload_only w w1 /\ ticket_only w1 w' /\ report_outcome w e0 e w')
      \/ ((e_class e = KeyError \/ e_class e = TypeError)
          /\ provisioner w = Some FolderProvisioner
          /\ payload_only w w')).
Proof.
  intros w e w'.
  assert (H : Live.built_terraform_yaml sample_settings (fun _ => "a: 1") w = (inl e, w'))
    by (vm_compute; reflexivity).
  split; [exact H|].
  exact (built_terraform_yaml_outcomes sample_settings (fun _ => "a: 1") w w' (inl e) H).
Defined.

(** ** The connection to the repository and the start of a request (app/app_manager.py) *)

(** X20 (initialize_github_manager, _get_github_credentials, AppLogger).
    The initialization of the source-control handler succeeds only when the
    credentials table has a non-empty entry with its three keys under the
    key that the request selects (the issue type itself, which must then be
    a text, or the debug entry under the debug switch) and the ticket has
    accepted the comment that names the repository: then the handler is set
    and nothing else changed.  It fails having changed nothing with
    [MissingRequiredDataError] (no issue type), [GitHubOperationError] (no
    entry, or an empty one), [KeyError] (an entry without one of its keys)
    or [TypeError] (an issue type that cannot be a key); or it fails on the
    refusal of the comment, and then the handler is already set. *)
Theorem initialize_github_manager_outcomes
    (cfg : settings) (w w' : world) (r : exn + unit) :
  Live.initialize_github_manager cfg w = (r, w') ->
  match r with
  | inr _ =>
      exists key credentials owner name,
        credentials_key cfg w key
        /\ Py.assoc key (github_configs cfg) = Some credentials
        /\ Py.assoc "REPO_OWNER" credentials = Some owner
        /\ Py.assoc "REPO_NAME" credentials = Some name
        /\ is_Some (Py.assoc "GITHUB_TOKEN" credentials)
        /\ ticket_only (upd_github_manager w) w'
        /\ jira_log w'
           = jira_log w
             ++ [comment_sent w
                   ("Connecting to GitHub '" +:+ name +:+ "' under '" +:+ owner
                    +:+ "' for '" +:+ Py.str (issue_type_name w) +:+ "'.") "info"]
  | inl e =>
      (w' = w
       /\ class_in [MissingRequiredDataError; GitHubOperationError; KeyError; TypeError] e)
      \/ (class_in refusal_classes e
          /\ ticket_only (upd_github_manager w) w'
          /\ jira_log w' = jira_log w)
  end.
Proof.
  unfold Live.initialize_github_manager. unfold bind at 1. unfold get_world at 1.
  destruct (Py.truthy (issue_type_name w)); cbn [negb].
  2:{ intros [= <- <-]. left. split; [reflexivity | class_tac]. }
  unfold AppManager._get_github_credentials.
  unfold bind at 1. unfold bind at 1. unfold get_world at 1.
  unfold bind at 1.
  destruct (AppManager.configs_get cfg
              (if DEBUG cfg then VStr "debug_config" else issue_type_name w) w)
    as [[e|found] w0] eqn:Eg.
  { revert Eg. unfold AppManager.configs_get.
    destruct (if DEBUG cfg then VStr "debug_config" else issue_type_name w);
      try discriminate; intros [= <- <-] [= <- <-]; left;
      (split; [reflexivity | class_tac]). }
  assert (Hfound : w0 = w
                   /\ (found = None
                       \/ exists key, credentials_key cfg w key
                                      /\ found = Py.assoc key (github_configs cfg))).
  { revert Eg. unfold AppManager.configs_get, credentials_key.
    destruct (DEBUG cfg).
    - intros [= <- <-]. split; [reflexivity|]. right. exists "debug_config".
      split; [left; split; reflexivity | reflexivity].
    - destruct (issue_type_name w) as [| | | |s| |]; try discriminate;
        intros [= <- <-]; (split; [reflexivity|]); try (left; reflexivity).
      right. exists s. split; [right; split; reflexivity | reflexivity]. }
  destruct Hfound as [-> Hfound].
  destruct found as [[|c cs]|];
    try (intros [= <- <-]; left; split; [reflexivity | class_tac]).
  destruct Hfound as [Hfound | (key & Hkey & Hfound)]; [discriminate|].
  unfold AppManager.credential.
  unfold bind at 1. unfold lift_opt at 1.
  destruct (Py.assoc "GITHUB_TOKEN" (c :: cs)) as [token|] eqn:Et;
    [|intros [= <- <-]; left; split; [reflexivity | class_tac]].
  unfold ret at 1. unfold bind at 1. unfold lift_opt at 1.
  destruct (Py.assoc "REPO_OWNER" (c :: cs)) as [owner|] eqn:Eo;
    [|intros [= <- <-]; left; split; [reflexivity | class_tac]].
  unfold ret at 1. unfold bind at 1. unfold lift_opt at 1.
  destruct (Py.assoc "REPO_NAME" (c :: cs)) as [name|] eqn:En;
    [|intros [= <- <-]; left; split; [reflexivity | class_tac]].
  unfold ret at 1. unfold ret at 1.
  unfold bind at 1. unfold modify at 1.
  intros H. apply live_comment_outcomes in H as [Ht Hl].
  destruct r as [e|[]].
  - right. destruct Hl as [Hc Hl]. split; [exact Hc|]. split; [exact Ht | exact Hl].
  - exists key, (c :: cs), owner, name.
    split; [exact Hkey|]. split; [symmetry; exact Hfound|].
    split; [exact Eo|]. split; [exact En|]. split; [exists token; exact Et|].
    split; [exact Ht | exact Hl].
Qed.

Lemma initialize_github_manager_outcomes_witness :
  let w := upd_jira_script [JiraAnswer 201 None]
             (parsed sample_settings (folder_request "newfolder")) in
  let w' := snd (Live.initialize_github_manager sample_settings w) in
  Live.initialize_github_manager sample_settings w = (inr tt, w')
  /\ exists key credentials owner name,
       credentials_key sample_settings w key
       /\ Py.assoc key (github_configs sample_settings) = Some credentials
       /\ Py.assoc "REPO_OWNER" credentials = Some owner
       /\ Py.assoc "REPO_NAME" credentials = Some name
       /\ is_Some (Py.assoc "GITHUB_TOKEN" credentials)
       /\ ticket_only (upd_github_manager w) w'
       /\ jira_log w'
          = jira_log w
            ++ [comment_sent w
                  ("Connecting to GitHub '" +:+ name +:+ "' under '" +:+ owner
                   +:+ "' for '" +:+ Py.str (issue_type_name w) +:+ "'.") "info"].
Proof.
  intros w w'.
  assert (H : Live.initialize_github_manager sample_settings w = (inr tt, w'))
    by (vm_compute; reflexivity).
  split; [exact H|].
  exact (initialize_github_manager_outcomes sample_settings w w' (inr tt) H).
Defined.

(** X14 (transform_into_json, extract_issue, AppLogger).  A payload that
    [transform_into_json] accepts has an issue object with a key and a fields
    object with an issue type; so the extraction of the issue cannot fail on
    a missing key.  It fails, the ticket having received nothing, when the
    key or the type name is empty ([MissingRequiredDataError]), when the
    issue type is not an object ([TypeError]), or when the ticket system
    refuses the start comment, the key and the type being then stored;
    otherwise the ticket has received exactly the start comment, and the
    issue key is stored in the configuration map. *)
Theorem extract_issue_after_transform
    (request : http_request) (w w1 w2 : world) (r : exn + unit) :
  AppManager.transform_into_json request w = (inr tt, w1) ->
  Live.extract_issue w1 = (r, w2) ->
  match r with
  | inl e =>
      jira_log w2 = jira_log w
      /\ (e_class e = MissingRequiredDataError \/ e_class e = TypeError
          \/ (class_in refusal_classes e
              /\ Py.truthy (jira_id w2) = true
              /\ Py.truthy (issue_type_name w2) = true))
  | inr _ =>
      exists id ty,
        jira_id w2 = id /\ issue_type_name w2 = ty
        /\ Py.truthy id = true /\ Py.truthy ty = true
        /\ config_data w2 = <["ISSUE_KEY" := id]> (config_data w)
        /\ jira_log w2
           = jira_log w
             ++ [comment_sent w2
                   ("[START] Received Jira webhook payload for "
                    +:+ Py.str id +:+ " (" +:+ Py.str ty +:+ ").") "info"]
  end.
Proof.
  intros Ht. apply transform_into_json_inv in Ht
    as (-> & d & issue & fields & fs & issuetype & Hj & Hi & [key Hk] & Hf & -> & Hty & Hn).
  set (w1 := upd_request (req_json request) w).
  assert (Hr : request_json w1 = VDict d) by exact Hj.
  assert (Hl1 : jira_log w1 = jira_log w) by reflexivity.
  assert (Hc1 : config_data w1 = config_data w) by reflexivity.
  clearbody w1.
  unfold Live.extract_issue.
  destruct (PyOp.item issuetype "name") as [e|ty] eqn:En.
  - assert (Hrun : AppManager._extract_issue_type_name w1 = (inl e, w1)).
    { rewrite (extract_issue_type_name_run _ _ _ _ _ Hr Hi Hf Hty).
      unfold lift. rewrite En. reflexivity. }
    rewrite (bind_inl _ _ _ _ _ Hrun).
    intros [= <- <-]. split; [exact Hl1|]. right. left.
    destruct issuetype as [| | | | | |dt]; simpl in Hn, En; try discriminate;
      try (injection En as <-; reflexivity).
    injection Hn as Hn. apply bool_decide_eq_true_1 in Hn as [x Hx].
    rewrite Hx in En. discriminate.
  - assert (Hrun : AppManager._extract_issue_type_name w1 = (inr ty, w1)).
    { rewrite (extract_issue_type_name_run _ _ _ _ _ Hr Hi Hf Hty).
      unfold lift. rewrite En. reflexivity. }
    rewrite (bind_inr _ _ _ _ _ Hrun).
    unfold bind at 1. unfold get_world at 1.
    unfold bind at 1. unfold modify at 1.
    rewrite (bind_inr _ _ _ _ key
               (extract_jira_id_run (upd_issue ty (jira_id w1) w1) d issue key Hr Hi Hk)).
    unfold bind at 1. unfold modify at 1.
    destruct (Py.truthy ty) eqn:Et; cbn [negb].
    + destruct (Py.truthy key) eqn:Ekey; cbn [negb].
      * intros H. apply live_comment_outcomes in H as [Hto Hl].
        assert (Hid : jira_id w2 = key) by (rewrite (ticket_only_jira_id _ _ Hto); reflexivity).
        assert (Hty2 : issue_type_name w2 = ty) by (rewrite Hto; reflexivity).
        assert (Hcd : config_data w2 = <["ISSUE_KEY" := key]> (config_data w)).
        { rewrite Hto. simpl. rewrite Hc1. reflexivity. }
        destruct r as [e|[]].
        -- destruct Hl as [Hc Hl]. split; [rewrite Hl; exact Hl1|].
           right. right. split; [exact Hc|]. rewrite Hid, Hty2. split; assumption.
        -- exists key, ty. repeat split; try assumption.
           rewrite Hl. simpl. rewrite Hl1. unfold comment_sent. rewrite Hid. reflexivity.
      * intros [= <- <-]. split; [exact Hl1 | left; reflexivity].
    + intros [= <- <-]. split; [exact Hl1 | left; reflexivity].
Qed.

Lemma extract_issue_after_transform_witness :
  let request := webhook "New GCP Folder Provisioning" [] in
  let w := upd_jira_script [JiraAnswer 201 None] (fresh []) in
  let w1 := upd_request (req_json request) w in
  let w2 := snd (Live.extract_issue w1) in
  AppManager.transform_into_json request w = (inr tt, w1)
  /\ Live.extract_issue w1 = (inr tt, w2)
  /\ exists id ty,
       jira_id w2 = id /\ issue_type_name w2 = ty
       /\ Py.truthy id = true /\ Py.truthy ty = true
       /\ config_data w2 = <["ISSUE_KEY" := id]> (config_data w)
       /\ jira_log w2
          = jira_log w
            ++ [comment_sent w2
                  ("[START] Received Jira webhook payload for "
                   +:+ Py.str id +:+ " (" +:+ Py.str ty +:+ ").") "info"].
Proof.
  intros request w w1 w2.
  assert (H1 : AppManager.transform_into_json request w = (inr tt, w1))
    by (vm_compute; reflexivity).
  assert (H2 : Live.extract_issue w1 = (inr tt, w2)) by (vm_compute; reflexivity).
  split; [exact H1|]. split; [exact H2|].
  exact (extract_issue_after_transform request w w1 w2 (inr tt) H1 H2).
Defined.

(** ** What the ticket receives from the publication (app/app_manager.py, main.py) *)

Lemma comment_then_move_outcomes (text kind name : string) (w w' : world)
    (r : exn + unit) :
  (Live.comment text kind >>
   let* _ := AppLogger.change_issue_status name (Py.str (jira_id w)) in ret tt) w = (r, w') ->
  ticket_only w w'
  /\ match r with
     | inr _ =>
         exists moved : bool,
           jira_log w' = jira_log w
                         ++ comment_sent w text kind
                            :: (if moved then [moved_to w name] else [])
     | inl e =>
         (class_in refusal_classes e /\ jira_log w' = jira_log w)
         \/ (class_in lookup_classes e
             /\ jira_log w' = jira_log w ++ [comment_sent w text kind])
     end.
Proof.
  unfold bind at 1.
  destruct (Live.comment text kind w) as [[e1|[]] w1] eqn:Ec;
    apply live_comment_outcomes in Ec as [Ht Hl].
  { intros [= <- <-]. split; [exact Ht|]. left. exact Hl. }
  unfold bind at 1.
  destruct (AppLogger.change_issue_status name (Py.str (jira_id w)) w1)
    as [[e2|moved] w2] eqn:Em;
    apply change_issue_status_outcomes in Em as [Ht2 Hl2].
  - intros [= <- <-]. split; [exact (ticket_only_trans _ _ _ Ht Ht2)|].
    right. destruct Hl2 as [Hc Hl2]. split; [exact Hc|]. rewrite Hl2, Hl. reflexivity.
  - unfold ret. intros [= <- <-]. split; [exact (ticket_only_trans _ _ _ Ht Ht2)|].
    exists moved. rewrite Hl2, Hl, <- app_assoc. reflexivity.
Qed.

Lemma report_unit_outcomes (u : publish_unit) (pr_url : value) (w w' : world)
    (r : exn + unit) :
  report_unit u pr_url w = (r, w') ->
  ticket_only w w'
  /\ match r with
     | inr _ => exists moved, jira_log w' = jira_log w ++ unit_reported w u pr_url moved
     | inl e =>
         (class_in refusal_classes e /\ jira_log w' = jira_log w)
         \/ (class_in lookup_classes e
             /\ jira_log w' = jira_log w ++ [unit_comment w u pr_url])
     end.
Proof.
  unfold report_unit, AppManager.jira_id_str.
  unfold bind at 1. unfold bind at 1. unfold get_world at 1. unfold ret at 1.
  unfold unit_reported, unit_comment, unit_transition.
  destruct (AppManager.is_True (AppManager.unit_autoapprove u));
    apply comment_then_move_outcomes.
Qed.

(** X11 (push_to_github, _create_pull_request_logic, AppLogger).  A publish
    unit whose files were committed is reported to the ticket as published
    even when the pull request is refused: the comment then gives its
    address as [None], and the transition to review (or to done, for an
    auto-approved unit) is asked for all the same, and made if the ticket
    system offers and accepts it.  The unit fails only on the ticket system:
    on the refusal of the comment, with nothing received, or on the failure
    of the look-up of the transitions, after the comment. *)
Theorem refused_pull_request_is_reported
    (u : publish_unit) (w w1 w' : world) (status : Z) (body : value)
    (rest : list http_answer) (r : exn + unit) :
  for_each (AppManager.unit_files u) (commit_unit_file u) w = (inr tt, w1) ->
  github_script w1 = Answer status body :: rest ->
  GitHub.is_error_status status = true ->
  Live.publish_unit_body u w = (r, w') ->
  ticket_only (upd_script rest w1) w'
  /\ match r with
     | inr _ => exists moved, jira_log w' = jira_log w ++ unit_reported w u VNone moved
     | inl e =>
         (class_in refusal_classes e /\ jira_log w' = jira_log w)
         \/ (class_in lookup_classes e
             /\ jira_log w' = jira_log w ++ [unit_comment w u VNone])
     end.
Proof.
  intros Hfiles Hs He. unfold Live.publish_unit_body.
  assert (Hq : jira_log w1 = jira_log w /\ jira_id w1 = jira_id w).
  { assert (Hq : keeps quiet (for_each (AppManager.unit_files u) (commit_unit_file u))).
    { apply keeps_for_each; [exact quiet_refl | exact quiet_trans |].
      intros entry. apply quiet_commit_new_file. }
    destruct (Hq _ _ _ Hfiles) as (Hl & Hi & _). split; assumption. }
  destruct Hq as [Hl Hi].
  change (for_each (AppManager.unit_files u) _)
    with (for_each (AppManager.unit_files u) (commit_unit_file u)) at 1.
  rewrite (bind_inr _ _ _ _ _ Hfiles).
  rewrite (bind_inr _ _ _ _ _ (create_pull_request_refused _ _ _ _ _ Hs He)).
  intros H. apply (report_unit_outcomes u VNone) in H as [Ht Ho].
  split; [exact Ht|].
  unfold unit_reported, unit_comment, unit_transition, comment_sent, moved_to in *.
  simpl in Ho. rewrite Hl, Hi in Ho. exact Ho.
Qed.

Lemma refused_pull_request_is_reported_witness :
  let u := PublishUnit (Some "title") None None (Some "branch") (Some [])
             (Some (VBool false)) in
  let w := upd_jira_script
             [JiraAnswer 201 None;
              JiraAnswer 200 (Some (VDict [("transitions", VList [])]))]
             (upd_issue (VStr "New GCP Folder Provisioning") (VStr "PROJ-1")
                (fresh [Answer 422 (VDict [("message", VStr "Validation Failed")])])) in
  let w' := snd (Live.publish_unit_body u w) in
  Live.publish_unit_body u w = (inr tt, w')
  /\ jira_log w'
     = [JComment "PROJ-1" "manual"
          (comment_prefix "manual" +:+ "Created a PR that needs manual approval at None")]
  /\ ticket_only (upd_script [] w) w'
  /\ exists moved, jira_log w' = jira_log w ++ unit_reported w u VNone moved.
Proof.
  intros u w w'.
  assert (H : Live.publish_unit_body u w = (inr tt, w')) by (vm_compute; reflexivity).
  split; [exact H|]. split; [vm_compute; reflexivity|].
  apply (refused_pull_request_is_reported u w w w' 422
           (VDict [("message", VStr "Validation Failed")]) [] (inr tt));
    [reflexivity | reflexivity | reflexivity | exact H].
Defined.

Lemma unit_reported_id (w1 w2 : world) (u : publish_unit) (url : value) (moved : bool) :
  jira_id w1 = jira_id w2 -> unit_reported w1 u url moved = unit_reported w2 u url moved.
Proof.
  intros H. unfold unit_reported, unit_comment, unit_transition, comment_sent, moved_to.
  rewrite H. reflexivity.
Qed.

Lemma live_publish_unit_body_inv (u : publish_unit) (w w' : world) :
  Live.publish_unit_body u w = (inr tt, w') ->
  exists url moved,
    jira_log w' = jira_log w ++ unit_reported w u url moved /\ jira_id w' = jira_id w.
Proof.
  unfold Live.publish_unit_body. intros H.
  apply bind_returns in H as ([] & w1 & Hfiles & H).
  assert (Hq : quiet w w1).
  { revert Hfiles. apply keeps_for_each; [exact quiet_refl | exact quiet_trans |].
    intros entry. apply quiet_commit_new_file. }
  destruct Hq as (Hl1 & Hi1 & _).
  apply bind_returns in H as (url & w2 & Hpr & H).
  destruct (pull_request_logic_quiet _ _ _ _ Hpr) as [Hl2 Hi2].
  apply (report_unit_outcomes u url) in H as [Ht [moved Ho]].
  exists url, moved. split.
  - rewrite Ho, Hl2, Hl1. f_equal. apply unit_reported_id. congruence.
  - rewrite (ticket_only_jira_id _ _ Ht). congruence.
Qed.

Lemma live_publish_units_inv (units : list publish_unit) (w w' : world) :
  for_each units Live.publish_unit_body w = (inr tt, w') ->
  exists reports : list (value * bool),
    length reports = length units
    /\ jira_log w'
       = jira_log w
         ++ concat (zip_with (fun u report => unit_reported w u report.1 report.2)
                      units reports)
    /\ jira_id w' = jira_id w.
Proof.
  revert w. induction units as [|u units IH]; intros w H.
  - injection H as <-. exists []. rewrite app_nil_r. repeat split.
  - cbn [for_each] in H. apply bind_returns in H as ([] & w1 & Hu & H).
    apply live_publish_unit_body_inv in Hu as (url & moved & Hl1 & Hi1).
    apply IH in H as (reports & Hlen & Hl & Hi).
    exists ((url, moved) :: reports). split; [simpl; rewrite Hlen; reflexivity|].
    split; [|congruence].
    rewrite Hl, Hl1. cbn [zip_with concat fst snd]. rewrite <- app_assoc. f_equal. f_equal.
    f_equal. apply zip_with_ext; try reflexivity.
    intros x y. apply unit_reported_id. exact Hi1.
Qed.

Lemma report_and_block_fails (e : exn) (w w' : world) (a : unit) :
  Live.report_and_block e w <> (inr a, w').
Proof.
  intros H. apply report_and_block_outcomes in H as (_ & e' & He & _). discriminate.
Qed.

Lemma publication_live_outcomes (w w' : world) (answer : string * Z) :
  publication_live w = (inr answer, w') ->
  exists payload (reports : list (value * bool)) (done : bool),
    github_payload w = Some payload
    /\ length reports = length payload
    /\ jira_log w'
       = jira_log w
         ++ concat (zip_with (fun u report => unit_reported w u report.1 report.2)
                      (List.map snd payload) reports)
         ++ (if done then [moved_to w "Set as done"] else []).
Proof.
  unfold publication_live. intros H.
  apply bind_returns in H as ([] & w1 & Hpush & H).
  apply bind_returns in H as (id & ? & Hid & H).
  unfold AppManager.jira_id_str in Hid. m_unfold_in Hid. injection Hid as <- <-.
  apply bind_returns in H as (done & w2 & Hdone & H).
  injection H as _ <-.
  apply change_issue_status_outcomes in Hdone as [_ Hdone].
  revert Hpush. unfold Live.push_to_github, try_except.
  match goal with
  | |- context [match ?b w with _ => _ end] =>
      destruct (b w) as [[e|[]] w3] eqn:Eb
  end.
  { destruct (isinstance Exception e); [|discriminate].
    destruct (isinstance GcpProvisioningError e).
    - intros H. exfalso. exact (report_and_block_fails _ _ _ _ H).
    - intros H. apply bind_returns in H as (? & ? & _ & H).
      apply bind_returns in H as (? & ? & _ & H). discriminate. }
  intros [= <-].
  apply bind_returns in Eb as (w0 & ? & Hg & Eb). injection Hg as <- <-.
  destruct (negb (github_manager w)); [discriminate|].
  destruct (provisioner w); [|discriminate].
  destruct (github_payload w) as [payload|]; [|discriminate].
  apply live_publish_units_inv in Eb as (reports & Hlen & Hl & Hi).
  exists payload, reports, done. split; [reflexivity|].
  split; [rewrite Hlen; apply length_map|].
  rewrite Hdone, Hl. unfold moved_to. rewrite Hi, <- app_assoc. reflexivity.
Qed.

(** X25 (push_to_github, handle_jira_webhook, AppLogger).  A publication
    that succeeds has sent to the ticket one comment for every unit of the
    payload, in payload order, each followed by the transition of the unit
    when the ticket system offered and accepted it: a request with several
    environments receives as many reports.  The entry point then asks for
    the transition to done, whatever the units were moved to, and succeeds
    whether that transition is made or not. *)
Theorem publication_reports_each_unit (w w' : world) (answer : string * Z) :
  publication_live w = (inr answer, w') ->
  exists payload (reports : list (value * bool)) (done : bool),
    github_payload w = Some payload
    /\ length reports = length payload
    /\ jira_log w'
       = jira_log w
         ++ concat (zip_with (fun u report => unit_reported w u report.1 report.2)
                      (List.map snd payload) reports)
         ++ (if done then [moved_to w "Set as done"] else []).
Proof. exact (publication_live_outcomes w w' answer). Qed.

Lemma publication_reports_each_unit_witness :
  let u := PublishUnit (Some "title") None None (Some "branch") (Some [])
             (Some (VBool false)) in
  let offered := JiraAnswer 200
                   (Some (VDict [("transitions",
                                  VList [VDict [("id", VStr "31");
                                                ("name", VStr "Set as to be reviewed")]])])) in
  let w := upd_jira_script
             [JiraAnswer 201 None; offered; JiraAnswer 204 None;
              JiraAnswer 201 None; offered; JiraAnswer 204 None;
              offered]
             (upd_issue (VStr "New GCP Project Provisioning") (VStr "PROJ-1")
                (upd_payload (Some [("dw-dev-a", u); ("dw-prod-a", u)])
                   (upd_provisioner ProjectProvisioner [] (Some [])
                      (upd_github_manager
                         (fresh (pull_request_answers false
                                 ++ pull_request_answers false)))))) in
  let w' := snd (publication_live w) in
  publication_live w = (inr ("Webhook processed successfully", 200), w')
  /\ jira_log w'
     = [ JComment "PROJ-1" "manual"
           (comment_prefix "manual" +:+ "Created a PR that needs manual approval at "
            +:+ "https://github.com/owner/repo/pull/1");
         JTransition "PROJ-1" "Set as to be reviewed";
         JComment "PROJ-1" "manual"
           (comment_prefix "manual" +:+ "Created a PR that needs manual approval at "
            +:+ "https://github.com/owner/repo/pull/1");
         JTransition "PROJ-1" "Set as to be reviewed" ]
  /\ exists payload (reports : list (value * bool)) (done : bool),
       github_payload w = Some payload
       /\ length reports = length payload
       /\ jira_log w'
          = jira_log w
            ++ concat (zip_with (fun u report => unit_reported w u report.1 report.2)
                         (List.map snd payload) reports)
            ++ (if done then [moved_to w "Set as done"] else []).
Proof.
  intros u offered w w'.
  assert (H : publication_live w = (inr ("Webhook processed successfully", 200), w'))
    by (vm_compute; reflexivity).
  split; [exact H|]. split; [vm_compute; reflexivity|].
  exact (publication_reports_each_unit w w' _ H).
Defined.

(** ** What the pipeline raises, facing the answers of the ticket system *)

Lemma raises_live_add_comment (id text kind : string) :
  raises_in (class_in refusal_classes) (AppLogger.add_comment_to_jira_issue id text kind).
Proof. intros w e w' H. apply add_comment_outcomes in H as [_ [Hc _]]. exact Hc. Qed.

Lemma raises_live_change_issue_status (name id : string) :
  raises_in (class_in lookup_classes) (AppLogger.change_issue_status name id).
Proof. intros w e w' H. apply change_issue_status_outcomes in H as [_ [Hc _]]. exact Hc. Qed.

Lemma raises_live_comment (text kind : string) :
  raises_in (class_in refusal_classes) (Live.comment text kind).
Proof. intros w e w' H. apply live_comment_outcomes in H as [_ [Hc _]]. exact Hc. Qed.

Lemma raises_live_block : raises_in (class_in lookup_classes) Live.block.
Proof. intros w e w' H. apply live_block_outcomes in H as [_ [Hc _]]. exact Hc. Qed.

Lemma raises_live_comment_error (text : string) :
  raises_in (class_in refusal_classes) (Live.comment_error text).
Proof.
  unfold Live.comment_error. apply raises_bind.
  - unfold PayloadParser.issue_key. raises_more.
  - intros id. apply raises_live_add_comment.
Qed.

Ltac raises_live :=
  repeat first
    [ raises_step
    | match goal with
      | |- raises_in _ (config_item _) => raises_prim raises_config_item
      | |- raises_in _ (lift_opt _ _) => apply raises_lift_opt; class_tac
      | |- raises_in _ (Live.comment _ _) => raises_prim raises_live_comment
      | |- raises_in _ Live.block => raises_prim raises_live_block
      | |- raises_in _ (Live.comment_error _) => raises_prim raises_live_comment_error
      | |- raises_in _ (AppLogger.change_issue_status _ _) =>
          raises_prim raises_live_change_issue_status
      | |- raises_in _ AppManager.jira_id_str => unfold AppManager.jira_id_str
      end ].

Lemma raises_live_process_field (entry : string * field_config) :
  raises_in (class_in [KeyError; TypeError; Exception; OverflowError;
                       RequestException; UnboundLocalError])
    (Live.process_field entry).
Proof.
  unfold Live.process_field.
  apply raises_bind; [raises_prim raises_extract_field_value|]. intros field_value.
  repeat match goal with
         | |- raises_in _ (if String.eqb ?a ?b then _ else _) => destruct (String.eqb a b)
         end.
  - unfold PayloadParser._process_dropdown. raises_tac.
  - unfold PayloadParser._process_people. raises_tac.
  - unfold PayloadParser._process_reporter. raises_tac.
  - unfold PayloadParser._process_dropdown_nested. raises_tac.
  - unfold PayloadParser._process_checklist.
    destruct field_value; try apply raises_ret.
    apply raises_bind; [raises_prim raises_checklist_values | intros ?; raises_tac].
  - unfold Live._process_textfield, PayloadParser.re_match_value.
    destruct field_value; try apply raises_ret;
      destruct (validation (snd entry)); raises_live.
  - unfold Live._process_numericfield, Live.store_float.
    assert (Hstore : forall v,
      raises_in (class_in [KeyError; TypeError; Exception; OverflowError;
                           RequestException; UnboundLocalError])
        (try_except
           (let* f := lift (py_float v) in
            set_config (output_name (snd entry)) (VFloat f))
           (isinstance ValueError)
           (fun _ => Live.comment_error
              ("Invalid numeric value '" +:+ Py.str v +:+ "' for '"
               +:+ output_name (snd entry) +:+ "'")))).
    { intros v.
      apply (raises_try_some _ (class_in [ValueError; TypeError; OverflowError])).
      - raises_tac.
      - by_class.
      - intros e _ _. raises_live. }
    destruct field_value; try apply raises_ret;
      destruct (validation (snd entry)); try apply Hstore;
      match goal with |- raises_in _ (if ?b then _ else _) => destruct b end;
      first [apply Hstore | raises_live].
  - apply raises_ret.
Qed.

Lemma raises_live_missing_mandatory_fields (ticket_fields : list (string * field_config)) :
  raises_in (class_in refusal_classes) (Live.missing_mandatory_fields ticket_fields).
Proof.
  induction ticket_fields as [|[key config] rest IH]; cbn [Live.missing_mandatory_fields].
  - apply raises_ret.
  - apply raises_bind; [apply raises_get_world|]. intros w.
    destruct (_ && _); [|exact IH].
    apply raises_bind; [apply raises_live_comment_error|]. intros _.
    apply raises_bind; [exact IH|]. intros others. apply raises_ret.
Qed.

Lemma raises_live_check_mandatory_fields (ticket_fields : list (string * field_config)) :
  raises_in (class_in [ValueError; RequestException; UnboundLocalError])
    (Live._check_mandatory_fields ticket_fields).
Proof.
  unfold Live._check_mandatory_fields.
  apply raises_bind; [raises_prim raises_live_missing_mandatory_fields|].
  intros missing. destruct missing; raises_tac.
Qed.

Lemma raises_live_parse_fields (ticket_fields : list (string * field_config)) :
  raises_in (class_in [ValueError]) (Live.parse_fields ticket_fields).
Proof.
  unfold Live.parse_fields.
  apply (raises_try (class_in [ValueError])).
  - apply (raises_weaken
             (class_in [KeyError; TypeError; Exception; OverflowError; ValueError;
                        RequestException; UnboundLocalError])).
    + intros e. apply class_in_ordinary. reflexivity.
    + apply raises_bind.
      * apply raises_for_each. intros entry. raises_prim raises_live_process_field.
      * intros _. raises_prim raises_live_check_mandatory_fields.
  - intros e. destruct (isinstance ValueError e) eqn:Ev.
    + apply raises_raise. unfold class_in. rewrite (isinstance_ValueError e Ev). simpl. tauto.
    + destruct (isinstance KeyError e); raises_tac.
Qed.

Lemma raises_live_parse_jira_request :
  raises_in (class_in [InvalidJiraConfigurationParser; ValueError])
    Live.parse_jira_request.
Proof.
  unfold Live.parse_jira_request,
    AppManager._extract_config_field_values_for_issue_request.
  apply raises_bind; [raises_more|]. intros ticket_fields.
  raises_prim raises_live_parse_fields.
Qed.

Lemma raises_live_extract_issue :
  raises_in (class_in [MissingRequiredDataError; TypeError; KeyError;
                       RequestException; UnboundLocalError])
    Live.extract_issue.
Proof.
  unfold Live.extract_issue, AppManager._extract_issue_type_name,
    AppManager._extract_jira_id.
  raises_live.
Qed.

Lemma raises_live_report_and_block (e : exn) :
  raises_in (fun e' => e' = e \/ class_in client_classes e') (Live.report_and_block e).
Proof.
  intros w e' w' H. apply report_and_block_outcomes in H as (_ & e1 & [= <-] & Ho).
  destruct Ho as [[-> _] | [[Hc _] | [Hc _]]]; [left; reflexivity | right | right];
    revert Hc; apply classes_within_spec; reflexivity.
Qed.

Lemma raises_live_reported (cs : list exn_class) (e : exn) :
  class_in cs e ->
  raises_in (class_in (reported_classes cs)) (Live.report_and_block e).
Proof.
  intros He. eapply raises_weaken; [|apply raises_live_report_and_block].
  unfold class_in, reported_classes. intros e' [-> | Hc]; apply in_or_app; tauto.
Qed.

Lemma raises_live_validate_jira_request :
  raises_in (class_in (reported_classes [GcpProvisioningError; AttributeError]))
    Live.validate_jira_request.
Proof.
  unfold Live.validate_jira_request.
  apply (raises_try_some _
           (class_in [GcpProvisioningError; AttributeError;
                      RequestException; UnboundLocalError])).
  - apply raises_bind; [apply raises_get_world|]. intros w.
    destruct (provisioner w) as [[|]|]; [| |raises_more].
    + apply raises_bind; [raises_prim raises_project_validate_jira_request|]. intros _.
      apply raises_bind; [raises_prim raises_project_comment_message|]. intros m.
      raises_live.
    + apply raises_bind; [raises_prim raises_folder_validate_jira_request|]. intros _.
      unfold GcpFolderProvisioner._get_request_comment_message. raises_live.
  - intros e He _. revert He. apply classes_within_spec. reflexivity.
  - intros e He Hh. apply raises_live_reported.
    revert e He Hh. by_class.
Qed.

Lemma raises_live_initialize_github_manager (cfg : settings) :
  raises_in (class_in [MissingRequiredDataError; GitHubOperationError; KeyError;
                       TypeError; RequestException; UnboundLocalError])
    (Live.initialize_github_manager cfg).
Proof.
  unfold Live.initialize_github_manager, AppManager._get_github_credentials,
    AppManager.credential, AppManager.configs_get.
  apply raises_bind; [apply raises_get_world|]. intros w.
  destruct (negb _); [raises_more|].
  apply raises_bind; [|intros [[t o] n]; raises_live].
  apply raises_bind; [apply raises_get_world|]. intros w0.
  apply raises_bind; [destruct (if DEBUG cfg then _ else _); raises_more|].
  intros [[|c cs]|]; raises_more.
Qed.

Lemma raises_live_built_terraform_yaml (cfg : settings) (dump : value -> string) :
  raises_in (class_in (reported_classes [GcpProvisioningError; KeyError; TypeError]))
    (Live.built_terraform_yaml cfg dump).
Proof.
  unfold Live.built_terraform_yaml.
  apply (raises_try_some _ (class_in [GcpProvisioningError; KeyError; TypeError])).
  - apply raises_bind; [apply raises_get_world|]. intros w.
    destruct (provisioner w) as [[|]|]; [| |raises_more].
    + raises_prim raises_project_built_terraform_yamls.
    + apply raises_folder_built_terraform_yamls.
  - intros e He _. revert He. apply classes_within_spec. reflexivity.
  - intros e He _. apply raises_live_reported. exact He.
Qed.

Lemma raises_ordinary {A} (cs : list exn_class) (m : M A) :
  classes_within cs
    [Exception; ValueError; KeyError; TypeError; AttributeError; NameError;
     OverflowError; UnboundLocalError; FileExistsError; RequestException;
     JiraWebhookError;
     InvalidJiraConfigurationParser; InvalidMethodError; InvalidPayloadError;
     MissingRequiredDataError; ExternalServiceError; GcpProvisioningError;
     PermissionDeniedError; GitHubOperationError] = true ->
  raises_in (class_in cs) m -> raises_in head_or_ordinary m.
Proof.
  intros Hcs. apply raises_weaken. intros e He. right.
  exact (class_in_ordinary cs e Hcs He).
Qed.

Lemma raises_live_publish_unit_body (u : publish_unit) :
  raises_in head_or_ordinary (Live.publish_unit_body u).
Proof.
  unfold Live.publish_unit_body.
  apply raises_bind.
  { apply raises_for_each. intros entry.
    eapply raises_weaken; [|apply raises_commit_new_file].
    intros e [-> | He]; [left; reflexivity | right].
    revert He. apply class_in_ordinary. reflexivity. }
  intros _. apply raises_bind; [apply raises_create_pull_request_logic|]. intros pr_url.
  apply (raises_ordinary client_classes); [reflexivity|].
  unfold client_classes. raises_live.
Qed.

Lemma raises_live_push_to_github : raises_in head_or_ordinary Live.push_to_github.
Proof.
  unfold Live.push_to_github.
  apply (raises_try_some _ head_or_ordinary).
  - apply raises_bind; [apply raises_get_world|]. intros w.
    destruct (negb _); [apply raises_raise; right; reflexivity|].
    destruct (provisioner w), (github_payload w);
      try (apply raises_raise; right; reflexivity).
    apply raises_for_each. intros u. apply raises_live_publish_unit_body.
  - intros e He _. exact He.
  - intros e He Hh.
    assert (Ho : ordinary e) by exact Hh.
    assert (Hsame : raises_in (fun e' => e' = e \/ class_in client_classes e')
                      (Live.comment
                         ("An unexpected error occurred during GitHub push: " +:+ e_msg e)
                         "error" >> Live.block >> @raise unit e)).
    { apply raises_bind.
      { eapply raises_weaken; [|apply raises_live_comment].
        intros e' Hc. right. revert Hc. apply classes_within_spec. reflexivity. }
      intros _. apply raises_bind.
      { eapply raises_weaken; [|apply raises_live_block].
        intros e' Hc. right. revert Hc. apply classes_within_spec. reflexivity. }
      intros _. apply raises_raise. left. reflexivity. }
    assert (Hw : forall e', e' = e \/ class_in client_classes e' -> head_or_ordinary e').
    { intros e' [-> | Hc]; right; [exact Ho|].
      revert Hc. apply class_in_ordinary. reflexivity. }
    destruct (isinstance GcpProvisioningError e).
    + eapply raises_weaken; [exact Hw | apply raises_live_report_and_block].
    + eapply raises_weaken; [exact Hw | exact Hsame].
Qed.

Lemma raises_live_pipeline (cfg : settings) (dump : value -> string)
    (request : http_request) :
  raises_in head_or_ordinary
    (AppManager.check_if_post_request request >>
     AppManager.transform_into_json request >>
     Live.extract_issue >>
     Live.parse_jira_request >>
     AppManager.select_provisioner cfg >>
     Live.validate_jira_request >>
     Live.initialize_github_manager cfg >>
     Live.built_terraform_yaml cfg dump >>
     Live.push_to_github >>
     let* id := AppManager.jira_id_str in
     let* _ := AppLogger.change_issue_status "Set as done" id in
     ret ("Webhook processed successfully", 200)).
Proof.
  apply raises_bind.
  { unfold AppManager.check_if_post_request.
    destruct (negb _); [apply raises_raise; right; reflexivity | apply raises_ret]. }
  intros _.
  apply raises_bind; [eapply raises_ordinary; [|apply raises_transform_into_json]; reflexivity|].
  intros _.
  apply raises_bind; [eapply raises_ordinary; [|apply raises_live_extract_issue]; reflexivity|].
  intros _.
  apply raises_bind;
    [eapply raises_ordinary; [|apply raises_live_parse_jira_request]; reflexivity|].
  intros _.
  apply raises_bind; [eapply raises_ordinary; [|apply raises_select_provisioner]; reflexivity|].
  intros _.
  apply raises_bind;
    [eapply raises_ordinary; [|apply raises_live_validate_jira_request]; reflexivity|].
  intros _.
  apply raises_bind;
    [eapply raises_ordinary; [|apply raises_live_initialize_github_manager]; reflexivity|].
  intros _.
  apply raises_bind;
    [eapply raises_ordinary; [|apply raises_live_built_terraform_yaml]; reflexivity|].
  intros _.
  apply raises_bind; [apply raises_live_push_to_github|].
  intros _. apply (raises_ordinary lookup_classes); [reflexivity|].
  unfold lookup_classes. raises_live.
Qed.

Lemma raises_live_comment_block {A} (text : string) (a : A) :
  raises_in (class_in client_classes)
    (Live.comment text "error" >> Live.block >> ret a).
Proof. unfold client_classes. raises_live. Qed.

(** X17 (handle_jira_webhook, AppLogger).  What leaves the entry point as
    an exception is the [NameError] of its own clauses for invalid payloads
    and missing data, the [BaseException] of a failed look-up of the branch
    head, which no clause handles, or an exception of the ticket client in
    the clauses that report to the ticket (a refused comment, a failed
    look-up of the transitions).  Everything else that the pipeline raises,
    the exceptions of the ticket client included, is answered with a
    status. *)
Theorem handle_jira_webhook_raises
    (cfg : settings) (dump : value -> string) (request : http_request)
    (w w' : world) (e : exn) :
  Live.handle_jira_webhook cfg dump request w = (inl e, w') ->
  e = undefined_webhook_data \/ e = head_lookup_failure \/ class_in client_classes e.
Proof.
  unfold Live.handle_jira_webhook, try_except.
  match goal with
  | |- context [match ?b w with _ => _ end] =>
      destruct (b w) as [[e0|answer] w1] eqn:Eb; [|discriminate]
  end.
  destruct (raises_live_pipeline _ _ _ _ _ _ Eb) as [-> | Ho].
  { change (isinstance Exception head_lookup_failure) with false.
    intros [= <- _]. right. left. reflexivity. }
  unfold ordinary in Ho. rewrite Ho.
  repeat match goal with
         | |- context [if isinstance ?c e0 then _ else _] =>
             destruct (isinstance c e0)
         end;
    try discriminate;
    try (intros [= <- _]; left; reflexivity);
    intros H; right; right; exact (raises_live_comment_block _ _ _ _ _ H).
Qed.

Lemma handle_jira_webhook_raises_witness :
  let request := webhook "New GCP Folder Provisioning" [] in
  let w := upd_jira_script [JiraAnswer 503 None; JiraAnswer 503 None] (fresh []) in
  let e := AppLogger.http_error 503 in
  let w' := snd (Live.handle_jira_webhook sample_settings (fun _ => "") request w) in
  Live.handle_jira_webhook sample_settings (fun _ => "") request w = (inl e, w')
  /\ jira_log w' = []
  /\ (e = undefined_webhook_data \/ e = head_lookup_failure \/ class_in client_classes e).
Proof.
  intros request w e w'.
  assert (H : Live.handle_jira_webhook sample_settings (fun _ => "") request w
              = (inl e, w')) by (vm_compute; reflexivity).
  split; [exact H|]. split; [vm_compute; reflexivity|].
  exact (handle_jira_webhook_raises sample_settings (fun _ => "") request w w' e H).
Defined.

(** ** The auto-approval of the units of a request (app/provisioners/hierarchy/projects.py) *)

Lemma eq_str_spec (v : value) (s : string) : Py.eq_str v s = true <-> v = VStr s.
Proof.
  unfold Py.eq_str. destruct v; try (split; [discriminate | intros H; discriminate H]).
  rewrite String.eqb_eq. split; [intros ->; reflexivity | intros [= ->]; reflexivity].
Qed.

(** The flag of a unit that [_built_terraform_yamls] has built *)
Lemma unit_built_flag (data : gmap string value) (l : limit) (branch name : string)
    (u : publish_unit) :
  unit_built data l branch name u ->
  exists approve : bool,
    pu_autoapprove u = Some (VBool approve)
    /\ (approve = true
        <-> pu_env u = Some (Some "dev")
            /\ data !! "DATASECURITY" = Some (VStr "l0")
            /\ exists budget, data !! "BUDGET_DEV" = Some budget /\ strictly_below budget l).
Proof.
  intros ((_ & Henv & _) & approve & doc & Happrove & Hauto & Hdoc).
  exists approve. split; [exact Happrove|]. rewrite Henv. split.
  - intros ->. apply autoapprove_of_true in Hauto as (He & ds & Hds & Hl0 & Hb & Hlim).
    split; [rewrite He; reflexivity|].
    apply eq_str_spec in Hl0. subst ds. split; [exact Hds|].
    revert Hdoc. rewrite He.
    unfold GcpProjectProvisioner.build_budget_terraform_yaml,
      GcpProjectProvisioner.env_upper, GcpProjectProvisioner.data_item.
    change ("BUDGET_" +:+ PyStr.upper "dev") with "BUDGET_DEV".
    destruct (data !! "BUDGET_DEV") as [budget|] eqn:Ebud; [|discriminate].
    intros _.
    assert (Hz : GcpProjectProvisioner.budget_dev_or_zero data = budget).
    { unfold GcpProjectProvisioner.budget_dev_or_zero. rewrite Ebud. reflexivity. }
    rewrite Hz in Hlim. apply below_limit_spec in Hlim.
    exists budget. split; [reflexivity | exact Hlim].
  - intros (He & Hds & budget & Hbud & Hlim).
    injection He as He.
    assert (Htrue : GcpProjectProvisioner.autoapprove_of l data
                      (HierarchyrProvisioner.extract_dw_environment name) = inr true).
    { apply autoapprove_of_true. split; [exact He|].
      assert (Hz : GcpProjectProvisioner.budget_dev_or_zero data = budget).
      { unfold GcpProjectProvisioner.budget_dev_or_zero. rewrite Hbud. reflexivity. }
      exists (VStr "l0"). rewrite Hz. split; [exact Hds|]. split; [reflexivity|]. split.
      - intros ->. destruct l; exact Hlim.
      - apply below_limit_spec, Hlim. }
    congruence.
Qed.

(** C1: the auto-approval of the units of a project request.  When the
    synthesis of a project request succeeds, the payload holds exactly one
    unit for every validated project name, and the flag of a unit is [True]
    if and only if its environment tag is ["dev"], the data security level
    is ["l0"], and the dev budget is set in the configuration map and
    strictly below the configured limit; in every other case it is
    [False]. *)
Theorem C1_auto_approval
    (cfg : settings) (dump : value -> string) (w w' : world) :
  provisioner w = Some ProjectProvisioner ->
  github_payload w = Some [] ->
  Live.built_terraform_yaml cfg dump w = (inr tt, w') ->
  exists payload,
    github_payload w' = Some payload
    /\ (forall name,
          In name (dw_env_project_name_list w) <-> is_Some (Py.assoc name payload))
    /\ forall name u,
         Py.assoc name payload = Some u ->
         exists approve : bool,
           pu_autoapprove u = Some (VBool approve)
           /\ (approve = true
               <-> pu_env u = Some (Some "dev")
                   /\ config_data w !! "DATASECURITY" = Some (VStr "l0")
                   /\ exists budget,
                        config_data w !! "BUDGET_DEV" = Some budget
                        /\ strictly_below budget (BUDGET_LIMIT cfg)).
Proof.
  intros Hk Hp. unfold Live.built_terraform_yaml, try_except.
  unfold bind at 1. unfold get_world at 1. rewrite Hk.
  destruct (GcpProjectProvisioner._built_terraform_yamls dump (BUDGET_LIMIT cfg) w)
    as [[e|[]] w1] eqn:Eb.
  { destruct (isinstance GcpProvisioningError e); [|discriminate].
    intros H. exfalso. exact (report_and_block_fails _ _ _ _ H). }
  intros [= <-].
  revert Eb. unfold GcpProjectProvisioner._built_terraform_yamls, try_except.
  match goal with
  | |- context [match ?b w with _ => _ end] =>
      destruct (b w) as [[e|[]] w2] eqn:Eb
  end.
  { destruct (isinstance Exception e); discriminate. }
  intros [= <-].
  apply bind_returns in Eb as (issue_key & ? & Hi & Eb).
  apply config_item_inv in Hi as [-> Hi].
  apply bind_returns in Eb as (data_security & ? & Hd & Eb).
  apply config_item_inv in Hd as [-> Hd].
  apply bind_returns in Eb as (tag & ? & Ht & Eb).
  apply lift_returns in Ht as [_ ->].
  apply bind_returns in Eb as (w0 & ? & Hg & Eb). injection Hg as <- <-.
  apply (build_units_inv _ _ _ _ _ []) in Eb as (p & -> & Hin & Hout); [|exact Hp].
  exists p. split; [reflexivity|]. split.
  - intros name. split.
    + intros Hname. destruct (Hin name Hname) as (u & Hu & _). exists u. exact Hu.
    + intros [u Hu]. destruct (in_dec string_dec name (dw_env_project_name_list w))
        as [Hname | Hname]; [exact Hname|].
      rewrite (Hout name Hname) in Hu. discriminate Hu.
  - intros name u Hu.
    destruct (in_dec string_dec name (dw_env_project_name_list w)) as [Hname | Hname].
    + destruct (Hin name Hname) as (u' & Hu' & Hbuilt).
      assert (u' = u) by congruence. subst u'.
      exact (unit_built_flag _ _ _ _ _ Hbuilt).
    + rewrite (Hout name Hname) in Hu. discriminate Hu.
Qed.

Lemma C1_witness :
  let request := project_request "l0" "myapp" ["dev"; "prod"] (Some "100.0") (Some "20.5") in
  let w := snd (AppManager.validate_jira_request (parsed sample_settings request)) in
  let w' := snd (Live.built_terraform_yaml sample_settings (fun _ => "a: 1") w) in
  BUDGET_LIMIT sample_settings = LimitInt 150
  /\ config_data w !! "BUDGET_DEV" = Some (VFloat (Fin 1 2))
  /\ Live.built_terraform_yaml sample_settings (fun _ => "a: 1") w = (inr tt, w')
  /\ exists payload dev prod,
       github_payload w' = Some payload
       /\ Py.assoc "dw-dev-myapp" payload = Some dev
       /\ pu_autoapprove dev = Some (VBool true)
       /\ Py.assoc "dw-prod-myapp" payload = Some prod
       /\ pu_autoapprove prod = Some (VBool false).
Proof.
  intros request w w'.
  assert (Hk : provisioner w = Some ProjectProvisioner) by (vm_compute; reflexivity).
  assert (Hp : github_payload w = Some []) by (vm_compute; reflexivity).
  assert (Hrun : Live.built_terraform_yaml sample_settings (fun _ => "a: 1") w = (inr tt, w'))
    by (vm_compute; reflexivity).
  split; [reflexivity|]. split; [vm_compute; reflexivity|]. split; [exact Hrun|].
  destruct (C1_auto_approval sample_settings (fun _ => "a: 1") w w' Hk Hp Hrun)
    as (payload & Hpayload & Hnames & Hflags).
  destruct (proj1 (Hnames "dw-dev-myapp")) as [dev Hdev]; [vm_compute; tauto|].
  destruct (proj1 (Hnames "dw-prod-myapp")) as [prod Hprod]; [vm_compute; tauto|].
  exists payload, dev, prod. split; [exact Hpayload|]. split; [exact Hdev|].
  destruct (Hflags _ _ Hdev) as (a1 & Ha1 & Hiff1).
  destruct (Hflags _ _ Hprod) as (a2 & Ha2 & Hiff2).
  assert (Henv1 : pu_env dev = Some (Some "dev")).
  { assert (Hp' : github_payload w' = Some payload) by exact Hpayload.
    vm_compute in Hp'. injection Hp' as <-. vm_compute in Hdev. injection Hdev as <-.
    reflexivity. }
  assert (Henv2 : pu_env prod = Some (Some "prod")).
  { assert (Hp' : github_payload w' = Some payload) by exact Hpayload.
    vm_compute in Hp'. injection Hp' as <-. vm_compute in Hprod. injection Hprod as <-.
    reflexivity. }
  split.
  - rewrite Ha1. f_equal. f_equal. apply Hiff1. split; [exact Henv1|].
    split; [vm_compute; reflexivity|].
    exists (VFloat (Fin 1 2)). split; [vm_compute; reflexivity|].
    eexists _, _. split; [vm_compute; reflexivity | vm_compute; reflexivity].
  - split; [exact Hprod|]. rewrite Ha2. destruct a2; [|reflexivity].
    destruct (proj1 Hiff2 eq_refl) as [Henv _]. rewrite Henv2 in Henv. discriminate Henv.
Defined.
